(* ===== verification/_CoqProject ===== *)
-Q . S2P
Prelude.v
GoStrings.v
Utf8.v
Types.v
World.v
Flags.v
Config.v
Probe.v
Dispatcher.v
Completeness.v
Runner.v
Report.v
Checkpoint.v
Supervisor.v
Loop.v
Schedule.v
Monitor.v
Main.v
History.v
Merge.v
Blind.v
Race.v
Crash.v
System.v
