(* ===== verification/Prelude.v ===== *)
(** * FireY: a verified model of the Firebase authorization tester

    FireY (src/main.go) probes a Firestore REST endpoint over a set of
    paths and HTTP methods, classifies each answer, and can repeat the
    batch every 30 minutes for 24 hours from a detached worker process
    that checkpoints its progress in [.firey_status.json].

    ** Files and what they model

    - [Prelude] (this file): the notation scope [firey_scope], the
      tactics and the hint databases [firey] and [firey_rw], 64-bit
      integer arithmetic ([wrap64], [sat64]), facts on strings and the
      list lemmas the components share (sums and concatenations over a
      list updated at one index).
    - [GoStrings]: the functions of the Go library the source calls on
      strings: [Split] on a one-byte separator, [TrimSpace] on UTF-8
      white space, [ToUpper] (exact on ASCII), [HasPrefix], [Repeat],
      and the decimal verb [Itoa] with its inverse [Atoi]; [after],
      [after_last] and [before], with which a reader cuts a text.
    - [Utf8]: [utf8.ValidString], as the automaton of the tables of
      package unicode/utf8 ([decode]).
    - [Types]: the data model of main.go: [Config], [TestResult],
      [StatusInfo], the timing constants [checkInterval] and
      [runDuration], the status file name, the colour escape codes.
      A Go [int] and a [time.Duration] are [Z]; where the width matters
      the wrap-around is written with [wrap64].  A [time.Time] is a
      number of nanoseconds in [Z].  A Go [string] is a Rocq [string]
      (a sequence of bytes).
    - [World]: what the process acts on: the clock, the files, the
      environment variables, the arguments, the console and the
      processes started, with the library calls of the source as
      operations ([now], [sleep], [append_file], [write_file],
      [remove_file], [read_file], [getenv], [start_process], [print],
      [exit]).  A Go function with effects is a [Proc]: a function from
      a [World] to a result [Ok], [Exit code] or [Crash]; [x <- c ;; k]
      sequences two of them.  The class [Runtime] holds what is taken
      as given of the Go runtime and library: the latency of each
      reading of the clock ([lat]), the renderings of a time, the JSON
      encoding of a time and of a string, the outcome of [cmd.Start],
      [strconv.ParseInt] and the [%q] verb.  Every definition that
      depends on one of them takes an instance, and every theorem
      holds for all instances.  The world also keeps the trace of the
      effects of the process ([Event]: files appended, written and
      removed, sleeps, processes started, batches run), a history the
      program cannot read, in which the order of the operations is
      stated.
    - [Flags]: [parseFlags]: the ten flags with their defaults and
      targets, the usage text, and the parsing of [os.Args] by package
      flag ([parse]: values after [=] or in the next argument, boolean
      flags, the terminator [--], [-h], the errors and their exit
      codes).
    - [Config]: [getPaths] and [getMethods].
    - [Probe]: the probe executor: [buildURL], [getStatusColor] and
      [testEndpoint].  The network is an oracle: one probe receives a
      [ProbeEnv] (the clock reading and an [HttpOutcome]: request
      construction error, transport error, response with a readable or
      unreadable body, or a panic).  [testEndpoint] follows the source
      statement by statement, including the deferred recover handler
      and the fact that the function's result is unnamed.
    - [Dispatcher]: the bounded dispatcher [runTests]: the main loop
      that spawns one goroutine per (path, method), the buffered channel
      used as a counting semaphore, the mutex around the append to the
      shared result slice, the wait group.  A goroutine is a program
      counter [GState]; one step of one goroutine or of the main thread
      is a function [dstep]; an execution is a sequence of labels.
      The append to the slice is two steps, a read and a write, so
      that it is the mutex that keeps every result.
      [exec] runs the system under an arbitrary scheduling oracle and
      [runTests] reads the outcome off the final state.
    - [Completeness]: schedules of the dispatcher, built and run:
      [serial] (every goroutine started, then one after the other in a
      given order) and [fill] (every goroutine started, then the first
      [k] through the gate); [scheduler] turns a sequence of labels
      into the scheduling oracle [exec] follows.
    - [Runner]: the interface between the dispatcher and its callers:
      the class [BatchRunner] states what [main] and
      [runKeepAnEyeMode] rely on of a batch; [scheduled_runner] is the
      dispatcher as an instance, for any family of scheduling and
      network oracles, one pair per batch of the process.
    - [Report]: [truncate], [saveResults] and [displayResults].
    - [Checkpoint]: the checkpoint store: [saveStatus] and the layout
      of the record it writes ([status_json]).
    - [Supervisor]: the daemon supervisor: [isParentProcess] and
      [spawnBackgroundProcess].
    - [Loop]: the schedule loop for any total duration, interval and
      loop body, twice: [spec_loop] is the algorithm of the
      specification (section 4.6) in unbounded arithmetic; [loop] is
      the [for] loop of src/main.go with its two constants as
      parameters and the arithmetic of Go ([time.Since] saturates, the
      [int64] sum and counter wrap).
    - [Schedule]: the [for] loop of [runKeepAnEyeMode] ([schedule])
      and its body ([iteration_body]).
    - [Monitor]: the worker, [runKeepAnEyeMode]: [init_status], the
      loop, [finish].
    - [Main]: [main]: [parseFlags], then [main_body] on the
      configuration.
    - [History]: [replay], the effect of the events of a trace on the
      files, and the rules ([recorded_bind], ...) that carry a
      relation between the worlds before and after a step through the
      constructs of [Proc].
    - [Merge]: the interleavings of two sequences, as a relation
      ([merge_of]) and under a schedule ([weave]).
    - [Blind]: the computations that do not look at the files
      ([alike], [blind]), with one rule per construct of [Proc].
    - [Race]: the parent and the worker as two processes on one file
      system.  [spawnBackgroundProcess] writes the checkpoint after
      [cmd.Start] has returned, while the child runs
      [runKeepAnEyeMode]; a run of the two is a merge of the events of
      each, replayed on the files.
    - [Crash]: for every checkpoint written in a trace, the batches
      run and the texts appended to the output file before it
      ([marks]).
    - [System]: a monitoring run from the command line: the run of
      [main] by the parent and the run of [main] by the child, which
      starts in [child_world] with what [cmd.Start] gave it and the
      files of the parent.

    ** What the theorems show

    - GoStrings: joining the pieces of [Split] gives the string back,
      no piece contains the separator, [Atoi (Itoa z) = z], a numeral
      contains no space, [ToUpper] is idempotent; what [TrimSpace]
      returns is a piece of its argument with no white space at either
      end, so [TrimSpace] is idempotent, and trimming an upper-cased
      string leaves it upper-cased.
    - Utf8: a well-formed byte sequence can be cut before a byte
      exactly when the byte is not a continuation byte; three dots
      after a sequence leave it as well formed as it was; ASCII text
      is well formed.
    - Flags: parsing the arguments that spell a configuration out
      gives the configuration back; without arguments the defaults;
      [-h] exits with code 0 and an error with code 2, after the usage
      text, without touching a file.
    - Config: the paths are the single path and then the trimmed lines
      of the file that are neither empty nor comments; an unreadable
      file ends the process with code 1; the methods are the
      non-empty, upper-cased, trimmed pieces of the flag; paths and
      methods are in normal form (trimming or upper-casing them again
      changes nothing, and they hold no separator).
    - Probe: the classification is exact at every boundary and total;
      a transport failure gives status ERROR with code 0; a response
      keeps the job's identity, its code and the byte length of its
      body.  [testEndpoint_spec] is the contract of section 4.2,
      written from its text with the classification rule [classify];
      [testEndpoint] returns what the contract asks for exactly when
      the request does not panic: a panic inside the probe returns the
      zero [TestResult] (the handler's assignments go to a local
      variable), which is where the code departs from its
      specification.
    - Dispatcher: an invariant ([dinv]) ties the semaphore count to the
      goroutines between acquire and release, the mutex to the one
      goroutine in its critical section, the wait-group counter to the
      goroutines not yet finished, the result slice to the goroutines
      that have appended, the slice a goroutine has read for its
      append to the shared slice, and the console to the goroutines
      that have printed.  It holds in every reachable state.  From it: never
      more than [Threads] probes in flight, mutual exclusion on the
      slice, every step decreases a measure (so every execution is
      finite, at most [10 * n + 1] steps for [n] jobs), no reachable
      state is stuck when [Threads >= 1], and the returned slice is a
      permutation of the sequential reference [runTests_spec]: one
      result per job, [|paths| * |methods|] results, and on the
      console one progress line per job ([progress_spec], up to order)
      unless the batch is silent or a monitoring batch.  With
      [Threads = 0] and at least one job no execution ever returns;
      with [Threads < 0] the channel cannot be made.
    - Completeness: the theorems of the dispatcher say what every
      interleaving does; these say which interleavings there are.  The
      slices [runTests] returns, over all scheduling oracles, are
      exactly the permutations of the reference: each order is the
      result of the serial schedule of that order.  For every job list
      a state is reached in which [Threads] probes (or all, when the
      jobs are fewer) are in flight at once: the bound is met.
    - Report: [truncate] keeps a prefix of [maxLen] bytes, which is
      well-formed UTF-8 exactly when the cut does not fall inside a
      character; [saveResults] appends the lines of the batch in
      order and touches nothing else; the key of the summary map reads
      back as the code and the status; the summary counts every result
      once and its counts add up to the total.
    - Checkpoint: [saveStatus] always returns; it replaces the content
      of the checkpoint file when it can and ignores the failure when
      it cannot.  The process id and the iteration can be read back
      from the file, whatever the encoding of the times.
    - Supervisor: the parent starts the worker with its own arguments
      and the marker, writes the first checkpoint and does not wait;
      when the child cannot start it exits with code 1.
    - Loop: [loop] does what [spec_loop] does as long as nothing
      overflows: when no reading of the clock takes longer than [L],
      a run of the body takes at most [B], and [D + I + 2 * L + B] is
      in the [int64] range.  For every duration [D] and interval [I]
      with [0 < I] and [D + I] in the [int64] range, and every body
      that returns and does not set the clock back, [loop] ends within
      [rounds D I + 1] rounds after at most [rounds D I] iterations
      ([D / I] rounded up); when [D] is [N] intervals and the readings
      of the clock together take less than one interval it runs
      exactly [N] iterations and sleeps [N - 1] times.
    - Schedule: [schedule] is [loop] at 24 hours and 30 minutes around
      [iteration_body], and it refines the loop of the specification:
      with readings of the clock of at most [L] each, for any [L] up
      to 73 years, it gives the result, the world and the events of
      [spec_loop] ([schedule_refines_spec]).  It ends within
      [loop_fuel] rounds after at most 48 iterations,
      and after exactly 48 and 47 sleeps when the clock readings take
      less than one interval; each iteration overwrites the checkpoint
      with its own number; the output file is an append-only log and
      the trace of the loop is header, batch, lines and checkpoint per
      iteration with a sleep between two iterations.  When the elapsed
      time saturates, the [int64] sum in the test that ends the loop
      wraps and the loop sleeps once more, where the loop of the
      specification stops.
    - Monitor: a completed run leaves no checkpoint and has appended
      to the output file one numbered header and one full batch per
      iteration and then the completion marker; its trace is the first
      checkpoint, then the trace of the loop, then the marker and the
      removal.  A worker that ends early (no path, bad thread count)
      leaves the checkpoint behind.
    - Main: the summary of a batch is the same under every scheduling
      of its goroutines; one batch prints the banner, the progress
      lines, the report and the line of [saveResults] in this order
      and appends exactly its lines to the output file; a missing
      project id or an empty list of paths ends the process with code
      1 before any probe; an empty list of methods does not.  With
      the dispatcher of [runTests] as the batch runner, under any
      scheduler and network, [main] on arguments that parse returns
      with a permutation of the sequential reference in the output
      file ([main_end_to_end]).  From the command line to the files:
      a monitoring run started without [-o] records nothing, because
      the child parses the arguments of the parent and the file name
      the parent made up never reaches it.
    - History: the trace of the model is sound for the files: however
      [main] ends, the files it leaves are the files it found with the
      events of its trace applied in order.  This is a fact about the
      operations of [World], which the theorems on interleavings use;
      it says nothing of [main] that would not hold of any program
      built from them.
    - Merge: every schedule gives a merge and every merge comes from
      a schedule; a merge with one element inserts it somewhere.
    - Blind and Race: [alike] is an equivalence on worlds that the
      trace respects; the worker looks at the files once, to read its
      paths, and the parent never, so the events of each are those of
      a run of its own whatever the other writes.  The worker alone
      writes the iterations 0 to [n] to the checkpoint, in order.  The write of
      the parent adds one 0 to that sequence, at any place: after the
      checkpoint of an iteration [i >= 1] a reader finds the iteration
      going back to 0.  At the end of the run the checkpoint is gone
      in every interleaving but the one where the parent writes after
      the removal, and every other file is as the worker alone leaves
      it.
    - Crash: the checkpoint with iteration [j] is written when exactly
      [j] batches have run and their headers and results are in the
      output file: a worker stopped at any point leaves a checkpoint
      that counts complete iterations only.
    - System: the same for the two runs of [main] from the command
      line: the parent starts one child and returns, the child
      completes its run, and under every interleaving the files end
      as the child alone leaves them, but for the checkpoint when the
      parent writes last.

    ** Bounds and fuel

    [exec] takes a fuel; [dmeasure] of the initial state, [10 * n + 1],
    is proved sufficient ([runTests_total]); the serial schedule of
    [n] jobs has exactly that many labels, so [runTests] follows it to
    its end.  The schedule loop takes a
    fuel as well; [rounds D I + 1], which is [loop_fuel]
    ([runDuration / checkInterval + 1 = 49]) for the constants of the
    source, is proved sufficient ([loop_total], [schedule_terminates])
    because each sleep advances the clock by the interval.  The
    elapsed time is an [int64]: [time_since] saturates and the sum
    with the interval wraps, as in Go; the theorems on the loop assume
    [D + I <= int64_max], which holds for the constants by
    computation.  [TrimSpace] scans with a fuel of the length of its
    argument, which cannot run out because each step drops a byte.

    ** Not modelled

    What the class [Runtime] holds: the reading of an integer flag
    ([strconv.ParseInt]) and the quoting of a value in an error
    message of package flag; the renderings of a time ([time.Format],
    the JSON encoding) and the JSON escaping of a string; the outcome
    of [cmd.Start].  The HTTP client: each request has an outcome
    given by an oracle, one per goroutine, so an answer does not
    depend on the requests made before it (a GET after a DELETE of the
    same path sees what the oracle says).  A panic of the probe is one
    raised before any [return] has run, with a string as its value; a
    panic of the deferred [resp.Body.Close], which would leave the
    filled result with the caller, is not modelled.  [ToUpper] on
    input that is not ASCII, where Go applies the Unicode case tables
    and rewrites invalid UTF-8: [getMethods] is exact for ASCII flags.
    The order in which Go iterates over the summary map.  Signals and
    the death of a process from outside.

    The file system is a map from names to contents.  Whether a file
    opens is fixed for the run: a set of denied names, and the empty
    name; [os.ReadFile] fails only on a file that does not exist; a
    write to an open file does not fail, and the writes of
    [saveResults], one per result in the source, are one append of
    their concatenation.  In [Race] each file operation is one step: a
    reader never sees a checkpoint half written, which [os.WriteFile]
    does not promise; the child starts on the files as they were
    before the launch, and its one read, of the paths file, is not
    interleaved with the write of the parent, which is to another
    file.

    Time passes at the readings of the clock only ([lat]) and in
    [sleep], which advances the clock by exactly its argument: a batch
    takes no time of its own (the time it takes is part of the latency
    of the next reading) and the time stamps of the probes come from
    the network oracle, not from this clock.

    [status_json] is the layout of [json.MarshalIndent] for
    [StatusInfo] written by hand.  Nothing in src/ reads the
    checkpoint: [read_pid] and [read_iteration] are readers of this
    development (the number after the first colon, the number after
    the last space), what a script that watches the file would do, and
    not a JSON parser.  [progress_spec], [job_line], [job_of],
    [runTests_spec], [testEndpoint_spec] and [spec_loop] are
    references the code is compared with and translate no statement of
    it.  The class [BatchRunner] fixes of a batch only what its
    callers need (a result per job, nothing printed by a quiet batch);
    what the results are comes from the dispatcher, where
    [scheduled_runner] is used. *)

From Stdlib Require Import ZArith Lia String Ascii.
From stdpp Require Import base tactics option list numbers strings.

#[global] Open Scope Z_scope.

(** ** Notation *)

Declare Scope firey_scope.
Delimit Scope firey_scope with firey.

(** [lo <=? x <? hi]: the half-open range test of the status switches. *)
Notation "lo <=? x <? hi" := (andb (Z.leb lo x) (Z.ltb x hi))
  (at level 70, x at next level, no associativity) : firey_scope.

#[global] Open Scope firey_scope.

(** ** 64-bit integers *)

Definition int64_min : Z := - 2 ^ 63.
Definition int64_max : Z := 2 ^ 63 - 1.

Definition in_int64 (z : Z) : Prop := int64_min <= z <= int64_max.

(** Two's complement wrap-around of an [int64] result. *)
Definition wrap64 (z : Z) : Z := (z + 2 ^ 63) mod 2 ^ 64 - 2 ^ 63.

(** Saturation at the ends of the [int64] range ([time.Time.Sub]). *)
Definition sat64 (z : Z) : Z := Z.max int64_min (Z.min int64_max z).

(** [x +64 y]: addition of two Go [int64] values (a [time.Duration]). *)
Notation "x +64 y" := (wrap64 (x + y))
  (at level 50, left associativity, only parsing) : firey_scope.

(** An optional result is absent or present (as a decision, for
    [Forall_Exists_dec]). *)
Definition None_or_Some {A : Type} (o : option A) : {o = None} + {is_Some o}.
Proof. destruct o; [right; eauto | left; reflexivity]. Defined.

(** ** Tactics *)

(** [invert H]: invert and clean up. *)
Ltac invert H := inversion H; subst; clear H.

(** [case_cond]: split on the first boolean guard or [match] scrutinee
    of the goal or of a hypothesis, remembering the equation. *)
Ltac case_cond :=
  match goal with
  | |- context [if ?b then _ else _] => destruct b eqn:?
  | H : context [if ?b then _ else _] |- _ => destruct b eqn:?
  | |- context [match ?x with _ => _ end] => destruct x eqn:?
  | H : context [match ?x with _ => _ end] |- _ => destruct x eqn:?
  end.

(** [bool_lia]: turn boolean comparisons on [Z], [nat] and [N] into
    propositions and finish with [lia]. *)
Ltac bool_to_prop :=
  repeat match goal with
  | H : andb _ _ = true |- _ => apply andb_prop in H; destruct H
  | H : andb _ _ = false |- _ => apply andb_false_iff in H; destruct H
  | H : orb _ _ = true |- _ => apply orb_prop in H; destruct H
  | H : negb _ = true |- _ => apply negb_true_iff in H
  | H : negb _ = false |- _ => apply negb_false_iff in H
  | H : Z.leb _ _ = true |- _ => apply Z.leb_le in H
  | H : Z.leb _ _ = false |- _ => apply Z.leb_gt in H
  | H : Z.ltb _ _ = true |- _ => apply Z.ltb_lt in H
  | H : Z.ltb _ _ = false |- _ => apply Z.ltb_ge in H
  | H : Z.eqb _ _ = true |- _ => apply Z.eqb_eq in H
  | H : Z.eqb _ _ = false |- _ => apply Z.eqb_neq in H
  | H : Nat.leb _ _ = true |- _ => apply Nat.leb_le in H
  | H : Nat.leb _ _ = false |- _ => apply Nat.leb_gt in H
  | H : Nat.ltb _ _ = true |- _ => apply Nat.ltb_lt in H
  | H : Nat.ltb _ _ = false |- _ => apply Nat.ltb_ge in H
  | H : Nat.eqb _ _ = true |- _ => apply Nat.eqb_eq in H
  | H : Nat.eqb _ _ = false |- _ => apply Nat.eqb_neq in H
  | H : N.leb _ _ = true |- _ => apply N.leb_le in H
  | H : N.leb _ _ = false |- _ => apply N.leb_gt in H
  | H : N.ltb _ _ = true |- _ => apply N.ltb_lt in H
  | H : N.ltb _ _ = false |- _ => apply N.ltb_ge in H
  | H : N.eqb _ _ = true |- _ => apply N.eqb_eq in H
  | H : N.eqb _ _ = false |- _ => apply N.eqb_neq in H
  end.

Ltac bool_lia := bool_to_prop; try lia.

(** ** The hint database of the development *)

Create HintDb firey discriminated.
Create Rewrite HintDb firey_rw.

(** ** Lemmas on 64-bit integers *)

Lemma wrap64_id (z : Z) : in_int64 z -> wrap64 z = z.
Proof.
  unfold in_int64, int64_min, int64_max, wrap64. intros H.
  rewrite Z.mod_small; lia.
Qed.

(** One wrap: a sum that passes the largest [int64] comes back from
    the smallest. *)
Lemma wrap64_over (z : Z) :
  int64_max < z <= int64_max + 2 ^ 63 -> wrap64 z = z - 2 ^ 64.
Proof.
  unfold int64_max, wrap64. intros H.
  rewrite <- (Z.mod_add _ (-1)) by lia. rewrite Z.mod_small; lia.
Qed.

Lemma sat64_lower (a z : Z) : in_int64 a -> a <= z -> a <= sat64 z.
Proof. unfold in_int64, sat64, int64_min, int64_max. lia. Qed.

Lemma wrap64_range (z : Z) : in_int64 (wrap64 z).
Proof.
  unfold in_int64, int64_min, int64_max, wrap64.
  pose proof (Z.mod_pos_bound (z + 2 ^ 63) (2 ^ 64)). lia.
Qed.

Lemma sat64_id (z : Z) : in_int64 z -> sat64 z = z.
Proof. unfold in_int64, sat64. lia. Qed.

Lemma sat64_range (z : Z) : in_int64 (sat64 z).
Proof. unfold in_int64, sat64, int64_min, int64_max. lia. Qed.

Lemma sat64_mono (a b : Z) : a <= b -> sat64 a <= sat64 b.
Proof. unfold sat64. lia. Qed.

(** ** Strings *)

Lemma string_app_assoc (s1 s2 s3 : string) :
  (s1 +:+ s2) +:+ s3 = s1 +:+ (s2 +:+ s3).
Proof.
  induction s1 as [|c s1 IH]; [done|].
  change (String c ((s1 +:+ s2) +:+ s3) = String c (s1 +:+ s2 +:+ s3)).
  by rewrite IH.
Qed.

Lemma string_app_nil_r (s : string) : s +:+ "" = s.
Proof.
  induction s as [|c s IH]; [done|].
  change (String c (s +:+ "") = String c s). by rewrite IH.
Qed.

Lemma string_length_app (s1 s2 : string) :
  String.length (s1 +:+ s2) = (String.length s1 + String.length s2)%nat.
Proof.
  induction s1 as [|c s1 IH]; [done|].
  change (S (String.length (s1 +:+ s2)) =
          S (String.length s1 + String.length s2)). by rewrite IH.
Qed.

(** ** Sums and concatenations over a list updated at one index

    The dispatcher keeps its goroutines in a list and each step rewrites
    one of them; every counter of its invariant is a [sum_list_with]. *)

Section ListUpdate.
Context {A : Type}.
Implicit Types (f : A -> nat) (l : list A) (i : nat) (x y : A).

Lemma insert_middle l i x y :
  l !! i = Some x -> <[i:=y]> l = take i l ++ y :: drop (S i) l.
Proof.
  intros H. apply insert_take_drop. by eapply lookup_lt_Some.
Qed.

Lemma sum_list_with_insert f l i x y :
  l !! i = Some x ->
  (sum_list_with f (<[i:=y]> l) + f x = sum_list_with f l + f y)%nat.
Proof.
  revert i. induction l as [|a l IH]; intros [|i] H; simplify_eq/=; [lia|].
  specialize (IH _ H). lia.
Qed.

Lemma sum_list_with_lookup f l i x :
  l !! i = Some x -> (f x <= sum_list_with f l)%nat.
Proof.
  intros H. apply sum_list_with_in. by eapply list_elem_of_lookup_2.
Qed.

Lemma sum_list_with_pos f l :
  (0 < sum_list_with f l)%nat -> exists i x, l !! i = Some x /\ (0 < f x)%nat.
Proof.
  induction l as [|a l IH]; simpl; [lia|]. intros H.
  destruct (f a) eqn:E.
  - destruct IH as (i & x & ? & ?); [lia|]. by exists (S i), x.
  - exists 0%nat, a. split; [done|lia].
Qed.

Lemma sum_list_with_0 f l :
  sum_list_with f l = 0%nat <-> Forall (fun x => f x = 0%nat) l.
Proof.
  induction l as [|a l IH]; simpl.
  - split; [constructor|done].
  - rewrite Forall_cons, <- IH. lia.
Qed.

Lemma sum_list_with_le_length f l :
  (forall x, f x <= 1)%nat -> (sum_list_with f l <= length l)%nat.
Proof.
  intros Hf. induction l as [|a l IH]; simpl; [lia|]. specialize (Hf a). lia.
Qed.

Lemma sum_list_with_mono f (h : A -> nat) l :
  (forall x, f x <= h x)%nat -> (sum_list_with f l <= sum_list_with h l)%nat.
Proof.
  intros Hf. induction l as [|a l IH]; simpl; [lia|]. specialize (Hf a). lia.
Qed.

(** Two distinct positions contribute separately to a sum. *)
Lemma sum_list_with_two f l i j x y :
  i <> j -> l !! i = Some x -> l !! j = Some y ->
  (f x + f y <= sum_list_with f l)%nat.
Proof.
  revert i j. induction l as [|a l IH]; intros [|i] [|j] Hne Hi Hj;
    simplify_eq/=.
  - pose proof (sum_list_with_lookup f _ _ _ Hj). lia.
  - pose proof (sum_list_with_lookup f _ _ _ Hi). lia.
  - assert (i <> j) as Hne' by congruence.
    specialize (IH _ _ Hne' Hi Hj). lia.
Qed.

(** After an update at one position a property holds of the whole list
    when it holds of the new element and of the elements at the other
    positions. *)
Lemma Forall_insert_others (P : A -> Prop) l i x :
  (forall j y, j <> i -> l !! j = Some y -> P y) -> P x ->
  Forall P (<[i:=x]> l).
Proof.
  intros Ho Hx. apply Forall_lookup. intros j y Hj.
  apply list_lookup_insert_Some in Hj as [(-> & -> & _)|[Hne Hj]]; eauto.
Qed.

Context {B : Type}.
Implicit Types (c : A -> list B).

Lemma bind_insert_cons c l i x y (r : B) :
  l !! i = Some x -> c x = [] -> c y = [r] ->
  (<[i:=y]> l) ≫= c ≡ₚ (l ≫= c) ++ [r].
Proof.
  intros H Hx Hy. revert i H.
  induction l as [|a l IH]; intros [|i] H; simplify_eq/=.
  - rewrite Hx, Hy. simpl. apply Permutation_cons_append.
  - by rewrite (IH _ H), app_assoc.
Qed.

Lemma bind_insert_same c l i x y :
  l !! i = Some x -> c y = c x -> (<[i:=y]> l) ≫= c = l ≫= c.
Proof.
  intros H Hc. revert i H.
  induction l as [|a l IH]; intros [|i] H; simplify_eq/=.
  - by rewrite Hc.
  - by rewrite (IH _ H).
Qed.

Lemma bind_singleton_Forall c (h : A -> B) l :
  Forall (fun x => c x = [h x]) l -> l ≫= c = h <$> l.
Proof.
  induction 1 as [|a l Ha _ IH]; [done|].
  by rewrite bind_cons, fmap_cons, Ha, IH.
Qed.

Lemma bind_nil_Forall c l : Forall (fun x => c x = []) l -> l ≫= c = [].
Proof.
  induction 1 as [|a l Ha _ IH]; [done|]. by rewrite bind_cons, Ha, IH.
Qed.

End ListUpdate.

#[export] Hint Resolve wrap64_range sat64_range : firey.
#[export] Hint Rewrite @sum_list_with_app @length_app @length_insert : firey_rw.
#[export] Hint Rewrite string_app_assoc string_app_nil_r string_length_app : firey_rw.
