(* ===== verification/GoStrings.v ===== *)
(** * GoStrings: the functions of Go's [strings], [strconv] and [fmt]
    that src/main.go calls

    [Split] (on a one-byte separator, the only use in the source),
    [Join] (its inverse, used to state the round trip), [TrimSpace],
    [ToUpper], [HasPrefix], [Repeat] and the decimal rendering of an
    integer ([Itoa], the [%d] verb).  A string is a sequence of bytes.
    [after], [after_last] and [before] cut a text at a byte, the way a
    reader of the files of the program does.

    [TrimSpace] removes the white space of [unicode.IsSpace] in its
    UTF-8 encoding: the six ASCII characters, U+0085, U+00A0, U+1680,
    U+2000 to U+200A, U+2028, U+2029, U+202F, U+205F and U+3000.
    [ToUpper] is exact on ASCII input; on other input it maps the ASCII
    letters and leaves the other bytes, where Go applies the Unicode
    case tables. *)

From Stdlib Require Import ZArith Lia String Ascii.
From Stdlib Require Import DecimalString DecimalZ DecimalPos.
From stdpp Require Import base tactics option list numbers strings.
From S2P Require Import Prelude.

(** ** Bytes *)

Definition byte_of (c : ascii) : N := N_of_ascii c.

Definition is_ascii_byte (c : ascii) : bool := (byte_of c <? 128)%N.

(** The table [asciiSpace] of package [strings]. *)
Definition asciiSpace (c : ascii) : bool :=
  match c with
  | "009" | "010" | "011" | "012" | "013" | " " => true
  | _ => false
  end%char.

Definition is_lower (c : ascii) : bool :=
  (97 <=? byte_of c)%N && (byte_of c <=? 122)%N.

Definition upper_byte (c : ascii) : ascii :=
  if is_lower c then ascii_of_N (byte_of c - 32) else c.

Definition is_ascii (s : string) : bool :=
  forallb is_ascii_byte (list_ascii_of_string s).

(** ** White space at the front of a byte sequence *)

(** The length in bytes of the white-space character that [s] starts
    with, 0 when it starts with none. *)
Definition space_width (s : list N) : nat :=
  match s with
  | (9 | 10 | 11 | 12 | 13 | 32)%N :: _ => 1
  | 194%N :: (133 | 160)%N :: _ => 2
  | 225%N :: 154%N :: 128%N :: _ => 3
  | 226%N :: 128%N :: c :: _ =>
      if ((128 <=? c) && (c <=? 138) || (c =? 168) || (c =? 169) || (c =? 175))%N
      then 3 else 0
  | 226%N :: 129%N :: 159%N :: _ => 3
  | 227%N :: 128%N :: 128%N :: _ => 3
  | _ => 0
  end.

(** The same read from the end: [r] is the sequence reversed. *)
Definition space_width_rev (r : list N) : nat :=
  match r with
  | (9 | 10 | 11 | 12 | 13 | 32)%N :: _ => 1
  | (133 | 160)%N :: 194%N :: _ => 2
  | 128%N :: 154%N :: 225%N :: _ => 3
  | 159%N :: 129%N :: 226%N :: _ => 3
  | 128%N :: 128%N :: 227%N :: _ => 3
  | c :: 128%N :: 226%N :: _ =>
      if ((128 <=? c) && (c <=? 138) || (c =? 168) || (c =? 169) || (c =? 175))%N
      then 3 else 0
  | _ => 0
  end.

(** Drop white-space characters while there are some; [fuel] bounds
    the number of characters dropped. *)
Fixpoint drop_spaces (width : list N -> nat) (fuel : nat) (s : list N)
  : list N :=
  match fuel with
  | O => s
  | S fuel' =>
      match width s with
      | O => s
      | n => drop_spaces width fuel' (drop n s)
      end
  end.

Definition bytes_of_string (s : string) : list N :=
  byte_of <$> list_ascii_of_string s.
Definition string_of_bytes (l : list N) : string :=
  string_of_list_ascii (ascii_of_N <$> l).

(** ** The functions *)

Definition TrimLeft (s : list N) : list N :=
  drop_spaces space_width (length s) s.
Definition TrimRight (s : list N) : list N :=
  rev (drop_spaces space_width_rev (length s) (rev s)).

(** Both ends trimmed. *)
Definition trim (s : list N) : list N := TrimRight (TrimLeft s).

Definition TrimSpace (s : string) : string :=
  string_of_bytes (trim (bytes_of_string s)).

Fixpoint ToUpper (s : string) : string :=
  match s with
  | EmptyString => EmptyString
  | String c rest => String (upper_byte c) (ToUpper rest)
  end.

(** Some byte of the string is a lower-case ASCII letter. *)
Definition has_lower (s : string) : bool :=
  existsb is_lower (list_ascii_of_string s).

Definition HasPrefix (s prefix : string) : bool := String.prefix prefix s.

Fixpoint Repeat (s : string) (count : nat) : string :=
  match count with
  | O => ""
  | S n => s +:+ Repeat s n
  end.

(** [strings.Split(s, sep)] for a separator of one byte. *)
Fixpoint Split (s : string) (sep : ascii) : list string :=
  match s with
  | EmptyString => [""]
  | String c rest =>
      if Ascii.eqb c sep then "" :: Split rest sep
      else
        match Split rest sep with
        | [] => [String c ""]
        | piece :: pieces => String c piece :: pieces
        end
  end.

(** [strings.Join(elems, sep)]. *)
Fixpoint Join (elems : list string) (sep : ascii) : string :=
  match elems with
  | [] => ""
  | [e] => e
  | e :: rest => e +:+ String sep (Join rest sep)
  end.

(** The [%d] verb on an [int]. *)
Definition Itoa (z : Z) : string := NilZero.string_of_int (Z.to_int z).

(** Decimal text back to an integer ([None]: not a decimal numeral). *)
Definition Atoi (s : string) : option Z :=
  Z.of_int <$> NilZero.int_of_string s.

Definition contains_byte (c : ascii) (s : string) : bool :=
  existsb (Ascii.eqb c) (list_ascii_of_string s).

(** What a reader takes of a text: the part after the first [sep],
    the part after the last one (the text itself when there is none)
    and the part before the first one. *)
Fixpoint after (sep : ascii) (s : string) : string :=
  match s with
  | EmptyString => EmptyString
  | String c rest => if Ascii.eqb c sep then rest else after sep rest
  end.

Fixpoint after_last (sep : ascii) (s : string) : string :=
  match s with
  | EmptyString => EmptyString
  | String c rest =>
      if contains_byte sep rest then after_last sep rest
      else if Ascii.eqb c sep then rest else s
  end.

Fixpoint before (sep : ascii) (s : string) : string :=
  match s with
  | EmptyString => EmptyString
  | String c rest =>
      if Ascii.eqb c sep then EmptyString else String c (before sep rest)
  end.

(** The bytes of a decimal numeral. *)
Definition numeral_byte (c : ascii) : bool := contains_byte c "-0123456789".

(** ** Split and Join *)

Lemma Split_nonempty s sep : Split s sep <> [].
Proof. destruct s as [|c s]; simpl; [done|]. by repeat case_cond. Qed.

Lemma Join_cons_byte c p ps sep :
  Join (String c p :: ps) sep = String c (Join (p :: ps) sep).
Proof. by destruct ps. Qed.

(** Joining the pieces back with the separator gives the string. *)
Lemma Join_Split s sep : Join (Split s sep) sep = s.
Proof.
  induction s as [|c s IH]; simpl; [done|].
  destruct (Split s sep) as [|p ps] eqn:E; [by apply Split_nonempty in E|].
  destruct (Ascii.eqb_spec c sep) as [->|Hne].
  - change (String sep (Join (p :: ps) sep) = String sep s). by rewrite IH.
  - by rewrite Join_cons_byte, IH.
Qed.

(** No piece contains the separator. *)
Lemma Split_no_sep s sep :
  Forall (fun piece => contains_byte sep piece = false) (Split s sep).
Proof.
  induction s as [|c s IH]; simpl; [by repeat constructor|].
  destruct (Ascii.eqb_spec c sep) as [->|Hne]; [by constructor|].
  destruct (Split s sep) as [|p ps]; [repeat constructor|].
  - unfold contains_byte. simpl. rewrite orb_false_r. apply Ascii.eqb_neq.
    congruence.
  - apply Forall_cons_1 in IH as [Hp Hps]. constructor; [|done].
    unfold contains_byte in *. simpl. rewrite Hp, orb_false_r.
    apply Ascii.eqb_neq. congruence.
Qed.

(** One piece more than there are separators. *)
Lemma Split_length s sep :
  length (Split s sep) =
  S (length (filter (fun c => c = sep) (list_ascii_of_string s))).
Proof.
  induction s as [|c s IH]; simpl; [done|].
  destruct (Ascii.eqb_spec c sep) as [->|Hne].
  - rewrite filter_cons_True by done. simpl. by rewrite IH.
  - rewrite filter_cons_False by done. rewrite <- IH.
    by destruct (Split s sep).
Qed.

(** ** Trimming *)

Lemma drop_spaces_suffix width fuel s :
  exists k, drop_spaces width fuel s = drop k s.
Proof.
  revert s. induction fuel as [|fuel IH]; intros s; simpl; [by exists 0%nat|].
  destruct (width s) as [|n] eqn:E; [by exists 0%nat|].
  destruct (IH (drop (S n) s)) as [k ->]. exists (S n + k)%nat.
  by rewrite drop_drop.
Qed.

(** Enough fuel: what is left starts with no white space. *)
Lemma drop_spaces_done width fuel s :
  width [] = 0%nat -> (length s <= fuel)%nat ->
  width (drop_spaces width fuel s) = 0%nat.
Proof.
  intros Hnil. revert s. induction fuel as [|fuel IH]; intros s Hlen; simpl.
  - destruct s; [done|simpl in Hlen; lia].
  - destruct (width s) as [|n] eqn:E; [done|].
    apply IH. rewrite length_drop. lia.
Qed.

(** The cases of a byte: the numbers below 256 one by one, and the
    others by their eight low bits. *)
Ltac byte_cases a :=
  destruct a as [|a]; [|do 8 (try destruct a as [a|a|])].

Lemma space_width_app s r :
  space_width s <> 0%nat -> space_width (s ++ r) = space_width s.
Proof.
  destruct s as [|a [|b [|c s]]]; [done| | |reflexivity].
  - byte_cases a; by simpl.
  - byte_cases a; try (by simpl); byte_cases b; by simpl.
Qed.

Lemma space_width_rev_app s r :
  space_width_rev s <> 0%nat -> space_width_rev (s ++ r) = space_width_rev s.
Proof.
  destruct s as [|a [|b [|c s]]]; [done| | |reflexivity].
  - byte_cases a; by simpl.
  - byte_cases b; try (intros _; reflexivity); byte_cases a; by simpl.
Qed.

Lemma drop_spaces_fixed width fuel s :
  width s = 0%nat -> drop_spaces width fuel s = s.
Proof. intros H. destruct fuel; simpl; [done|]. by rewrite H. Qed.

Lemma TrimLeft_suffix s : exists l, s = l ++ TrimLeft s.
Proof.
  unfold TrimLeft. destruct (drop_spaces_suffix space_width (length s) s) as [k ->].
  exists (take k s). by rewrite take_drop.
Qed.

Lemma TrimRight_prefix s : exists r, s = TrimRight s ++ r.
Proof.
  unfold TrimRight.
  destruct (drop_spaces_suffix space_width_rev (length s) (rev s)) as [k ->].
  exists (rev (take k (rev s))).
  by rewrite <- rev_app_distr, take_drop, rev_involutive.
Qed.

Lemma TrimLeft_done s : space_width (TrimLeft s) = 0%nat.
Proof. by apply drop_spaces_done. Qed.

Lemma TrimRight_done s : space_width_rev (rev (TrimRight s)) = 0%nat.
Proof.
  unfold TrimRight. rewrite rev_involutive.
  apply drop_spaces_done; [done|]. by rewrite length_rev.
Qed.

Lemma trim_infix s : exists l r, s = l ++ trim s ++ r.
Proof.
  destruct (TrimLeft_suffix s) as [l Hl].
  destruct (TrimRight_prefix (TrimLeft s)) as [r Hr].
  exists l, r. unfold trim. by rewrite <- Hr.
Qed.

Lemma trim_no_space s :
  space_width (trim s) = 0%nat /\ space_width_rev (rev (trim s)) = 0%nat.
Proof.
  split; [|apply TrimRight_done]. unfold trim.
  destruct (TrimRight_prefix (TrimLeft s)) as [r Hr].
  destruct (decide (space_width (TrimRight (TrimLeft s)) = 0%nat)) as [|Hne];
    [done|].
  apply (space_width_app _ r) in Hne as Heq.
  rewrite <- Hr, TrimLeft_done in Heq. congruence.
Qed.

Lemma trim_fixed s :
  space_width s = 0%nat -> space_width_rev (rev s) = 0%nat -> trim s = s.
Proof.
  intros Hl Hr. unfold trim, TrimLeft, TrimRight.
  by rewrite (drop_spaces_fixed _ _ s), drop_spaces_fixed, rev_involutive.
Qed.

Lemma trim_idemp s : trim (trim s) = trim s.
Proof. apply trim_fixed; apply trim_no_space. Qed.

Lemma byte_of_lt c : (byte_of c < 256)%N.
Proof. by destruct c as [[] [] [] [] [] [] [] []]. Qed.

Lemma bytes_of_string_lt s : Forall (fun n => (n < 256)%N) (bytes_of_string s).
Proof.
  unfold bytes_of_string. induction s as [|c s IH]; simpl; [done|].
  constructor; [apply byte_of_lt|done].
Qed.

Lemma bytes_of_string_of_bytes l :
  Forall (fun n => (n < 256)%N) l -> bytes_of_string (string_of_bytes l) = l.
Proof.
  induction 1 as [|n l Hn _ IH]; [done|].
  change (byte_of (ascii_of_N n) :: bytes_of_string (string_of_bytes l) = n :: l).
  rewrite IH. f_equal. by apply N_ascii_embedding.
Qed.

Lemma string_of_bytes_of_string s : string_of_bytes (bytes_of_string s) = s.
Proof.
  induction s as [|c s IH]; [done|].
  change (String (ascii_of_N (byte_of c))
            (string_of_bytes (bytes_of_string s)) = String c s).
  rewrite IH. unfold byte_of. by rewrite ascii_N_embedding.
Qed.

Lemma trim_lt l :
  Forall (fun n => (n < 256)%N) l -> Forall (fun n => (n < 256)%N) (trim l).
Proof.
  intros H. destruct (trim_infix l) as (a & b & E). rewrite E in H.
  by apply Forall_app in H as [_ [H _] %Forall_app].
Qed.

Lemma TrimSpace_bytes s :
  bytes_of_string (TrimSpace s) = trim (bytes_of_string s).
Proof. apply bytes_of_string_of_bytes, trim_lt, bytes_of_string_lt. Qed.

Theorem TrimSpace_idemp s : TrimSpace (TrimSpace s) = TrimSpace s.
Proof.
  unfold TrimSpace at 1. by rewrite TrimSpace_bytes, trim_idemp.
Qed.

(** A string without white space at either end is left as it is. *)
Lemma TrimSpace_fixed s :
  space_width (bytes_of_string s) = 0%nat ->
  space_width_rev (rev (bytes_of_string s)) = 0%nat -> TrimSpace s = s.
Proof.
  intros Hl Hr. unfold TrimSpace.
  by rewrite trim_fixed, string_of_bytes_of_string.
Qed.

Lemma string_of_bytes_app a b :
  string_of_bytes (a ++ b) = string_of_bytes a +:+ string_of_bytes b.
Proof.
  induction a as [|n a IH]; [done|].
  change (String (ascii_of_N n) (string_of_bytes (a ++ b)) =
          String (ascii_of_N n) (string_of_bytes a +:+ string_of_bytes b)).
  by rewrite IH.
Qed.

(** What [TrimSpace] returns is a piece of its argument. *)
Lemma TrimSpace_infix s : exists l r, s = l +:+ TrimSpace s +:+ r.
Proof.
  destruct (trim_infix (bytes_of_string s)) as (l & r & E).
  exists (string_of_bytes l), (string_of_bytes r).
  rewrite <- (string_of_bytes_of_string s) at 1. rewrite E.
  by rewrite !string_of_bytes_app.
Qed.

(** ** Bytes that a piece of a string cannot contain *)

Lemma existsb_string_app (f : ascii -> bool) a b :
  existsb f (list_ascii_of_string (a +:+ b)) =
  existsb f (list_ascii_of_string a) || existsb f (list_ascii_of_string b).
Proof.
  induction a as [|x a IH]; [done|].
  change (f x || existsb f (list_ascii_of_string (a +:+ b)) =
          f x || existsb f (list_ascii_of_string a)
          || existsb f (list_ascii_of_string b)).
  by rewrite IH, orb_assoc.
Qed.

Lemma existsb_string_infix (f : ascii -> bool) l m r :
  existsb f (list_ascii_of_string (l +:+ m +:+ r)) = false ->
  existsb f (list_ascii_of_string m) = false.
Proof.
  rewrite !existsb_string_app.
  by intros [_ [? _] %orb_false_elim] %orb_false_elim.
Qed.

Lemma contains_byte_TrimSpace c s :
  contains_byte c s = false -> contains_byte c (TrimSpace s) = false.
Proof.
  destruct (TrimSpace_infix s) as (l & r & E). rewrite E at 1.
  apply existsb_string_infix.
Qed.

(** ** Upper case *)

Lemma upper_byte_idemp c : upper_byte (upper_byte c) = upper_byte c.
Proof. by destruct c as [[] [] [] [] [] [] [] []]. Qed.

Lemma ToUpper_idemp s : ToUpper (ToUpper s) = ToUpper s.
Proof.
  induction s as [|c s IH]; simpl; [done|]. by rewrite upper_byte_idemp, IH.
Qed.

Lemma ToUpper_length s : String.length (ToUpper s) = String.length s.
Proof. induction s as [|c s IH]; simpl; [done|]. by rewrite IH. Qed.

Lemma is_lower_upper_byte c : is_lower (upper_byte c) = false.
Proof. by destruct c as [[] [] [] [] [] [] [] []]. Qed.

Lemma has_lower_ToUpper s : has_lower (ToUpper s) = false.
Proof.
  unfold has_lower. induction s as [|c s IH]; [done|]. simpl in *.
  by rewrite is_lower_upper_byte.
Qed.

Lemma ToUpper_fixed s : has_lower s = false -> ToUpper s = s.
Proof.
  unfold has_lower. induction s as [|c s IH]; [done|]. simpl.
  intros [Hc Hs] %orb_false_elim. rewrite (IH Hs).
  unfold upper_byte. by rewrite Hc.
Qed.

(** Trimming an upper-cased string leaves it upper-cased. *)
Lemma ToUpper_TrimSpace s :
  ToUpper (TrimSpace (ToUpper s)) = TrimSpace (ToUpper s).
Proof.
  apply ToUpper_fixed. pose proof (has_lower_ToUpper s) as H.
  destruct (TrimSpace_infix (ToUpper s)) as (l & r & E). rewrite E in H at 1.
  by apply existsb_string_infix in H.
Qed.

(** Upper-casing makes no comma and removes none. *)
Lemma comma_upper_byte x : Ascii.eqb "," (upper_byte x) = Ascii.eqb "," x.
Proof. by destruct x as [[] [] [] [] [] [] [] []]. Qed.

Lemma contains_comma_ToUpper s :
  contains_byte "," (ToUpper s) = contains_byte "," s.
Proof.
  unfold contains_byte. induction s as [|c s IH]; [done|].
  change (Ascii.eqb "," (upper_byte c)
          || existsb (Ascii.eqb ",") (list_ascii_of_string (ToUpper s)) =
          Ascii.eqb "," c
          || existsb (Ascii.eqb ",") (list_ascii_of_string s)).
  by rewrite comma_upper_byte, IH.
Qed.

(** ** Decimal numerals *)

(** Reading back what [Itoa] printed gives the number. *)
Lemma Atoi_Itoa z : Atoi (Itoa z) = Some z.
Proof.
  unfold Atoi, Itoa. rewrite NilZero.isi.
  - simpl. by rewrite DecimalZ.of_to.
  - destruct z; try done. simpl. intros [= H].
    by apply DecimalPos.Unsigned.to_uint_nonnil in H.
  - destruct z; try done. simpl. intros [= H].
    by apply DecimalPos.Unsigned.to_uint_nonnil in H.
Qed.

Lemma Itoa_inj : Inj (=) (=) Itoa.
Proof.
  intros x y H. apply (f_equal Atoi) in H. rewrite !Atoi_Itoa in H. congruence.
Qed.

Lemma contains_byte_cons c x s :
  contains_byte c (String x s) = Ascii.eqb c x || contains_byte c s.
Proof. reflexivity. Qed.

Lemma contains_byte_app c a b :
  contains_byte c (a +:+ b) = contains_byte c a || contains_byte c b.
Proof. apply existsb_string_app. Qed.

(** A decimal numeral is made of digits and a sign. *)
Lemma Itoa_bytes c z :
  numeral_byte c = false -> contains_byte c (Itoa z) = false.
Proof.
  unfold numeral_byte. rewrite !contains_byte_cons.
  intros H. repeat (apply orb_false_elim in H as [? H]).
  assert (forall d, contains_byte c (NilEmpty.string_of_uint d) = false) as Hd
    by (induction d; simpl; rewrite ?contains_byte_cons;
        auto using orb_false_intro).
  unfold Itoa, NilZero.string_of_int, NilZero.string_of_uint.
  destruct (Z.to_int z) as [[]|[]]; simpl; rewrite ?contains_byte_cons, ?Hd;
    auto using orb_false_intro.
Qed.

(** A decimal numeral contains no space. *)
Lemma Itoa_no_space z : contains_byte " " (Itoa z) = false.
Proof. by apply Itoa_bytes. Qed.

(** ** Cutting a text at a byte *)

Section Cut.
Context (sep : ascii) (a b : string).

Lemma before_app :
  contains_byte sep a = false -> before sep (a +:+ String sep b) = a.
Proof.
  induction a as [|c a' IH]; simpl; [by rewrite Ascii.eqb_refl|].
  rewrite contains_byte_cons, Ascii.eqb_sym.
  intros [-> Ha] %orb_false_elim. by rewrite (IH Ha).
Qed.

Lemma after_app :
  contains_byte sep a = false -> after sep (a +:+ String sep b) = b.
Proof.
  induction a as [|c a' IH]; simpl; [by rewrite Ascii.eqb_refl|].
  rewrite contains_byte_cons, Ascii.eqb_sym.
  intros [-> Ha] %orb_false_elim. by rewrite (IH Ha).
Qed.

Lemma after_last_app :
  contains_byte sep b = false -> after_last sep (a +:+ String sep b) = b.
Proof.
  intros Hb. induction a as [|c a' IH]; simpl.
  - by rewrite Hb, Ascii.eqb_refl.
  - by rewrite contains_byte_app, contains_byte_cons, Ascii.eqb_refl,
      orb_true_r, IH.
Qed.

End Cut.
