(* ===== verification/Utf8.v ===== *)
(** * Utf8: well-formed UTF-8

    [utf8.ValidString] of the Go library, as the automaton its table
    [first] and its ranges [acceptRanges] describe: the decoder is
    between two characters, or inside one, with a number of bytes to
    come and the range the next byte must be in.  A string is well
    formed when the decoder ends between two characters.

    Go strings are byte sequences and the slice [s[:n]] of [truncate]
    cuts at a byte: the theorems say where a cut leaves a well-formed
    string ([decode_boundary]: exactly where the next byte is not a
    continuation byte). *)

From Stdlib Require Import ZArith Lia String Ascii.
From stdpp Require Import base tactics option list numbers strings.
From S2P Require Import Prelude GoStrings.

(** The states of the decoder: between two characters, or inside one
    with [n] more bytes to come, the next of them between [lo] and
    [hi]. *)
Inductive Decoder : Type :=
| Between
| Inside (n : nat) (lo hi : N).

#[export] Instance Decoder_eq_dec : EqDecision Decoder.
Proof. solve_decision. Defined.

(** The first byte of a character of two, three or four bytes. *)
Definition lead (b : N) : option Decoder :=
  if (b <? 194)%N then None
  else if (b <=? 223)%N then Some (Inside 1 128 191)
  else if (b =? 224)%N then Some (Inside 2 160 191)
  else if (b =? 237)%N then Some (Inside 2 128 159)
  else if (b <=? 239)%N then Some (Inside 2 128 191)
  else if (b =? 240)%N then Some (Inside 3 144 191)
  else if (b <=? 243)%N then Some (Inside 3 128 191)
  else if (b =? 244)%N then Some (Inside 3 128 143)
  else None.

Definition decode_step (st : Decoder) (b : N) : option Decoder :=
  match st with
  | Between => if (b <? 128)%N then Some Between else lead b
  | Inside n lo hi =>
      if ((lo <=? b) && (b <=? hi))%N then
        Some (match n with
              | S (S n') => Inside (S n') 128 191
              | _ => Between
              end)
      else None
  end.

Fixpoint decode (st : Decoder) (bs : list N) : option Decoder :=
  match bs with
  | [] => Some st
  | b :: rest => decode_step st b ≫= fun st' => decode st' rest
  end.

Definition valid_bytes (bs : list N) : bool :=
  bool_decide (decode Between bs = Some Between).

(** [utf8.ValidString]. *)
Definition ValidString (s : string) : bool := valid_bytes (bytes_of_string s).

(** A continuation byte, [10xxxxxx]. *)
Definition continuation (b : N) : bool := ((128 <=? b) && (b <=? 191))%N.

(** The states the decoder can be in. *)
Definition decoder_wf (st : Decoder) : Prop :=
  match st with
  | Between => True
  | Inside n lo hi => (1 <= n)%nat /\ (128 <= lo)%N /\ (hi <= 191)%N
  end.

(** ** The decoder *)

Lemma decode_app st a b :
  decode st (a ++ b) = decode st a ≫= fun st' => decode st' b.
Proof.
  revert st. induction a as [|x a IH]; intros st; simpl; [done|].
  destruct (decode_step st x); simpl; [apply IH|done].
Qed.

Lemma continuation_true b : continuation b = true <-> (128 <= b <= 191)%N.
Proof. unfold continuation. rewrite andb_true_iff, !N.leb_le. done. Qed.

Lemma continuation_false b :
  continuation b = false <-> (b < 128 \/ 191 < b)%N.
Proof. unfold continuation. rewrite andb_false_iff, !N.leb_gt. done. Qed.

Lemma lead_wf b st : lead b = Some st -> decoder_wf st /\ continuation b = false.
Proof.
  rewrite continuation_false. unfold lead.
  repeat case_match; intros [= <-]; simpl; bool_to_prop; lia.
Qed.

Lemma decode_step_wf st b st' :
  decoder_wf st -> decode_step st b = Some st' -> decoder_wf st'.
Proof.
  destruct st as [|n lo hi]; simpl.
  - intros _. case_match; [by intros [= <-]|]. by intros [? _] %lead_wf.
  - intros _. case_match; [|done]. intros [= <-].
    destruct n as [|[|n]]; simpl; lia.
Qed.

Lemma decode_wf bs : forall st st',
  decoder_wf st -> decode st bs = Some st' -> decoder_wf st'.
Proof.
  induction bs as [|b bs IH]; intros st st' Hwf; simpl; [by intros [= <-]|].
  destruct (decode_step st b) as [st1|] eqn:E; simpl; [|done].
  apply IH. by eapply decode_step_wf.
Qed.

(** Between two characters the decoder takes no continuation byte;
    inside a character it takes nothing else. *)
Lemma decode_step_continuation st b st' :
  decoder_wf st -> decode_step st b = Some st' ->
  continuation b = bool_decide (st <> Between).
Proof.
  destruct st as [|n lo hi]; cbn [decode_step decoder_wf].
  - intros _. rewrite bool_decide_eq_false_2 by naive_solver. case_match.
    + intros _. apply continuation_false. bool_to_prop. lia.
    + by intros [_ ->] %lead_wf.
  - intros (_ & Hlo & Hhi). case_match; [|done]. intros _.
    rewrite bool_decide_eq_true_2 by done. apply continuation_true.
    bool_to_prop. lia.
Qed.

(** A well-formed sequence can be cut before a byte exactly when the
    byte is not a continuation byte. *)
Theorem decode_boundary a b rest :
  valid_bytes (a ++ b :: rest) = true ->
  (valid_bytes a = true <-> continuation b = false).
Proof.
  unfold valid_bytes. rewrite !bool_decide_eq_true, decode_app. simpl.
  destruct (decode Between a) as [st|] eqn:Ea; simpl; [|done].
  destruct (decode_step st b) as [st1|] eqn:Eb; simpl; [|done]. intros _.
  rewrite (decode_step_continuation st b st1);
    [|by apply (decode_wf a Between)|done].
  rewrite bool_decide_eq_false. split; [by intros [= ->] H|].
  intros H. f_equal. by destruct (decide (st = Between)).
Qed.

(** Three dots after a sequence keep it as it is: well formed or not. *)
Lemma valid_bytes_dots a :
  valid_bytes (a ++ [46; 46; 46]%N) = valid_bytes a.
Proof.
  unfold valid_bytes. rewrite decode_app.
  destruct (decode Between a) as [[|n lo hi]|] eqn:E; simpl; [done| |done].
  apply (decode_wf a Between) in E as (_ & Hlo & _); [|done].
  case_match; [bool_to_prop; lia|done].
Qed.

(** ASCII text is well formed. *)
Lemma valid_bytes_ascii bs :
  Forall (fun b => (b < 128)%N) bs -> valid_bytes bs = true.
Proof.
  unfold valid_bytes. rewrite bool_decide_eq_true.
  induction 1 as [|b bs Hb _ IH]; simpl; [done|].
  by rewrite (proj2 (N.ltb_lt _ _) Hb).
Qed.

Lemma ValidString_ascii s : is_ascii s = true -> ValidString s = true.
Proof.
  unfold is_ascii, ValidString, bytes_of_string. intros H.
  apply valid_bytes_ascii, Forall_fmap, Forall_forall. intros c Hc.
  apply list_elem_of_In in Hc.
  rewrite forallb_forall in H. apply N.ltb_lt, (H c Hc).
Qed.

(** ** Strings as byte sequences *)

Lemma bytes_of_string_app a b :
  bytes_of_string (a +:+ b) = bytes_of_string a ++ bytes_of_string b.
Proof.
  induction a as [|c a IH]; [done|].
  change (byte_of c :: bytes_of_string (a +:+ b) =
          byte_of c :: bytes_of_string a ++ bytes_of_string b).
  by rewrite IH.
Qed.

Lemma bytes_of_string_length s :
  length (bytes_of_string s) = String.length s.
Proof. induction s as [|c s IH]; [done|]. simpl. by rewrite <- IH. Qed.

Lemma is_ascii_app a b : is_ascii (a +:+ b) = is_ascii a && is_ascii b.
Proof.
  induction a as [|c a IH]; [done|].
  change (is_ascii_byte c && is_ascii (a +:+ b) =
          is_ascii_byte c && is_ascii a && is_ascii b).
  by rewrite IH, andb_assoc.
Qed.

(** ** Examples *)

(** A two-byte character, a three-byte one and a four-byte one; a
    continuation byte alone, an overlong encoding and a surrogate. *)
Lemma valid_bytes_examples :
  valid_bytes [195; 169]%N = true /\
  valid_bytes [226; 130; 172]%N = true /\
  valid_bytes [240; 159; 152; 128]%N = true /\
  valid_bytes [169]%N = false /\
  valid_bytes [192; 128]%N = false /\
  valid_bytes [237; 160; 128]%N = false.
Proof. by vm_compute. Qed.
