(* ===== verification/Types.v ===== *)
(** * Types: the data model of src/main.go

    The constants, the three structs ([Config], [TestResult],
    [StatusInfo]) with the field names of the source, their zero values
    and field updates, and the one formatting primitive the constants
    need ([sprintf_s], a format with a single [%s] verb). *)

From Stdlib Require Import ZArith Lia String Ascii.
From stdpp Require Import base tactics option list numbers strings.
From S2P Require Import Prelude.

(** ** Time *)

(** A [time.Time] is a number of nanoseconds; a [time.Duration] is an
    [int64] number of nanoseconds. *)
Definition Time : Type := Z.
Definition Duration : Type := Z.

Definition Second : Duration := 1000000000.
Definition Minute : Duration := 60 * Second.
Definition Hour : Duration := 60 * Minute.

(** [time.Time.Add]. *)
Definition time_add (t : Time) (d : Duration) : Time := t + d.

(** [time.Since(t0)] read at clock value [now]: the difference,
    saturated to the [int64] range as [time.Time.Sub] does. *)
Definition time_since (now t0 : Time) : Duration := sat64 (now - t0).

(** ** Constants (main.go, lines 16-32) *)

Definition defaultBaseURL : string :=
  "https://firestore.googleapis.com/v1/projects/%s/databases/(default)/documents".
Definition checkInterval : Duration := 30 * Minute.
Definition runDuration : Duration := 24 * Hour.
Definition statusFile : string := ".firey_status.json".

Definition esc : string := String "027" EmptyString.
Definition colorReset : string := esc +:+ "[0m".
Definition colorRed : string := esc +:+ "[31m".
Definition colorGreen : string := esc +:+ "[32m".
Definition colorYellow : string := esc +:+ "[33m".
Definition colorBlue : string := esc +:+ "[34m".
Definition colorPurple : string := esc +:+ "[35m".
Definition colorCyan : string := esc +:+ "[36m".
Definition colorGray : string := esc +:+ "[37m".

(** ** Structs *)

Record Config : Type := mkConfig {
  ProjectID : string;
  CustomURL : string;
  PathList : string;
  SinglePath : string;
  Methods : string;
  Verbose : bool;
  OutputFile : string;
  KeepAnEye : bool;
  Threads : Z;
  Silence : bool
}.

Record TestResult : Type := mkTestResult {
  Timestamp : string;
  URL : string;
  Path : string;
  Method : string;
  StatusCode : Z;
  Status : string;
  BodyLength : Z;
  Body : string
}.

Record StatusInfo : Type := mkStatusInfo {
  PID : Z;
  StartTime : Time;
  NextCheck : Time;
  Iteration : Z
}.

#[export] Instance Config_eq_dec : EqDecision Config.
Proof. solve_decision. Defined.
#[export] Instance TestResult_eq_dec : EqDecision TestResult.
Proof. solve_decision. Defined.
#[export] Instance StatusInfo_eq_dec : EqDecision StatusInfo.
Proof. solve_decision. Defined.

(** The zero value of a struct: what Go gives a variable or a result
    slot that was never assigned. *)
Definition zeroTestResult : TestResult :=
  mkTestResult "" "" "" "" 0 "" 0 "".

(** Field assignments [r.F = v]. *)
Definition set_StatusCode (v : Z) (r : TestResult) : TestResult :=
  mkTestResult (Timestamp r) (URL r) (Path r) (Method r) v (Status r)
    (BodyLength r) (Body r).
Definition set_Status (v : string) (r : TestResult) : TestResult :=
  mkTestResult (Timestamp r) (URL r) (Path r) (Method r) (StatusCode r) v
    (BodyLength r) (Body r).
Definition set_BodyLength (v : Z) (r : TestResult) : TestResult :=
  mkTestResult (Timestamp r) (URL r) (Path r) (Method r) (StatusCode r)
    (Status r) v (Body r).
Definition set_Body (v : string) (r : TestResult) : TestResult :=
  mkTestResult (Timestamp r) (URL r) (Path r) (Method r) (StatusCode r)
    (Status r) (BodyLength r) v.

Definition set_Iteration (v : Z) (s : StatusInfo) : StatusInfo :=
  mkStatusInfo (PID s) (StartTime s) (NextCheck s) v.
Definition set_NextCheck (v : Time) (s : StatusInfo) : StatusInfo :=
  mkStatusInfo (PID s) (StartTime s) v (Iteration s).

Definition set_OutputFile (v : string) (c : Config) : Config :=
  mkConfig (ProjectID c) (CustomURL c) (PathList c) (SinglePath c)
    (Methods c) (Verbose c) v (KeepAnEye c) (Threads c) (Silence c).

(** ** [fmt.Sprintf] with one [%s] verb

    The first ["%s"] of the format is replaced by the argument; the
    argument is copied as it is (it is not read as a format). *)
Fixpoint sprintf_s (format arg : string) : string :=
  match format with
  | EmptyString => EmptyString
  | String "%" (String "s" rest) => arg +:+ rest
  | String c rest => String c (sprintf_s rest arg)
  end.

(** ** Facts *)

Lemma checkInterval_ns : checkInterval = 1800000000000.
Proof. reflexivity. Qed.

Lemma runDuration_ns : runDuration = 86400000000000.
Proof. reflexivity. Qed.

Lemma runDuration_intervals : runDuration = 48 * checkInterval.
Proof. reflexivity. Qed.

Lemma timing_in_int64 : in_int64 checkInterval /\ in_int64 runDuration.
Proof. by vm_compute. Qed.

Lemma sprintf_defaultBaseURL (p : string) :
  sprintf_s defaultBaseURL p =
  "https://firestore.googleapis.com/v1/projects/" +:+ p +:+
  "/databases/(default)/documents".
Proof. reflexivity. Qed.

Lemma time_since_exact (now t0 : Time) :
  in_int64 (now - t0) -> time_since now t0 = now - t0.
Proof. apply sat64_id. Qed.

Lemma time_since_mono (t0 a b : Time) :
  a <= b -> time_since a t0 <= time_since b t0.
Proof. intros H. apply sat64_mono. lia. Qed.

#[export] Hint Rewrite time_since_exact using (unfold in_int64, int64_min, int64_max; lia) : firey_rw.

(** The configuration of the examples: a monitoring run of the
    methods GET and POST on one path. *)
Definition demo_config (out : string) (threads : Z) : Config :=
  mkConfig "demo" "" "" "/a" "GET,POST" false out true threads false.
