(* ===== verification/World.v ===== *)
(** * World: what the program acts on outside its own memory

    The clock, the files of the current directory, the environment
    variables, the command line, the console and the processes started.
    Operations of the Go standard library that src/main.go calls on
    them ([time.Now], [time.Sleep], [os.OpenFile] in append mode,
    [os.WriteFile], [os.ReadFile], [os.Remove], [os.Getenv],
    [exec.Cmd.Start], [fmt.Println]) are functions on a [World].

    What the development does not model of the Go runtime and library
    is the class [Runtime]: every definition that depends on it takes
    an instance, and every theorem holds for all of them.  Time passes
    between two readings of the clock by an amount the environment
    chooses: the oracle [lat] gives the latency before the [n]-th
    reading; the theorems assume it is not negative.

    The world also keeps the trace of what the process did to its
    surroundings (files written, sleeps, processes started, batches
    run), oldest first: a history the program cannot read, in which
    the theorems state the order of the operations.

    A computation that can end the process is a [Proc]: it returns a
    value and a new world ([Ok]), or stops the process with an exit
    code ([Exit]), or dies with a runtime error ([Crash]).  The
    notation [x <- c ;; k] sequences two of them. *)

From Stdlib Require Import ZArith Lia String Ascii.
From stdpp Require Import base tactics option list numbers strings gmap.
From S2P Require Import Prelude GoStrings Types.

(** ** State *)

(** A process started by [exec.Cmd.Start]. *)
Record Child : Type := mkChild {
  c_pid : Z;
  c_args : list string;
  c_env : gmap string string
}.

(** What the process did to its surroundings.  [ok] says whether the
    file could be opened. *)
Inductive Event : Type :=
| EvAppend (name data : string) (ok : bool)
| EvWrite (name data : string) (ok : bool)
| EvRemove (name : string)
| EvSleep (d : Z)
| EvStart (args : list string) (r : Z + string)
| EvBatch (n : nat)
| EvStderr (text : string).

(** The parameters of the development: the behaviour of the system
    and the functions of the Go library whose results are taken as
    given. *)
Class Runtime : Type := mkRuntime {
  (** the time that passes before the [n]-th reading of the clock *)
  lat : nat -> Duration;
  (** [t.Format("20060102_150405")] and [t.Format(time.RFC3339)] *)
  fmt_stamp : Time -> string;
  fmt_rfc3339 : Time -> string;
  (** the JSON encoding of a time (an error outside years 0..9999)
      and of a string (quotes and escapes) *)
  json_time : Time -> option string;
  json_string : string -> string;
  (** what [cmd.Start] gives: the pid of the child, or an error *)
  started : Z + string;
  (** [strconv.ParseInt(s, 0, 64)] and the [%q] verb *)
  parse_int : string -> Z + string;
  quote : string -> string
}.

Record World : Type := mkWorld {
  w_clock : Time;                 (* the last reading of the clock *)
  w_reads : nat;                  (* readings made so far *)
  w_files : gmap string string;   (* contents by name *)
  w_denied : gset string;         (* names that cannot be opened for writing *)
  w_env : gmap string string;     (* os.Environ() *)
  w_args : list string;           (* os.Args *)
  w_pid : Z;                      (* os.Getpid() *)
  w_stdout : list string;         (* what was printed, oldest first *)
  w_children : list Child;
  w_trace : list Event            (* what was done, oldest first *)
}.

Definition set_clock (t : Time) (n : nat) (w : World) : World :=
  mkWorld t n (w_files w) (w_denied w) (w_env w) (w_args w) (w_pid w)
    (w_stdout w) (w_children w) (w_trace w).
Definition set_files (fs : gmap string string) (w : World) : World :=
  mkWorld (w_clock w) (w_reads w) fs (w_denied w) (w_env w) (w_args w)
    (w_pid w) (w_stdout w) (w_children w) (w_trace w).
Definition set_stdout (out : list string) (w : World) : World :=
  mkWorld (w_clock w) (w_reads w) (w_files w) (w_denied w) (w_env w)
    (w_args w) (w_pid w) out (w_children w) (w_trace w).
Definition set_children (cs : list Child) (w : World) : World :=
  mkWorld (w_clock w) (w_reads w) (w_files w) (w_denied w) (w_env w)
    (w_args w) (w_pid w) (w_stdout w) cs (w_trace w).
Definition set_trace (tr : list Event) (w : World) : World :=
  mkWorld (w_clock w) (w_reads w) (w_files w) (w_denied w) (w_env w)
    (w_args w) (w_pid w) (w_stdout w) (w_children w) tr.

(** One more event in the trace. *)
Definition record (e : Event) (w : World) : World :=
  set_trace (w_trace w ++ [e]) w.

(** ** Results of computations *)

Inductive Res (A : Type) : Type :=
| Ok (a : A) (w : World)
| Exit (code : Z) (w : World)
| Crash (w : World).
Arguments Ok {A} a w.
Arguments Exit {A} code w.
Arguments Crash {A} w.

Definition Proc (A : Type) : Type := World -> Res A.

Definition ret {A : Type} (a : A) : Proc A := fun w => Ok a w.

Definition bind {A B : Type} (c : Proc A) (k : A -> Proc B) : Proc B :=
  fun w =>
    match c w with
    | Ok a w' => k a w'
    | Exit code w' => Exit code w'
    | Crash w' => Crash w'
    end.

Notation "x <- c ;; k" := (bind c (fun x => k))
  (at level 60, c at next level, right associativity) : firey_scope.
Notation "c ;;; k" := (bind c (fun _ => k))
  (at level 60, right associativity) : firey_scope.

(** The world a computation ends in. *)
Definition world_of {A : Type} (r : Res A) : World :=
  match r with Ok _ w | Exit _ w | Crash w => w end.

(** Lifting a function on worlds. *)
Definition act (f : World -> World) : Proc unit := fun w => Ok tt (f w).

(** [os.Exit(code)]. *)
Definition exit {A : Type} (code : Z) : Proc A := fun w => Exit code w.

(** ** Console *)

(** The line feed and the double quote. *)
Definition nl : string := String "010" "".
Definition dq : string := String "034" "".

(** [fmt.Print] of one piece of text. *)
Definition print (text : string) : Proc unit :=
  act (fun w => set_stdout (w_stdout w ++ [text]) w).

(** Several of them in a row. *)
Definition prints (lines : list string) : Proc unit :=
  act (fun w => set_stdout (w_stdout w ++ lines) w).

(** [fmt.Fprintf(os.Stderr, ...)], several in a row. *)
Definition eprints (lines : list string) : Proc unit :=
  act (fun w => set_trace (w_trace w ++ (EvStderr <$> lines)) w).

(** ** Clock *)

Section Clock.
Context {rt : Runtime}.

(** [time.Now()]: time has passed since the last reading. *)
Definition now : Proc Time :=
  fun w =>
    let t := w_clock w + lat (w_reads w) in
    Ok t (set_clock t (S (w_reads w)) w).

(** [time.Sleep(d)]: at least [d] passes (nothing for [d <= 0]). *)
Definition sleep (d : Duration) : Proc unit :=
  act (fun w =>
         record (EvSleep d) (set_clock (w_clock w + Z.max 0 d) (w_reads w) w)).

Lemma now_eq w :
  now w = Ok (w_clock w + lat (w_reads w))
             (set_clock (w_clock w + lat (w_reads w)) (S (w_reads w)) w).
Proof. reflexivity. Qed.

End Clock.

(** ** Files *)

Definition can_open (w : World) (name : string) : bool :=
  negb (String.eqb name "") && bool_decide (name ∉ w_denied w).

(** [os.OpenFile(name, O_APPEND|O_CREATE|O_WRONLY, 0644)], one
    [WriteString], [Close].  [false]: the file could not be opened (the
    writes on the nil file then fail without effect). *)
Definition append_file (name data : string) : Proc bool :=
  fun w =>
    if can_open w name then
      let old := default "" (w_files w !! name) in
      Ok true (record (EvAppend name data true)
                 (set_files (<[name := old +:+ data]> (w_files w)) w))
    else Ok false (record (EvAppend name data false) w).

(** [os.WriteFile(name, data, 0644)]. *)
Definition write_file (name data : string) : Proc bool :=
  fun w =>
    if can_open w name then
      Ok true (record (EvWrite name data true)
                 (set_files (<[name := data]> (w_files w)) w))
    else Ok false (record (EvWrite name data false) w).

(** [os.Remove(name)]. *)
Definition remove_file (name : string) : Proc bool :=
  fun w =>
    match w_files w !! name with
    | Some _ =>
        Ok true (record (EvRemove name) (set_files (delete name (w_files w)) w))
    | None => Ok false (record (EvRemove name) w)
    end.

(** [os.ReadFile(name)]: the contents, or the text of the error. *)
Definition read_file (name : string) : Proc (string + string) :=
  fun w =>
    match w_files w !! name with
    | Some data => Ok (inl data) w
    | None => Ok (inr ("open " +:+ name +:+ ": no such file or directory")) w
    end.

(** What [append_file] and [write_file] leave in the file system;
    [ok] says whether the file could be opened. *)
Definition append_to (ok : bool) (name data : string)
    (fs : gmap string string) : gmap string string :=
  if ok then <[name := default "" (fs !! name) +:+ data]> fs else fs.
Definition write_to (ok : bool) (name data : string)
    (fs : gmap string string) : gmap string string :=
  if ok then <[name := data]> fs else fs.

(** What a reader finds in a file; a missing file reads as empty. *)
Definition content (fs : gmap string string) (name : string) : string :=
  default "" (fs !! name).

(** ** Environment and processes *)

(** [os.Getenv(key)]: empty when the variable is not set. *)
Definition getenv (key : string) (w : World) : string :=
  default "" (w_env w !! key).

(** [os.Getpid()], [os.Args] and [os.Environ()]. *)
Definition getpid : Proc Z := fun w => Ok (w_pid w) w.
Definition getargs : Proc (list string) := fun w => Ok (w_args w) w.
Definition environ : Proc (gmap string string) := fun w => Ok (w_env w) w.

(** [cmd.Start()] of a command with arguments [args] and environment
    [env].  The oracle [started] is the process id the system gives the
    child, or the text of the error when it cannot start one. *)
Definition start_process {rt : Runtime} (args : list string)
    (env : gmap string string) : Proc (Z + string) :=
  fun w =>
    match started with
    | inl pid =>
        Ok (inl pid)
           (record (EvStart args started)
              (set_children (w_children w ++ [mkChild pid args env]) w))
    | inr err => Ok (inr err) (record (EvStart args started) w)
    end.

(** ** Laws *)

Lemma bind_ret_l {A B : Type} (a : A) (k : A -> Proc B) w :
  bind (ret a) k w = k a w.
Proof. reflexivity. Qed.

Lemma bind_assoc {A B C : Type} (c : Proc A) (k : A -> Proc B)
    (h : B -> Proc C) w :
  bind (bind c k) h w = bind c (fun a => bind (k a) h) w.
Proof. unfold bind. by destruct (c w). Qed.

Lemma bind_Ok {A B : Type} (c : Proc A) (k : A -> Proc B) w a w' :
  c w = Ok a w' -> bind c k w = k a w'.
Proof. unfold bind. by intros ->. Qed.

Lemma bind_Crash {A B : Type} (c : Proc A) (k : A -> Proc B) w w' :
  c w = Crash w' -> bind c k w = Crash w'.
Proof. unfold bind. by intros ->. Qed.

Lemma bind_Exit {A B : Type} (c : Proc A) (k : A -> Proc B) w code w' :
  c w = Exit code w' -> bind c k w = Exit code w'.
Proof. unfold bind. by intros ->. Qed.

(** Run the steps at the head of a computation that compute. *)
Ltac proc_run :=
  repeat (erewrite bind_Ok by reflexivity; cbv beta iota).

Lemma bind_act {B : Type} (f : World -> World) (k : unit -> Proc B) w :
  bind (act f) k w = k tt (f w).
Proof. reflexivity. Qed.

(** ** Facts about files *)

Section Files.
Context (w : World) (name data : string).

Lemma append_file_content :
  can_open w name = true ->
  w_files (world_of (append_file name data w)) !! name =
    Some (default "" (w_files w !! name) +:+ data).
Proof. unfold append_file. intros ->. simpl. by rewrite lookup_insert_eq. Qed.

Lemma append_file_other other :
  other <> name ->
  w_files (world_of (append_file name data w)) !! other = w_files w !! other.
Proof.
  unfold append_file. intros Hne. destruct (can_open w name); simpl; [|done].
  by rewrite lookup_insert_ne.
Qed.

Lemma append_file_refused :
  can_open w name = false ->
  append_file name data w = Ok false (record (EvAppend name data false) w).
Proof. unfold append_file. by intros ->. Qed.

Lemma write_file_content :
  can_open w name = true ->
  w_files (world_of (write_file name data w)) !! name = Some data.
Proof. unfold write_file. intros ->. simpl. by rewrite lookup_insert_eq. Qed.

Lemma remove_file_gone :
  w_files (world_of (remove_file name w)) !! name = None.
Proof.
  unfold remove_file. destruct (w_files w !! name) eqn:E; simpl; [|done].
  by rewrite lookup_delete_eq.
Qed.

End Files.

Lemma can_open_empty w : can_open w "" = false.
Proof. reflexivity. Qed.

(** ** Steps that only write files and print

    [io_only w w']: [w'] is [w] but for its files, its console and
    its trace. *)
Definition io_only (w w' : World) : Prop :=
  w' = set_trace (w_trace w')
         (set_stdout (w_stdout w') (set_files (w_files w') w)).

Lemma io_only_spec w w' :
  io_only w w' <->
  w_clock w' = w_clock w /\ w_reads w' = w_reads w /\
  w_denied w' = w_denied w /\ w_env w' = w_env w /\ w_args w' = w_args w /\
  w_pid w' = w_pid w /\ w_children w' = w_children w.
Proof.
  unfold io_only, set_trace, set_stdout, set_files. destruct w, w'; simpl.
  split.
  - by intros [= -> -> -> -> -> -> ->].
  - by intros (-> & -> & -> & -> & -> & -> & ->).
Qed.

#[export] Instance io_only_preorder : PreOrder io_only.
Proof.
  split; [intros w; by apply io_only_spec|].
  intros w1 w2 w3 H12 %io_only_spec H23 %io_only_spec. apply io_only_spec.
  destruct_and!. repeat split; congruence.
Qed.

Lemma io_only_refl w : io_only w w.
Proof. by apply io_only_spec. Qed.

Lemma io_only_files w fs : io_only w (set_files fs w).
Proof. by apply io_only_spec. Qed.

Lemma io_only_stdout w out : io_only w (set_stdout out w).
Proof. by apply io_only_spec. Qed.

Lemma io_only_record w e : io_only w (record e w).
Proof. by apply io_only_spec. Qed.

Lemma io_only_clock w w' :
  io_only w w' -> w_clock w' = w_clock w /\ w_reads w' = w_reads w.
Proof. intros H %io_only_spec. tauto. Qed.

Lemma io_only_can_open w w' name :
  io_only w w' -> can_open w' name = can_open w name.
Proof.
  intros (_ & _ & Hd & _) %io_only_spec. unfold can_open. by rewrite Hd.
Qed.

Lemma can_open_denied w w' name :
  w_denied w' = w_denied w -> can_open w' name = can_open w name.
Proof. unfold can_open. by intros ->. Qed.

(** The clock, the readings and the unwritable names after a step that
    only wrote and printed. *)
Ltac io_facts H :=
  let Hc := fresh "Hc" in
  let Hr := fresh "Hr" in
  let Hd := fresh "Hd" in
  apply io_only_spec in H as (Hc & Hr & Hd & _); simpl in Hc, Hr, Hd.

(** The file operations always return, and only write files. *)
Lemma append_file_io name data w :
  exists w', append_file name data w = Ok (can_open w name) w' /\ io_only w w' /\
    w_files w' = append_to (can_open w name) name data (w_files w) /\
    w_stdout w' = w_stdout w /\
    w_trace w' = w_trace w ++ [EvAppend name data (can_open w name)].
Proof.
  unfold append_file, append_to. destruct (can_open w name);
    eexists; (split; [done|]); by split; [apply io_only_spec|].
Qed.

Lemma write_file_io name data w :
  exists w', write_file name data w = Ok (can_open w name) w' /\ io_only w w' /\
    w_files w' = write_to (can_open w name) name data (w_files w) /\
    w_stdout w' = w_stdout w /\
    w_trace w' = w_trace w ++ [EvWrite name data (can_open w name)].
Proof.
  unfold write_file, write_to. destruct (can_open w name);
    eexists; (split; [done|]); by split; [apply io_only_spec|].
Qed.

Lemma remove_file_io name w :
  exists b w', remove_file name w = Ok b w' /\ io_only w w' /\
    w_files w' = delete name (w_files w) /\ w_stdout w' = w_stdout w /\
    w_trace w' = w_trace w ++ [EvRemove name].
Proof.
  unfold remove_file. destruct (w_files w !! name) eqn:E;
    do 2 eexists; (split; [done|]); (split; [by apply io_only_spec|]);
    simpl; [done|]. by rewrite delete_id.
Qed.

(** Two appends to a file are one append of the two texts. *)
Lemma append_to_twice ok name a b fs :
  append_to ok name b (append_to ok name a fs) = append_to ok name (a +:+ b) fs.
Proof.
  unfold append_to. destruct ok; [|done].
  rewrite lookup_insert_eq, insert_insert_eq. simpl. by rewrite string_app_assoc.
Qed.

Lemma append_to_lookup name data fs :
  append_to true name data fs !! name = Some (default "" (fs !! name) +:+ data).
Proof. unfold append_to. by rewrite lookup_insert_eq. Qed.

Lemma append_to_lookup_ne ok name data fs other :
  (other = name -> ok = false) ->
  append_to ok name data fs !! other = fs !! other.
Proof.
  unfold append_to. intros Hne. destruct ok; [|done].
  rewrite lookup_insert_ne; [done|]. intros <-. by specialize (Hne eq_refl).
Qed.

Lemma write_to_lookup_ne ok name data fs other :
  other <> name -> write_to ok name data fs !! other = fs !! other.
Proof. unfold write_to. intros. destruct ok; [|done]. by rewrite lookup_insert_ne. Qed.

Lemma content_append_to ok name data fs :
  content (append_to ok name data fs) name =
  content fs name +:+ (if ok then data else "").
Proof.
  unfold content, append_to. destruct ok; [by rewrite lookup_insert_eq|].
  by rewrite string_app_nil_r.
Qed.

Lemma content_ext fs fs' name :
  fs' !! name = fs !! name -> content fs' name = content fs name.
Proof. unfold content. by intros ->. Qed.

#[export] Hint Rewrite @bind_ret_l : firey_rw.
#[export] Hint Resolve io_only_refl io_only_files io_only_stdout io_only_record
  : firey.

(** ** A runtime for the examples *)

(** The first four readings of the clock take a second each; a time is
    rendered as its number of nanoseconds; a string is encoded as
    itself; integers are parsed as decimal numerals. *)
Definition demo_lat (n : nat) : Duration := if (n <? 4)%nat then Second else 0.
Definition demo_fmt (t : Time) : string := Itoa t.
Definition demo_json_time (t : Time) : option string :=
  Some (dq +:+ Itoa t +:+ dq).
Definition demo_parse_int (s : string) : Z + string :=
  match Atoi s with
  | Some z => inl z
  | None => inr "parse error"
  end.
Definition demo_quote (s : string) : string := dq +:+ s +:+ dq.

(** The runtime of the examples, by the outcome of [cmd.Start]; in
    [demo_rt] the child starts with process id 4242. *)
Definition demo_rt_with (start : Z + string) : Runtime :=
  mkRuntime demo_lat demo_fmt demo_fmt demo_json_time id start
    demo_parse_int demo_quote.
Definition demo_rt : Runtime := demo_rt_with (inl 4242).

(** The world of the examples: a worker of a monitoring run, with no
    file yet. *)
Definition demo_world : World :=
  mkWorld 0 0 ∅ ∅ {[ "FIREY_BACKGROUND" := "1" ]}
    ["firey"; "-i"; "demo"; "-p"; "/a"; "-kae"] 77 [] [] [].
