(* ===== verification/Flags.v ===== *)
(** * Flags: the command line

    [parseFlags] of src/main.go: the ten flags it registers with
    package [flag], their defaults, and the usage text.  The parsing
    itself is the library's ([flag.Parse] on [os.Args[1:]] with
    [ExitOnError]): a flag is [-name] or [--name], its value follows
    [=] or is the next argument, a boolean flag takes no argument, the
    first argument that is not a flag and the terminator [--] end the
    flags, [-h] and [-help] print the usage and exit with code 0, an
    error prints a message and the usage and exits with code 2.

    The reading of an integer ([strconv.ParseInt] with base 0) and the
    quoting of a value in an error message ([%q]) are parameters. *)

From Stdlib Require Import ZArith Lia String Ascii.
From stdpp Require Import base tactics option list numbers strings gmap.
From S2P Require Import Prelude GoStrings Types World.

(** ** The flags *)

(** [config := Config{}] with the defaults of the registrations. *)
Definition defaultConfig : Config :=
  mkConfig "" "" "" "" "" false "" false 1 false.

Inductive FlagKind : Type := StringFlag | BoolFlag | IntFlag.

(** The flags registered, in the order of the source. *)
Definition flags : list (string * FlagKind) :=
  [("i", StringFlag); ("u", StringFlag); ("l", StringFlag); ("p", StringFlag);
   ("m", StringFlag); ("v", BoolFlag); ("o", StringFlag); ("kae", BoolFlag);
   ("t", IntFlag); ("s", BoolFlag)].

(** [f.formal[name]]. *)
Definition flag_kind (name : string) : option FlagKind :=
  snd <$> List.find (fun f => String.eqb (fst f) name) flags.

(** [strconv.ParseBool]. *)
Definition ParseBool (s : string) : option bool :=
  if bool_decide (s ∈ ["1"; "t"; "T"; "TRUE"; "true"; "True"]) then Some true
  else if bool_decide (s ∈ ["0"; "f"; "F"; "FALSE"; "false"; "False"])
  then Some false
  else None.

(** The usage text ([flag.Usage]); [prog] is [os.Args[0]]. *)
Definition usage_text (prog : string) : list string :=
  ["FireY - Firebase Authorization Tester" +:+ nl +:+ nl;
   "Usage: " +:+ prog +:+ " [options]" +:+ nl +:+ nl;
   "Options:" +:+ nl;
   "  -i string" +:+ nl;
   "        Project ID (REQUIRED)" +:+ nl;
   "        Example: -i my-firebase-project" +:+ nl +:+ nl;
   "  -p string" +:+ nl;
   "        Single path to test" +:+ nl;
   "        Example: -p /users/123" +:+ nl +:+ nl;
   "  -l string" +:+ nl;
   "        File containing list of paths (one per line)" +:+ nl;
   "        Example: -l paths.txt" +:+ nl +:+ nl;
   "  -m string" +:+ nl;
   "        Comma-separated HTTP methods to test (default: all)" +:+ nl;
   "        Example: -m GET,POST" +:+ nl +:+ nl;
   "  -u string" +:+ nl;
   "        Custom base URL (optional, overrides default Firestore URL)" +:+ nl;
   "        Example: -u https://custom-db.googleapis.com/v1/projects/my-project/databases/custom" +:+ nl +:+ nl;
   "  -v    Verbose mode - show detailed response information" +:+ nl +:+ nl;
   "  -o string" +:+ nl;
   "        Output file to save results" +:+ nl;
   "        Example: -o results.txt" +:+ nl +:+ nl;
   "  -kae" +:+ nl;
   "        Keep An Eye mode - run continuously for 24 hours" +:+ nl;
   "        Checks every 30 minutes and saves to output file" +:+ nl +:+ nl;
   "  -t int" +:+ nl;
   "        Number of parallel threads (default: 1)" +:+ nl;
   "        Example: -t 5" +:+ nl +:+ nl;
   "  -s    Silent mode - no banner or extra information" +:+ nl +:+ nl;
   "Examples:" +:+ nl;
   "  " +:+ prog +:+ " -i my-project -p /users/1" +:+ nl;
   "  " +:+ prog +:+ " -i my-project -l paths.txt -m GET,POST -v" +:+ nl;
   "  " +:+ prog +:+ " -i my-project -l paths.txt -kae -o monitoring.txt" +:+ nl;
   "  " +:+ prog +:+ " -i my-project -p /admin -t 10 -o results.json" +:+ nl +:+ nl].

(** What parsing the arguments gives: the configuration and the
    arguments left, the request for help, or an error. *)
Inductive ParseResult : Type :=
| Parsed (c : Config) (rest : list string)
| Help
| Failed (msg : string).

(** [name=value]: cut at the first [=] that is not the first byte. *)
Fixpoint cut_eq_tail (s : string) : string * option string :=
  match s with
  | EmptyString => (EmptyString, None)
  | String c rest =>
      if Ascii.eqb c "=" then (EmptyString, Some rest)
      else let '(a, b) := cut_eq_tail rest in (String c a, b)
  end.

Definition cut_eq (name : string) : string * option string :=
  match name with
  | EmptyString => (EmptyString, None)
  | String c rest => let '(a, b) := cut_eq_tail rest in (String c a, b)
  end.

Section Flags.
Context {rt : Runtime}.

(** [flag.Value.Set(value)] through the pointer the flag was registered
    with.  The error is the text of [err]. *)
Definition set_flag (name value : string) (c : Config) : Config + string :=
  let str f := inl (f value) in
  let boolean f :=
    match ParseBool value with
    | Some b => inl (f b)
    | None => inr "parse error"
    end in
  if String.eqb name "i" then
    str (fun v => mkConfig v (CustomURL c) (PathList c) (SinglePath c)
           (Methods c) (Verbose c) (OutputFile c) (KeepAnEye c) (Threads c)
           (Silence c))
  else if String.eqb name "u" then
    str (fun v => mkConfig (ProjectID c) v (PathList c) (SinglePath c)
           (Methods c) (Verbose c) (OutputFile c) (KeepAnEye c) (Threads c)
           (Silence c))
  else if String.eqb name "l" then
    str (fun v => mkConfig (ProjectID c) (CustomURL c) v (SinglePath c)
           (Methods c) (Verbose c) (OutputFile c) (KeepAnEye c) (Threads c)
           (Silence c))
  else if String.eqb name "p" then
    str (fun v => mkConfig (ProjectID c) (CustomURL c) (PathList c) v
           (Methods c) (Verbose c) (OutputFile c) (KeepAnEye c) (Threads c)
           (Silence c))
  else if String.eqb name "m" then
    str (fun v => mkConfig (ProjectID c) (CustomURL c) (PathList c)
           (SinglePath c) v (Verbose c) (OutputFile c) (KeepAnEye c)
           (Threads c) (Silence c))
  else if String.eqb name "v" then
    boolean (fun b => mkConfig (ProjectID c) (CustomURL c) (PathList c)
               (SinglePath c) (Methods c) b (OutputFile c) (KeepAnEye c)
               (Threads c) (Silence c))
  else if String.eqb name "o" then str (fun v => set_OutputFile v c)
  else if String.eqb name "kae" then
    boolean (fun b => mkConfig (ProjectID c) (CustomURL c) (PathList c)
               (SinglePath c) (Methods c) (Verbose c) (OutputFile c) b
               (Threads c) (Silence c))
  else if String.eqb name "t" then
    match parse_int value with
    | inl n =>
        inl (mkConfig (ProjectID c) (CustomURL c) (PathList c) (SinglePath c)
               (Methods c) (Verbose c) (OutputFile c) (KeepAnEye c) n
               (Silence c))
    | inr err => inr err
    end
  else
    boolean (fun b => mkConfig (ProjectID c) (CustomURL c) (PathList c)
               (SinglePath c) (Methods c) (Verbose c) (OutputFile c)
               (KeepAnEye c) (Threads c) b).

(** [flag.Parse]: [parseOne] until no flag is seen. *)
Fixpoint parse (args : list string) (c : Config) : ParseResult :=
  match args with
  | [] => Parsed c []
  | s :: rest =>
      match s with
      | String "-" (String c1 s2) =>
          if Ascii.eqb c1 "-" && String.eqb s2 "" then Parsed c rest
          else
            let name0 := if Ascii.eqb c1 "-" then s2 else String c1 s2 in
            if String.eqb name0 "" || HasPrefix name0 "-" || HasPrefix name0 "="
            then Failed ("bad flag syntax: " +:+ s)
            else
              let '(name, value) := cut_eq name0 in
              match flag_kind name with
              | None =>
                  if String.eqb name "help" || String.eqb name "h" then Help
                  else Failed ("flag provided but not defined: -" +:+ name)
              | Some BoolFlag =>
                  match set_flag name (default "true" value) c with
                  | inl c' => parse rest c'
                  | inr err =>
                      Failed ("invalid boolean value " +:+
                              quote (default "true" value) +:+ " for -" +:+
                              name +:+ ": " +:+ err)
                  end
              | Some _ =>
                  match value, rest with
                  | Some v, _ =>
                      match set_flag name v c with
                      | inl c' => parse rest c'
                      | inr err =>
                          Failed ("invalid value " +:+ quote v +:+
                                  " for flag -" +:+ name +:+ ": " +:+ err)
                      end
                  | None, v :: rest' =>
                      match set_flag name v c with
                      | inl c' => parse rest' c'
                      | inr err =>
                          Failed ("invalid value " +:+ quote v +:+
                                  " for flag -" +:+ name +:+ ": " +:+ err)
                      end
                  | None, [] => Failed ("flag needs an argument: -" +:+ name)
                  end
              end
      | _ => Parsed c args
      end
  end.

Definition parseFlags : Proc Config :=
  args <- getargs ;;
  let prog := default "" (head args) in
  match parse (tail args) defaultConfig with
  | Parsed c _ => ret c
  | Help => eprints (usage_text prog) ;;; exit 0
  | Failed msg => eprints ((msg +:+ nl) :: usage_text prog) ;;; exit 2
  end.

(** The arguments that spell a configuration out: every flag with a
    value, and the boolean flags that are set. *)
Definition args_of (c : Config) : list string :=
  ["-i"; ProjectID c; "-u"; CustomURL c; "-l"; PathList c; "-p"; SinglePath c;
   "-m"; Methods c; "-o"; OutputFile c; "-t"; Itoa (Threads c)]
  ++ (if Verbose c then ["-v"] else [])
  ++ (if KeepAnEye c then ["-kae"] else [])
  ++ (if Silence c then ["-s"] else []).

(** ** Parsing *)

(** C39 Parsing the arguments that spell a configuration out gives the
    configuration back: every field of [Config] can be set from the
    command line, to any value, and no flag disturbs another (the
    thread count is read back by [parse_int] from its decimal
    numeral). *)
Theorem parse_args_of c :
  parse_int (Itoa (Threads c)) = inl (Threads c) ->
  parse (args_of c) defaultConfig = Parsed c [].
Proof.
  intros Hint. destruct c as [i u l p m v o kae t s]. unfold args_of.
  cbn [Threads] in Hint. cbn -[Itoa]. rewrite Hint. by destruct v, kae, s.
Qed.

(** What [parseFlags] does with the result of the parsing. *)
Lemma parseFlags_eq w :
  parseFlags w =
  match parse (tail (w_args w)) defaultConfig with
  | Parsed c _ => Ok c w
  | Help =>
      Exit 0 (set_trace (w_trace w ++
                (EvStderr <$> usage_text (default "" (head (w_args w))))) w)
  | Failed msg =>
      Exit 2 (set_trace (w_trace w ++
                (EvStderr <$> (msg +:+ nl) ::
                   usage_text (default "" (head (w_args w))))) w)
  end.
Proof.
  unfold parseFlags. rewrite (bind_Ok getargs _ _ _ _ eq_refl).
  by destruct (parse _ _).
Qed.

(** [parseFlags] reads the arguments only. *)
Lemma parseFlags_same_args w1 w2 c :
  w_args w2 = w_args w1 -> parseFlags w1 = Ok c w1 -> parseFlags w2 = Ok c w2.
Proof.
  rewrite !parseFlags_eq. intros ->. by destruct (parse _ _); intros [= ->].
Qed.

(** The ways [parseFlags] ends.  Without arguments it returns the
    defaults (one thread, everything else empty or off).  [-h] prints
    the usage and exits with code 0.  A flag that is not registered, a
    flag without its value and a thread count that is not a number
    print a message and the usage and exit with code 2.  In no case
    is a file written. *)
Theorem parseFlags_ends w prog rest :
  w_args w = prog :: rest ->
  (rest = [] -> parseFlags w = Ok defaultConfig w) /\
  (rest = ["-h"] -> exists w', parseFlags w = Exit 0 w' /\ io_only w w' /\
     w_files w' = w_files w /\
     w_trace w' = w_trace w ++ (EvStderr <$> usage_text prog)) /\
  (forall msg, parse rest defaultConfig = Failed msg ->
     exists w', parseFlags w = Exit 2 w' /\ io_only w w' /\
       w_files w' = w_files w /\
       w_trace w' = w_trace w ++ (EvStderr <$> (msg +:+ nl) :: usage_text prog)) /\
  parse ["-x"] defaultConfig = Failed "flag provided but not defined: -x" /\
  parse ["-t"] defaultConfig = Failed "flag needs an argument: -t" /\
  parse ["--"; "-t"] defaultConfig = Parsed defaultConfig ["-t"] /\
  parse ["a"; "-t"] defaultConfig = Parsed defaultConfig ["a"; "-t"].
Proof.
  intros Ha. rewrite parseFlags_eq, Ha. simpl tail. simpl head.
  repeat split; try done.
  - by intros ->.
  - intros ->. eexists. split; [done|]. by split; [apply io_only_spec|].
  - intros msg ->. eexists. split; [done|]. by split; [apply io_only_spec|].
Qed.

End Flags.

(** ** Examples *)

Definition demo_flags : Config :=
  mkConfig "my-project" "" "paths.txt" "/users/1" "GET,POST" true "out.txt"
    true 5 false.

Lemma parse_example :
  parse (rt := demo_rt)
    ["-i"; "my-project"; "-l=paths.txt"; "--p"; "/users/1"; "-m"; "GET,POST";
     "-v"; "-o"; "out.txt"; "-kae=true"; "-t"; "5"; "extra"; "-s"]
    defaultConfig
  = Parsed demo_flags ["extra"; "-s"].
Proof. by vm_compute. Qed.

Lemma parse_bad_values :
  parse (rt := demo_rt) ["-t"; "five"] defaultConfig
    = Failed ("invalid value " +:+ dq +:+ "five" +:+ dq +:+
              " for flag -t: parse error") /\
  parse (rt := demo_rt) ["-v=maybe"] defaultConfig
    = Failed ("invalid boolean value " +:+ dq +:+ "maybe" +:+ dq +:+
              " for -v: parse error") /\
  parse (rt := demo_rt) ["-=x"] defaultConfig
    = Failed "bad flag syntax: -=x" /\
  parse (rt := demo_rt) ["-t"; "-3"] defaultConfig
    = Parsed (mkConfig "" "" "" "" "" false "" false (-3) false) [].
Proof. by vm_compute. Qed.

Lemma parse_args_of_witness :
  parse (rt := demo_rt) (args_of demo_flags) defaultConfig
    = Parsed demo_flags [].
Proof. exact (parse_args_of (rt := demo_rt) demo_flags eq_refl). Defined.

Lemma parseFlags_ends_witness :
  parseFlags (rt := demo_rt)
    (mkWorld 0 0 ∅ ∅ ∅ ["firey"] 100 [] [] []) =
  Ok defaultConfig (mkWorld 0 0 ∅ ∅ ∅ ["firey"] 100 [] [] []).
Proof.
  exact (proj1 (parseFlags_ends (rt := demo_rt)
    (mkWorld 0 0 ∅ ∅ ∅ ["firey"] 100 [] [] []) "firey" [] eq_refl) eq_refl).
Defined.

