(* ===== verification/Config.v ===== *)
(** * Config: resolving the configuration into paths and methods

    [getPaths] and [getMethods] of src/main.go.  [getPaths] reads the
    paths file from the [World] and ends the process with code 1 when
    it cannot; a line of the file is kept when, trimmed, it is neither
    empty nor a comment.  [getMethods] splits the [-m] flag at commas,
    upper-cases and trims each piece and keeps the non-empty ones; the
    four default methods stand in for an empty flag. *)

From Stdlib Require Import ZArith Lia String Ascii.
From stdpp Require Import base tactics option list numbers strings gmap.
From S2P Require Import Prelude GoStrings Types World.

(** ** The code *)

Definition lf : ascii := "010"%char.

(** The test of the loop over the lines of the paths file. *)
Definition keep_line (line : string) : bool :=
  negb (String.eqb line "") && negb (HasPrefix line "#").

(** The loop over the lines: trim, test, append. *)
Definition path_lines (data : string) : list string :=
  List.filter keep_line (TrimSpace <$> Split data lf).

Definition getPaths (config : Config) : Proc (list string) :=
  let paths :=
    if negb (String.eqb (SinglePath config) "") then [SinglePath config]
    else [] in
  if negb (String.eqb (PathList config) "") then
    r <- read_file (PathList config) ;;
    match r with
    | inr err =>
        print ("Error reading paths file: " +:+ err +:+ String lf "") ;;;
        exit 1
    | inl data => ret (paths ++ path_lines data)
    end
  else ret paths.

Definition defaultMethods : list string := ["GET"; "POST"; "PATCH"; "DELETE"].

Definition getMethods (config : Config) : list string :=
  if negb (String.eqb (Methods config) "") then
    List.filter (fun m => negb (String.eqb m ""))
      ((fun m => TrimSpace (ToUpper m)) <$> Split (Methods config) ",")
  else defaultMethods.

(** Inputs for the examples. *)
Definition paths_txt : string :=
  "/users/1" +:+ String lf ("  # admin area" +:+ String lf
  (String lf ("  /admin  " +:+ String lf ""))).
Definition w_empty : World :=
  mkWorld 0 0 ∅ ∅ ∅ ["firey"] 100 [] [] [].
Definition w_paths_file : World :=
  set_files {[ "paths.txt" := paths_txt ]} w_empty.
Definition cfg_list : Config :=
  mkConfig "demo" "" "paths.txt" "/solo" "get, post,,Delete " false ""
    false 1 false.

(** ** Paths *)

Lemma keep_line_spec line :
  keep_line line = true <-> line <> "" /\ HasPrefix line "#" = false.
Proof.
  unfold keep_line. rewrite andb_true_iff, !negb_true_iff, String.eqb_neq.
  done.
Qed.

(** Every path read from the file is a trimmed line of it that is not
    empty and does not start with [#]. *)
Lemma path_lines_spec data p :
  p ∈ path_lines data <->
  (exists line, line ∈ Split data lf /\ p = TrimSpace line) /\
  p <> "" /\ HasPrefix p "#" = false.
Proof.
  unfold path_lines. rewrite list_elem_of_In, filter_In, <- list_elem_of_In.
  rewrite list_elem_of_fmap, keep_line_spec.
  split; [intros [(line & -> & ?) ?]|intros [(line & ? & ->) ?]]; eauto.
Qed.

(** A path read from the file has no white space at either end and
    holds no line feed. *)
Lemma path_lines_trimmed data p :
  p ∈ path_lines data -> TrimSpace p = p /\ contains_byte lf p = false.
Proof.
  intros ((line & Hline & ->) & _) %path_lines_spec.
  split; [apply TrimSpace_idemp|]. apply contains_byte_TrimSpace.
  by eapply Forall_forall in Hline; [|apply Split_no_sep].
Qed.

(** C37 [getPaths] with a readable paths file returns the single path
    (when given) followed by the lines of the file, in order, each
    trimmed, without the empty lines and the comment lines; it prints
    nothing and changes nothing.  A path from the file is not empty,
    is no comment, has no white space left at either end (trimming it
    again changes nothing) and holds no line feed. *)
Theorem getPaths_reads_file config w data :
  PathList config <> "" ->
  w_files w !! PathList config = Some data ->
  getPaths config w =
    Ok ((if decide (SinglePath config = "") then [] else [SinglePath config])
          ++ path_lines data) w /\
  Forall (fun p => p <> "" /\ HasPrefix p "#" = false /\
                   TrimSpace p = p /\ contains_byte lf p = false)
    (path_lines data).
Proof.
  intros Hl Hf. split.
  - unfold getPaths. apply String.eqb_neq in Hl. rewrite Hl. simpl.
    unfold bind, read_file. rewrite Hf. unfold ret. do 2 f_equal.
    destruct (String.eqb_spec (SinglePath config) ""); by case_decide.
  - apply Forall_forall. intros p Hp.
    destruct (path_lines_trimmed data p Hp).
    by apply path_lines_spec in Hp as (_ & ? & ?).
Qed.

(** [getPaths] with a paths file that cannot be read prints the
    error and exits with code 1, whatever the single path. *)
Theorem getPaths_unreadable config w :
  PathList config <> "" ->
  w_files w !! PathList config = None ->
  exists w', getPaths config w = Exit 1 w' /\
    w_stdout w' = w_stdout w ++
      ["Error reading paths file: open " +:+ PathList config +:+
       ": no such file or directory" +:+ String lf ""] /\
    w_files w' = w_files w.
Proof.
  intros Hl Hf. unfold getPaths. apply String.eqb_neq in Hl. rewrite Hl. simpl.
  unfold bind, read_file. rewrite Hf. simpl. eexists. split; [done|]. simpl.
  split; [|done]. do 2 f_equal. by rewrite !string_app_assoc.
Qed.

(** Without a paths file the result is the single path, or nothing. *)
Lemma getPaths_single config w :
  PathList config = "" ->
  getPaths config w =
    Ok (if decide (SinglePath config = "") then [] else [SinglePath config]) w.
Proof.
  intros Hl. unfold getPaths. rewrite Hl. simpl. unfold ret. f_equal.
  destruct (String.eqb_spec (SinglePath config) ""); by case_decide.
Qed.

(** [getPaths] only reads: when it returns, the world is as it was;
    when it does not, it has exited with code 1 and only printed. *)
Lemma getPaths_inv config w :
  match getPaths config w with
  | Ok _ w' => w' = w
  | Exit code w' =>
      code = 1 /\ PathList config <> "" /\
      w' = set_stdout (w_stdout w' ) w /\ w_files w' = w_files w
  | Crash _ => False
  end.
Proof.
  unfold getPaths, bind, read_file.
  destruct (String.eqb_spec (PathList config) "") as [|Hne]; simpl; [done|].
  by destruct (w_files w !! PathList config).
Qed.

Lemma getPaths_Ok config w paths w' :
  getPaths config w = Ok paths w' -> w' = w.
Proof. intros E. pose proof (getPaths_inv config w) as H. by rewrite E in H. Qed.

(** What [getPaths] returns depends on the files only. *)
Lemma getPaths_same_files config w1 w2 paths :
  w_files w2 = w_files w1 ->
  getPaths config w1 = Ok paths w1 -> getPaths config w2 = Ok paths w2.
Proof.
  unfold getPaths, bind, read_file. intros Hf.
  destruct (negb _); [rewrite Hf|by intros [= ->]].
  destruct (w_files w1 !! PathList config); [|done]. by intros [= ->].
Qed.

(** ** Methods *)

(** The methods of a non-empty flag, one by one. *)
Lemma getMethods_elem config m :
  Methods config <> "" ->
  m ∈ getMethods config <->
  m <> "" /\ exists piece, piece ∈ Split (Methods config) "," /\
                           m = TrimSpace (ToUpper piece).
Proof.
  unfold getMethods. intros Hm %String.eqb_neq. rewrite Hm. simpl.
  rewrite list_elem_of_In, filter_In, <- list_elem_of_In, list_elem_of_fmap.
  rewrite negb_true_iff, String.eqb_neq.
  split; [intros [(piece & -> & ?) ?]|intros [? (piece & ? & ->)]]; eauto.
Qed.

(** A method is in normal form: trimming it or upper-casing it again
    changes nothing, and it holds no comma. *)
Lemma getMethods_normal config m :
  m ∈ getMethods config ->
  TrimSpace m = m /\ ToUpper m = m /\ contains_byte "," m = false.
Proof.
  destruct (String.eqb_spec (Methods config) "") as [He|Hne].
  - unfold getMethods. rewrite He. simpl. unfold defaultMethods.
    rewrite !elem_of_cons, elem_of_nil. by intros [->|[->|[->|[->|[]]]]].
  - intros (_ & piece & Hp & ->) %getMethods_elem; [|done].
    split; [apply TrimSpace_idemp|]. split; [apply ToUpper_TrimSpace|].
    apply contains_byte_TrimSpace. rewrite contains_comma_ToUpper.
    by eapply Forall_forall in Hp; [|apply Split_no_sep].
Qed.

(** C38 Every method [getMethods] returns for a non-empty flag is a
    non-empty, upper-cased, trimmed piece of the flag, and every such
    piece is returned; an empty flag gives GET, POST, PATCH, DELETE.
    Every method returned is in normal form: it has no white space at
    either end, no lower-case ASCII letter and no comma.  A flag made
    of commas and blanks gives no method at all. *)
Theorem getMethods_spec config :
  (Methods config = "" -> getMethods config = defaultMethods) /\
  (Methods config <> "" ->
   forall m, m ∈ getMethods config <->
     m <> "" /\ exists piece, piece ∈ Split (Methods config) "," /\
                              m = TrimSpace (ToUpper piece)) /\
  Forall (fun m => m <> "" /\ TrimSpace m = m /\ ToUpper m = m /\
                   contains_byte "," m = false) (getMethods config).
Proof.
  split; [unfold getMethods; by intros ->|].
  split; [intros Hm m; by apply getMethods_elem|].
  apply Forall_forall. intros m Hm.
  split; [|by apply (getMethods_normal config)].
  destruct (String.eqb_spec (Methods config) "") as [He|Hne].
  - unfold getMethods in Hm. rewrite He in Hm. simpl in Hm.
    unfold defaultMethods in Hm. rewrite !elem_of_cons, elem_of_nil in Hm.
    by destruct Hm as [->|[->|[->|[->|[]]]]].
  - by apply getMethods_elem in Hm as [? _].
Qed.

(** ** Examples *)

Lemma getPaths_example :
  getPaths cfg_list w_paths_file = Ok ["/solo"; "/users/1"; "/admin"] w_paths_file.
Proof. by vm_compute. Qed.

Lemma getMethods_example :
  getMethods cfg_list = ["GET"; "POST"; "DELETE"] /\
  getMethods (mkConfig "demo" "" "" "/a" " , ," false "" false 1 false) = [].
Proof. by vm_compute. Qed.

Lemma getPaths_reads_file_witness :
  getPaths cfg_list w_paths_file =
    Ok (["/solo"] ++ path_lines paths_txt) w_paths_file.
Proof.
  exact (proj1 (getPaths_reads_file cfg_list w_paths_file paths_txt
    ltac:(done) ltac:(by vm_compute))).
Defined.

Lemma getPaths_unreadable_witness :
  exists w', getPaths cfg_list w_empty = Exit 1 w' /\
    w_stdout w' = w_stdout w_empty ++
      ["Error reading paths file: open " +:+ PathList cfg_list +:+
       ": no such file or directory" +:+ String lf ""] /\
    w_files w' = w_files w_empty.
Proof.
  exact (getPaths_unreadable cfg_list w_empty ltac:(done) ltac:(by vm_compute)).
Defined.

Lemma getMethods_spec_witness :
  "POST" ∈ getMethods cfg_list <->
    "POST" <> "" /\ exists piece, piece ∈ Split (Methods cfg_list) "," /\
                                  "POST" = TrimSpace (ToUpper piece).
Proof.
  exact (proj1 (proj2 (getMethods_spec cfg_list)) ltac:(done) "POST").
Defined.
