(* ===== verification/Probe.v ===== *)
(** * Probe: the probe executor of src/main.go

    [buildURL], [getStatusColor] and [testEndpoint].  The HTTP client is
    an oracle: a probe is given a [ProbeEnv], the clock reading that
    becomes its time stamp and the [HttpOutcome] of the request.
    [classify] is the classification rule of the specification, which
    the status switch of [testEndpoint] ([statusOf]) is proved to
    implement, and [testEndpoint_spec] the contract of section 4.2,
    written from its text.

    [Panics v] is a panic raised before any [return result] has run
    (inside [client.Do], the first call into code of a library), with
    the string [v] as its value.  A panic raised later, by the
    deferred [resp.Body.Close] after a [return], would leave the
    filled result in the result slot; that case is not modelled. *)

From Stdlib Require Import ZArith Lia String Ascii.
From stdpp Require Import base tactics option list numbers strings.
From S2P Require Import Prelude Types.

(** ** The environment of one probe *)

(** What [io.ReadAll(resp.Body)] gives. *)
Inductive BodyRead : Type :=
| BodyOk (body : string)
| BodyErr (err : string).

(** What the HTTP client does with one request.  [Panics v] is a panic
    raised inside [client.Do], the first call after [result] is
    initialised that runs third-party code. *)
Inductive HttpOutcome : Type :=
| NewRequestFails (err : string)
| DoFails (err : string)
| Responds (code : Z) (body : BodyRead)
| Panics (v : string).

Record ProbeEnv : Type := mkProbeEnv {
  pe_now : string;        (* time.Now().Format(time.RFC3339) *)
  pe_http : HttpOutcome
}.

#[export] Instance BodyRead_eq_dec : EqDecision BodyRead.
Proof. solve_decision. Defined.
#[export] Instance HttpOutcome_eq_dec : EqDecision HttpOutcome.
Proof. solve_decision. Defined.

Definition is_panic (o : HttpOutcome) : bool :=
  match o with Panics _ => true | _ => false end.

(** ** The specification's classification *)

Inductive StatusClass : Type :=
| SUCCESS | FORBIDDEN | UNAUTHORIZED | NOT_FOUND | ERROR.

#[export] Instance StatusClass_eq_dec : EqDecision StatusClass.
Proof. solve_decision. Defined.

Definition class_name (c : StatusClass) : string :=
  match c with
  | SUCCESS => "SUCCESS"
  | FORBIDDEN => "FORBIDDEN"
  | UNAUTHORIZED => "UNAUTHORIZED"
  | NOT_FOUND => "NOT_FOUND"
  | ERROR => "ERROR"
  end.

(** The rule of the specification, in its priority order. *)
Definition classify (code : Z) : StatusClass :=
  if decide (200 <= code <= 299) then SUCCESS
  else if decide (code = 403) then FORBIDDEN
  else if decide (code = 401) then UNAUTHORIZED
  else if decide (code = 404) then NOT_FOUND
  else ERROR.

Definition class_color (c : StatusClass) : string :=
  match c with
  | SUCCESS => colorGreen
  | FORBIDDEN | UNAUTHORIZED => colorYellow
  | NOT_FOUND => colorCyan
  | ERROR => colorRed
  end.

(** ** The code *)

Definition buildURL (config : Config) (path : string) : string :=
  if negb (String.eqb (CustomURL config) "") then CustomURL config +:+ path
  else
    let baseURL := sprintf_s defaultBaseURL (ProjectID config) in
    baseURL +:+ path.

Definition getStatusColor (statusCode : Z) : string :=
  if 200 <=? statusCode <? 300 then colorGreen
  else if statusCode =? 403 then colorYellow
  else if statusCode =? 401 then colorYellow
  else if statusCode =? 404 then colorCyan
  else colorRed.

(** The status switch at the end of [testEndpoint]. *)
Definition statusOf (code : Z) : string :=
  if 200 <=? code <? 300 then "SUCCESS"
  else if code =? 403 then "FORBIDDEN"
  else if code =? 401 then "UNAUTHORIZED"
  else if code =? 404 then "NOT_FOUND"
  else "ERROR".

(** The deferred function of [testEndpoint], run when a panic [v]
    unwinds: it assigns to the local variable [result]. *)
Definition recover_handler (v : string) (result : TestResult) : TestResult :=
  set_Body ("Panic: " +:+ v) (set_StatusCode 0 (set_Status "ERROR" result)).

(** The statements after the response is received. *)
Definition read_response (code : Z) (body : BodyRead) (result : TestResult)
  : TestResult :=
  let result := set_StatusCode code result in
  let result :=
    match body with
    | BodyErr _ =>
        set_BodyLength 0 (set_Body "Failed to read response body" result)
    | BodyOk b =>
        set_BodyLength (Z.of_nat (String.length b)) (set_Body b result)
    end in
  set_Status (statusOf code) result.

(** [testEndpoint_frame] runs the function and gives the final value of
    its local variable [result] and the value the caller receives.  The
    result of [testEndpoint] is unnamed: a [return result] copies the
    local into the result slot, and when a panic is recovered no
    [return] has run, so the slot still holds the zero value. *)
Definition testEndpoint_frame (env : ProbeEnv) (url path method : string)
  : TestResult * TestResult :=
  let result := mkTestResult (pe_now env) url path method 0 "" 0 "" in
  match pe_http env with
  | NewRequestFails err =>
      let result := set_Body err (set_Status "ERROR" result) in
      (result, result)
  | DoFails err =>
      let result := set_Body err (set_Status "ERROR" result) in
      (result, result)
  | Responds code body =>
      let result := read_response code body result in
      (result, result)
  | Panics v => (recover_handler v result, zeroTestResult)
  end.

Definition testEndpoint (env : ProbeEnv) (url path method : string)
  : TestResult :=
  snd (testEndpoint_frame env url path method).

(** ** The contract of the probe executor

    Section 4.2 of the specification, written from its text and not
    from the code.  Exactly one result per call, for the job of the
    call.  A transport error, a timeout or an internal fault is
    converted into a result with code 0 and a diagnostic in the body;
    the length is that of the body actually read, and a body that
    cannot be read gives length 0 and a fixed diagnostic in place of
    the failure detail.  The status is the class of the code in every
    case, a code of 0 included. *)

(** The status code of an outcome: the code received, 0 without a
    response. *)
Definition spec_code (o : HttpOutcome) : Z :=
  match o with
  | Responds code _ => code
  | NewRequestFails _ | DoFails _ | Panics _ => 0
  end.

(** The body of the result, and the length that goes with it. *)
Definition spec_body (o : HttpOutcome) : string :=
  match o with
  | Responds _ (BodyOk body) => body
  | Responds _ (BodyErr _) => "Failed to read response body"
  | NewRequestFails err | DoFails err => err
  | Panics v => "Panic: " +:+ v
  end.

Definition spec_length (o : HttpOutcome) : Z :=
  match o with
  | Responds _ (BodyOk body) => Z.of_nat (String.length body)
  | _ => 0
  end.

Definition testEndpoint_spec (env : ProbeEnv) (url path method : string)
  : TestResult :=
  let o := pe_http env in
  mkTestResult (pe_now env) url path method (spec_code o)
    (class_name (classify (spec_code o))) (spec_length o) (spec_body o).

(** A result is well formed when its status is the class of its code
    and its length is not negative. *)
Definition wf_result (r : TestResult) : Prop :=
  Status r = statusOf (StatusCode r) /\ 0 <= BodyLength r.

(** Environments used as concrete inputs below. *)
Definition env_refused : ProbeEnv :=
  mkProbeEnv "2024-01-01T00:00:00Z" (DoFails "dial tcp: connection refused").
Definition env_ok : ProbeEnv :=
  mkProbeEnv "2024-01-01T00:00:00Z" (Responds 200 (BodyOk "{}")).
Definition env_unreadable : ProbeEnv :=
  mkProbeEnv "2024-01-01T00:00:00Z" (Responds 403 (BodyErr "unexpected EOF")).
Definition env_badreq : ProbeEnv :=
  mkProbeEnv "2024-01-01T00:00:00Z" (NewRequestFails "net/http: invalid method").
Definition env_panic : ProbeEnv :=
  mkProbeEnv "2024-01-01T00:00:00Z" (Panics "nil pointer dereference").

(** ** Classification *)

Lemma class_name_inj : Inj (=) (=) class_name.
Proof. intros [] [] H; by try discriminate. Qed.

(** The status switch of [testEndpoint] implements the
    specification's classification rule: for every status code the
    status string is the name of the code's class. *)
Theorem statusOf_classify (code : Z) :
  statusOf code = class_name (classify code).
Proof.
  unfold statusOf, classify.
  repeat case_decide; repeat case_cond; bool_lia; reflexivity.
Qed.

(** The classification is exact: SUCCESS is the codes 200 to 299
    and nothing else, FORBIDDEN is 403, UNAUTHORIZED is 401, NOT_FOUND
    is 404, and every other code (0 and negative codes included) is
    ERROR. *)
Theorem statusOf_exact (code : Z) :
  (statusOf code = "SUCCESS" <-> 200 <= code <= 299) /\
  (statusOf code = "FORBIDDEN" <-> code = 403) /\
  (statusOf code = "UNAUTHORIZED" <-> code = 401) /\
  (statusOf code = "NOT_FOUND" <-> code = 404) /\
  (statusOf code = "ERROR" <->
     ~ 200 <= code <= 299 /\ code <> 403 /\ code <> 401 /\ code <> 404).
Proof.
  unfold statusOf.
  repeat case_cond; bool_to_prop; repeat split; intros; try discriminate;
    try lia; done.
Qed.

(** The boundary cases the specification lists: 199 and 300 are
    ERROR, 200 and 299 are SUCCESS, 401, 403 and 404 have their own
    class, 500 is ERROR. *)
Theorem statusOf_boundaries :
  statusOf 199 = "ERROR" /\ statusOf 200 = "SUCCESS" /\
  statusOf 299 = "SUCCESS" /\ statusOf 300 = "ERROR" /\
  statusOf 401 = "UNAUTHORIZED" /\ statusOf 403 = "FORBIDDEN" /\
  statusOf 404 = "NOT_FOUND" /\ statusOf 500 = "ERROR" /\ statusOf 0 = "ERROR".
Proof. by vm_compute. Qed.

(** The colour of a status code depends on its class only: green
    for SUCCESS, yellow for FORBIDDEN and UNAUTHORIZED, cyan for
    NOT_FOUND, red for ERROR. *)
Theorem getStatusColor_class (code : Z) :
  getStatusColor code = class_color (classify code).
Proof.
  unfold getStatusColor, classify.
  repeat case_decide; repeat case_cond; bool_lia; reflexivity.
Qed.

(** ** URL construction *)

(** A custom base URL, when given, replaces the Firestore URL of
    the project; in both cases the path is appended unchanged. *)
Theorem buildURL_cases (config : Config) (path : string) :
  buildURL config path =
    (if decide (CustomURL config = "") then
       "https://firestore.googleapis.com/v1/projects/" +:+ ProjectID config
         +:+ "/databases/(default)/documents"
     else CustomURL config) +:+ path.
Proof.
  unfold buildURL. case_decide as E.
  - by rewrite E.
  - apply String.eqb_neq in E. by rewrite E.
Qed.

(** ** The probe *)

Section Probe.
Context (env : ProbeEnv) (url path method : string).

(** The two facts about the probe that the dispatcher builds on. *)
Lemma testEndpoint_names_job :
  is_panic (pe_http env) = false ->
  Path (testEndpoint env url path method) = path /\
  Method (testEndpoint env url path method) = method.
Proof.
  unfold testEndpoint, testEndpoint_frame.
  by destruct (pe_http env) as [| |code [b|e]|].
Qed.

Lemma testEndpoint_recovered v :
  pe_http env = Panics v -> testEndpoint env url path method = zeroTestResult.
Proof. unfold testEndpoint, testEndpoint_frame. by intros ->. Qed.

(** C30 The probe on every outcome that is not a panic.  A request
    that cannot be built and a transport failure ([client.Do] returns
    an error: unreachable host, timeout) give a result with status
    ERROR, status code 0, length 0 and the error text as its body.  A
    response whose body is read gives the received code, the class of
    that code, the body and its length in bytes.  A response whose
    body cannot be read keeps its code and class; the length is 0 and
    the body is the fixed diagnostic, not the read error.  In every
    case the result is for the job the probe was asked to run. *)
Theorem testEndpoint_branches :
  (forall err, pe_http env = NewRequestFails err ->
     testEndpoint env url path method =
       mkTestResult (pe_now env) url path method 0 "ERROR" 0 err) /\
  (forall err, pe_http env = DoFails err ->
     testEndpoint env url path method =
       mkTestResult (pe_now env) url path method 0 "ERROR" 0 err) /\
  (forall code body, pe_http env = Responds code (BodyOk body) ->
     testEndpoint env url path method =
       mkTestResult (pe_now env) url path method code (statusOf code)
         (Z.of_nat (String.length body)) body) /\
  (forall code err, pe_http env = Responds code (BodyErr err) ->
     testEndpoint env url path method =
       mkTestResult (pe_now env) url path method code (statusOf code)
         0 "Failed to read response body").
Proof.
  unfold testEndpoint, testEndpoint_frame.
  repeat split; intros; by destruct (pe_http env); simplify_eq/=.
Qed.

(** C4 When the probe panics the caller receives the zero result: the
    recover handler writes ERROR and the diagnostic into the local
    variable, but the function's result is unnamed, so the status of
    the returned value is empty and the job's path and method are
    lost.  The specification asks for the handler's value. *)
Theorem testEndpoint_panic_zero (v : string) :
  pe_http env = Panics v ->
  testEndpoint env url path method = zeroTestResult /\
  testEndpoint_spec env url path method =
    mkTestResult (pe_now env) url path method 0 "ERROR" 0 ("Panic: " +:+ v) /\
  Status (testEndpoint env url path method) <> "ERROR".
Proof.
  unfold testEndpoint, testEndpoint_spec, testEndpoint_frame.
  by intros ->.
Qed.

(** The local variable of [testEndpoint] ends as the contract asks on
    every outcome, a panic included: what the handler builds is the
    result of the contract. *)
Lemma testEndpoint_frame_spec :
  fst (testEndpoint_frame env url path method) =
  testEndpoint_spec env url path method.
Proof.
  unfold testEndpoint_spec, testEndpoint_frame, read_response.
  destruct (pe_http env) as [| |code [b|e]|]; simpl;
    by rewrite ?statusOf_classify.
Qed.

(** C35 Unless it panics, the probe returns what the contract of the
    specification asks for: the code received (0 without a response),
    the class of that code under the classification rule, the body
    read and its length, or the diagnostic; and the contract is met
    exactly then, because after a panic the caller receives a result
    without a status. *)
Theorem testEndpoint_refines_spec :
  testEndpoint env url path method = testEndpoint_spec env url path method
  <-> is_panic (pe_http env) = false.
Proof.
  unfold testEndpoint. rewrite <- testEndpoint_frame_spec.
  unfold testEndpoint_frame.
  destruct (pe_http env) as [| |code [b|e]|]; simpl; split; done.
Qed.

(** C36 Unless it panics, the probe's result names the job it was
    given (URL, path, method and time stamp are those of the call) and
    is well formed: its status is the class of its code and its length
    is not negative. *)
Theorem testEndpoint_wf :
  is_panic (pe_http env) = false ->
  let r := testEndpoint env url path method in
  Timestamp r = pe_now env /\ URL r = url /\ Path r = path /\
  Method r = method /\ wf_result r.
Proof.
  unfold testEndpoint, testEndpoint_frame, wf_result.
  destruct (pe_http env) as [| |code [b|e]|]; intros; simplify_eq/=;
    repeat split; lia.
Qed.

(** The specification's probe is well formed on every outcome. *)
Lemma testEndpoint_spec_wf :
  let r := testEndpoint_spec env url path method in
  Path r = path /\ Method r = method /\ wf_result r.
Proof.
  unfold testEndpoint_spec, wf_result. simpl.
  rewrite statusOf_classify. repeat split.
  destruct (pe_http env) as [| |code [b|e]|]; simpl; lia.
Qed.

End Probe.

(** ** Witnesses *)

Lemma testEndpoint_branches_witness :
  testEndpoint env_badreq "http://h/a" "/a" "G T" =
    mkTestResult "2024-01-01T00:00:00Z" "http://h/a" "/a" "G T" 0 "ERROR" 0
      "net/http: invalid method" /\
  testEndpoint env_refused "http://h/a" "/a" "GET" =
    mkTestResult "2024-01-01T00:00:00Z" "http://h/a" "/a" "GET" 0 "ERROR" 0
      "dial tcp: connection refused" /\
  testEndpoint env_ok "http://h/a" "/a" "GET" =
    mkTestResult "2024-01-01T00:00:00Z" "http://h/a" "/a" "GET" 200 "SUCCESS"
      2 "{}" /\
  testEndpoint env_unreadable "http://h/a" "/a" "GET" =
    mkTestResult "2024-01-01T00:00:00Z" "http://h/a" "/a" "GET" 403
      "FORBIDDEN" 0 "Failed to read response body".
Proof.
  split; [|split; [|split]].
  - exact (proj1 (testEndpoint_branches env_badreq _ _ _) _ eq_refl).
  - exact (proj1 (proj2 (testEndpoint_branches env_refused _ _ _)) _ eq_refl).
  - exact (proj1 (proj2 (proj2 (testEndpoint_branches env_ok _ _ _)))
             200 "{}" eq_refl).
  - exact (proj2 (proj2 (proj2 (testEndpoint_branches env_unreadable _ _ _)))
             403 "unexpected EOF" eq_refl).
Defined.

Lemma testEndpoint_panic_zero_witness :
  testEndpoint env_panic "http://h/a" "/a" "GET" = zeroTestResult /\
  Status (testEndpoint env_panic "http://h/a" "/a" "GET") <> "ERROR".
Proof.
  destruct (testEndpoint_panic_zero env_panic "http://h/a" "/a" "GET"
              "nil pointer dereference" eq_refl) as (H1 & _ & H3).
  exact (conj H1 H3).
Defined.

Lemma testEndpoint_refines_spec_witness :
  testEndpoint env_ok "http://h/a" "/a" "GET" =
  testEndpoint_spec env_ok "http://h/a" "/a" "GET".
Proof.
  exact (proj2 (testEndpoint_refines_spec env_ok "http://h/a" "/a" "GET")
           eq_refl).
Defined.

Lemma testEndpoint_wf_witness :
  Path (testEndpoint env_unreadable "http://h/a" "/a" "GET") = "/a" /\
  wf_result (testEndpoint env_unreadable "http://h/a" "/a" "GET").
Proof.
  destruct (testEndpoint_wf env_unreadable "http://h/a" "/a" "GET" eq_refl)
    as (_ & _ & H3 & _ & H5).
  exact (conj H3 H5).
Defined.
