(* ===== verification/Dispatcher.v ===== *)
(** * Dispatcher: the bounded dispatcher [runTests] of src/main.go

    [runTests] starts one goroutine per (path, method), in the order of
    its two nested loops.  Each goroutine sends on a channel of
    capacity [config.Threads] (the admission gate), probes, appends its
    result to a slice under a mutex, prints a progress line, and on
    exit receives from the channel and calls [wg.Done] (its two
    deferred calls, run last registered first).  The main thread
    returns the slice when [wg.Wait] lets it through.

    The model is an interleaving semantics.  A goroutine is a program
    counter ([GState]); [gstep] runs one statement of one goroutine
    against the shared variables ([Shared]) and returns [None] when the
    statement cannot run (a send on a full channel, a lock that is
    held).  The append [results = append(results, result)] is two
    steps, the read of the shared slice and the write of the longer
    one: two goroutines that read the same slice would lose a result,
    and it is the mutex that keeps the slice a goroutine has read
    equal to the shared one until it writes ([seen_ok] in the
    invariant).  [mstep] is a step of the main thread, [dstep] a step
    of the system under a label.  The network is the oracle [net]:
    goroutine number [i] (in spawn order) probes in environment
    [net i], so the answer to a request does not depend on the
    requests made before it.

    The theorems are about every interleaving: they are proved for
    every reachable state, or for every scheduling oracle [choose].
    The references are sequential: [runTests_spec] is the probe of
    every job in job order and [progress_spec] the progress line of
    every job in job order; what [runTests] returns and prints is a
    permutation of them. *)

From Stdlib Require Import ZArith Lia String Ascii.
From stdpp Require Import base tactics option list numbers strings.
From S2P Require Import Prelude GoStrings Types Probe.

(** ** Jobs *)

(** The arguments [(p, m)] a goroutine is started with. *)
Record Job : Type := mkJob { job_path : string; job_method : string }.

#[export] Instance Job_eq_dec : EqDecision Job.
Proof. solve_decision. Defined.

(** The iteration order of the nested loops: paths outside, methods
    inside. *)
Definition enumerate (paths methods : list string) : list Job :=
  paths ≫= (fun p => mkJob p <$> methods).

(** ** State *)

(** Where a goroutine stands: before the statement named. *)
Inductive GState : Type :=
| GStart                          (* semaphore <- struct{}{} *)
| GAcquired                       (* buildURL, testEndpoint *)
| GProbed (result : TestResult)   (* mutex.Lock() *)
| GLocked (result : TestResult)   (* append(results, result): reads results *)
| GRead (result : TestResult) (seen : list TestResult)
                                  (* results = ...: writes the new slice *)
| GAppended (result : TestResult) (* mutex.Unlock() *)
| GUnlocked (result : TestResult) (* the progress line *)
| GPrinted                        (* deferred: <-semaphore *)
| GReleased                       (* deferred: wg.Done() *)
| GDone.

Record Goroutine : Type := mkGoroutine {
  g_id : nat;        (* position in spawn order *)
  g_job : Job;       (* the arguments p, m *)
  g_pc : GState
}.

(** The variables the goroutines share. *)
Record Shared : Type := mkShared {
  sem : nat;                      (* len(semaphore) *)
  mutex : bool;                   (* mutex is held *)
  results : list TestResult;
  wg : Z;                         (* the wait group's counter *)
  console : list string           (* lines written to standard output *)
}.

(** The main thread: in its loops with the jobs still to start, or
    returned. *)
Inductive MainPC : Type :=
| MLoop (rest : list Job)
| MReturned (results : list TestResult).

Record DState : Type := mkDState {
  d_main : MainPC;
  d_pool : list Goroutine;
  d_shared : Shared
}.

Inductive Label : Type :=
| LMain
| LGo (i : nat).

#[export] Instance GState_eq_dec : EqDecision GState.
Proof. solve_decision. Defined.
#[export] Instance Label_eq_dec : EqDecision Label.
Proof. solve_decision. Defined.

(** What [runTests] does as a whole. *)
Inductive Outcome : Type :=
| Returns (results : list TestResult) (out : list string)
| Deadlock          (* all goroutines are asleep *)
| MakeChanPanic.    (* make(chan struct{}, n) with n < 0 *)

Definition newline : string := String "010" EmptyString.

(** The line a goroutine prints for its result (the two [Printf]). *)
Definition progress_line (p m : string) (result : TestResult) : string :=
  let color := getStatusColor (StatusCode result) in
  if 200 <=? StatusCode result <? 300 then
    "[" +:+ m +:+ "] " +:+ p +:+ " -> " +:+ color +:+
    Itoa (StatusCode result) +:+ " " +:+ Status result +:+
    " (length: " +:+ Itoa (BodyLength result) +:+ " bytes)" +:+
    colorReset +:+ newline
  else
    "[" +:+ m +:+ "] " +:+ p +:+ " -> " +:+ color +:+
    Itoa (StatusCode result) +:+ " " +:+ Status result +:+
    colorReset +:+ newline.

Definition with_pc (pc : GState) (g : Goroutine) : Goroutine :=
  mkGoroutine (g_id g) (g_job g) pc.

(** The job a result claims to be for. *)
Definition job_of (r : TestResult) : Job := mkJob (Path r) (Method r).

(** Concrete inputs for the examples at the end of the file: two
    paths, two methods, a network in which the second probe is refused
    and the fourth panics. *)
Definition w_config (threads : Z) : Config :=
  mkConfig "demo" "" "" "" "" false "" false threads false.
Definition w_paths : list string := ["/a"; "/b"].
Definition w_methods : list string := ["GET"; "POST"].
Definition w_net (i : nat) : ProbeEnv :=
  match i with
  | 0%nat => env_ok
  | 1%nat => env_refused
  | 2%nat => env_unreadable
  | _ => env_panic
  end.
Definition w_net_ok (i : nat) : ProbeEnv := env_ok.

Section Dispatcher.
Context (config : Config) (net : nat -> ProbeEnv).

(** The capacity of [make(chan struct{}, config.Threads)]. *)
Definition capacity : nat := Z.to_nat (Threads config).

(** The probe goroutine [i] runs for job [j]. *)
Definition probe_job (i : nat) (j : Job) : TestResult :=
  let url := buildURL config (job_path j) in
  testEndpoint (net i) url (job_path j) (job_method j).

Definition probe (g : Goroutine) : TestResult := probe_job (g_id g) (g_job g).

(** ** Steps *)

(** One statement of goroutine [g].  [None]: the statement cannot run
    in this state (it blocks, or it would be a runtime error: unlocking
    a free mutex, a negative wait-group counter).  The append writes
    the slice the goroutine has read with its result added, whatever
    the shared slice holds by then. *)
Definition gstep (g : Goroutine) (sh : Shared) : option (Goroutine * Shared) :=
  match g_pc g with
  | GStart =>
      if (sem sh <? capacity)%nat then
        Some (with_pc GAcquired g,
              mkShared (S (sem sh)) (mutex sh) (results sh) (wg sh) (console sh))
      else None
  | GAcquired => Some (with_pc (GProbed (probe g)) g, sh)
  | GProbed r =>
      if mutex sh then None
      else Some (with_pc (GLocked r) g,
                 mkShared (sem sh) true (results sh) (wg sh) (console sh))
  | GLocked r => Some (with_pc (GRead r (results sh)) g, sh)
  | GRead r seen =>
      Some (with_pc (GAppended r) g,
            mkShared (sem sh) (mutex sh) (seen ++ [r]) (wg sh) (console sh))
  | GAppended r =>
      if mutex sh then
        Some (with_pc (GUnlocked r) g,
              mkShared (sem sh) false (results sh) (wg sh) (console sh))
      else None
  | GUnlocked r =>
      let out :=
        if negb (Silence config) && negb (KeepAnEye config) then
          console sh ++ [progress_line (job_path (g_job g)) (job_method (g_job g)) r]
        else console sh in
      Some (with_pc GPrinted g,
            mkShared (sem sh) (mutex sh) (results sh) (wg sh) out)
  | GPrinted =>
      match sem sh with
      | O => None
      | S n =>
          Some (with_pc GReleased g,
                mkShared n (mutex sh) (results sh) (wg sh) (console sh))
      end
  | GReleased =>
      if 0 <? wg sh then
        Some (with_pc GDone g,
              mkShared (sem sh) (mutex sh) (results sh) (wg sh - 1) (console sh))
      else None
  | GDone => None
  end.

(** One step of the main thread: [wg.Add(1); go func(p, m)] for the
    next job, or [wg.Wait(); return results] after the loops. *)
Definition mstep (s : DState) : option DState :=
  let sh := d_shared s in
  match d_main s with
  | MLoop (j :: rest) =>
      Some (mkDState (MLoop rest)
              (d_pool s ++ [mkGoroutine (length (d_pool s)) j GStart])
              (mkShared (sem sh) (mutex sh) (results sh) (wg sh + 1) (console sh)))
  | MLoop [] =>
      if wg sh =? 0 then Some (mkDState (MReturned (results sh)) (d_pool s) sh)
      else None
  | MReturned _ => None
  end.

Definition dstep (l : Label) (s : DState) : option DState :=
  match l with
  | LMain => mstep s
  | LGo i =>
      g ← d_pool s !! i;
      '(g', sh') ← gstep g (d_shared s);
      Some (mkDState (d_main s) (<[i:=g']> (d_pool s)) sh')
  end.

(** The state after the declarations of [runTests]. *)
Definition dinit (jobs : list Job) : DState :=
  mkDState (MLoop jobs) [] (mkShared 0 false [] 0 []).

(** Running a given sequence of labels. *)
Fixpoint run (ls : list Label) (s : DState) : option DState :=
  match ls with
  | [] => Some s
  | l :: ls' => s' ← dstep l s; run ls' s'
  end.

Inductive reachable (jobs : list Job) : DState -> Prop :=
| reach_init : reachable jobs (dinit jobs)
| reach_step l s s' :
    reachable jobs s -> dstep l s = Some s' -> reachable jobs s'.

(** ** Scheduling *)

(** The labels that can step in [s]. *)
Definition enabled (s : DState) : list Label :=
  filter (fun l => is_Some (dstep l s))
         (LMain :: (LGo <$> seq 0 (length (d_pool s)))).

(** [exec choose fuel k s]: at most [fuel] steps from [s]; at step
    number [k] the scheduler runs the enabled label that [choose k]
    selects; the run ends when nothing is enabled. *)
Fixpoint exec (choose : nat -> nat) (fuel k : nat) (s : DState) : DState :=
  match fuel with
  | O => s
  | S fuel' =>
      let en := enabled s in
      match en !! (choose k mod length en)%nat with
      | Some l =>
          match dstep l s with
          | Some s' => exec choose fuel' (S k) s'
          | None => s
          end
      | None => s
      end
  end.

(** ** Counters and the measure *)

(** The goroutine holds a slot of the channel. *)
Definition holding (g : Goroutine) : nat :=
  match g_pc g with
  | GAcquired | GProbed _ | GLocked _ | GRead _ _ | GAppended _ | GUnlocked _
  | GPrinted => 1
  | _ => 0
  end.

(** The goroutine is inside [testEndpoint]. *)
Definition in_flight (g : Goroutine) : nat :=
  match g_pc g with GAcquired => 1 | _ => 0 end.

(** The goroutine holds the mutex. *)
Definition in_cs (g : Goroutine) : nat :=
  match g_pc g with GLocked _ | GRead _ _ | GAppended _ => 1 | _ => 0 end.

(** The goroutine has not called [wg.Done] yet. *)
Definition live (g : Goroutine) : nat :=
  match g_pc g with GDone => 0 | _ => 1 end.

(** The result the goroutine has appended, if it has. *)
Definition appended (g : Goroutine) : list TestResult :=
  match g_pc g with
  | GStart | GAcquired | GProbed _ | GLocked _ | GRead _ _ => []
  | _ => [probe g]
  end.

(** The line the goroutine prints for its result. *)
Definition line_of (g : Goroutine) : string :=
  progress_line (job_path (g_job g)) (job_method (g_job g)) (probe g).

(** The line the goroutine has printed, if it has. *)
Definition printed (g : Goroutine) : list string :=
  match g_pc g with
  | GPrinted | GReleased | GDone =>
      if negb (Silence config) && negb (KeepAnEye config) then [line_of g]
      else []
  | _ => []
  end.

(** The result a goroutine carries is the one it probed. *)
Definition carried_ok (g : Goroutine) : Prop :=
  match g_pc g with
  | GProbed r | GLocked r | GRead r _ | GAppended r | GUnlocked r => r = probe g
  | _ => True
  end.

(** The slice a goroutine has read for its append is the shared slice
    as it is now. *)
Definition seen_ok (rs : list TestResult) (g : Goroutine) : Prop :=
  match g_pc g with
  | GRead _ seen => seen = rs
  | _ => True
  end.

(** Statements the goroutine has still to run. *)
Definition rank (g : Goroutine) : nat :=
  match g_pc g with
  | GStart => 9 | GAcquired => 8 | GProbed _ => 7 | GLocked _ => 6
  | GRead _ _ => 5 | GAppended _ => 4 | GUnlocked _ => 3 | GPrinted => 2 | GReleased => 1
  | GDone => 0
  end.

Definition main_rank (m : MainPC) : nat :=
  match m with
  | MLoop rest => 10 * length rest + 1
  | MReturned _ => 0
  end.

Definition dmeasure (s : DState) : nat :=
  main_rank (d_main s) + sum_list_with rank (d_pool s).

Definition b2n (b : bool) : nat := if b then 1 else 0.

(** The jobs not yet started. *)
Definition pending (m : MainPC) : list Job :=
  match m with MLoop rest => rest | MReturned _ => [] end.

(** The invariant of the dispatcher, for the job list [jobs]. *)
Record dinv (jobs : list Job) (s : DState) : Prop := mkDinv {
  inv_ids : g_id <$> d_pool s = seq 0 (length (d_pool s));
  inv_jobs : (g_job <$> d_pool s) ++ pending (d_main s) = jobs;
  inv_carried : Forall carried_ok (d_pool s);
  inv_seen : Forall (seen_ok (results (d_shared s))) (d_pool s);
  inv_sem : sem (d_shared s) = sum_list_with holding (d_pool s);
  inv_cap : (sem (d_shared s) <= capacity)%nat;
  inv_mutex : b2n (mutex (d_shared s)) = sum_list_with in_cs (d_pool s);
  inv_wg : wg (d_shared s) = Z.of_nat (sum_list_with live (d_pool s));
  inv_results : results (d_shared s) ≡ₚ d_pool s ≫= appended;
  inv_console : console (d_shared s) ≡ₚ d_pool s ≫= printed;
  inv_returned :
    forall rs, d_main s = MReturned rs ->
      rs = results (d_shared s) /\ wg (d_shared s) = 0
}.

(** ** The function and its reference *)

(** The line goroutine [i] prints for job [j]. *)
Definition job_line (i : nat) (j : Job) : string :=
  progress_line (job_path j) (job_method j) (probe_job i j).

(** The lines of a batch in job order; none when the batch is quiet. *)
Definition progress_spec (paths methods : list string) : list string :=
  if negb (Silence config) && negb (KeepAnEye config) then
    imap job_line (enumerate paths methods)
  else [].

(** The sequential reference: one probe per job, in job order. *)
Definition runTests_spec (paths methods : list string) : list TestResult :=
  imap probe_job (enumerate paths methods).

(** [runTests] under the scheduling oracle [choose]. *)
Definition runTests (choose : nat -> nat) (paths methods : list string)
  : Outcome :=
  if Threads config <? 0 then MakeChanPanic
  else
    let s0 := dinit (enumerate paths methods) in
    let s := exec choose (dmeasure s0) 0 s0 in
    match d_main s with
    | MReturned rs => Returns rs (console (d_shared s))
    | MLoop _ => Deadlock
    end.

(** ** The effect of one goroutine step *)

(** What a step of goroutine [g] changes, counter by counter. *)
Record step_effect (g : Goroutine) (sh : Shared) (g' : Goroutine)
    (sh' : Shared) : Prop := mkEffect {
  eff_id : g_id g' = g_id g;
  eff_job : g_job g' = g_job g;
  eff_carried : carried_ok g';
  eff_seen : seen_ok (results sh') g';
  eff_others : results sh' = results sh \/ in_cs g = 1%nat;
  eff_live : live g = 1%nat;
  eff_rank : rank g = S (rank g');
  eff_sem : (sem sh' + holding g = sem sh + holding g')%nat;
  eff_cap : (sem sh <= capacity -> sem sh' <= capacity)%nat;
  eff_mutex : (b2n (mutex sh') + in_cs g = b2n (mutex sh) + in_cs g')%nat;
  eff_wg : wg sh' + Z.of_nat (live g) = wg sh + Z.of_nat (live g');
  eff_results :
    (appended g' = appended g /\ results sh' = results sh) \/
    (appended g = [] /\ appended g' = [probe g] /\
     results sh' = results sh ++ [probe g]);
  eff_console :
    (printed g' = printed g /\ console sh' = console sh) \/
    (printed g = [] /\ printed g' = [line_of g] /\
     console sh' = console sh ++ [line_of g])
}.

(** A step prints nothing, or it is the [Printf] of the goroutine. *)
Lemma gstep_console g sh g' sh' :
  gstep g sh = Some (g', sh') -> carried_ok g ->
  (printed g' = printed g /\ console sh' = console sh) \/
  (printed g = [] /\ printed g' = [line_of g] /\
   console sh' = console sh ++ [line_of g]).
Proof.
  destruct g as [i j pc], sh as [n m rs w out].
  unfold gstep, carried_ok, printed, line_of, probe.
  destruct pc; simpl; intros Hs Hc; repeat case_cond; simplify_eq/=; auto.
Qed.

Lemma gstep_effect g sh g' sh' :
  gstep g sh = Some (g', sh') -> carried_ok g -> seen_ok (results sh) g ->
  step_effect g sh g' sh'.
Proof.
  intros Hs Hc Hseen. pose proof (gstep_console g sh g' sh' Hs Hc) as Hcon.
  revert Hs Hc Hseen Hcon. destruct g as [i j pc], sh as [n m rs w out].
  unfold gstep, carried_ok, seen_ok, appended, probe.
  destruct pc; simpl; intros Hs Hc Hseen Hcon; repeat case_cond;
    simplify_eq/=; bool_to_prop; constructor; try exact Hcon;
    unfold carried_ok, seen_ok, appended, probe, live, holding, in_cs, rank,
      with_pc;
    simpl; auto; lia.
Qed.

(** ** Preservation *)

Lemma dinv_init jobs : (0 <= Threads config) -> dinv jobs (dinit jobs).
Proof. intros H. constructor; simpl; try done. lia. Qed.

Lemma dinv_mstep jobs s s' : dinv jobs s -> mstep s = Some s' -> dinv jobs s'.
Proof.
  intros [] Hs. unfold mstep in Hs.
  destruct s as [[[|j rest]|rs] pool sh]; simpl in *; try case_cond;
    simplify_eq/=; bool_to_prop.
  - constructor; simpl; auto. by intros ? [= <-].
  - constructor; simpl; rewrite ?fmap_app, ?length_app, ?seq_app,
      ?sum_list_with_app, ?bind_app, ?Forall_app; simpl;
      rewrite ?app_nil_r, <- ?app_assoc; try done; try lia.
    + by rewrite inv_ids0.
    + split; [done|]. by repeat constructor.
    + split; [done|]. by repeat constructor.
Qed.

Lemma dinv_gstep jobs s i g g' sh' :
  dinv jobs s -> d_pool s !! i = Some g -> gstep g (d_shared s) = Some (g', sh') ->
  dinv jobs (mkDState (d_main s) (<[i:=g']> (d_pool s)) sh').
Proof.
  intros [] Hi Hs.
  assert (carried_ok g) as Hc by (by eapply Forall_lookup_1).
  assert (seen_ok (results (d_shared s)) g) as Hseen
    by (by eapply Forall_lookup_1).
  destruct (gstep_effect _ _ _ _ Hs Hc Hseen).
  pose proof (sum_list_with_insert holding _ _ _ g' Hi).
  pose proof (sum_list_with_insert in_cs _ _ _ g' Hi).
  pose proof (sum_list_with_insert live _ _ _ g' Hi).
  pose proof (sum_list_with_lookup live _ _ _ Hi).
  constructor; simpl; rewrite ?length_insert, ?list_fmap_insert; try lia.
  - rewrite list_insert_id; [done|]. by rewrite list_lookup_fmap, Hi, eff_id0.
  - rewrite list_insert_id; [done|]. by rewrite list_lookup_fmap, Hi, eff_job0.
  - by apply Forall_insert.
  - apply Forall_insert_others; [|done]. intros k h Hk Hh.
    pose proof (Forall_lookup_1 _ _ _ _ inv_seen0 Hh) as Hsh.
    destruct eff_others0 as [->|Hcs]; [done|].
    pose proof (sum_list_with_two in_cs _ _ _ _ _ Hk Hh Hi).
    destruct h as [? ? []]; try done. unfold in_cs in *. simpl in *.
    destruct (mutex (d_shared s)); simpl in *; lia.
  - destruct eff_results0 as [[Ha ->]|(Ha & Ha' & ->)].
    + by rewrite (bind_insert_same _ _ _ _ _ Hi Ha).
    + by rewrite (bind_insert_cons _ _ _ _ _ _ Hi Ha Ha'), inv_results0.
  - destruct eff_console0 as [[Ha ->]|(Ha & Ha' & ->)].
    + by rewrite (bind_insert_same _ _ _ _ _ Hi Ha).
    + by rewrite (bind_insert_cons _ _ _ _ _ _ Hi Ha Ha'), inv_console0.
  - intros rs Hrs. destruct (inv_returned0 rs Hrs). lia.
Qed.

Lemma dinv_dstep jobs l s s' : dinv jobs s -> dstep l s = Some s' -> dinv jobs s'.
Proof.
  destruct l as [|i]; simpl; [apply dinv_mstep|].
  intros Hinv Hs. destruct (d_pool s !! i) as [g|] eqn:Hi; [|done].
  simpl in Hs. destruct (gstep g (d_shared s)) as [[g' sh']|] eqn:Hg; [|done].
  simplify_eq/=. by eapply dinv_gstep.
Qed.

(** ** Reachable states *)

Section Reachable.
Context (jobs : list Job) (Hthreads : 0 <= Threads config).

Lemma dinv_reachable s : reachable jobs s -> dinv jobs s.
Proof. induction 1; eauto using dinv_init, dinv_dstep. Qed.

(** C2 The admission gate bounds the probes in flight: in every
    reachable state of [runTests] the goroutines inside [testEndpoint]
    are at most as many as the goroutines holding a channel slot, which
    are exactly [len(semaphore)], which is at most [config.Threads]. *)
Theorem bounded_in_flight s :
  reachable jobs s ->
  (sum_list_with in_flight (d_pool s) <= sum_list_with holding (d_pool s))%nat /\
  sum_list_with holding (d_pool s) = sem (d_shared s) /\
  Z.of_nat (sem (d_shared s)) <= Threads config.
Proof.
  intros [] %dinv_reachable. repeat split; [|done|unfold capacity in *; lia].
  apply sum_list_with_mono. intros [? ? []]; cbv; lia.
Qed.

(** C9 Mutual exclusion on the result slice: in every reachable state
    at most one goroutine is between [mutex.Lock] and [mutex.Unlock],
    and the mutex is held exactly when there is one. *)
Theorem mutual_exclusion s i1 i2 g1 g2 :
  reachable jobs s ->
  d_pool s !! i1 = Some g1 -> d_pool s !! i2 = Some g2 ->
  in_cs g1 = 1%nat -> in_cs g2 = 1%nat ->
  i1 = i2 /\ mutex (d_shared s) = true.
Proof.
  intros [] %dinv_reachable H1 H2 Hg1 Hg2.
  destruct (mutex (d_shared s)); simpl in *.
  - split; [|done]. destruct (decide (i1 = i2)) as [|Hne]; [done|].
    pose proof (sum_list_with_two in_cs _ _ _ _ _ Hne H1 H2). lia.
  - pose proof (sum_list_with_lookup in_cs _ _ _ H1). lia.
Qed.

(** The wait-group counter is the number of started goroutines
    that have not called [wg.Done]; it is never negative. *)
Theorem wait_group_counts s :
  reachable jobs s ->
  wg (d_shared s) = Z.of_nat (sum_list_with live (d_pool s)) /\
  0 <= wg (d_shared s).
Proof. intros [] %dinv_reachable. lia. Qed.

(** No result is lost or duplicated on the way: in every reachable
    state the shared slice holds, in some order, exactly the results of
    the goroutines that have executed their append. *)
Theorem results_are_appended s :
  reachable jobs s -> results (d_shared s) ≡ₚ d_pool s ≫= appended.
Proof. by intros [] %dinv_reachable. Qed.

End Reachable.

(** ** Termination measure *)

Lemma gstep_rank g sh g' sh' :
  gstep g sh = Some (g', sh') -> rank g = S (rank g').
Proof.
  destruct g as [i j pc]. unfold gstep.
  destruct pc; simpl; intros; repeat case_cond; by simplify_eq/=.
Qed.

Lemma dstep_dmeasure l s s' : dstep l s = Some s' -> dmeasure s = S (dmeasure s').
Proof.
  unfold dmeasure. destruct l as [|i]; simpl.
  - unfold mstep. destruct s as [[[|j rest]|rs] pool sh]; simpl;
      intros; repeat case_cond; simplify_eq/=.
    + lia.
    + rewrite sum_list_with_app. simpl. lia.
  - intros Hs. destruct (d_pool s !! i) as [g|] eqn:Hi; [|done]. simpl in Hs.
    destruct (gstep g (d_shared s)) as [[g' sh']|] eqn:Hg; [|done].
    simplify_eq/=. apply gstep_rank in Hg.
    pose proof (sum_list_with_insert rank _ _ _ g' Hi). lia.
Qed.

Lemma run_dmeasure ls s s' :
  run ls s = Some s' -> dmeasure s = (length ls + dmeasure s')%nat.
Proof.
  revert s. induction ls as [|l ls IH]; intros s Hr; simplify_eq/=; [done|].
  destruct (dstep l s) as [s1|] eqn:Hs; [|done]. simpl in Hr.
  rewrite (dstep_dmeasure _ _ _ Hs), (IH _ Hr). lia.
Qed.

Lemma run_reachable jobs ls s s' :
  reachable jobs s -> run ls s = Some s' -> reachable jobs s'.
Proof.
  revert s. induction ls as [|l ls IH]; intros s Hs Hr; simplify_eq/=; [done|].
  destruct (dstep l s) as [s1|] eqn:E; [|done]. eauto using reachable.
Qed.

Lemma dmeasure_dinit jobs : dmeasure (dinit jobs) = (10 * length jobs + 1)%nat.
Proof. unfold dmeasure. simpl. lia. Qed.

(** Every execution of [runTests] is finite: each step of the main
    thread or of a goroutine lowers the measure by one, so a sequence
    of steps from the initial state has at most [10 * n + 1] steps for
    [n] jobs, whatever the interleaving. *)
Theorem executions_are_bounded jobs ls s :
  run ls (dinit jobs) = Some s ->
  (length ls + dmeasure s = 10 * length jobs + 1)%nat.
Proof. intros Hr %run_dmeasure. rewrite dmeasure_dinit in Hr. lia. Qed.

(** ** Progress *)

(** Why a goroutine cannot step. *)
Lemma gstep_None g sh :
  gstep g sh = None ->
  g_pc g = GDone \/
  (g_pc g = GStart /\ (capacity <= sem sh)%nat) \/
  (exists r, g_pc g = GProbed r /\ mutex sh = true) \/
  (exists r, g_pc g = GAppended r /\ mutex sh = false) \/
  (g_pc g = GPrinted /\ sem sh = 0%nat) \/
  (g_pc g = GReleased /\ wg sh <= 0).
Proof.
  destruct g as [i j pc]. unfold gstep.
  destruct pc; simpl; intros; repeat case_cond; simplify_eq/=; bool_to_prop;
    eauto 10.
Qed.

Definition all_blocked (s : DState) : Prop :=
  Forall (fun g => gstep g (d_shared s) = None) (d_pool s).

Section Progress.
Context (jobs : list Job) (s : DState) (Hinv : dinv jobs s).

(** Under the invariant a goroutine that cannot step has finished, or
    waits for a channel slot, or waits for the mutex. *)
Lemma blocked_shape g :
  g ∈ d_pool s -> gstep g (d_shared s) = None ->
  g_pc g = GDone \/
  (g_pc g = GStart /\ (capacity <= sem (d_shared s))%nat) \/
  (exists r, g_pc g = GProbed r /\ mutex (d_shared s) = true).
Proof.
  intros Hg Hb. destruct Hinv.
  pose proof (sum_list_with_in _ in_cs _ Hg).
  pose proof (sum_list_with_in _ holding _ Hg).
  pose proof (sum_list_with_in _ live _ Hg).
  destruct (gstep_None _ _ Hb) as [?|[?|[?|[(r & Hpc & Hm)|[[Hpc Hm]|[Hpc Hm]]]]]];
    auto; exfalso; unfold in_cs, holding, live in *; rewrite Hpc in *;
    rewrite ?Hm in *; simpl in *; lia.
Qed.

Lemma blocked_mutex_free : all_blocked s -> mutex (d_shared s) = false.
Proof.
  intros Hb. destruct (mutex (d_shared s)) eqn:Hm; [exfalso|done].
  destruct (sum_list_with_pos in_cs (d_pool s)) as (i & g & Hi & Hcs).
  { rewrite <- (inv_mutex _ _ Hinv), Hm. simpl. lia. }
  apply list_elem_of_lookup_2 in Hi.
  destruct (blocked_shape g Hi) as [Hpc|[[Hpc _]|(r & Hpc & _)]];
    [by eapply Forall_forall in Hb|..];
    unfold in_cs in Hcs; rewrite Hpc in Hcs; lia.
Qed.

Lemma blocked_all_done :
  (1 <= capacity)%nat -> all_blocked s ->
  Forall (fun g => g_pc g = GDone) (d_pool s).
Proof.
  intros Hcap Hb. pose proof (blocked_mutex_free Hb) as Hm.
  assert (Forall (fun g => g_pc g = GDone \/ g_pc g = GStart) (d_pool s)) as Hsh.
  { apply Forall_forall. intros g Hg.
    destruct (blocked_shape g Hg) as [?|[[? _]|(r & _ & ?)]]; auto;
      [by eapply Forall_forall in Hb|congruence]. }
  assert (sem (d_shared s) = 0%nat) as Hsem.
  { rewrite (inv_sem _ _ Hinv). apply sum_list_with_0.
    eapply Forall_impl; [exact Hsh|]. intros g [Hpc|Hpc]; unfold holding;
      by rewrite Hpc. }
  apply Forall_forall. intros g Hg.
  destruct (blocked_shape g Hg) as [?|[[_ ?]|(r & _ & ?)]]; auto;
    [by eapply Forall_forall in Hb|lia|congruence].
Qed.

Lemma progress_dinv :
  (1 <= capacity)%nat ->
  (exists rs, d_main s = MReturned rs) \/ exists l s', dstep l s = Some s'.
Proof.
  intros Hcap. destruct (d_main s) as [[|j rest]|rs] eqn:Hmain; [|right|by eauto].
  2: { exists LMain. simpl. unfold mstep. rewrite Hmain. eauto. }
  right.
  destruct (Forall_Exists_dec _ _
              (fun g => None_or_Some (gstep g (d_shared s))) (d_pool s))
    as [Hb|Hex].
  - exists LMain. simpl. unfold mstep. rewrite Hmain.
    assert (wg (d_shared s) = 0) as ->; [|by eauto].
    rewrite (inv_wg _ _ Hinv).
    cut (sum_list_with live (d_pool s) = 0%nat); [lia|].
    apply sum_list_with_0. eapply Forall_impl; [by apply blocked_all_done|].
    intros g Hpc. unfold live. by rewrite Hpc.
  - apply Exists_exists in Hex as (g & Hg & [[g' sh'] E]).
    apply list_elem_of_lookup_1 in Hg as [i Hi].
    exists (LGo i). simpl. rewrite Hi. simpl. rewrite E. eauto.
Qed.

End Progress.

(** C11 No deadlock with at least one thread: when [config.Threads] is
    1 or more, every reachable state of [runTests] in which the main
    thread has not returned can take a step (some goroutine is not
    blocked, or the main thread can start a goroutine or pass
    [wg.Wait]). *)
Theorem progress jobs s :
  1 <= Threads config -> reachable jobs s ->
  (exists rs, d_main s = MReturned rs) \/ exists l s', dstep l s = Some s'.
Proof.
  intros Ht Hr. eapply progress_dinv; [apply dinv_reachable; [lia|done]|].
  unfold capacity. lia.
Qed.

(** ** Scheduled executions *)

Lemma enabled_spec l s : l ∈ enabled s <-> is_Some (dstep l s).
Proof.
  unfold enabled. rewrite list_elem_of_filter. split; [tauto|].
  intros Hl. split; [done|]. destruct l as [|i]; [left|right].
  apply list_elem_of_fmap. exists i. split; [done|]. apply elem_of_seq.
  destruct Hl as [s' Hs]. simpl in Hs.
  destruct (d_pool s !! i) eqn:Hi; [|done]. apply lookup_lt_Some in Hi. lia.
Qed.

(** What holds of a state and is kept by every step holds at the end
    of a scheduled execution. *)
Lemma exec_preserves (P : DState -> Prop) choose :
  (forall l s s', P s -> dstep l s = Some s' -> P s') ->
  forall fuel k s, P s -> P (exec choose fuel k s).
Proof.
  intros Hstep. induction fuel as [|fuel IH]; intros k s Hs; simpl; [done|].
  repeat case_cond; eauto.
Qed.

Lemma dstep_returned rs l s s' :
  d_main s = MReturned rs -> dstep l s = Some s' -> d_main s' = MReturned rs.
Proof.
  intros Hm. destruct l as [|i]; simpl.
  - unfold mstep. by rewrite Hm.
  - intros Hs. destruct (d_pool s !! i); [|done]. simpl in Hs.
    destruct (gstep _ _) as [[??]|]; by simplify_eq/=.
Qed.

(** With a positive capacity and enough fuel the scheduled execution
    ends with the main thread returned. *)
Lemma exec_returns jobs choose fuel k s :
  dinv jobs s -> (1 <= capacity)%nat -> (dmeasure s <= fuel)%nat ->
  exists rs, d_main (exec choose fuel k s) = MReturned rs.
Proof.
  intros Hinv Hcap. revert k s Hinv.
  induction fuel as [|fuel IH]; intros k s Hinv Hfuel.
  { unfold dmeasure in Hfuel. destruct (d_main s) eqn:E; simpl in *; [lia|eauto]. }
  destruct (progress_dinv jobs s Hinv Hcap) as [[rs Hrs]|(l & s' & Hl)].
  { exists rs. apply (exec_preserves (fun s => d_main s = MReturned rs));
      eauto using dstep_returned. }
  assert (l ∈ enabled s) as Hen by (apply enabled_spec; eauto).
  assert (0 < length (enabled s))%nat as Hlen
    by (destruct (enabled s); [by apply elem_of_nil in Hen|simpl; lia]).
  destruct (lookup_lt_is_Some_2 (enabled s) (choose k mod length (enabled s)))
    as [l0 Hl0]; [apply Nat.mod_upper_bound; lia|].
  pose proof (proj1 (enabled_spec l0 s) (list_elem_of_lookup_2 _ _ _ Hl0))
    as [s0 Hs0].
  simpl. rewrite Hl0, Hs0. apply IH; [by eapply dinv_dstep|].
  apply dstep_dmeasure in Hs0. lia.
Qed.

(** ** What is returned *)

Lemma enumerate_length paths methods :
  length (enumerate paths methods) = (length paths * length methods)%nat.
Proof.
  unfold enumerate. induction paths as [|p paths IH]; [done|].
  rewrite bind_cons, length_app, length_fmap, IH. simpl. lia.
Qed.

(** What is computed from the number and the job of each goroutine of
    the pool is computed from the position and the job. *)
Lemma pool_imap {B} (f : nat -> Job -> B) k pool :
  g_id <$> pool = seq k (length pool) ->
  (fun g => f (g_id g) (g_job g)) <$> pool =
  imap (fun i => f (k + i)%nat) (g_job <$> pool).
Proof.
  revert k. induction pool as [|g pool IH]; intros k Hid; [done|].
  simpl in Hid. injection Hid as Hk Hrest.
  rewrite !fmap_cons, imap_cons, (IH (S k) Hrest).
  rewrite Hk, Nat.add_0_r. f_equal.
  apply imap_ext. intros; simpl. f_equal. lia.
Qed.

Lemma pool_probes k pool :
  g_id <$> pool = seq k (length pool) ->
  probe <$> pool = imap (fun i => probe_job (k + i)) (g_job <$> pool).
Proof. apply (pool_imap probe_job). Qed.

(** When the main thread has returned, the invariant gives the slice
    it returned up to order. *)
Lemma returned_dinv jobs s rs :
  dinv jobs s -> d_main s = MReturned rs ->
  rs ≡ₚ imap probe_job jobs /\ Forall (fun g => g_pc g = GDone) (d_pool s).
Proof.
  intros [] Hm. destruct (inv_returned0 rs Hm) as [-> Hwg].
  assert (Forall (fun g => g_pc g = GDone) (d_pool s)) as Hdone.
  { assert (sum_list_with live (d_pool s) = 0%nat) as H0 by lia.
    apply sum_list_with_0 in H0. eapply Forall_impl; [exact H0|].
    intros [? ? []]; by cbv. }
  split; [|done]. rewrite inv_results0.
  rewrite (bind_singleton_Forall appended probe).
  2: { eapply Forall_impl; [exact Hdone|]. intros g Hpc. unfold appended.
       by rewrite Hpc. }
  rewrite Hm in inv_jobs0. simpl in inv_jobs0. rewrite app_nil_r in inv_jobs0.
  by rewrite (pool_probes 0), inv_jobs0.
Qed.

(** C8 Full barrier and exactly one result per job: in any
    interleaving, once [runTests] has returned every goroutine has
    finished, and the returned slice is a permutation of the
    sequential reference (the probe of each enumerated job, once). *)
Theorem returned_is_permutation jobs s rs :
  0 <= Threads config -> reachable jobs s -> d_main s = MReturned rs ->
  rs ≡ₚ imap probe_job jobs /\ length rs = length jobs /\
  Forall (fun g => g_pc g = GDone) (d_pool s).
Proof.
  intros Ht Hr Hm.
  destruct (returned_dinv jobs s rs) as [Hp Hd]; [by apply dinv_reachable|done|].
  repeat split; [done| |done]. by rewrite Hp, length_imap.
Qed.

(** Whenever [runTests] returns, it returns the reference up to
    order. *)
Lemma runTests_returns_spec choose paths methods rs out :
  runTests choose paths methods = Returns rs out ->
  0 <= Threads config /\ rs ≡ₚ runTests_spec paths methods.
Proof.
  unfold runTests, runTests_spec.
  destruct (Z.ltb_spec (Threads config) 0) as [|Ht]; [done|].
  set (jobs := enumerate paths methods).
  set (s := exec choose (dmeasure (dinit jobs)) 0 (dinit jobs)).
  destruct (d_main s) as [|rs'] eqn:Hm; [done|]. intros [= -> _].
  split; [done|]. eapply (returned_dinv jobs s); [|done].
  apply exec_preserves; eauto using dinv_dstep, dinv_init.
Qed.

(** With a positive thread count [runTests] returns, whatever the
    scheduler does. *)
Lemma runTests_returns choose paths methods :
  1 <= Threads config ->
  exists rs out, runTests choose paths methods = Returns rs out.
Proof.
  intros Ht. unfold runTests.
  destruct (Z.ltb_spec (Threads config) 0) as [|_]; [lia|].
  set (jobs := enumerate paths methods).
  destruct (exec_returns jobs choose (dmeasure (dinit jobs)) 0 (dinit jobs))
    as [rs Hrs]; [apply dinv_init; lia|unfold capacity; lia|done|].
  simpl. rewrite Hrs. eauto.
Qed.

Lemma runTests_negative choose paths methods :
  Threads config < 0 -> runTests choose paths methods = MakeChanPanic.
Proof. unfold runTests. intros Ht. by destruct (Z.ltb_spec (Threads config) 0); [|lia]. Qed.

(** In silent mode and in monitoring mode the goroutines print
    nothing. *)
Lemma dstep_quiet l s s' :
  Silence config || KeepAnEye config = true ->
  dstep l s = Some s' -> console (d_shared s') = console (d_shared s).
Proof.
  intros Hq. destruct l as [|i]; simpl.
  - unfold mstep. intros Hs. repeat case_cond; by simplify_eq/=.
  - intros Hs. destruct (d_pool s !! i) as [g|]; [|done]. simpl in Hs.
    destruct (gstep g (d_shared s)) as [[g' sh']|] eqn:Hg; simplify_eq/=.
    unfold gstep in Hg.
    destruct (g_pc g); repeat case_cond; simplify_eq/=; try done.
    by destruct (Silence config), (KeepAnEye config).
Qed.

Lemma runTests_quiet choose paths methods rs out :
  Silence config || KeepAnEye config = true ->
  runTests choose paths methods = Returns rs out -> out = [].
Proof.
  intros Hq. unfold runTests. case_cond; [done|].
  set (s0 := dinit (enumerate paths methods)).
  pose proof (exec_preserves (fun s => console (d_shared s) = []) choose) as He.
  destruct (d_main _); [done|]. intros [= _ <-]. apply He; [|done].
  intros l s s' Hs Hl. by rewrite (dstep_quiet l s s' Hq Hl).
Qed.

(** When the main thread has returned, every goroutine has printed
    its line, unless the batch is quiet. *)
Lemma returned_console jobs s rs :
  dinv jobs s -> d_main s = MReturned rs ->
  console (d_shared s) ≡ₚ
    if negb (Silence config) && negb (KeepAnEye config)
    then imap job_line jobs else [].
Proof.
  intros Hinv Hm. destruct (returned_dinv jobs s rs Hinv Hm) as [_ Hdone].
  destruct Hinv. rewrite inv_console0.
  rewrite Hm in inv_jobs0. simpl in inv_jobs0. rewrite app_nil_r in inv_jobs0.
  destruct (negb (Silence config) && negb (KeepAnEye config)) eqn:Hl.
  - rewrite (bind_singleton_Forall printed line_of).
    + by rewrite <- inv_jobs0, <- (pool_imap job_line 0).
    + eapply Forall_impl; [exact Hdone|]. intros g Hpc.
      unfold printed. by rewrite Hpc, Hl.
  - rewrite bind_nil_Forall; [done|]. eapply Forall_impl; [exact Hdone|].
    intros g Hpc. unfold printed. by rewrite Hpc, Hl.
Qed.

Lemma runTests_console choose paths methods rs out :
  runTests choose paths methods = Returns rs out ->
  out ≡ₚ progress_spec paths methods.
Proof.
  unfold runTests, progress_spec. case_cond; [done|].
  set (jobs := enumerate paths methods).
  set (s := exec choose (dmeasure (dinit jobs)) 0 (dinit jobs)).
  destruct (d_main s) as [|rs'] eqn:Hm; [done|]. intros [= _ <-].
  eapply (returned_console jobs s); [|done].
  apply exec_preserves; eauto using dinv_dstep. apply dinv_init.
  bool_to_prop. lia.
Qed.

(** C1 [runTests] is total and correct for a positive thread count:
    under every scheduling oracle it returns, and what it returns is a
    permutation of the sequential reference [runTests_spec], hence
    [|paths| * |methods|] results. *)
Theorem runTests_total choose paths methods :
  1 <= Threads config ->
  exists rs out,
    runTests choose paths methods = Returns rs out /\
    rs ≡ₚ runTests_spec paths methods /\
    length rs = (length paths * length methods)%nat.
Proof.
  intros Ht. destruct (runTests_returns choose paths methods Ht) as (rs & out & E).
  exists rs, out. destruct (runTests_returns_spec _ _ _ _ _ E) as [_ Hp].
  repeat split; [done..|].
  unfold runTests_spec in Hp. rewrite Hp, length_imap. apply enumerate_length.
Qed.

(** C18 The progress lines of a batch: when neither [-s] nor [-kae]
    is given, a batch that returns has printed exactly one line per
    job, built from the goroutine's own path and method and from the
    result of its probe; the lines appear in the order the goroutines
    reach their [Printf], a permutation of the job order.  A silent
    or monitoring batch prints nothing. *)
Theorem runTests_prints_each_result choose paths methods rs out :
  runTests choose paths methods = Returns rs out ->
  out ≡ₚ progress_spec paths methods /\
  length out =
    if negb (Silence config) && negb (KeepAnEye config) then length rs
    else 0%nat.
Proof.
  intros E. pose proof (runTests_console _ _ _ _ _ E) as Hout.
  apply runTests_returns_spec in E as [_ Hrs]. split; [done|].
  rewrite Hout, Hrs. unfold progress_spec, runTests_spec.
  case_cond; [|done]. by rewrite !length_imap.
Qed.

(** Every enumerated job yields exactly one result that names it,
    provided no probe panics: the (path, method) pairs of the returned
    results are a permutation of the enumerated jobs, duplicates
    included. *)
Theorem one_result_per_job choose paths methods rs out :
  (forall i, is_panic (pe_http (net i)) = false) ->
  runTests choose paths methods = Returns rs out ->
  job_of <$> rs ≡ₚ enumerate paths methods.
Proof.
  intros Hnet [_ ->] %runTests_returns_spec. unfold runTests_spec.
  rewrite fmap_imap, (imap_ext _ (const id)), imap_const;
    [by rewrite list_fmap_id|].
  intros i [p m] _. unfold job_of, probe_job. simpl.
  by destruct (testEndpoint_names_job (net i) (buildURL config p) p m (Hnet i))
    as [-> ->].
Qed.

(** C25 A probe that panics costs the batch a job: if goroutine [i]
    panics inside its probe, the slice [runTests] returns contains the
    zero result (empty path, method and status) in the place of job
    [i]'s result. *)
Theorem panic_loses_job choose paths methods rs out i j v :
  enumerate paths methods !! i = Some j ->
  pe_http (net i) = Panics v ->
  runTests choose paths methods = Returns rs out ->
  zeroTestResult ∈ rs.
Proof.
  intros Hi Hp [_ ->] %runTests_returns_spec. unfold runTests_spec.
  apply list_elem_of_lookup. exists i. rewrite list_lookup_imap, Hi. simpl.
  unfold probe_job. by rewrite (testEndpoint_recovered _ _ _ _ v Hp).
Qed.

(** ** Thread counts below one *)

Lemma dstep_all_start l s s' :
  capacity = 0%nat ->
  Forall (fun g => g_pc g = GStart) (d_pool s) -> dstep l s = Some s' ->
  Forall (fun g => g_pc g = GStart) (d_pool s').
Proof.
  intros Hcap Hall. destruct l as [|i]; simpl.
  - unfold mstep. destruct (d_main s) as [[|j rest]|rs]; intros;
      repeat case_cond; simplify_eq/=; [done|].
    apply Forall_app. split; [done|]. by repeat constructor.
  - intros Hs. destruct (d_pool s !! i) as [g|] eqn:Hi; [|done]. simpl in Hs.
    eapply Forall_lookup_1 in Hall; [|exact Hi].
    unfold gstep in Hs. rewrite Hall, Hcap in Hs. by destruct (sem _).
Qed.

Lemma exec_reachable jobs choose fuel k s :
  reachable jobs s -> reachable jobs (exec choose fuel k s).
Proof. apply exec_preserves. eauto using reachable. Qed.

Lemma zero_capacity_all_start jobs s :
  capacity = 0%nat -> reachable jobs s ->
  Forall (fun g => g_pc g = GStart) (d_pool s).
Proof.
  intros Hcap Hr. induction Hr; [constructor|]. by eapply dstep_all_start.
Qed.

Lemma zero_capacity_blocks jobs s rs :
  Threads config = 0 -> jobs <> [] -> reachable jobs s ->
  d_main s <> MReturned rs.
Proof.
  intros Ht Hjobs Hr Hm.
  assert (capacity = 0%nat) as Hcap by (unfold capacity; by rewrite Ht).
  pose proof (zero_capacity_all_start jobs s Hcap Hr) as Hall.
  destruct (returned_dinv jobs s rs) as [_ Hdone]; [|done|].
  { apply dinv_reachable; [lia|done]. }
  pose proof (inv_jobs _ _ (dinv_reachable jobs ltac:(lia) s Hr)) as Hj.
  rewrite Hm in Hj. simpl in Hj. rewrite app_nil_r in Hj.
  destruct (d_pool s) as [|g pool]; [by subst|].
  apply Forall_cons_1 in Hall as [Hs _]. apply Forall_cons_1 in Hdone as [Hd _].
  congruence.
Qed.

Lemma runTests_deadlock choose paths methods :
  Threads config = 0 -> enumerate paths methods <> [] ->
  runTests choose paths methods = Deadlock.
Proof.
  intros Ht Hjobs. unfold runTests. rewrite Ht. simpl.
  set (jobs := enumerate paths methods) in *.
  destruct (d_main _) as [|rs] eqn:Hm; [done|].
  by eapply zero_capacity_blocks in Hm; [| | |apply exec_reachable; constructor].
Qed.

Lemma runTests_no_jobs choose paths methods :
  0 <= Threads config -> enumerate paths methods = [] ->
  runTests choose paths methods = Returns [] [].
Proof.
  unfold runTests. intros Ht ->. by destruct (Z.ltb_spec (Threads config) 0); [lia|].
Qed.

(** C21 With [config.Threads = 0] the channel is unbuffered and nobody
    receives from it: no goroutine ever passes its send, and if there
    is at least one job the main thread never returns from [wg.Wait],
    in any interleaving. *)
Theorem zero_threads_never_returns jobs s :
  Threads config = 0 -> jobs <> [] -> reachable jobs s ->
  Forall (fun g => g_pc g = GStart) (d_pool s) /\
  forall rs, d_main s <> MReturned rs.
Proof.
  intros Ht Hjobs Hr. split; [|by eauto using zero_capacity_blocks].
  apply (zero_capacity_all_start jobs); [|done]. unfold capacity. by rewrite Ht.
Qed.

(** [runTests] outside its contract: a negative thread count makes
    [make] panic before any probe; a thread count of zero with at
    least one job ends in the runtime's deadlock error under every
    scheduling oracle; with no job it returns the empty slice. *)
Theorem runTests_bad_threads choose paths methods :
  (Threads config < 0 -> runTests choose paths methods = MakeChanPanic) /\
  (Threads config = 0 -> enumerate paths methods <> [] ->
     runTests choose paths methods = Deadlock) /\
  (0 <= Threads config -> enumerate paths methods = [] ->
     runTests choose paths methods = Returns [] []).
Proof.
  split; [|split];
    eauto using runTests_negative, runTests_deadlock, runTests_no_jobs.
Qed.

End Dispatcher.

(** ** Examples *)

Definition w_jobs : list Job := enumerate w_paths w_methods.

(** Two goroutines started, the first holding the mutex, the second
    holding a slot. *)
Definition w_labels : list Label := [LMain; LMain; LGo 0; LGo 1; LGo 0; LGo 0].
Definition w_mid (threads : Z) : DState :=
  default (dinit w_jobs) (run (w_config threads) w_net w_labels (dinit w_jobs)).
(** All four goroutines started with a channel of capacity 0. *)
Definition w_blocked : DState :=
  default (dinit w_jobs)
    (run (w_config 0) w_net (replicate 4 LMain) (dinit w_jobs)).
Definition w_final : DState :=
  exec (w_config 2) w_net (fun k => k) 41 0 (dinit w_jobs).

(** What the mutex is for.  In a state that mutual exclusion rules
    out, two goroutines that have read the same (empty) slice, the
    write of the second drops the result of the first. *)
Example lost_update :
  let r i := probe_job (w_config 2) w_net i (mkJob "/a" "GET") in
  let g i := mkGoroutine i (mkJob "/a" "GET") (GRead (r i) []) in
  (fun s => results (d_shared s)) <$>
    run (w_config 2) w_net [LGo 0; LGo 1]
      (mkDState (MLoop []) [g 0%nat; g 1%nat] (mkShared 2 true [] 2 [])) =
  Some [r 1%nat].
Proof. reflexivity. Qed.

Lemma w_mid_reachable : reachable (w_config 2) w_net w_jobs (w_mid 2).
Proof.
  apply (run_reachable _ _ _ w_labels (dinit w_jobs)); [constructor|].
  by vm_compute.
Qed.

Lemma w_blocked_reachable : reachable (w_config 0) w_net w_jobs w_blocked.
Proof.
  apply (run_reachable _ _ _ (replicate 4 LMain) (dinit w_jobs)); [constructor|].
  by vm_compute.
Qed.

Lemma w_final_reachable : reachable (w_config 2) w_net w_jobs w_final.
Proof. apply exec_reachable. constructor. Qed.

Lemma bounded_in_flight_witness :
  Z.of_nat (sem (d_shared (w_mid 2))) <= 2.
Proof.
  exact (proj2 (proj2 (bounded_in_flight (w_config 2) w_net w_jobs
    ltac:(by vm_compute) (w_mid 2) w_mid_reachable))).
Defined.

Lemma mutual_exclusion_witness : mutex (d_shared (w_mid 2)) = true.
Proof.
  exact (proj2 (mutual_exclusion (w_config 2) w_net w_jobs ltac:(by vm_compute)
    (w_mid 2) 0 0
    (mkGoroutine 0 (mkJob "/a" "GET")
       (GLocked (probe_job (w_config 2) w_net 0 (mkJob "/a" "GET"))))
    _ w_mid_reachable ltac:(by vm_compute) ltac:(by vm_compute) eq_refl eq_refl)).
Defined.

Lemma wait_group_counts_witness : 0 <= wg (d_shared (w_mid 2)).
Proof.
  exact (proj2 (wait_group_counts (w_config 2) w_net w_jobs
    ltac:(by vm_compute) (w_mid 2) w_mid_reachable)).
Defined.

Lemma results_are_appended_witness :
  results (d_shared w_final) ≡ₚ d_pool w_final ≫= appended (w_config 2) w_net.
Proof.
  exact (results_are_appended (w_config 2) w_net w_jobs ltac:(by vm_compute)
    w_final w_final_reachable).
Defined.

Lemma executions_are_bounded_witness :
  (length w_labels + dmeasure (w_mid 2) = 10 * length w_jobs + 1)%nat.
Proof.
  exact (executions_are_bounded (w_config 2) w_net w_jobs w_labels (w_mid 2)
    ltac:(by vm_compute)).
Defined.

Lemma progress_witness :
  (exists rs, d_main (w_mid 2) = MReturned rs) \/
  exists l s', dstep (w_config 2) w_net l (w_mid 2) = Some s'.
Proof.
  exact (progress (w_config 2) w_net w_jobs (w_mid 2) ltac:(by vm_compute)
    w_mid_reachable).
Defined.

Lemma returned_is_permutation_witness :
  length (results (d_shared w_final)) = length w_jobs.
Proof.
  exact (proj1 (proj2 (returned_is_permutation (w_config 2) w_net w_jobs
    w_final (results (d_shared w_final)) ltac:(by vm_compute)
    w_final_reachable ltac:(by vm_compute)))).
Defined.

Lemma runTests_total_witness :
  exists rs out,
    runTests (w_config 2) w_net (fun k => 3 * k)%nat w_paths w_methods
      = Returns rs out /\
    rs ≡ₚ runTests_spec (w_config 2) w_net w_paths w_methods /\
    length rs = (length w_paths * length w_methods)%nat.
Proof.
  exact (runTests_total (w_config 2) w_net (fun k => 3 * k)%nat w_paths
    w_methods ltac:(by vm_compute)).
Defined.

Lemma runTests_prints_each_result_witness :
  exists rs out,
    runTests (w_config 2) w_net (fun k => 3 * k)%nat w_paths w_methods
      = Returns rs out /\
    out ≡ₚ progress_spec (w_config 2) w_net w_paths w_methods /\
    length out = 4%nat.
Proof.
  destruct (runTests (w_config 2) w_net (fun k => 3 * k)%nat w_paths w_methods)
    as [rs out| |] eqn:E; [|by vm_compute in E..].
  exists rs, out. split; [done|].
  destruct (runTests_prints_each_result (w_config 2) w_net (fun k => 3 * k)%nat
    w_paths w_methods rs out E) as [Hp Hl].
  split; [done|]. rewrite Hp. by vm_compute.
Defined.

Lemma one_result_per_job_witness :
  exists rs out,
    runTests (w_config 1) w_net_ok (fun k => k) w_paths w_methods
      = Returns rs out /\
    job_of <$> rs ≡ₚ w_jobs.
Proof.
  destruct (runTests (w_config 1) w_net_ok (fun k => k) w_paths w_methods)
    as [rs out| |] eqn:E; [|by vm_compute in E..].
  exists rs, out. split; [done|].
  exact (one_result_per_job (w_config 1) w_net_ok (fun k => k) w_paths
    w_methods rs out (fun i => eq_refl) E).
Defined.

Lemma panic_loses_job_witness :
  exists rs out,
    runTests (w_config 2) w_net (fun k => k) w_paths w_methods
      = Returns rs out /\
    zeroTestResult ∈ rs.
Proof.
  destruct (runTests (w_config 2) w_net (fun k => k) w_paths w_methods)
    as [rs out| |] eqn:E; [|by vm_compute in E..].
  exists rs, out. split; [done|].
  exact (panic_loses_job (w_config 2) w_net (fun k => k) w_paths w_methods
    rs out 3%nat (mkJob "/b" "POST") "nil pointer dereference"
    eq_refl eq_refl E).
Defined.

Lemma zero_threads_never_returns_witness :
  Forall (fun g => g_pc g = GStart) (d_pool w_blocked) /\
  d_main w_blocked <> MReturned [].
Proof.
  destruct (zero_threads_never_returns (w_config 0) w_net w_jobs w_blocked
    eq_refl ltac:(done) w_blocked_reachable) as [H1 H2].
  exact (conj H1 (H2 [])).
Defined.

Lemma runTests_bad_threads_witness :
  runTests (w_config (-1)) w_net (fun k => k) w_paths w_methods = MakeChanPanic /\
  runTests (w_config 0) w_net (fun k => k) w_paths w_methods = Deadlock /\
  runTests (w_config 0) w_net (fun k => k) [] w_methods = Returns [] [].
Proof.
  destruct (runTests_bad_threads (w_config (-1)) w_net (fun k => k) w_paths
    w_methods) as (H1 & _ & _).
  destruct (runTests_bad_threads (w_config 0) w_net (fun k => k) w_paths
    w_methods) as (_ & H2 & _).
  destruct (runTests_bad_threads (w_config 0) w_net (fun k => k) []
    w_methods) as (_ & _ & H3).
  exact (conj (H1 ltac:(by vm_compute))
    (conj (H2 eq_refl ltac:(done)) (H3 ltac:(by vm_compute) eq_refl))).
Defined.
