(* ===== verification/Completeness.v ===== *)
(** * Completeness: the schedules of [runTests] that exist

    The theorems of [Dispatcher] hold of every interleaving; they bound
    what [runTests] can do.  This file shows that the bounds are met: it
    builds schedules and runs them.  [serial] starts every goroutine and
    then runs them one after the other in a given order, so that every
    permutation of the sequential reference is returned under some
    scheduling oracle ([every_order_is_returned]); [fill] starts every
    goroutine and lets the first [k] through the admission gate, so that
    [config.Threads] probes are in flight at once whenever there are
    that many jobs ([bound_is_reached]).  [scheduler] turns a sequence
    of labels into the scheduling oracle [exec] is driven by. *)

From Stdlib Require Import ZArith Lia String Permutation.
From stdpp Require Import base tactics option list numbers.
From S2P Require Import Prelude Types Probe Dispatcher.

#[local] Open Scope Z_scope.

(** ** Schedules *)

(** The main thread starts its [n] goroutines. *)
Definition spawn_all (n : nat) : list Label := replicate n LMain.

(** Goroutine [i] alone, from its first statement to its last. *)
Definition lap (i : nat) : list Label := replicate 9 (LGo i).

(** Every goroutine started, then one goroutine after the other in the
    order given, then the return of the main thread. *)
Definition serial (n : nat) (order : list nat) : list Label :=
  spawn_all n ++ (order ≫= lap) ++ [LMain].

(** Every goroutine started, then the first [k] of them through the
    admission gate. *)
Definition fill (n k : nat) : list Label := spawn_all n ++ (LGo <$> seq 0 k).

(** The pool in which goroutine [i] runs job number [i] and the first
    [k] goroutines are inside [testEndpoint]. *)
Definition inside (k : nat) (jobs : list Job) : list Goroutine :=
  imap (fun i j =>
          mkGoroutine i j (if bool_decide (i < k)%nat then GAcquired else GStart))
       jobs.

Section Completeness.
Context (config : Config) (net : nat -> ProbeEnv).

Local Notation capacity := (capacity config).
Local Notation probe_job := (probe_job config net).
Local Notation gstep := (gstep config net).
Local Notation dstep := (dstep config net).
Local Notation run := (run config net).
Local Notation reachable := (reachable config net).
Local Notation enabled := (enabled config net).
Local Notation exec := (exec config net).
Local Notation runTests := (runTests config net).
Local Notation runTests_spec := (runTests_spec config net).
Local Notation job_line := (job_line config net).

(** [n] statements of one goroutine. *)
Fixpoint grun (n : nat) (g : Goroutine) (sh : Shared)
  : option (Goroutine * Shared) :=
  match n with
  | O => Some (g, sh)
  | S n' => '(g', sh') ← gstep g sh; grun n' g' sh'
  end.

(** The position of a label among the enabled ones. *)
Definition position (l : Label) (s : DState) : nat :=
  from_option fst 0%nat (list_find (l =.) (enabled s)).

(** The choices that make [exec] follow the labels [ls] from [s]. *)
Fixpoint choices (ls : list Label) (s : DState) : list nat :=
  match ls with
  | [] => []
  | l :: ls' =>
      position l s ::
      match dstep l s with Some s' => choices ls' s' | None => [] end
  end.

Definition scheduler (ls : list Label) (s : DState) (k : nat) : nat :=
  choices ls s !!! k.

(** The slices [runTests] can return: what it returns under some
    scheduling oracle. *)
Definition may_return (paths methods : list string) (rs : list TestResult)
  : Prop :=
  exists choose out, runTests choose paths methods = Returns rs out.

(** The lines a goroutine prints. *)
Definition lines_of (i : nat) (j : Job) : list string :=
  if negb (Silence config) && negb (KeepAnEye config) then [job_line i j]
  else [].

(** ** Running a schedule *)

Lemma run_app ls1 ls2 s : run (ls1 ++ ls2) s = s' ← run ls1 s; run ls2 s'.
Proof.
  revert s. induction ls1 as [|l ls1 IH]; intros s; simpl; [done|].
  destruct (dstep l s); simpl; [apply IH|done].
Qed.

Lemma run_go n i g g' sh sh' m pool :
  pool !! i = Some g -> grun n g sh = Some (g', sh') ->
  run (replicate n (LGo i)) (mkDState m pool sh) =
  Some (mkDState m (<[i:=g']> pool) sh').
Proof.
  revert g sh pool. induction n as [|n IH]; intros g sh pool Hi Hg; simpl in *.
  { simplify_eq. by rewrite list_insert_id. }
  rewrite Hi. simpl. destruct (gstep g sh) as [[g1 sh1]|]; [|done]. simpl in *.
  rewrite (IH g1 sh1 (<[i:=g1]> pool)), ?list_insert_insert_eq; [done| |done].
  apply list_lookup_insert_eq. by eapply lookup_lt_Some.
Qed.

Lemma run_spawn js pool sh :
  run (spawn_all (length js)) (mkDState (MLoop js) pool sh) =
  Some (mkDState (MLoop [])
          (pool ++ imap (fun i j => mkGoroutine (length pool + i) j GStart) js)
          (mkShared (sem sh) (mutex sh) (results sh)
             (wg sh + Z.of_nat (length js)) (console sh))).
Proof.
  revert pool sh. induction js as [|j js IH]; intros pool [se mu rs w out].
  { simpl. by rewrite app_nil_r, Z.add_0_r. }
  cbn [length spawn_all replicate run dstep mstep d_main mbind option_bind].
  fold (spawn_all (length js)). rewrite IH. cbn.
  rewrite <- app_assoc, length_app, Nat.add_0_r. simpl.
  do 2 f_equal; [do 2 f_equal|f_equal; lia].
  apply imap_ext. intros; simpl. f_equal. lia.
Qed.

Lemma run_spawn_init jobs :
  run (spawn_all (length jobs)) (dinit jobs) =
  Some (mkDState (MLoop []) (inside 0 jobs)
          (mkShared 0 false [] (Z.of_nat (length jobs)) [])).
Proof. unfold dinit. by rewrite run_spawn. Qed.

Lemma inside_start k i j jobs :
  jobs !! i = Some j -> (k <= i)%nat ->
  inside k jobs !! i = Some (mkGoroutine i j GStart).
Proof.
  intros Hj Hk. unfold inside.
  by rewrite list_lookup_imap, Hj, bool_decide_eq_false_2 by lia.
Qed.

(** ** One goroutine from start to end *)

Lemma grun_lap i j sh :
  (sem sh < capacity)%nat -> mutex sh = false -> 0 < wg sh ->
  grun 9 (mkGoroutine i j GStart) sh =
  Some (mkGoroutine i j GDone,
        mkShared (sem sh) false (results sh ++ [probe_job i j]) (wg sh - 1)
          (console sh ++ lines_of i j)).
Proof.
  destruct sh as [se mu rs w out]. simpl. intros Hs -> Hw.
  unfold grun, Dispatcher.gstep. simpl.
  destruct (Nat.ltb_spec se capacity); [|lia]. simpl.
  destruct (Z.ltb_spec 0 w); [|lia]. unfold lines_of.
  by destruct (negb (Silence config) && negb (KeepAnEye config));
    rewrite ?app_nil_r.
Qed.

(** Goroutines run one after the other, each from start to end: their
    results and their lines are appended in that order. *)
Lemma run_laps order pool sh m :
  NoDup order.*1 ->
  (forall i j, (i, j) ∈ order -> pool !! i = Some (mkGoroutine i j GStart)) ->
  sem sh = 0%nat -> (1 <= capacity)%nat -> mutex sh = false ->
  Z.of_nat (length order) <= wg sh ->
  exists pool',
    run (order.*1 ≫= lap) (mkDState m pool sh) =
    Some (mkDState m pool'
            (mkShared 0 false
               (results sh ++ ((fun p => probe_job p.1 p.2) <$> order))
               (wg sh - Z.of_nat (length order))
               (console sh ++ (order ≫= fun p => lines_of p.1 p.2)))).
Proof.
  revert pool sh. induction order as [|[i j] order IH];
    intros pool [se mu rs w out] Hnd Hpool Hsem Hcap Hmu Hwg;
    simpl in Hsem, Hmu, Hwg; subst.
  { exists pool. simpl. by rewrite !app_nil_r, Z.sub_0_r. }
  rewrite fmap_cons in Hnd. inversion_clear Hnd as [|? ? Hi Hnd'].
  rewrite fmap_cons, bind_cons, run_app.
  change (lap (i, j).1) with (replicate 9 (LGo i)). erewrite run_go;
    [|apply Hpool; left|apply grun_lap; simpl; [lia|done|lia]]. simpl.
  edestruct (IH (<[i:=mkGoroutine i j GDone]> pool)) as [pool' ->];
    [done| |done..|simpl; lia|].
  { intros i' j' Hin. rewrite list_lookup_insert_ne; [by apply Hpool; right|].
    intros ->. apply Hi, list_elem_of_fmap. by exists (i', j'). }
  exists pool'. simpl. rewrite <- !app_assoc. do 3 f_equal. lia.
Qed.

(** ** From labels to a scheduling oracle *)

Lemma position_spec l s s' :
  dstep l s = Some s' ->
  enabled s !! position l s = Some l /\
  (position l s < length (enabled s))%nat.
Proof.
  intros Hs. assert (l ∈ enabled s) as Hl by (apply enabled_spec; eauto).
  destruct (list_find_elem_of (l =.) (enabled s) l) as [[i x] Hf]; [done..|].
  unfold position. rewrite Hf. simpl.
  apply list_find_Some in Hf as (Hi & -> & _). eauto using lookup_lt_Some.
Qed.

(** An oracle that agrees with [choices] makes [exec] follow the
    labels. *)
Lemma exec_run choose ls s s' k fuel :
  run ls s = Some s' ->
  (forall i, (i < length ls)%nat -> choose (k + i)%nat = choices ls s !!! i) ->
  exec choose (length ls + fuel) k s = exec choose fuel (k + length ls) s'.
Proof.
  revert s k. induction ls as [|l ls IH]; intros s k Hr Hc; simpl in *.
  { simplify_eq. by rewrite Nat.add_0_r. }
  destruct (dstep l s) as [s1|] eqn:Hs; [|done]. simpl in Hr.
  destruct (position_spec l s s1 Hs) as [Hl Hlt].
  pose proof (Hc 0%nat ltac:(lia)) as H0. rewrite Nat.add_0_r in H0. simpl in H0.
  rewrite H0, Nat.mod_small, Hl, Hs by done.
  rewrite (IH s1 (S k) Hr); [f_equal; lia|].
  intros i Hi. specialize (Hc (S i) ltac:(lia)).
  by rewrite Nat.add_succ_r in Hc.
Qed.

(** ** Every order *)

Lemma imap_pair_fst (jobs : list Job) :
  (imap pair jobs).*1 = seq 0 (length jobs).
Proof.
  rewrite fmap_imap, <- (list_fmap_id (seq 0 _)). apply (imap_seq_0 jobs id).
Qed.

Lemma serial_returns jobs order :
  (1 <= capacity)%nat -> order ≡ₚ imap pair jobs ->
  exists s,
    run (serial (length jobs) order.*1) (dinit jobs) = Some s /\
    d_main s = MReturned ((fun p => probe_job p.1 p.2) <$> order).
Proof.
  intros Hcap Hp. unfold serial.
  pose proof (Permutation_length Hp) as Hl. rewrite length_imap in Hl.
  rewrite run_app, run_spawn_init. simpl. rewrite run_app.
  edestruct (run_laps order (inside 0 jobs)) as [pool' ->]; simpl.
  - rewrite Hp, imap_pair_fst. apply NoDup_seq.
  - intros i j Hin. rewrite Hp in Hin.
    apply elem_of_lookup_imap in Hin as (i' & j' & [= -> ->] & Hj).
    apply inside_start; [done|lia].
  - done.
  - done.
  - done.
  - lia.
  - rewrite Hl, Z.sub_diag. simpl. eauto.
Qed.

(** The schedule [serial] as a scheduling oracle of [runTests]. *)
Lemma serial_runTests paths methods order :
  1 <= Threads config -> order ≡ₚ imap pair (enumerate paths methods) ->
  exists out,
    runTests
      (scheduler (serial (length (enumerate paths methods)) order.*1)
         (dinit (enumerate paths methods)))
      paths methods =
    Returns ((fun p => probe_job p.1 p.2) <$> order) out.
Proof.
  intros Ht Hp. set (jobs := enumerate paths methods) in *.
  destruct (serial_returns jobs order) as (s & Hrun & Hm);
    [unfold Dispatcher.capacity; lia|done|].
  unfold Dispatcher.runTests. fold jobs.
  destruct (Z.ltb_spec (Threads config) 0); [lia|].
  rewrite (run_dmeasure _ _ _ _ _ Hrun), (exec_run _ _ _ s) by done.
  rewrite (exec_preserves config net (fun s => d_main s = MReturned _) _
             (dstep_returned config net _) _ _ _ Hm). eauto.
Qed.

(** C12 The order of the results is free, and nothing else is: with a
    positive thread count the slices that [runTests] returns, over all
    scheduling oracles, are exactly the permutations of the sequential
    reference (the probe of each enumerated job, once).  Every
    permutation is returned by the scheduler that starts all goroutines
    and then runs them one after the other in that order, so that no
    caller can rely on the order of a batch. *)
Theorem every_order_is_returned paths methods rs :
  1 <= Threads config ->
  may_return paths methods rs <-> rs ≡ₚ runTests_spec paths methods.
Proof.
  intros Ht. split.
  { intros (choose & out & E). by eapply runTests_returns_spec. }
  unfold Dispatcher.runTests_spec. intros Hp.
  rewrite <- (fmap_imap pair (fun p => probe_job p.1 p.2)) in Hp.
  apply Permutation_map_inv in Hp as (order & -> & Hp).
  destruct (serial_runTests paths methods order Ht (symmetry Hp)) as [out E].
  by eexists _, _.
Qed.

(** ** The bound is reached *)

Lemma inside_in_flight k jobs :
  sum_list_with in_flight (inside k jobs) = (k `min` length jobs)%nat.
Proof.
  unfold inside. induction jobs as [|j jobs IH] using rev_ind; [simpl; lia|].
  rewrite imap_app, sum_list_with_app, IH, length_app. simpl.
  unfold in_flight. simpl. case_bool_decide; simpl; lia.
Qed.

Lemma inside_insert k j jobs :
  jobs !! k = Some j ->
  <[k:=mkGoroutine k j GAcquired]> (inside k jobs) = inside (S k) jobs.
Proof.
  intros Hj. apply list_eq. intros i. unfold inside.
  destruct (decide (i = k)) as [->|Hne].
  - rewrite list_lookup_insert_eq, list_lookup_imap, Hj; simpl.
    + by rewrite bool_decide_eq_true_2 by lia.
    + rewrite length_imap. by eapply lookup_lt_Some.
  - rewrite list_lookup_insert_ne, !list_lookup_imap by done.
    destruct (jobs !! i); simpl; [|done]. do 2 f_equal.
    repeat case_bool_decide; done || lia.
Qed.

Lemma run_fill jobs k w :
  (k <= capacity)%nat -> (k <= length jobs)%nat ->
  run (LGo <$> seq 0 k)
    (mkDState (MLoop []) (inside 0 jobs) (mkShared 0 false [] w [])) =
  Some (mkDState (MLoop []) (inside k jobs) (mkShared k false [] w [])).
Proof.
  induction k as [|k IH]; intros Hcap Hlen; [done|].
  rewrite seq_S, fmap_app, run_app, IH by lia. simpl.
  destruct (lookup_lt_is_Some_2 jobs k) as [j Hj]; [lia|].
  rewrite (inside_start k k j) by done. unfold Dispatcher.gstep. simpl.
  destruct (Nat.ltb_spec k capacity); [|lia]. simpl.
  by rewrite <- (inside_insert k j jobs Hj).
Qed.

(** C22 The admission gate lets in as many probes as it may: for every
    job list there is a reachable state of [runTests] in which the
    goroutines inside [testEndpoint] are [config.Threads], or all of
    them when the jobs are fewer.  The bound of [bounded_in_flight] is
    met, so that a batch does run [config.Threads] probes at once. *)
Theorem bound_is_reached jobs :
  0 <= Threads config ->
  exists s,
    reachable jobs s /\
    run (fill (length jobs) (capacity `min` length jobs)) (dinit jobs) = Some s /\
    Z.of_nat (sum_list_with in_flight (d_pool s)) =
    Threads config `min` Z.of_nat (length jobs).
Proof.
  intros Ht. eexists. split_and!; [eapply run_reachable; [apply reach_init|]| |].
  1,2: unfold fill; rewrite run_app, run_spawn_init; simpl;
    apply run_fill; lia.
  simpl. rewrite inside_in_flight. unfold Dispatcher.capacity. lia.
Qed.

End Completeness.

(** ** Examples *)

(** With one thread the four jobs of the example come back in the
    reverse of the job order when the goroutines run last
    first, and their lines are printed in that order. *)
Example serial_reversed :
  runTests (w_config 1) w_net
    (scheduler (w_config 1) w_net (serial 4 [3; 2; 1; 0]%nat) (dinit w_jobs))
    w_paths w_methods =
  Returns (reverse (runTests_spec (w_config 1) w_net w_paths w_methods))
    (reverse (progress_spec (w_config 1) w_net w_paths w_methods)).
Proof. by vm_compute. Qed.

(** With two threads and four jobs, two probes are in flight after
    [fill 4 2], and the third goroutine cannot pass the gate. *)
Example fill_two :
  (fun s => (sum_list_with in_flight (d_pool s),
             dstep (w_config 2) w_net (LGo 2) s))
    <$> run (w_config 2) w_net (fill 4 2) (dinit w_jobs) =
  Some (2%nat, None).
Proof. by vm_compute. Qed.

Lemma every_order_is_returned_witness :
  may_return (w_config 1) w_net w_paths w_methods
    (reverse (runTests_spec (w_config 1) w_net w_paths w_methods)).
Proof.
  exact (proj2 (every_order_is_returned (w_config 1) w_net w_paths w_methods _
    ltac:(by vm_compute)) (reverse_Permutation _)).
Defined.

Lemma bound_is_reached_witness :
  exists s,
    reachable (w_config 2) w_net w_jobs s /\
    run (w_config 2) w_net (fill 4 2) (dinit w_jobs) = Some s /\
    Z.of_nat (sum_list_with in_flight (d_pool s)) = 2.
Proof.
  exact (bound_is_reached (w_config 2) w_net w_jobs ltac:(by vm_compute)).
Defined.
