(* ===== verification/Runner.v ===== *)
(** * Runner: what a batch promises to the code that calls it

    [main] and [runKeepAnEyeMode] call [runTests] and use only what it
    returns.  The class [BatchRunner] states what they rely on: a batch
    with a positive thread count returns one result per job, a negative
    thread count is a panic, a zero thread count with a job is a
    deadlock, and a quiet batch prints nothing.  The theorems of the
    callers are proved against the class; [scheduled_runner] discharges
    it for the dispatcher of src/main.go under any family of scheduling
    and network oracles, one pair per batch of the process.

    [runTests_proc] is the call as a step of the process: the lines the
    goroutines printed reach the console, and a runtime error ends the
    process. *)

From Stdlib Require Import ZArith Lia String Ascii.
From stdpp Require Import base tactics option list numbers strings gmap.
From S2P Require Import Prelude GoStrings Types World Probe Dispatcher.

(** ** The contract *)

Class BatchRunner : Type := mkBatchRunner {
  (** the [n]-th call of [runTests] of the process *)
  run_batch : nat -> Config -> list string -> list string -> Outcome;
  run_batch_returns n config paths methods :
    1 <= Threads config ->
    exists rs out,
      run_batch n config paths methods = Returns rs out /\
      length rs = (length paths * length methods)%nat;
  run_batch_negative n config paths methods :
    Threads config < 0 ->
    run_batch n config paths methods = MakeChanPanic;
  run_batch_deadlock n config paths methods :
    Threads config = 0 -> paths <> [] -> methods <> [] ->
    run_batch n config paths methods = Deadlock;
  run_batch_no_jobs n config paths :
    0 <= Threads config ->
    run_batch n config paths [] = Returns [] [];
  run_batch_quiet n config paths methods rs out :
    Silence config || KeepAnEye config = true ->
    run_batch n config paths methods = Returns rs out -> out = []
}.

(** ** The dispatcher as a runner *)

(** The [n]-th batch runs [runTests] on the network [nets n] under the
    scheduler [chooses n]. *)
Definition scheduled_batch (nets : nat -> nat -> ProbeEnv)
    (chooses : nat -> nat -> nat) (n : nat) (config : Config)
    (paths methods : list string) : Outcome :=
  runTests config (nets n) (chooses n) paths methods.

(** The call of [runTests] inside a process. *)
Definition runTests_proc {br : BatchRunner} (n : nat) (config : Config)
    (paths methods : list string) : Proc (list TestResult) :=
  fun w =>
    let w := record (EvBatch n) w in
    match run_batch n config paths methods with
    | Returns rs out => Ok rs (set_stdout (w_stdout w ++ out) w)
    | Deadlock | MakeChanPanic => Crash w
    end.

Lemma enumerate_nil_r paths : enumerate paths [] = [].
Proof. unfold enumerate. induction paths as [|p paths IH]; [done|]. by rewrite bind_cons, IH. Qed.

Lemma enumerate_not_nil paths methods :
  paths <> [] -> methods <> [] -> enumerate paths methods <> [].
Proof.
  intros Hp Hm E. apply (f_equal length) in E.
  rewrite enumerate_length in E. destruct paths, methods; simplify_eq/=.
Qed.

Section Scheduled.
Context (nets : nat -> nat -> ProbeEnv) (chooses : nat -> nat -> nat).

Lemma scheduled_batch_returns n config paths methods :
  1 <= Threads config ->
  exists rs out,
    scheduled_batch nets chooses n config paths methods = Returns rs out /\
    length rs = (length paths * length methods)%nat.
Proof.
  intros Ht. unfold scheduled_batch.
  destruct (runTests_returns config (nets n) (chooses n) paths methods Ht)
    as (rs & out & E).
  exists rs, out. split; [done|].
  apply runTests_returns_spec in E as [_ ->]. unfold runTests_spec.
  by rewrite length_imap, enumerate_length.
Qed.

Definition scheduled_runner : BatchRunner :=
  mkBatchRunner (scheduled_batch nets chooses)
    scheduled_batch_returns
    (fun n config => runTests_negative config (nets n) (chooses n))
    (fun n config paths methods Ht Hp Hm =>
       runTests_deadlock config (nets n) (chooses n) paths methods Ht
         (enumerate_not_nil paths methods Hp Hm))
    (fun n config paths Ht =>
       runTests_no_jobs config (nets n) (chooses n) paths [] Ht
         (enumerate_nil_r paths))
    (fun n config => runTests_quiet config (nets n) (chooses n)).

End Scheduled.

(** ** The call as a step of the process *)

Section Proc.
Context {br : BatchRunner}.

Lemma runTests_proc_eq n config paths methods rs out w :
  run_batch n config paths methods = Returns rs out ->
  runTests_proc n config paths methods w =
    Ok rs (set_stdout (w_stdout w ++ out) (record (EvBatch n) w)).
Proof. unfold runTests_proc. cbn zeta. by intros ->. Qed.

Lemma runTests_proc_returns n config paths methods w :
  1 <= Threads config ->
  exists rs out,
    runTests_proc n config paths methods w =
      Ok rs (set_stdout (w_stdout w ++ out) (record (EvBatch n) w)) /\
    length rs = (length paths * length methods)%nat /\
    (Silence config || KeepAnEye config = true -> out = []).
Proof.
  intros Ht. unfold runTests_proc.
  destruct (run_batch_returns n config paths methods Ht) as (rs & out & E & Hl).
  cbn zeta. rewrite E. exists rs, out. eauto using run_batch_quiet.
Qed.

Lemma runTests_proc_crashes n config paths methods w :
  Threads config < 0 \/ (Threads config = 0 /\ paths <> [] /\ methods <> []) ->
  runTests_proc n config paths methods w = Crash (record (EvBatch n) w).
Proof.
  unfold runTests_proc. intros [Ht|(Ht & Hp & Hm)].
  - cbn zeta. by rewrite run_batch_negative.
  - cbn zeta. by rewrite run_batch_deadlock.
Qed.

End Proc.

(** The runner of the examples: the dispatcher on the network [w_net],
    its goroutines scheduled in turn. *)
Definition demo_runner : BatchRunner :=
  scheduled_runner (fun _ => w_net) (fun _ k => k).
