(* ===== verification/Report.v ===== *)
(** * Report: presenting and saving a batch of results

    [truncate], [saveResults] and [displayResults] of src/main.go.
    [saveResults] appends one line per result to the output file: the
    JSON encoding of the result in verbose mode, a formatted line
    otherwise.  [displayResults] prints the detailed block in verbose
    mode and a summary that counts the results per status.
    [truncate] slices at a byte: with [ValidString] of [Utf8] the file
    says when what it returns is still well-formed text
    ([truncate_utf8]).

    The JSON encoder's rendering of a string (its escaping) is the
    parameter [json_string]; the layout of the object, the order of its
    fields and the omission of an empty body are modelled.  Go iterates
    over the summary map in an unspecified order; the model prints the
    entries in the order of [map_to_list], and the theorems about the
    summary do not depend on the order. *)

From Stdlib Require Import ZArith Lia String Ascii.
From stdpp Require Import base tactics option list numbers strings gmap.
From S2P Require Import Prelude GoStrings Utf8 Types World Probe.

(** ** Text *)

(** [s[:n]]: the first [n] bytes. *)
Fixpoint prefix_bytes (n : nat) (s : string) : string :=
  match n, s with
  | S n', String c rest => String c (prefix_bytes n' rest)
  | _, _ => EmptyString
  end.

(** [truncate(s, maxLen)].  [None]: the slice expression panics (a
    negative bound). *)
Definition truncate (s : string) (maxLen : Z) : option string :=
  if Z.of_nat (String.length s) <=? maxLen then Some s
  else if maxLen <? 0 then None
  else Some (prefix_bytes (Z.to_nat maxLen) s +:+ "...").

(** The line of [saveResults] for one result, not verbose. *)
Definition result_line (r : TestResult) : string :=
  if 200 <=? StatusCode r <? 300 then
    "[" +:+ Timestamp r +:+ "] " +:+ Method r +:+ " " +:+ Path r +:+ " -> "
    +:+ Itoa (StatusCode r) +:+ " " +:+ Status r +:+ " (length: "
    +:+ Itoa (BodyLength r) +:+ " bytes)" +:+ nl
  else
    "[" +:+ Timestamp r +:+ "] " +:+ Method r +:+ " " +:+ Path r +:+ " -> "
    +:+ Itoa (StatusCode r) +:+ " " +:+ Status r +:+ nl.

(** The key of the summary map: [Sprintf("%d %s", code, status)]. *)
Definition status_key (r : TestResult) : string :=
  Itoa (StatusCode r) +:+ " " +:+ Status r.

(** [strings.SplitN(s, " ", 2)]: cut at the first space. *)
Fixpoint cut_space (s : string) : string * option string :=
  match s with
  | EmptyString => (EmptyString, None)
  | String c rest =>
      if Ascii.eqb c " " then (EmptyString, Some rest)
      else let '(a, b) := cut_space rest in (String c a, b)
  end.

(** [Sscanf(s, "%d", &n)] with [n] initially 0, on a decimal numeral. *)
Definition scan_int (s : string) : Z := default 0 (Atoi s).

Section Report.
Context {rt : Runtime}.

(** [json.Marshal(r)]: the fields in declaration order under their
    tags; [body] is left out when empty. *)
Definition json_result (r : TestResult) : string :=
  let field (k v : string) := dq +:+ k +:+ dq +:+ ":" +:+ v in
  "{" +:+ field "timestamp" (json_string (Timestamp r)) +:+ ","
  +:+ field "url" (json_string (URL r)) +:+ ","
  +:+ field "path" (json_string (Path r)) +:+ ","
  +:+ field "method" (json_string (Method r)) +:+ ","
  +:+ field "status_code" (Itoa (StatusCode r)) +:+ ","
  +:+ field "status" (json_string (Status r)) +:+ ","
  +:+ field "body_length" (Itoa (BodyLength r))
  +:+ (if String.eqb (Body r) "" then ""
       else "," +:+ field "body" (json_string (Body r)))
  +:+ "}".

(** The line written for one result. *)
Definition save_line (config : Config) (r : TestResult) : string :=
  if Verbose config then json_result r +:+ nl else result_line r.

(** The text [saveResults] writes: the lines of the results in order. *)
Definition save_text (config : Config) (results : list TestResult) : string :=
  foldr (fun r acc => save_line config r +:+ acc) "" results.

Definition saveResults (results : list TestResult) (config : Config)
  : Proc unit :=
  if String.eqb (OutputFile config) "" then ret tt
  else
    opened <- append_file (OutputFile config) (save_text config results) ;;
    if negb opened then
      print ("Error opening output file: open " +:+ OutputFile config +:+
             ": permission denied" +:+ nl)
    else if negb (Silence config) then
      print (nl +:+ "Results saved to: " +:+ OutputFile config +:+ nl)
    else ret tt.

(** The block [displayResults] prints for one result in verbose mode. *)
Definition detail_lines (r : TestResult) : list string :=
  [nl +:+ "Timestamp: " +:+ Timestamp r +:+ nl;
   "Path: " +:+ Path r +:+ nl;
   "Method: " +:+ Method r +:+ nl;
   "Status Code: " +:+ Itoa (StatusCode r) +:+ nl;
   "Status: " +:+ Status r +:+ nl;
   "Response Length: " +:+ Itoa (BodyLength r) +:+ " bytes" +:+ nl]
  ++ (if String.eqb (Body r) "" then []
      else ["Response Body: " +:+ default "" (truncate (Body r) 200) +:+ nl])
  ++ [Repeat "-" 60 +:+ nl].

(** The loop that fills [statusCounts]. *)
Definition count_statuses (results : list TestResult) : gmap string nat :=
  foldl (fun m r => <[status_key r := S (default 0%nat (m !! status_key r))]> m)
        ∅ results.

(** The line printed for one entry of [statusCounts]. *)
Definition summary_line (entry : string * nat) : string :=
  let '(a, b) := cut_space (fst entry) in
  let statusCode := scan_int a in
  getStatusColor statusCode +:+ Itoa statusCode +:+ " " +:+ default "" b
  +:+ colorReset +:+ ": " +:+ Itoa (Z.of_nat (snd entry)) +:+ nl.

(** Everything [displayResults] prints. *)
Definition display_lines (results : list TestResult) (config : Config)
  : list string :=
  (if Verbose config then
     [nl +:+ Repeat "=" 60 +:+ nl; "Detailed Results" +:+ nl;
      Repeat "=" 60 +:+ nl]
     ++ (results ≫= detail_lines)
   else [])
  ++ [nl +:+ Repeat "=" 40 +:+ nl; "Summary" +:+ nl; Repeat "=" 40 +:+ nl]
  ++ (summary_line <$> map_to_list (count_statuses results))
  ++ [nl +:+ "Total: " +:+ Itoa (Z.of_nat (length results)) +:+ nl].

Definition displayResults (results : list TestResult) (config : Config)
  : Proc unit :=
  if Silence config || KeepAnEye config then ret tt
  else act (fun w => set_stdout (w_stdout w ++ display_lines results config) w).

(** What [displayResults] prints, and what [saveResults] prints when
    the opening of the output file succeeds ([ok]) or fails. *)
Definition display_report (results : list TestResult) (config : Config)
  : list string :=
  if Silence config || KeepAnEye config then []
  else display_lines results config.

Definition save_report (config : Config) (ok : bool) : list string :=
  if String.eqb (OutputFile config) "" then []
  else if negb ok then
    ["Error opening output file: open " +:+ OutputFile config +:+
     ": permission denied" +:+ nl]
  else if negb (Silence config) then
    [nl +:+ "Results saved to: " +:+ OutputFile config +:+ nl]
  else [].

(** The number of results with a given key. *)
Definition count_key (k : string) (results : list TestResult) : nat :=
  length (List.filter (fun r => String.eqb (status_key r) k) results).

(** The sum of the counts of a summary map. *)
Definition total_count (m : gmap string nat) : nat :=
  sum_list_with snd (map_to_list m).

(** Inputs for the examples. *)
Definition r_ok : TestResult :=
  mkTestResult "2024-01-01T00:00:00Z" "http://h/a" "/a" "GET" 200 "SUCCESS" 2 "{}".
Definition r_denied : TestResult :=
  mkTestResult "2024-01-01T00:00:01Z" "http://h/b" "/b" "GET" 403 "FORBIDDEN" 0 "".
Definition cfg_out (verbose silence : bool) (out : string) : Config :=
  mkConfig "demo" "" "" "/a" "" verbose out false 1 silence.
Definition w_blank : World := mkWorld 0 0 ∅ ∅ ∅ ["firey"] 100 [] [] [].

(** ** truncate *)

Lemma prefix_bytes_length n s :
  String.length (prefix_bytes n s) = Nat.min n (String.length s).
Proof.
  revert s. induction n as [|n IH]; intros [|c s]; simpl; auto.
Qed.

Lemma prefix_bytes_prefix n s :
  exists rest, s = prefix_bytes n s +:+ rest.
Proof.
  revert s. induction n as [|n IH]; intros [|c s]; simpl;
    try (by eexists; reflexivity).
  destruct (IH s) as [rest Hrest]. exists rest.
  change (String c s = String c (prefix_bytes n s +:+ rest)). by f_equal.
Qed.

(** [truncate] returns a string of at most [maxLen + 3] bytes: the
    string itself when it has at most [maxLen] bytes, otherwise its
    first [maxLen] bytes followed by three dots (exactly [maxLen + 3]
    bytes); with a negative [maxLen] the slice expression panics. *)
Theorem truncate_spec s maxLen :
  (Z.of_nat (String.length s) <= maxLen -> truncate s maxLen = Some s) /\
  (0 <= maxLen < Z.of_nat (String.length s) ->
     exists t, truncate s maxLen = Some (t +:+ "...") /\
       Z.of_nat (String.length t) = maxLen /\ exists rest, s = t +:+ rest) /\
  (maxLen < 0 -> truncate s maxLen = None).
Proof.
  unfold truncate. repeat split.
  - intros H. by destruct (Z.leb_spec (Z.of_nat (String.length s)) maxLen); [|lia].
  - intros H. destruct (Z.leb_spec (Z.of_nat (String.length s)) maxLen); [lia|].
    destruct (Z.ltb_spec maxLen 0); [lia|].
    exists (prefix_bytes (Z.to_nat maxLen) s). split; [done|].
    rewrite prefix_bytes_length. split; [lia|apply prefix_bytes_prefix].
  - intros H. destruct (Z.leb_spec (Z.of_nat (String.length s)) maxLen); [lia|].
    by destruct (Z.ltb_spec maxLen 0); [|lia].
Qed.

Lemma prefix_bytes_take n s :
  bytes_of_string (prefix_bytes n s) = take n (bytes_of_string s).
Proof.
  revert s. induction n as [|n IH]; intros [|c s]; try done.
  change (byte_of c :: bytes_of_string (prefix_bytes n s) =
          byte_of c :: take n (bytes_of_string s)).
  by rewrite IH.
Qed.

Lemma prefix_bytes_ascii n s :
  is_ascii s = true -> is_ascii (prefix_bytes n s) = true.
Proof.
  destruct (prefix_bytes_prefix n s) as [rest E]. rewrite E at 1.
  rewrite is_ascii_app. by intros [? _] %andb_prop.
Qed.

(** What [truncate] returns when it cuts, in bytes. *)
Lemma truncate_bytes s maxLen :
  0 <= maxLen < Z.of_nat (String.length s) ->
  exists t, truncate s maxLen = Some t /\
    bytes_of_string t =
      take (Z.to_nat maxLen) (bytes_of_string s) ++ [46; 46; 46]%N.
Proof.
  intros H. unfold truncate.
  destruct (Z.leb_spec (Z.of_nat (String.length s)) maxLen); [lia|].
  destruct (Z.ltb_spec maxLen 0); [lia|].
  eexists. split; [done|]. by rewrite bytes_of_string_app, prefix_bytes_take.
Qed.

(** C34 [truncate] cuts at a byte, not at a character.  When it cuts
    a well-formed UTF-8 string, what it returns is well formed exactly
    when the byte at the cut is not a continuation byte: a cut inside
    a character of several bytes leaves a string that is not UTF-8.
    ASCII text is never harmed. *)
Theorem truncate_utf8 s maxLen b :
  ValidString s = true -> 0 <= maxLen ->
  bytes_of_string s !! Z.to_nat maxLen = Some b ->
  exists t, truncate s maxLen = Some t /\
    (ValidString t = true <-> continuation b = false) /\
    (is_ascii s = true -> is_ascii t = true).
Proof.
  intros Hs Hm Hb. pose proof (lookup_lt_Some _ _ _ Hb) as Hlt.
  rewrite bytes_of_string_length in Hlt.
  destruct (truncate_bytes s maxLen) as (t & E & Ht); [lia|].
  exists t. split; [done|]. split.
  - unfold ValidString in *. rewrite Ht, valid_bytes_dots.
    rewrite <- (take_drop_middle _ _ _ Hb) in Hs.
    by apply decode_boundary in Hs.
  - intros Ha. unfold truncate in E. repeat case_cond; simplify_eq/=;
      [done|]. rewrite is_ascii_app, prefix_bytes_ascii; done.
Qed.

(** ** The summary *)

Lemma cut_space_app a b :
  contains_byte " " a = false ->
  cut_space (a +:+ String " " b) = (a, Some b).
Proof.
  induction a as [|c a IH]; [done|].
  change (contains_byte " " (String c a))
    with (Ascii.eqb " " c || contains_byte " " a).
  intros [Hc Ha] %orb_false_elim.
  change (cut_space (String c a +:+ String " " b))
    with (if Ascii.eqb c " " then (EmptyString, Some (a +:+ String " " b))
          else let '(x, y) := cut_space (a +:+ String " " b) in (String c x, y)).
  by rewrite Ascii.eqb_sym, Hc, (IH Ha).
Qed.

(** The key of the summary map can be read back: cutting
    [Sprintf("%d %s", code, status)] at its first space and scanning
    the first part as a decimal gives the code and the status again,
    so each summary line shows the code, the colour of the code and the
    status of the results it counts. *)
Theorem status_key_round_trip r :
  cut_space (status_key r) = (Itoa (StatusCode r), Some (Status r)) /\
  scan_int (Itoa (StatusCode r)) = StatusCode r /\
  forall n, summary_line (status_key r, n) =
    getStatusColor (StatusCode r) +:+ Itoa (StatusCode r) +:+ " " +:+ Status r
    +:+ colorReset +:+ ": " +:+ Itoa (Z.of_nat n) +:+ nl.
Proof.
  assert (cut_space (status_key r) = (Itoa (StatusCode r), Some (Status r)))
    as Hcut by apply cut_space_app, Itoa_no_space.
  assert (scan_int (Itoa (StatusCode r)) = StatusCode r) as Hscan
    by (unfold scan_int; by rewrite Atoi_Itoa).
  repeat split; [done..|]. intros n. unfold summary_line. simpl.
  by rewrite Hcut, Hscan.
Qed.

Lemma count_statuses_step (m : gmap string nat) results k :
  foldl (fun m r => <[status_key r := S (default 0%nat (m !! status_key r))]> m)
        m results !! k =
  match count_key k results with
  | O => m !! k
  | S n => Some (S n + default 0%nat (m !! k))%nat
  end.
Proof.
  revert m. unfold count_key.
  induction results as [|r results IH]; intros m; simpl; [done|].
  rewrite IH. destruct (String.eqb_spec (status_key r) k) as [->|Hne]; simpl.
  - rewrite lookup_insert_eq. simpl.
    destruct (length _); f_equal; lia.
  - by rewrite lookup_insert_ne.
Qed.

(** One more result adds one to the sum of the counts, whether its key
    is new or not. *)
Lemma total_count_bump (m : gmap string nat) k :
  total_count (<[k := S (default 0%nat (m !! k))]> m) = S (total_count m).
Proof.
  unfold total_count. destruct (m !! k) as [n|] eqn:Hk; simpl.
  - rewrite <- (insert_delete_eq m k), map_to_list_insert
      by apply lookup_delete_eq.
    by rewrite <- (map_to_list_delete m k n Hk).
  - by rewrite map_to_list_insert.
Qed.

Lemma total_count_foldl (m : gmap string nat) results :
  total_count
    (foldl (fun m r => <[status_key r := S (default 0%nat (m !! status_key r))]> m)
       m results) = (total_count m + length results)%nat.
Proof.
  revert m. induction results as [|r results IH]; intros m; simpl; [lia|].
  rewrite IH, total_count_bump. lia.
Qed.

(** C40 The summary counts every result once: the entry of the summary
    map for a key is the number of results with that code and status,
    there is no entry for a key that no result has, and the counts of
    the summary lines add up to the total printed under them. *)
Theorem count_statuses_spec results k :
  count_statuses results !! k =
    (if decide (count_key k results = 0%nat) then None
     else Some (count_key k results)) /\
  total_count (count_statuses results) = length results.
Proof.
  unfold count_statuses. split; [|by rewrite total_count_foldl].
  rewrite count_statuses_step, lookup_empty. simpl.
  destruct (count_key k results); [done|]. case_decide; [lia|]. f_equal. lia.
Qed.

(** The summary does not depend on the order of the results. *)
#[export] Instance count_key_perm k : Proper ((≡ₚ) ==> (=)) (count_key k).
Proof.
  intros rs1 rs2 Hp. unfold count_key.
  induction Hp as [|r rs1 rs2 _ IH|r1 r2 rs|rs1 rs2 rs3 _ IH1 _ IH2]; simpl;
    repeat case_cond; simpl; congruence.
Qed.

#[export] Instance count_statuses_perm :
  Proper ((≡ₚ) ==> (=)) count_statuses.
Proof.
  intros rs1 rs2 Hp. apply map_eq. intros k. unfold count_statuses.
  by rewrite !count_statuses_step, Hp.
Qed.

(** ** saveResults *)

Lemma save_text_app config rs1 rs2 :
  save_text config (rs1 ++ rs2) = save_text config rs1 +:+ save_text config rs2.
Proof.
  induction rs1 as [|r rs1 IH]; simpl; [done|].
  by rewrite IH, string_app_assoc.
Qed.

(** What [saveResults] does to the file system: one append, unless no
    output file is named. *)
Definition save_events (config : Config) (results : list TestResult)
    (ok : bool) : list Event :=
  if String.eqb (OutputFile config) "" then []
  else [EvAppend (OutputFile config) (save_text config results) ok].

(** [saveResults] always returns; it only writes the output file and
    prints. *)
Lemma saveResults_io results config w :
  exists w', saveResults results config w = Ok tt w' /\ io_only w w' /\
    w_files w' = append_to (can_open w (OutputFile config)) (OutputFile config)
                   (save_text config results) (w_files w) /\
    w_trace w' = w_trace w ++
      save_events config results (can_open w (OutputFile config)).
Proof.
  unfold saveResults, save_events.
  destruct (String.eqb_spec (OutputFile config) "") as [->|Hne].
  { exists w. rewrite app_nil_r. by auto with firey. }
  destruct (append_file_io (OutputFile config) (save_text config results) w)
    as (w1 & E & Hio & Hf & _ & Htr).
  rewrite (bind_Ok _ _ _ _ _ E).
  destruct (can_open w (OutputFile config)), (Silence config); simpl;
    eexists; (split; [done|]); split; try done;
    by (etrans; [exact Hio|apply io_only_stdout]).
Qed.

Lemma displayResults_io results config w :
  exists w', displayResults results config w = Ok tt w' /\ io_only w w' /\
    w_files w' = w_files w.
Proof.
  unfold displayResults. destruct (_ || _); eauto with firey.
Qed.

Lemma displayResults_prints results config w w' :
  displayResults results config w = Ok tt w' ->
  w_stdout w' = w_stdout w ++ display_report results config.
Proof.
  unfold displayResults, display_report.
  destruct (_ || _); intros [= <-]; [by rewrite app_nil_r|done].
Qed.

Lemma saveResults_prints results config w w' :
  saveResults results config w = Ok tt w' ->
  w_stdout w' =
    w_stdout w ++ save_report config (can_open w (OutputFile config)).
Proof.
  unfold saveResults, save_report, append_file, bind.
  destruct (String.eqb (OutputFile config) "");
    [intros [= <-]; by rewrite app_nil_r|].
  destruct (can_open w (OutputFile config)), (Silence config); simpl;
    intros [= <-]; simpl; by rewrite ?app_nil_r.
Qed.

(** C29 [saveResults] appends to the output file exactly the lines of
    the batch, in the order of the slice, after what the file held, and
    touches no other file; without an output file it does nothing; when
    the file cannot be opened it only prints the error. *)
Theorem saveResults_spec results config w :
  (OutputFile config = "" -> saveResults results config w = Ok tt w) /\
  (can_open w (OutputFile config) = true ->
   exists w', saveResults results config w = Ok tt w' /\
     w_files w' = <[OutputFile config :=
        default "" (w_files w !! OutputFile config) +:+ save_text config results]>
        (w_files w) /\
     w_clock w' = w_clock w) /\
  (OutputFile config <> "" -> can_open w (OutputFile config) = false ->
   exists w', saveResults results config w = Ok tt w' /\
     w_files w' = w_files w /\ length (w_stdout w') = S (length (w_stdout w))).
Proof.
  unfold saveResults. repeat split.
  - by intros ->.
  - intros Hopen. assert (OutputFile config <> "") as Hne %String.eqb_neq.
    { intros E. rewrite E in Hopen. done. }
    rewrite Hne. unfold bind, append_file. rewrite Hopen. simpl.
    destruct (Silence config); simpl; eauto.
  - intros Hne %String.eqb_neq Hopen. rewrite Hne.
    unfold bind, append_file. rewrite Hopen. simpl. eexists. split; [done|].
    simpl. by rewrite length_app, Nat.add_comm.
Qed.

End Report.

(** ** Examples *)

Lemma truncate_example :
  truncate "abcdefgh" 3 = Some "abc..." /\ truncate "abc" 3 = Some "abc" /\
  truncate "abc" (-1) = None /\ truncate "" 0 = Some "".
Proof. by vm_compute. Qed.

Lemma save_text_example :
  save_text (rt := demo_rt) (cfg_out false false "out.txt")
    [r_ok; r_denied] =
  "[2024-01-01T00:00:00Z] GET /a -> 200 SUCCESS (length: 2 bytes)" +:+ nl +:+
  "[2024-01-01T00:00:01Z] GET /b -> 403 FORBIDDEN" +:+ nl.
Proof. by vm_compute. Qed.

Lemma truncate_spec_witness :
  exists t, truncate "abcdefgh" 3 = Some (t +:+ "...") /\
    Z.of_nat (String.length t) = 3 /\ exists rest, "abcdefgh" = t +:+ rest.
Proof.
  exact (proj1 (proj2 (truncate_spec "abcdefgh" 3)) ltac:(by vm_compute)).
Defined.

(** The text [aé], cut after two bytes: the cut falls inside the [é]. *)
Lemma truncate_utf8_witness :
  exists t,
    truncate ("a" +:+ String "195" (String "169" "")) 2 = Some t /\
    (ValidString t = true <-> continuation 169 = false) /\
    (is_ascii ("a" +:+ String "195" (String "169" "")) = true ->
     is_ascii t = true).
Proof.
  exact (truncate_utf8 ("a" +:+ String "195" (String "169" "")) 2 169
    ltac:(by vm_compute) ltac:(lia) ltac:(by vm_compute)).
Defined.

Lemma saveResults_spec_witness :
  exists w',
    saveResults (rt := demo_rt) [r_ok; r_denied]
      (cfg_out false true "out.txt") w_blank = Ok tt w' /\
    w_files w' = <[OutputFile (cfg_out false true "out.txt") :=
      default "" (w_files w_blank !! OutputFile (cfg_out false true "out.txt"))
      +:+ save_text (rt := demo_rt) (cfg_out false true "out.txt")
            [r_ok; r_denied]]>
      (w_files w_blank) /\
    w_clock w' = w_clock w_blank.
Proof.
  exact (proj1 (proj2 (saveResults_spec (rt := demo_rt) [r_ok; r_denied]
    (cfg_out false true "out.txt") w_blank)) ltac:(by vm_compute)).
Defined.

