(* ===== verification/Checkpoint.v ===== *)
(** * Checkpoint: the status record of a monitoring run

    [saveStatus] of src/main.go: the record [StatusInfo] encoded by
    [json.MarshalIndent] and written over the file [.firey_status.json].
    The layout of the object (one field per line, two spaces, the
    fields in declaration order under their tags) is modelled; the
    encoding of a time is the parameter [json_time], which fails for a
    year outside 0..9999.  Both failures, of the encoding and of the
    write, are ignored by the code: [saveStatus] always returns.

    [checkpoint_to] and [checkpoint_events] say what a call leaves in
    the file system and in the trace; [read_pid] and [read_iteration]
    are what a reader of the file takes of it. *)

From Stdlib Require Import ZArith Lia String Ascii.
From stdpp Require Import base tactics option list numbers strings gmap.
From S2P Require Import Prelude GoStrings Types World.

Section Checkpoint.
Context {rt : Runtime}.

(** [json.MarshalIndent(status, "", "  ")]. *)
Definition status_json (status : StatusInfo) : option string :=
  start ← json_time (StartTime status);
  next ← json_time (NextCheck status);
  Some ("{" +:+ nl
        +:+ "  " +:+ dq +:+ "pid" +:+ dq +:+ ": " +:+ Itoa (PID status) +:+ "," +:+ nl
        +:+ "  " +:+ dq +:+ "start_time" +:+ dq +:+ ": " +:+ start +:+ "," +:+ nl
        +:+ "  " +:+ dq +:+ "next_check" +:+ dq +:+ ": " +:+ next +:+ "," +:+ nl
        +:+ "  " +:+ dq +:+ "iteration" +:+ dq +:+ ": " +:+ Itoa (Iteration status) +:+ nl
        +:+ "}").

Definition saveStatus (status : StatusInfo) : Proc unit :=
  match status_json status with
  | None => ret tt
  | Some data => write_file statusFile data ;;; ret tt
  end.

(** What [saveStatus] leaves in the file system. *)
Definition checkpoint_to (ok : bool) (status : StatusInfo)
    (fs : gmap string string) : gmap string string :=
  match status_json status with
  | Some data => write_to ok statusFile data fs
  | None => fs
  end.

(** What [saveStatus] records in the trace. *)
Definition checkpoint_events (ok : bool) (status : StatusInfo) : list Event :=
  match status_json status with
  | Some data => [EvWrite statusFile data ok]
  | None => []
  end.

(** What a reader of the checkpoint takes of it: the process id is
    the number after the first colon, the iteration the number after
    the last space. *)
Definition read_pid (data : string) : option Z :=
  Atoi (before "," (after " " (after ":" data))).

Definition read_iteration (data : string) : option Z :=
  Atoi (before "010" (after_last " " data)).

Lemma saveStatus_io status w :
  exists w', saveStatus status w = Ok tt w' /\ io_only w w' /\
    w_files w' = checkpoint_to (can_open w statusFile) status (w_files w) /\
    w_stdout w' = w_stdout w /\
    w_trace w' = w_trace w ++ checkpoint_events (can_open w statusFile) status.
Proof.
  unfold saveStatus, checkpoint_to, checkpoint_events.
  destruct (status_json status) as [data|];
    [|exists w; rewrite app_nil_r; by auto with firey].
  destruct (write_file_io statusFile data w) as (w1 & E & Hio & Hf & Ho & Htr).
  rewrite (bind_Ok _ _ _ _ _ E). by eauto 6.
Qed.

Lemma checkpoint_to_lookup_ne ok status fs name :
  name <> statusFile -> checkpoint_to ok status fs !! name = fs !! name.
Proof.
  unfold checkpoint_to. intros Hne.
  destruct (status_json status); [|done]. by apply write_to_lookup_ne.
Qed.

Lemma checkpoint_to_lookup ok status fs :
  checkpoint_to ok status fs !! statusFile =
  match status_json status with
  | Some data => if ok then Some data else fs !! statusFile
  | None => fs !! statusFile
  end.
Proof.
  unfold checkpoint_to, write_to. destruct (status_json status); [|done].
  destruct ok; [apply lookup_insert_eq|done].
Qed.

(** C31 The checkpoint is overwritten wholesale and on a best effort:
    [saveStatus] always returns, prints nothing and leaves every
    other file as it was; when the record can be encoded and the file
    opened, the file holds exactly the encoding of the record,
    whatever it held before; when not, the failure is ignored and the
    file is as it was. *)
Theorem saveStatus_spec status w :
  exists w',
    saveStatus status w = Ok tt w' /\ io_only w w' /\
    w_stdout w' = w_stdout w /\
    (forall name, name <> statusFile ->
       w_files w' !! name = w_files w !! name) /\
    w_files w' !! statusFile =
      match status_json status with
      | Some data =>
          if can_open w statusFile then Some data
          else w_files w !! statusFile
      | None => w_files w !! statusFile
      end.
Proof.
  destruct (saveStatus_io status w) as (w' & E & Hio & Hf & Ho & _).
  exists w'. rewrite Hf, checkpoint_to_lookup.
  split; [done|]. split; [done|]. split; [done|]. split; [|done].
  intros name Hne. by apply checkpoint_to_lookup_ne.
Qed.

(** C32 The checkpoint can be read back: whatever the encoding of
    the two times, the process id and the iteration a reader takes of
    the encoded record are those of the record. *)
Theorem read_status_json status data :
  status_json status = Some data ->
  read_pid data = Some (PID status) /\
  read_iteration data = Some (Iteration status).
Proof.
  unfold status_json. intros H. simplify_option_eq.
  match goal with |- context [Itoa (PID status) +:+ "," +:+ ?r] =>
    set (rest := r)
  end.
  split.
  - change (Atoi (before "," (Itoa (PID status) +:+ String "," rest))
            = Some (PID status)).
    rewrite before_app by by apply Itoa_bytes. apply Atoi_Itoa.
  - unfold read_iteration, rest.
    match goal with |- context [after_last " " ?d] =>
      match d with context C [": " +:+ Itoa (Iteration status) +:+ nl +:+ "}"] =>
        let p := context C [":"] in
        replace d with
          (p +:+ String " " (Itoa (Iteration status) +:+ String "010" "}"))
          by by rewrite !string_app_assoc
      end
    end.
    rewrite after_last_app, before_app
      by (rewrite ?contains_byte_app, ?Itoa_bytes; done).
    apply Atoi_Itoa.
Qed.

End Checkpoint.

(** The record of the examples. *)
Definition demo_status : StatusInfo := mkStatusInfo 77 0 0 0.

Lemma read_status_json_witness :
  read_pid (default "" (status_json (rt := demo_rt) demo_status)) = Some 77 /\
  read_iteration (default "" (status_json (rt := demo_rt) demo_status))
    = Some 0.
Proof.
  exact (read_status_json (rt := demo_rt) demo_status _ eq_refl).
Defined.
