(* ===== verification/Supervisor.v ===== *)
(** * Supervisor: the two roles of a monitoring invocation

    [isParentProcess] and [spawnBackgroundProcess] of src/main.go.  The
    process that finds no [FIREY_BACKGROUND=1] in its environment is
    the parent: it starts a copy of itself with the same arguments and
    the marker added to the environment, writes the first checkpoint
    with the child's process id, prints a report and returns.  The
    outcome of [cmd.Start] is the parameter [started]. *)

From Stdlib Require Import ZArith Lia String Ascii.
From stdpp Require Import base tactics option list numbers strings gmap.
From S2P Require Import Prelude GoStrings Types World Checkpoint.

Section Supervisor.
Context {rt : Runtime}.

Definition isParentProcess : Proc bool :=
  fun w => Ok (negb (String.eqb (getenv "FIREY_BACKGROUND" w) "1")) w.

(** The eight lines the parent prints after the launch. *)
Definition spawn_report (pid : Z) (config : Config) : list string :=
  ["✓ Keep An Eye mode activated!" +:+ nl;
   "✓ Background process started (PID: " +:+ Itoa pid +:+ ")" +:+ nl;
   "✓ Monitoring for: 24 hours" +:+ nl;
   "✓ Check interval: 30 minutes" +:+ nl;
   "✓ Output file: " +:+ OutputFile config +:+ nl;
   "✓ Status file: " +:+ statusFile +:+ nl +:+ nl;
   "To check status: cat " +:+ statusFile +:+ nl;
   "To stop monitoring: kill " +:+ Itoa pid +:+ nl].

Definition spawnBackgroundProcess (config : Config) : Proc unit :=
  config <-
    (if String.eqb (OutputFile config) "" then
       t <- now ;;
       ret (set_OutputFile ("firey_monitoring_" +:+ fmt_stamp t +:+ ".txt") config)
     else ret config) ;;
  args <- getargs ;;
  env <- environ ;;
  r <- start_process args (<["FIREY_BACKGROUND" := "1"]> env) ;;
  match r with
  | inr err =>
      print ("Error starting background process: " +:+ err +:+ nl) ;;; exit 1
  | inl pid =>
      t1 <- now ;;
      t2 <- now ;;
      saveStatus (mkStatusInfo pid t1 (time_add t2 checkInterval) 0) ;;;
      prints (spawn_report pid config)
  end.

(** When the child starts, the parent returns, with one more child. *)
Lemma spawnBackgroundProcess_started config w pid :
  started = inl pid ->
  exists w',
    spawnBackgroundProcess config w = Ok tt w' /\
    w_children w' = w_children w ++
      [mkChild pid (w_args w) (<["FIREY_BACKGROUND" := "1"]> (w_env w))].
Proof.
  unfold spawnBackgroundProcess, start_process. intros ->.
  destruct (String.eqb (OutputFile config) "");
    proc_run;
    match goal with |- context [bind (saveStatus ?st) _ ?w0] =>
      destruct (saveStatus_io st w0) as (w' & E & Hio & _);
      rewrite (bind_Ok _ _ _ _ _ E)
    end;
    apply io_only_spec in Hio as (_ & _ & _ & _ & _ & _ & Hch);
    eexists; (split; [done|]); simpl; by rewrite Hch.
Qed.

(** C13 [spawnBackgroundProcess]: when the child starts, the parent
    returns without waiting, the child has the arguments of the parent
    and its environment with the marker [FIREY_BACKGROUND=1], the
    checkpoint holds the pid of the child and iteration 0, and eight
    lines are printed; when the child cannot start, the parent prints
    the error and exits with code 1, no checkpoint written. *)
Theorem spawnBackgroundProcess_spec config w :
  let unnamed := String.eqb (OutputFile config) "" in
  let t0 := w_clock w + lat (w_reads w) in
  let r := if unnamed then S (w_reads w) else w_reads w in
  let t1 := (if unnamed then t0 else w_clock w) + lat r in
  let t2 := t1 + lat (S r) in
  let config' :=
    if unnamed
    then set_OutputFile ("firey_monitoring_" +:+ fmt_stamp t0 +:+ ".txt") config
    else config in
  (forall pid, started = inl pid ->
   exists w',
     spawnBackgroundProcess config w = Ok tt w' /\
     w_children w' = w_children w ++
       [mkChild pid (w_args w) (<["FIREY_BACKGROUND" := "1"]> (w_env w))] /\
     w_files w' =
       checkpoint_to (can_open w statusFile)
         (mkStatusInfo pid t1 (time_add t2 checkInterval) 0) (w_files w) /\
     w_stdout w' = w_stdout w ++ spawn_report pid config') /\
  (forall err, started = inr err ->
   exists w',
     spawnBackgroundProcess config w = Exit 1 w' /\
     w_children w' = w_children w /\ w_files w' = w_files w /\
     w_stdout w' = w_stdout w ++
       ["Error starting background process: " +:+ err +:+ nl]).
Proof.
  unfold spawnBackgroundProcess, start_process. split; intros x ->.
  - destruct (String.eqb (OutputFile config) "");
      proc_run;
      match goal with |- context [bind (saveStatus ?st) _ ?w0] =>
        destruct (saveStatus_io st w0) as (w' & E & Hio & Hf & Ho & _);
        rewrite (bind_Ok _ _ _ _ _ E)
      end;
      apply io_only_spec in Hio as (_ & _ & _ & _ & _ & _ & Hch);
      eexists; (split; [done|]); simpl; rewrite Hch, Hf, Ho; done.
  - destruct (String.eqb (OutputFile config) ""); proc_run; by eexists.
Qed.

(** The output file the parent announces is never written: when
    [-o] is not given, the parent prints a generated file name but
    starts the child with its own arguments, and a worker with an
    empty output file name records no result in any file. *)
Lemma default_output_parent config pid w :
  OutputFile config = "" -> started = inl pid ->
  exists w',
    spawnBackgroundProcess config w = Ok tt w' /\
    ("✓ Output file: firey_monitoring_" +:+
       fmt_stamp (w_clock w + lat (w_reads w)) +:+ ".txt" +:+ nl)
      ∈ w_stdout w' /\
    last (w_children w') =
      Some (mkChild pid (w_args w) (<["FIREY_BACKGROUND" := "1"]> (w_env w))) /\
    w_files w' !! OutputFile config = w_files w !! OutputFile config.
Proof.
  intros Hout Hst. unfold spawnBackgroundProcess, start_process.
  rewrite Hout, Hst. proc_run.
  match goal with |- context [bind (saveStatus ?st) _ ?w0] =>
    destruct (saveStatus_io st w0) as (w' & E & Hio & Hf & Ho & _);
    rewrite (bind_Ok _ _ _ _ _ E)
  end.
  apply io_only_spec in Hio as (_ & _ & _ & _ & _ & _ & Hch).
  eexists. split; [done|]. simpl. rewrite Hch, Ho, Hf. simpl.
  split; [|split; [by rewrite last_snoc|by apply checkpoint_to_lookup_ne]].
  apply elem_of_app. right. unfold spawn_report, set_OutputFile. simpl.
  rewrite !string_app_assoc. set_solver.
Qed.

End Supervisor.

(** ** Examples *)

Lemma spawnBackgroundProcess_spec_witness :
  (exists w',
     spawnBackgroundProcess (rt := demo_rt) (demo_config "" 2) demo_world
       = Ok tt w' /\
     w_children w' = w_children demo_world ++
       [mkChild 4242 (w_args demo_world)
          (<["FIREY_BACKGROUND" := "1"]> (w_env demo_world))] /\
     w_files w' =
       checkpoint_to (rt := demo_rt) true
         (mkStatusInfo 4242 (2 * Second)
            (time_add (3 * Second) checkInterval) 0) (w_files demo_world) /\
     w_stdout w' = w_stdout demo_world ++
       spawn_report 4242
         (set_OutputFile ("firey_monitoring_" +:+ demo_fmt Second +:+ ".txt")
            (demo_config "" 2))) /\
  (exists w',
     spawnBackgroundProcess (rt := demo_rt_with (inr "exec: not found"))
       (demo_config "" 2) demo_world = Exit 1 w' /\
     w_children w' = w_children demo_world /\
     w_files w' = w_files demo_world /\
     w_stdout w' = w_stdout demo_world ++
       ["Error starting background process: " +:+ "exec: not found" +:+ nl]).
Proof.
  exact (conj
    (proj1 (spawnBackgroundProcess_spec (rt := demo_rt) (demo_config "" 2)
              demo_world) 4242 eq_refl)
    (proj2 (spawnBackgroundProcess_spec
              (rt := demo_rt_with (inr "exec: not found")) (demo_config "" 2)
              demo_world) "exec: not found" eq_refl)).
Defined.
