(* ===== verification/Loop.v ===== *)
(** * Loop: the schedule loop, for any duration and interval

    Two loops over a total duration [D], an interval [I], a start
    time and a body that runs once per iteration.

    [spec_loop] is the algorithm of the specification (section 4.6),
    in the arithmetic of the specification, which is unbounded: while
    the time elapsed since the start is below [D], count the
    iteration, run the body, stop if the elapsed time and one interval
    reach [D], otherwise sleep for [I].

    [loop] is the [for] loop of src/main.go with its two constants
    turned into parameters, as the design notes of the specification
    ask for (timing passed in, so that a test can inject a short
    duration), in the arithmetic of the code: the elapsed time is a
    [time.Duration] that saturates, the sum with the interval and the
    iteration counter are [int64] and wrap.

    [loop_refines_spec]: the two agree as long as nothing overflows,
    that is when no reading of the clock takes longer than a bound [L]
    with [D + I + 2 * L + B] in the [int64] range, [B] the time a run
    of the body may take.  The other theorems are about [loop], for
    every [D] and [I] with [0 < I] and [D + I] in the [int64] range
    and every body that returns and does not set the clock back: the
    loop ends after at most [rounds D I] iterations ([D / I] rounded
    up), within a fuel of [rounds D I + 1]; when [D] is a multiple of
    [I] and all the readings of the clock together take less than
    [I], it runs exactly [D / I] iterations.  Schedule.v shows that
    the loop of src/main.go is [loop] at 24 hours and 30 minutes. *)

From Stdlib Require Import ZArith Lia String Ascii.
From stdpp Require Import base tactics option list numbers strings gmap.
From S2P Require Import Prelude Types World.

(** The number of intervals [I] that cover [D]: [D / I] rounded up. *)
Definition rounds (D I : Duration) : Z := (D + I - 1) / I.

Lemma rounds_spec D I : 0 < I -> D <= rounds D I * I < D + I.
Proof.
  intros HI. unfold rounds.
  pose proof (Z.div_mod (D + I - 1) I ltac:(lia)).
  pose proof (Z.mod_pos_bound (D + I - 1) I HI). nia.
Qed.

Lemma rounds_multiple N I : 0 < I -> rounds (N * I) I = N.
Proof.
  intros HI. unfold rounds. symmetry.
  apply (Z.div_unique_pos _ _ N (I - 1)); lia.
Qed.

Lemma rounds_nonneg D I : 0 < I -> 0 <= D -> 0 <= rounds D I.
Proof. intros HI HD. unfold rounds. apply Z.div_pos; lia. Qed.

Section Loop.
Context {rt : Runtime} {St : Type}.
Context (D I : Duration) (body : St -> Z -> Proc St).

(** The loop of the specification.  Its steps are those of section
    4.6: (1) while the elapsed time since [T0] is below [D], (a) count
    the iteration, (b-d) run the body, (e) stop if the elapsed time
    and [I] reach [D], (f) otherwise suspend for [I].  Times and
    counters are unbounded integers.  The result is the number of the
    last iteration; [None]: the fuel ran out. *)
Fixpoint spec_loop (fuel : nat) (T0 : Time) (st : St) (iteration : Z)
  : Proc (option Z) :=
  match fuel with
  | O => ret None
  | S fuel' =>
      t <- now ;;
      if t - T0 <? D then
        st <- body st (iteration + 1) ;;
        t' <- now ;;
        if D <=? (t' - T0) + I then ret (Some (iteration + 1))
        else
          sleep I ;;;
          spec_loop fuel' T0 st (iteration + 1)
      else ret (Some iteration)
  end.

(** The loop of the code.  The result is the number of the last
    iteration; [None]: the fuel ran out. *)
Fixpoint loop (fuel : nat) (startTime : Time) (st : St) (iteration : Z)
  : Proc (option Z) :=
  match fuel with
  | O => ret None
  | S fuel' =>
      t <- now ;;
      if time_since t startTime <? D then
        let iteration := iteration +64 1 in
        st <- body st iteration ;;
        t' <- now ;;
        if D <=? time_since t' startTime +64 I then ret (Some iteration)
        else
          sleep I ;;;
          loop fuel' startTime st iteration
      else ret (Some iteration)
  end.

Lemma loop_S fuel startTime st iteration :
  loop (S fuel) startTime st iteration =
  (t <- now ;;
   if time_since t startTime <? D then
     st' <- body st (iteration +64 1) ;;
     t' <- now ;;
     if D <=? time_since t' startTime +64 I then ret (Some (iteration +64 1))
     else sleep I ;;; loop fuel startTime st' (iteration +64 1)
   else ret (Some iteration)).
Proof. reflexivity. Qed.

Lemma spec_loop_S fuel T0 st iteration :
  spec_loop (S fuel) T0 st iteration =
  (t <- now ;;
   if t - T0 <? D then
     st' <- body st (iteration + 1) ;;
     t' <- now ;;
     if D <=? (t' - T0) + I then ret (Some (iteration + 1))
     else sleep I ;;; spec_loop fuel T0 st' (iteration + 1)
   else ret (Some iteration)).
Proof. reflexivity. Qed.

(** ** The code's loop against the specification's *)

Section Refines.
Context (L B : Duration) (T0 : Time).
Hypothesis HI : 0 <= I.
Hypothesis HB : 0 <= B.
Hypothesis Hlat : forall n, 0 <= lat n <= L.
Hypothesis Hrange : D + I + 2 * L + B <= int64_max.

(** A run of the body takes at most [B] and does not set the clock
    back. *)
Hypothesis Hbody : forall st k w st' w',
  body st k w = Ok st' w' -> w_clock w <= w_clock w' <= w_clock w + B.

(** A reading of the clock at most [D + L + B] after the start: the
    elapsed time is exact, and so is its sum with the interval. *)
Lemma since_exact w :
  0 <= w_clock w - T0 <= D + L + B ->
  let t := w_clock w + lat (w_reads w) in
  time_since t T0 = t - T0 /\ time_since t T0 +64 I = t - T0 + I.
Proof.
  intros Hc t. pose proof (Hlat (w_reads w)).
  assert (time_since t T0 = t - T0) as ->
    by (apply time_since_exact; unfold t, in_int64, int64_min, int64_max in *; lia).
  split; [done|]. apply wrap64_id.
  unfold t, in_int64, int64_min, int64_max in *. lia.
Qed.

(** Entered at most [D] after the start, with a counter that the rounds
    left cannot bring out of the [int64] range, the loop of the code
    does what the loop of the specification does. *)
Lemma loop_refines_spec fuel : forall st k w,
  0 <= k -> k + Z.of_nat fuel <= int64_max ->
  0 <= w_clock w - T0 <= D ->
  loop fuel T0 st k w = spec_loop fuel T0 st k w.
Proof.
  induction fuel as [|fuel IH]; intros st k w Hk Hf Hc; [done|].
  pose proof (Hlat (w_reads w)) as Hl.
  rewrite loop_S, spec_loop_S, !(bind_Ok _ _ _ _ _ (now_eq w)).
  destruct (since_exact w) as [-> _]; [lia|].
  case_cond; [|done]. bool_to_prop.
  rewrite (wrap64_id (k + 1)) by (unfold in_int64, int64_min, int64_max in *; lia).
  match goal with |- context [bind (body _ _) _ ?w0] =>
    destruct (body st (k + 1) w0) as [st' w1|c w1|w1] eqn:E end;
    [|by rewrite !(bind_Exit _ _ _ _ _ E)|by rewrite !(bind_Crash _ _ _ _ E)].
  rewrite !(bind_Ok _ _ _ _ _ E), !(bind_Ok _ _ _ _ _ (now_eq w1)).
  apply Hbody in E. cbn [w_clock set_clock] in E.
  destruct (since_exact w1) as [-> ->]; [lia|].
  case_cond; [done|]. bool_to_prop.
  unfold sleep. rewrite !bind_act. pose proof (Hlat (w_reads w1)).
  apply IH; [lia|lia|]. cbn [w_clock set_clock record set_trace]. lia.
Qed.

End Refines.

(** The time the first [n] readings of the clock took. *)
Fixpoint elapsed (n : nat) : Duration :=
  match n with
  | O => 0
  | S n' => elapsed n' + lat n'
  end.

Lemma elapsed_S n : elapsed (S n) = elapsed n + lat n.
Proof. reflexivity. Qed.

Lemma elapsed_mono a b :
  (forall n, 0 <= lat n) -> (a <= b)%nat -> elapsed a <= elapsed b.
Proof.
  intros Hlat. induction 1 as [|b _ IH]; [done|].
  rewrite elapsed_S. specialize (Hlat b). lia.
Qed.

Section Bounds.
Hypothesis HI : 0 < I.
Hypothesis HD : 0 <= D.
Hypothesis Hrange : D + I <= int64_max.
Hypothesis Hlat : forall n, 0 <= lat n.

(** Up to [rounds D I] intervals fit in an [int64]. *)
Lemma intervals_in_int64 k : 0 <= k <= rounds D I -> in_int64 (k * I).
Proof.
  intros Hk. pose proof (rounds_spec D I HI).
  unfold in_int64, int64_min, int64_max in *. nia.
Qed.

Lemma count_in_int64 k : 0 <= k <= rounds D I -> in_int64 k.
Proof.
  intros Hk. pose proof (rounds_spec D I HI).
  unfold in_int64, int64_min, int64_max in *. nia.
Qed.

(** After [k] intervals have passed, the loop test sees at least as
    much. *)
Lemma since_lower startTime t k :
  0 <= k <= rounds D I -> startTime + k * I <= t ->
  k * I <= time_since t startTime.
Proof.
  intros Hk Ht. unfold time_since.
  rewrite <- (sat64_id (k * I)) by by apply intervals_in_int64.
  apply sat64_mono. lia.
Qed.

(** The test lets iteration [k + 1] start only when fewer than
    [rounds D I] are done. *)
Lemma test_bound startTime t k :
  0 <= k <= rounds D I -> startTime + k * I <= t ->
  time_since t startTime < D -> k < rounds D I.
Proof.
  intros Hk Ht Hs. pose proof (since_lower startTime t k Hk Ht).
  pose proof (rounds_spec D I HI). nia.
Qed.

(** The body returns and does not set the clock back. *)
Hypothesis Hbody : forall st k w,
  exists st' w', body st k w = Ok st' w' /\
    w_clock w <= w_clock w' /\ w_denied w' = w_denied w.

(** Entered with [k] iterations done and at least [k] intervals
    passed, the loop ends within the fuel that is left, after at most
    [rounds D I] iterations in all. *)
Lemma loop_total startTime fuel : forall st k w,
  0 <= k <= rounds D I -> rounds D I < Z.of_nat fuel + k ->
  startTime + k * I <= w_clock w ->
  exists n w',
    loop fuel startTime st k w = Ok (Some n) w' /\
    k <= n <= rounds D I /\ w_denied w' = w_denied w.
Proof.
  induction fuel as [|fuel IH]; intros st k w Hk Hf Hc; [lia|].
  rewrite loop_S, (bind_Ok _ _ _ _ _ (now_eq w)).
  pose proof (Hlat (w_reads w)) as Hl0.
  case_cond; [|by eexists _, _; split; [done|split; [lia|done]]].
  bool_to_prop.
  assert (k < rounds D I) as Hk' by (eapply test_bound; [done| |done]; lia).
  rewrite (wrap64_id (k + 1)) by (apply count_in_int64; lia).
  match goal with |- context [bind (body _ _) _ ?w0] =>
    destruct (Hbody st (k + 1) w0) as (st' & w1 & E & Hc1 & Hd1) end.
  rewrite (bind_Ok _ _ _ _ _ E), (bind_Ok _ _ _ _ _ (now_eq w1)).
  case_cond; [by eexists _, _; split; [done|split; [lia|done]]|].
  unfold sleep. rewrite bind_act. pose proof (Hlat (w_reads w1)).
  match goal with |- context [loop fuel _ _ _ ?w2] =>
    destruct (IH st' (k + 1) w2) as (n & w' & E' & Hn & Hd');
      [lia|lia| |rewrite E']
  end.
  - simpl in *. lia.
  - exists n, w'. split; [done|]. split; [lia|]. simpl in *. congruence.
Qed.

End Bounds.

Section Exact.
Context (N : Z).
Hypothesis HI : 0 < I.
Hypothesis HN : 0 <= N.
Hypothesis HD : D = N * I.
Hypothesis Hrange : D + I <= int64_max.
Hypothesis Hlat : forall n, 0 <= lat n.

(** The body returns, and the clock moves only by the readings the
    body makes of it. *)
Hypothesis Hbody : forall st k w,
  exists st' w', body st k w = Ok st' w' /\
    (w_reads w <= w_reads w')%nat /\
    w_clock w' = w_clock w + (elapsed (w_reads w') - elapsed (w_reads w)).

(** When [D] is [N] intervals and all the readings of the clock of a
    run together take less than one interval, the loop ends after
    exactly [N] iterations, and it has slept [N - 1] times: the last
    iteration is not followed by a sleep.  [base] is the clock without
    the latencies; [r0] is the reading that gave [startTime]. *)
Lemma loop_exact startTime base r0 fuel : forall st k w,
  (forall n, elapsed n - elapsed r0 < I) ->
  startTime = base + elapsed r0 ->
  0 <= k <= N -> N < Z.of_nat fuel + k -> (r0 <= w_reads w)%nat ->
  w_clock w = base + k * I + elapsed (w_reads w) ->
  exists w',
    loop fuel startTime st k w = Ok (Some N) w' /\
    (k < N -> w_clock w' = base + (N - 1) * I + elapsed (w_reads w')).
Proof.
  intros st k w Hj Hst. revert st k w.
  induction fuel as [|fuel IH]; intros st k w Hk Hf Hr Hc; [lia|].
  rewrite loop_S, (bind_Ok _ _ _ _ _ (now_eq w)).
  assert (forall n, (r0 <= n)%nat ->
            time_since (base + k * I + elapsed n) startTime =
            k * I + (elapsed n - elapsed r0) /\
            0 <= elapsed n - elapsed r0 < I) as Hsince.
  { intros n Hn. pose proof (elapsed_mono r0 n Hlat Hn). specialize (Hj n).
    unfold time_since. rewrite sat64_id; [lia|].
    unfold in_int64, int64_min, int64_max in *. nia. }
  rewrite Hc, <- Z.add_assoc, <- elapsed_S.
  destruct (Hsince (S (w_reads w))) as [-> Hd]; [lia|].
  case_cond; bool_to_prop;
    [|assert (k = N) as -> by nia; eexists; split; [done|lia]].
  assert (k < N) as Hk' by nia.
  rewrite (wrap64_id (k + 1))
    by (unfold in_int64, int64_min, int64_max in *; nia).
  match goal with |- context [bind (body _ _) _ ?w0] =>
    destruct (Hbody st (k + 1) w0) as (st' & w1 & E & Hr1 & Hc1) end.
  rewrite (bind_Ok _ _ _ _ _ E), (bind_Ok _ _ _ _ _ (now_eq w1)).
  cbn [w_clock w_reads set_clock] in Hr1, Hc1.
  replace (w_clock w1 + lat (w_reads w1))
    with (base + k * I + elapsed (S (w_reads w1)))
    by (rewrite Hc1, !elapsed_S; lia).
  destruct (Hsince (S (w_reads w1))) as [-> Hd']; [lia|].
  rewrite wrap64_id by (unfold in_int64, int64_min, int64_max in *; nia).
  case_cond; bool_to_prop.
  { assert (k + 1 = N) as <- by nia. eexists. split; [done|]. intros _.
    simpl. f_equal. lia. }
  unfold sleep. rewrite bind_act.
  match goal with |- context [loop fuel _ _ _ ?w2] =>
    destruct (IH st' (k + 1) w2) as (w' & E' & Hc');
      [lia|lia|simpl; lia|simpl; lia|]
  end.
  exists w'. split; [done|]. intros _. apply Hc'. nia.
Qed.

End Exact.
End Loop.
