(* ===== verification/Schedule.v ===== *)
(** * Schedule: the loop of a monitoring run

    The [for] loop of [runKeepAnEyeMode] of src/main.go (lines 465 to
    484) and its body.  [iteration_body] is one iteration up to the
    checkpoint: the header appended to the output file, the batch, its
    lines, the checkpoint with the iteration number.  [schedule] is the
    loop, a fixpoint on a fuel.  The batch is any [BatchRunner].

    [schedule] is [loop] of Loop.v at a duration of 24 hours and an
    interval of 30 minutes around [iteration_body] ([schedule_loop]);
    its termination and its count of iterations come from there.  It
    does what the loop of the specification does ([spec_loop], in
    unbounded arithmetic) as long as no reading of the clock takes
    decades ([schedule_refines_spec]); [break_test_overflows] is what
    happens when one does.  What the loop writes ([log_text]) and does
    ([loop_events]) is proved on [schedule] itself. *)

From Stdlib Require Import ZArith Lia String Ascii.
From stdpp Require Import base tactics option list numbers strings gmap.
From S2P Require Import Prelude GoStrings Types World Config Probe.
From S2P Require Import Dispatcher Runner Report Checkpoint Loop.

(** The loop test can succeed at most [runDuration / checkInterval]
    times; one more round sees it fail. *)
Definition loop_fuel : nat := Z.to_nat (runDuration / checkInterval) + 1.

Section Schedule.
Context {rt : Runtime} {br : BatchRunner}.

(** The header written to the output file before the lines of an
    iteration (the [Sprintf] of line 469). *)
Definition iteration_header (iteration : Z) (t : Time) : string :=
  nl +:+ "=== Iteration " +:+ Itoa iteration +:+ " - " +:+ fmt_rfc3339 t
  +:+ " ===" +:+ nl.

(** The body of the loop from the header to the checkpoint (lines
    468-477): the header, the batch, its lines, the checkpoint. *)
Definition iteration_body (config : Config) (paths methods : list string)
    (status : StatusInfo) (iteration : Z) : Proc StatusInfo :=
  t <- now ;;
  append_file (OutputFile config) (iteration_header iteration t) ;;;
  results <- runTests_proc (Z.to_nat iteration) config paths methods ;;
  saveResults results config ;;;
  let status := set_Iteration iteration status in
  t' <- now ;;
  let status := set_NextCheck (time_add t' checkInterval) status in
  saveStatus status ;;;
  ret status.

(** The [for] loop.  The result is the value of [iteration] when the
    loop ends; [None]: the fuel ran out. *)
Fixpoint schedule (fuel : nat) (config : Config) (paths methods : list string)
    (startTime : Time) (status : StatusInfo) (iteration : Z)
  : Proc (option Z) :=
  match fuel with
  | O => ret None
  | S fuel' =>
      t <- now ;;
      if time_since t startTime <? runDuration then
        let iteration := iteration +64 1 in
        status <- iteration_body config paths methods status iteration ;;
        t' <- now ;;
        if runDuration <=? time_since t' startTime +64 checkInterval then
          ret (Some iteration)
        else
          sleep checkInterval ;;;
          schedule fuel' config paths methods startTime status iteration
      else ret (Some iteration)
  end.

(** What one iteration does, in order: the header, the batch, its
    lines, the checkpoint. *)
Definition round_events (config : Config) (ok_out ok_st : bool) (k : Z)
    (t : Time) (rs : list TestResult) (st : StatusInfo) : list Event :=
  [EvAppend (OutputFile config) (iteration_header k t) ok_out;
   EvBatch (Z.to_nat k)]
  ++ save_events config rs ok_out
  ++ checkpoint_events ok_st st.

(** ** One iteration *)

(** The body of the loop always completes for a positive thread
    count: it reads the clock twice, appends the header and the lines
    of one full batch to the output file and overwrites the
    checkpoint. *)
Lemma iteration_body_ok config paths methods status k w :
  1 <= Threads config ->
  exists rs w',
    let t1 := w_clock w + lat (w_reads w) in
    let t2 := t1 + lat (S (w_reads w)) in
    let st := set_NextCheck (time_add t2 checkInterval) (set_Iteration k status) in
    iteration_body config paths methods status k w = Ok st w' /\
    length rs = (length paths * length methods)%nat /\
    w_clock w' = t2 /\ w_reads w' = S (S (w_reads w)) /\
    w_denied w' = w_denied w /\
    w_files w' =
      checkpoint_to (can_open w statusFile) st
        (append_to (can_open w (OutputFile config)) (OutputFile config)
           (iteration_header k t1 +:+ save_text config rs)
           (w_files w)) /\
    w_trace w' = w_trace w ++
      round_events config (can_open w (OutputFile config))
        (can_open w statusFile) k t1 rs st.
Proof.
  intros Ht. unfold iteration_body.
  rewrite (bind_Ok _ _ _ _ _ (now_eq w)).
  set (t1 := w_clock w + lat (w_reads w)).
  destruct (append_file_io (OutputFile config) (iteration_header k t1)
              (set_clock t1 (S (w_reads w)) w))
    as (w1 & E1 & Hio1 & Hf1 & _ & Htr1).
  rewrite (bind_Ok _ _ _ _ _ E1). io_facts Hio1.
  destruct (runTests_proc_returns (Z.to_nat k) config paths methods w1 Ht)
    as (rs & out & E2 & Hlen & _). rewrite (bind_Ok _ _ _ _ _ E2).
  match goal with |- context [bind (saveResults _ _) _ ?w2] =>
    destruct (saveResults_io rs config w2)
      as (w3 & E3 & Hio3 & Hf3 & Htr3) end.
  rewrite (bind_Ok _ _ _ _ _ E3), (bind_Ok _ _ _ _ _ (now_eq w3)).
  io_facts Hio3. rewrite Hc0, Hr0, Hc, Hr.
  match goal with |- context [bind (saveStatus ?st) _ ?w4] =>
    destruct (saveStatus_io st w4) as (w5 & E5 & Hio5 & Hf5 & _ & Htr5) end.
  rewrite (bind_Ok _ _ _ _ _ E5). io_facts Hio5.
  exists rs, w5. cbn zeta. fold t1.
  cbn [w_files w_trace set_clock set_stdout record set_trace]
    in Hf1, Hf3, Hf5, Htr1, Htr3, Htr5.
  rewrite Hc1, Hr1, Hd1, Hd0, Hd, Hf5, Hf3, Hf1, Htr5, Htr3, Htr1.
  rewrite !(can_open_denied w (set_stdout _ _)) by done.
  rewrite !(can_open_denied w (set_clock _ _ w)) by done.
  rewrite !(can_open_denied w (set_clock _ _ w3)) by (simpl; congruence).
  rewrite append_to_twice. unfold round_events.
  repeat split; try done. by rewrite <- !app_assoc.
Qed.

(** The files after one iteration, file by file. *)
Lemma iteration_body_files config paths methods status k w st w' :
  1 <= Threads config -> OutputFile config <> statusFile ->
  iteration_body config paths methods status k w = Ok st w' ->
  exists rs,
    length rs = (length paths * length methods)%nat /\
    w_denied w' = w_denied w /\
    content (w_files w') (OutputFile config) =
      content (w_files w) (OutputFile config) +:+
      (if can_open w (OutputFile config)
       then iteration_header k (w_clock w + lat (w_reads w)) +:+
            save_text config rs
       else "") /\
    (forall name, name <> statusFile ->
       (name = OutputFile config -> can_open w (OutputFile config) = false) ->
       w_files w' !! name = w_files w !! name).
Proof.
  intros Ht Hout E.
  destruct (iteration_body_ok config paths methods status k w Ht)
    as (rs & w1 & Hb). cbn zeta in Hb.
  destruct Hb as (E1 & Hlen & _ & _ & Hd & Hf & _). rewrite E in E1.
  injection E1 as _ <-. exists rs. repeat split; [done..| |].
  - rewrite Hf, <- content_append_to. apply content_ext.
    by apply checkpoint_to_lookup_ne.
  - intros name H1 H2.
    by rewrite Hf, checkpoint_to_lookup_ne, append_to_lookup_ne.
Qed.

(** The events of one iteration. *)
Lemma iteration_body_trace config paths methods status k w st w' :
  1 <= Threads config ->
  iteration_body config paths methods status k w = Ok st w' ->
  exists rs,
    length rs = (length paths * length methods)%nat /\
    w_denied w' = w_denied w /\
    st = mkStatusInfo (PID status) (StartTime status)
           (time_add (w_clock w') checkInterval) k /\
    w_trace w' = w_trace w ++
      round_events config (can_open w (OutputFile config))
        (can_open w statusFile) k (w_clock w + lat (w_reads w)) rs st.
Proof.
  intros Ht E.
  destruct (iteration_body_ok config paths methods status k w Ht)
    as (rs & w1 & Hb). cbn zeta in Hb.
  destruct Hb as (E1 & Hlen & Hc & _ & Hd & _ & Htr). rewrite E in E1.
  injection E1 as -> <-. exists rs. by rewrite Hc.
Qed.

(** ** The loop *)

Lemma schedule_S fuel config paths methods startTime status iteration :
  schedule (S fuel) config paths methods startTime status iteration =
  (t <- now ;;
   if time_since t startTime <? runDuration then
     status' <- iteration_body config paths methods status (iteration +64 1) ;;
     t' <- now ;;
     if runDuration <=? time_since t' startTime +64 checkInterval then
       ret (Some (iteration +64 1))
     else
       sleep checkInterval ;;;
       schedule fuel config paths methods startTime status' (iteration +64 1)
   else ret (Some iteration)).
Proof. reflexivity. Qed.

(** The loop of src/main.go is [loop] for a duration of 24 hours, an
    interval of 30 minutes and the body [iteration_body]. *)
Lemma schedule_loop fuel config paths methods startTime : forall status k w,
  schedule fuel config paths methods startTime status k w =
  loop runDuration checkInterval (iteration_body config paths methods)
    fuel startTime status k w.
Proof.
  induction fuel as [|fuel IH]; intros status k w; [done|].
  rewrite schedule_S, loop_S. unfold bind. repeat case_match; by try apply IH.
Qed.

(** 24 hours are 48 intervals of 30 minutes. *)
Lemma rounds_run : rounds runDuration checkInterval = 48.
Proof. reflexivity. Qed.

(** What the loop appends to the output file for a list of batches,
    each with the time of its header, the first one numbered [k + 1]. *)
Fixpoint log_text (config : Config) (k : Z)
    (entries : list (Time * list TestResult)) : string :=
  match entries with
  | [] => ""
  | (t, rs) :: rest =>
      iteration_header (k + 1) t +:+ save_text config rs +:+
      log_text config (k + 1) rest
  end.

(** What the loop does, in order: the rounds, each a header time, a
    batch and the time of its checkpoint, with a sleep between two
    rounds; [last_sleep] says whether the last round is followed by a
    sleep too (the loop then ends at its test). *)
Fixpoint loop_events (config : Config) (ok_out ok_st : bool) (pid : Z)
    (start : Time) (k : Z) (last_sleep : bool)
    (rounds : list (Time * list TestResult * Time)) : list Event :=
  match rounds with
  | [] => []
  | (t, rs, t') :: rest =>
      round_events config ok_out ok_st (k + 1) t rs
        (mkStatusInfo pid start (time_add t' checkInterval) (k + 1))
      ++ match rest with
         | [] => if last_sleep then [EvSleep checkInterval] else []
         | _ :: _ => [EvSleep checkInterval]
         end
      ++ loop_events config ok_out ok_st pid start (k + 1) last_sleep rest
  end.

Section Loop.
Context (config : Config) (paths methods : list string) (startTime : Time).
Hypothesis Hthreads : 1 <= Threads config.
Hypothesis Hlat : forall n, 0 <= lat n.

(** The body of the loop is a body as the theorems on [loop] want
    it: it returns, the clock does not go back, and the clock moves
    only by the two readings the body makes of it. *)
Lemma iteration_body_clock status k w :
  exists st' w',
    iteration_body config paths methods status k w = Ok st' w' /\
    w_clock w <= w_clock w' /\ w_denied w' = w_denied w.
Proof.
  destruct (iteration_body_ok config paths methods status k w Hthreads)
    as (rs & w' & Hb). cbn zeta in Hb.
  destruct Hb as (E & _ & Hc & _ & Hd & _).
  pose proof (Hlat (w_reads w)). pose proof (Hlat (S (w_reads w))).
  eexists _, w'. split; [done|]. split; [lia|done].
Qed.

Lemma iteration_body_reads status k w :
  exists st' w',
    iteration_body config paths methods status k w = Ok st' w' /\
    (w_reads w <= w_reads w')%nat /\
    w_clock w' = w_clock w + (elapsed (w_reads w') - elapsed (w_reads w)).
Proof.
  destruct (iteration_body_ok config paths methods status k w Hthreads)
    as (rs & w' & Hb). cbn zeta in Hb.
  destruct Hb as (E & _ & Hc & Hr & _).
  eexists _, w'. split; [done|]. rewrite Hc, Hr, !elapsed_S.
  split; lia.
Qed.

(** Entered with [k] iterations done and at least [k] intervals
    passed, the loop ends within the fuel that is left, after at most
    48 iterations in all. *)
Lemma schedule_total_aux fuel status k w :
  0 <= k <= 48 -> 49 <= Z.of_nat fuel + k ->
  startTime + k * checkInterval <= w_clock w ->
  exists n w',
    schedule fuel config paths methods startTime status k w = Ok (Some n) w' /\
    k <= n <= 48 /\ w_denied w' = w_denied w.
Proof.
  intros Hk Hf Hc. rewrite schedule_loop.
  apply loop_total; rewrite ?rounds_run; try done; try lia.
  apply iteration_body_clock.
Qed.

(** When all the readings of the clock of a run together take less
    than one interval, the loop ends after exactly 48 iterations and
    47 sleeps.  [base] is the clock without the latencies; [r0] is the
    reading that gave [startTime]. *)
Lemma schedule_exact_aux base r0 fuel status k w :
  (forall n, elapsed n - elapsed r0 < checkInterval) ->
  startTime = base + elapsed r0 ->
  0 <= k <= 48 -> 49 <= Z.of_nat fuel + k -> (r0 <= w_reads w)%nat ->
  w_clock w = base + k * checkInterval + elapsed (w_reads w) ->
  exists w',
    schedule fuel config paths methods startTime status k w
      = Ok (Some 48) w' /\
    (k < 48 ->
     w_clock w' = base + 47 * checkInterval + elapsed (w_reads w')).
Proof.
  intros Hj Hst Hk Hf Hr Hc. rewrite schedule_loop.
  apply (loop_exact runDuration checkInterval _ 48) with r0;
    try done; try lia.
  apply iteration_body_reads.
Qed.

(** When the elapsed time has come within one interval of the largest
    [Duration], the sum in the test that ends the loop wraps around:
    the test fails, the loop sleeps once more, and the loop test ends
    it. *)
Lemma since_wraps t :
  int64_max - checkInterval < t - startTime ->
  time_since t startTime +64 checkInterval < 0 /\
  runDuration <= time_since t startTime.
Proof.
  intros Ht. unfold time_since.
  pose proof (sat64_range (t - startTime)) as [_ Hhi].
  pose proof (sat64_lower (int64_max - checkInterval + 1) (t - startTime))
    as Hlo.
  rewrite checkInterval_ns, runDuration_ns in *.
  unfold in_int64, int64_min, int64_max in *.
  rewrite wrap64_over by (unfold int64_max; lia). lia.
Qed.

Lemma schedule_wraps fuel status k w :
  0 <= k < int64_max ->
  let r := w_reads w in
  let t := w_clock w + lat r in
  let t' := t + lat (S r) + lat (S (S r)) + lat (S (S (S r))) in
  time_since t startTime < runDuration ->
  int64_max - checkInterval < t' - startTime ->
  exists w',
    schedule (S (S fuel)) config paths methods startTime status k w
      = Ok (Some (k + 1)) w' /\
    last (w_trace w') = Some (EvSleep checkInterval).
Proof.
  intros Hk r t t' Hin Hjump.
  rewrite schedule_S, (bind_Ok _ _ _ _ _ (now_eq w)). fold r t.
  apply Z.ltb_lt in Hin. rewrite Hin.
  rewrite (wrap64_id (k + 1)) by (unfold in_int64, int64_min, int64_max in *; lia).
  destruct (iteration_body_ok config paths methods status (k + 1)
              (set_clock t (S r) w) Hthreads) as (rs & w1 & Hb).
  cbn zeta in Hb. cbn [w_clock w_reads set_clock] in Hb.
  destruct Hb as (E & _ & Hc1 & Hr1 & _).
  rewrite (bind_Ok _ _ _ _ _ E), (bind_Ok _ _ _ _ _ (now_eq w1)), Hc1, Hr1.
  fold t'. destruct (since_wraps t' Hjump) as [Hneg _].
  destruct (Z.leb_spec runDuration (time_since t' startTime +64 checkInterval))
    as [Hle|_]; [rewrite runDuration_ns in Hle; lia|].
  unfold sleep. rewrite bind_act, schedule_S.
  rewrite (bind_Ok _ _ _ _ _ (now_eq _)).
  cbn [w_clock w_reads set_clock record set_trace].
  pose proof (Hlat (S (S (S (S r))))).
  destruct (since_wraps (t' + Z.max 0 checkInterval + lat (S (S (S (S r))))))
    as [_ Hge]; [rewrite checkInterval_ns in *; lia|].
  apply Z.ltb_ge in Hge. rewrite Hge.
  eexists. split; [done|]. simpl. apply last_snoc.
Qed.

Hypothesis Hout : OutputFile config <> statusFile.

(** The output file is an append-only log: when the loop ends after
    [n] iterations it has appended [n - k] headers, numbered in order,
    each followed by the lines of one full batch, and has left the
    other files (the checkpoint apart) as they were. *)
Lemma schedule_log fuel : forall status k w n w',
  0 <= k -> k + Z.of_nat fuel <= int64_max ->
  schedule fuel config paths methods startTime status k w = Ok (Some n) w' ->
  exists entries,
    Z.of_nat (length entries) = n - k /\
    Forall (fun e => length e.2 = (length paths * length methods)%nat) entries /\
    w_denied w' = w_denied w /\
    content (w_files w') (OutputFile config) =
      content (w_files w) (OutputFile config) +:+
      (if can_open w (OutputFile config) then log_text config k entries else "") /\
    (forall name, name <> statusFile ->
       (name = OutputFile config -> can_open w (OutputFile config) = false) ->
       w_files w' !! name = w_files w !! name).
Proof.
  induction fuel as [|fuel IH]; intros status k w n w' Hk Hf; [done|].
  rewrite schedule_S, (bind_Ok _ _ _ _ _ (now_eq w)).
  assert (forall ok : bool, (if ok then "" else "") = "") as Hnil by by intros [].
  case_cond; [|intros [= <- <-]; exists []; simpl;
                 by rewrite Z.sub_diag, Hnil, string_app_nil_r].
  rewrite (wrap64_id (k + 1)) by (unfold in_int64, int64_min, int64_max in *; lia).
  unfold bind at 1.
  destruct (iteration_body _ _ _ _ _ _) as [st w1| |] eqn:E; [|done..].
  apply iteration_body_files in E as (rs & Hlen & Hd1 & Hc1 & Ho1); [|done..].
  simpl in Hd1, Hc1, Ho1. rewrite (bind_Ok _ _ _ _ _ (now_eq w1)).
  change (can_open (set_clock _ _ w) (OutputFile config))
    with (can_open w (OutputFile config)) in Hc1.
  set (t1 := w_clock w + lat (w_reads w) + lat (S (w_reads w))) in *.
  case_cond.
  - intros [= <- <-]. exists [(t1, rs)]. simpl.
    rewrite string_app_nil_r. repeat split; [lia|by repeat constructor|done..].
  - unfold sleep. rewrite bind_act. intros Hs.
    apply IH in Hs as (entries & Hn & Hall & Hd & Hc & Ho); [|lia..].
    exists ((t1, rs) :: entries). simpl in *.
    rewrite (can_open_denied w) in Hc by done.
    repeat split; [lia|by constructor|congruence| |].
    + rewrite Hc, Hc1. destruct (can_open w (OutputFile config));
        by rewrite ?string_app_nil_r, ?string_app_assoc.
    + intros name H1 H2. rewrite Ho, Ho1; [done..|].
      by rewrite (can_open_denied w).
Qed.

(** The trace of the loop: the rounds in order, each one header,
    batch, lines, checkpoint, and a sleep of one interval between two
    rounds. *)
Lemma schedule_trace fuel : forall status k w n w',
  0 <= k -> k + Z.of_nat fuel <= int64_max ->
  schedule fuel config paths methods startTime status k w = Ok (Some n) w' ->
  exists rounds last_sleep,
    Z.of_nat (length rounds) = n - k /\
    Forall (fun r => length r.1.2 = (length paths * length methods)%nat)
      rounds /\
    w_denied w' = w_denied w /\
    w_trace w' = w_trace w ++
      loop_events config (can_open w (OutputFile config))
        (can_open w statusFile) (PID status) (StartTime status) k
        last_sleep rounds.
Proof.
  induction fuel as [|fuel IH]; intros status k w n w' Hk Hf; [done|].
  rewrite schedule_S, (bind_Ok _ _ _ _ _ (now_eq w)).
  case_cond; [|intros [= <- <-]; exists [], false; simpl;
                 by rewrite Z.sub_diag, app_nil_r].
  rewrite (wrap64_id (k + 1)) by (unfold in_int64, int64_min, int64_max in *; lia).
  unfold bind at 1.
  destruct (iteration_body _ _ _ _ _ _) as [st w1| |] eqn:E; [|done..].
  apply iteration_body_trace in E as (rs & Hlen & Hd1 & Hst & Htr1); [|done].
  simpl in Hd1, Htr1. rewrite (bind_Ok _ _ _ _ _ (now_eq w1)).
  rewrite !(can_open_denied w (set_clock _ _ w)) in Htr1 by done.
  set (t := w_clock w + lat (w_reads w) + lat (S (w_reads w))) in *.
  case_cond.
  - intros [= <- <-]. exists [(t, rs, w_clock w1)], false. simpl.
    rewrite Htr1, Hst, !app_nil_r.
    repeat split; [lia|by repeat constructor|done].
  - unfold sleep. rewrite bind_act. intros Hs.
    apply IH in Hs as (rounds & ls & Hn & Hall & Hd & Htr); [|lia..].
    simpl in Hd. rewrite Hd1 in Hd.
    rewrite (can_open_denied w _ (OutputFile config)),
      (can_open_denied w _ statusFile) in Htr by done.
    cbn [w_trace record set_trace set_clock] in Htr.
    rewrite Htr, Htr1, Hst. cbn [PID StartTime]. destruct rounds as [|r rounds].
    + exists [(t, rs, w_clock w1)], true. cbn [loop_events].
      rewrite !app_nil_r, <- !app_assoc.
      repeat split; [simpl in *; lia|by repeat constructor|done].
    + exists ((t, rs, w_clock w1) :: r :: rounds), ls.
      split; [simpl in *; lia|]. split; [by constructor|]. split; [done|].
      cbn [loop_events]. by rewrite <- !app_assoc.
Qed.

End Loop.

(** ** The loop: claims *)

(** C10 The schedule loop terminates: with a positive thread count
    and a clock that does not go backwards, [loop_fuel] rounds are
    enough for the loop to end, and it ends after at most 48
    iterations (run duration / check interval), whatever the batches
    and the file system do. *)
Theorem schedule_terminates config paths methods startTime status w :
  1 <= Threads config -> (forall n, 0 <= lat n) -> startTime <= w_clock w ->
  exists n w',
    schedule loop_fuel config paths methods startTime status 0 w
      = Ok (Some n) w' /\
    0 <= n <= 48.
Proof.
  intros Ht Hlat Hc.
  destruct (schedule_total_aux config paths methods startTime Ht Hlat
              loop_fuel status 0 w) as (n & w' & E & Hn & _);
    [lia|by vm_compute|lia|].
  by exists n, w'.
Qed.

(** C5 The schedule loop runs exactly 48 iterations (24 hours of
    30 minutes) when the readings of the clock of the whole run, the
    batches included, together take less than one interval; the last
    iteration is not followed by a sleep: when the loop ends the
    clock has advanced by 47 intervals and the time of the
    readings. *)
Theorem schedule_exact config paths methods status w :
  1 <= Threads config -> (forall n, 0 <= lat n) ->
  (forall n, elapsed n - elapsed (w_reads w) < checkInterval) ->
  exists w',
    schedule loop_fuel config paths methods (w_clock w) status 0 w
      = Ok (Some 48) w' /\
    w_clock w' =
      w_clock w + 47 * checkInterval +
      (elapsed (w_reads w') - elapsed (w_reads w)).
Proof.
  intros Ht Hlat Hj.
  destruct (schedule_exact_aux config paths methods (w_clock w) Ht Hlat
              (w_clock w - elapsed (w_reads w)) (w_reads w) loop_fuel
              status 0 w) as (w' & E & Hc);
    [done|lia|lia|by vm_compute|done|lia|].
  exists w'. split; [done|]. rewrite Hc; lia.
Qed.

(** C6 The loop of src/main.go refines the Schedule Loop of the
    specification.  The specification counts and compares in unbounded
    integers ([spec_loop]); the code counts in [int64], takes the
    elapsed time from [time.Since], which saturates, and adds the
    interval in [int64].  When no reading of the clock takes longer
    than [L], with 24 hours, 30 minutes and four times [L] within the
    [int64] range (any [L] up to 73 years), the loop entered at most
    24 hours after its start time does exactly what the loop of the
    specification does: same result, same world, same events,
    whatever the fuel. *)
Theorem schedule_refines_spec L fuel config paths methods startTime status k w :
  1 <= Threads config ->
  (forall n, 0 <= lat n <= L) ->
  runDuration + checkInterval + 4 * L <= int64_max ->
  0 <= k -> k + Z.of_nat fuel <= int64_max ->
  0 <= w_clock w - startTime <= runDuration ->
  schedule fuel config paths methods startTime status k w =
  spec_loop runDuration checkInterval (iteration_body config paths methods)
    fuel startTime status k w.
Proof.
  intros Ht Hlat Hr Hk Hf Hc. rewrite schedule_loop.
  pose proof (Hlat 0%nat). rewrite checkInterval_ns in *.
  apply (loop_refines_spec _ _ _ L (2 * L)); try done; try lia.
  intros st i w0 st' w' E.
  destruct (iteration_body_ok config paths methods st i w0 Ht)
    as (rs & w1 & Hb). cbn zeta in Hb. destruct Hb as (E1 & _ & Hc1 & _).
  rewrite E in E1. injection E1 as _ <-.
  pose proof (Hlat (w_reads w0)). pose proof (Hlat (S (w_reads w0))). lia.
Qed.

(** C19 The count of iterations for every schedule: around the body
    of src/main.go, the loop for a duration of [N] intervals, whatever
    the interval, runs exactly [N] iterations and sleeps [N - 1] times
    when the readings of the clock of the run together take less than
    one interval (two iterations and one sleep for 60 minutes of 30
    minutes). *)
Theorem loop_whole_intervals D I N config paths methods status w :
  1 <= Threads config -> (forall n, 0 <= lat n) ->
  0 < I -> 0 <= N -> D = N * I -> D + I <= int64_max ->
  (forall n, elapsed n - elapsed (w_reads w) < I) ->
  exists w',
    loop D I (iteration_body config paths methods) (Z.to_nat N + 1)
      (w_clock w) status 0 w = Ok (Some N) w' /\
    (0 < N ->
     w_clock w' =
       w_clock w + (N - 1) * I + (elapsed (w_reads w') - elapsed (w_reads w))).
Proof.
  intros Ht Hlat HI HN HD Hr Hj.
  destruct (loop_exact D I (iteration_body config paths methods) N HI HN HD
              Hr Hlat (iteration_body_reads config paths methods Ht)
              (w_clock w) (w_clock w - elapsed (w_reads w)) (w_reads w)
              (Z.to_nat N + 1) status 0 w) as (w' & E & Hc);
    [done|lia|lia|lia|done|lia|].
  exists w'. split; [done|]. intros HN'. rewrite (Hc HN'). lia.
Qed.

(** C33 Overflow in the test that ends the loop.  [time.Since]
    saturates at the largest [Duration] and the sum with the interval
    is an [int64] sum: when the elapsed time has come within one
    interval of that bound, the sum is negative, the test fails
    although the run duration has long passed, and the loop sleeps one
    more interval before its own test ends it.  [time.Since] reads
    the monotonic clock, so this takes a reading that comes some 292
    years after the one before: no change of the wall clock does
    it. *)
Theorem break_test_overflows config paths methods startTime status k w fuel :
  1 <= Threads config -> (forall n, 0 <= lat n) -> 0 <= k < int64_max ->
  let r := w_reads w in
  let t := w_clock w + lat r in
  let t' := t + lat (S r) + lat (S (S r)) + lat (S (S (S r))) in
  time_since t startTime < runDuration ->
  int64_max - checkInterval < t' - startTime ->
  time_since t' startTime +64 checkInterval < 0 /\
  exists w',
    schedule (S (S fuel)) config paths methods startTime status k w
      = Ok (Some (k + 1)) w' /\
    last (w_trace w') = Some (EvSleep checkInterval).
Proof.
  intros Ht Hlat Hk r t t' Hin Hjump. split.
  - by apply since_wraps.
  - by apply schedule_wraps.
Qed.

(** Each iteration overwrites the checkpoint with its own number:
    after the body of iteration [k] the checkpoint file holds the
    record with [iteration = k], the process id and the start time it
    had, and [next_check] one interval after the time of the write. *)
Theorem iteration_checkpoint config paths methods status k w data :
  1 <= Threads config -> can_open w statusFile = true ->
  let t := w_clock w + lat (w_reads w) + lat (S (w_reads w)) in
  let st := mkStatusInfo (PID status) (StartTime status)
              (time_add t checkInterval) k in
  status_json st = Some data ->
  exists w',
    iteration_body config paths methods status k w = Ok st w' /\
    w_files w' !! statusFile = Some data.
Proof.
  intros Ht Hopen t st Hjson.
  destruct (iteration_body_ok config paths methods status k w Ht)
    as (rs & w' & Hb). cbn zeta in Hb. destruct Hb as (E & _ & _ & _ & _ & Hf & _).
  exists w'. split; [done|].
  rewrite Hf, Hopen. unfold checkpoint_to. fold t.
  change (set_NextCheck _ _) with st. rewrite Hjson. apply lookup_insert_eq.
Qed.

End Schedule.

(** ** Examples *)

Lemma demo_lat_nonneg n : 0 <= demo_lat n.
Proof. unfold demo_lat. by case_cond. Qed.

Lemma demo_lat_elapsed n :
  elapsed (rt := demo_rt) n = Second * Z.of_nat (Nat.min n 4).
Proof.
  induction n as [|n IH]; [done|]. rewrite elapsed_S, IH.
  change (lat n) with (demo_lat n).
  unfold demo_lat, Second. case_cond; bool_to_prop; lia.
Qed.

Lemma demo_lat_jitter n :
  elapsed (rt := demo_rt) n - elapsed (rt := demo_rt) (w_reads demo_world)
    < checkInterval.
Proof.
  rewrite !demo_lat_elapsed, checkInterval_ns. unfold Second. simpl. lia.
Qed.

Lemma schedule_terminates_witness :
  exists n w',
    schedule (rt := demo_rt) (br := demo_runner) loop_fuel
      (demo_config "out.txt" 2) ["/a"] ["GET"; "POST"] 0 demo_status 0
      demo_world = Ok (Some n) w' /\ 0 <= n <= 48.
Proof.
  exact (schedule_terminates (rt := demo_rt) (br := demo_runner) (demo_config "out.txt" 2) ["/a"] ["GET"; "POST"] 0
    demo_status demo_world ltac:(by vm_compute) demo_lat_nonneg
    ltac:(by vm_compute)).
Defined.

Lemma schedule_exact_witness :
  exists w',
    schedule (rt := demo_rt) (br := demo_runner) loop_fuel
      (demo_config "out.txt" 2) ["/a"] ["GET"; "POST"] (w_clock demo_world)
      demo_status 0 demo_world = Ok (Some 48) w' /\
    w_clock w' =
      w_clock demo_world + 47 * checkInterval +
      (elapsed (rt := demo_rt) (w_reads w') -
       elapsed (rt := demo_rt) (w_reads demo_world)).
Proof.
  exact (schedule_exact (rt := demo_rt) (br := demo_runner)
    (demo_config "out.txt" 2) ["/a"] ["GET"; "POST"] demo_status demo_world
    ltac:(by vm_compute) demo_lat_nonneg demo_lat_jitter).
Defined.

Lemma iteration_checkpoint_witness :
  exists w',
    iteration_body (rt := demo_rt) (br := demo_runner)
      (demo_config "out.txt" 2) ["/a"] ["GET"; "POST"] demo_status 1
      demo_world =
      Ok (mkStatusInfo 77 0 (time_add (2 * Second) checkInterval) 1) w' /\
    w_files w' !! statusFile =
      status_json (rt := demo_rt)
        (mkStatusInfo 77 0 (time_add (2 * Second) checkInterval) 1).
Proof.
  exact (iteration_checkpoint (rt := demo_rt) (br := demo_runner) (demo_config "out.txt" 2) ["/a"] ["GET"; "POST"]
    demo_status 1 demo_world _ ltac:(by vm_compute) ltac:(by vm_compute)
    eq_refl).
Defined.

Lemma demo_lat_bound n : 0 <= demo_lat n <= Second.
Proof. unfold demo_lat, Second. case_cond; lia. Qed.

Lemma schedule_refines_spec_witness :
  schedule (rt := demo_rt) (br := demo_runner) loop_fuel
    (demo_config "out.txt" 2) ["/a"] ["GET"; "POST"] 0 demo_status 0
    demo_world =
  spec_loop (rt := demo_rt) runDuration checkInterval
    (iteration_body (rt := demo_rt) (br := demo_runner)
       (demo_config "out.txt" 2) ["/a"] ["GET"; "POST"])
    loop_fuel 0 demo_status 0 demo_world.
Proof.
  exact (schedule_refines_spec (rt := demo_rt) (br := demo_runner) Second
    loop_fuel (demo_config "out.txt" 2) ["/a"] ["GET"; "POST"] 0 demo_status
    0 demo_world ltac:(by vm_compute) demo_lat_bound ltac:(by vm_compute)
    ltac:(done) ltac:(by vm_compute) ltac:(by vm_compute)).
Defined.

Lemma loop_whole_intervals_witness :
  exists w',
    loop (rt := demo_rt) (60 * Minute) (30 * Minute)
      (iteration_body (rt := demo_rt) (br := demo_runner)
         (demo_config "out.txt" 2) ["/a"] ["GET"; "POST"])
      3 (w_clock demo_world) demo_status 0 demo_world = Ok (Some 2) w' /\
    (0 < 2 ->
     w_clock w' =
       w_clock demo_world + (2 - 1) * (30 * Minute) +
       (elapsed (rt := demo_rt) (w_reads w') -
        elapsed (rt := demo_rt) (w_reads demo_world))).
Proof.
  exact (loop_whole_intervals (rt := demo_rt) (br := demo_runner)
    (60 * Minute) (30 * Minute) 2 (demo_config "out.txt" 2) ["/a"]
    ["GET"; "POST"] demo_status demo_world ltac:(by vm_compute)
    demo_lat_nonneg ltac:(by vm_compute) ltac:(by vm_compute) eq_refl
    ltac:(by vm_compute) demo_lat_jitter).
Defined.

(** A runtime in which the fourth reading of the clock comes 292 years
    after the third. *)
Definition jump_rt : Runtime :=
  mkRuntime (fun n => if (n =? 3)%nat then 2 ^ 63 else 0) demo_fmt demo_fmt
    demo_json_time id (inl 4242) demo_parse_int demo_quote.

Lemma break_test_overflows_witness :
  time_since (2 ^ 63) 0 +64 checkInterval < 0 /\
  exists w',
    schedule (rt := jump_rt) (br := demo_runner) 2 (demo_config "out.txt" 2)
      ["/a"] ["GET"; "POST"] 0 demo_status 0 demo_world = Ok (Some 1) w' /\
    last (w_trace w') = Some (EvSleep checkInterval).
Proof.
  exact (break_test_overflows (rt := jump_rt) (br := demo_runner)
    (demo_config "out.txt" 2) ["/a"] ["GET"; "POST"] 0 demo_status 0
    demo_world 0 ltac:(by vm_compute)
    (fun n => ltac:(simpl; case_cond; lia)) ltac:(by vm_compute)
    ltac:(by vm_compute) ltac:(by vm_compute)).
Defined.

(** In that runtime the loop of the specification stops after the
    first iteration without a sleep, where the loop of the code sleeps
    once more: outside the bound on the readings of the clock the code
    does not refine the specification. *)
Example spec_loop_stops :
  let body := iteration_body (rt := jump_rt) (br := demo_runner)
                (demo_config "out.txt" 2) ["/a"] ["GET"; "POST"] in
  let spec := spec_loop (rt := jump_rt) runDuration checkInterval body 2 0
                demo_status 0 demo_world in
  let code := schedule (rt := jump_rt) (br := demo_runner) 2
                (demo_config "out.txt" 2) ["/a"] ["GET"; "POST"] 0
                demo_status 0 demo_world in
  (exists w', spec = Ok (Some 1) w') /\ (exists w', code = Ok (Some 1) w') /\
  last (w_trace (world_of code)) = Some (EvSleep checkInterval) /\
  last (w_trace (world_of spec)) <> Some (EvSleep checkInterval).
Proof. vm_compute. repeat split; eauto; done. Qed.
