(* ===== verification/Monitor.v ===== *)
(** * Monitor: the worker of a monitoring run

    [runKeepAnEyeMode] of src/main.go: the paths and the methods, the
    first checkpoint, the schedule loop, the completion marker and the
    removal of the checkpoint. *)

From Stdlib Require Import ZArith Lia String Ascii.
From stdpp Require Import base tactics option list numbers strings gmap.
From S2P Require Import Prelude GoStrings Types World Config Probe.
From S2P Require Import Dispatcher Runner Report Checkpoint Supervisor Schedule.

Section Monitor.
Context {rt : Runtime} {br : BatchRunner}.

Definition completion_marker (t : Time) : string :=
  nl +:+ "=== Monitoring Completed - " +:+ fmt_rfc3339 t +:+ " ===" +:+ nl.

(** The start of the run (lines 454-463): the start time and the
    first checkpoint. *)
Definition init_status : Proc (Time * StatusInfo) :=
  startTime <- now ;;
  pid <- getpid ;;
  t <- now ;;
  let status := mkStatusInfo pid startTime t 0 in
  saveStatus status ;;;
  ret (startTime, status).

(** The end of the run (lines 486-490): the completion marker, and the
    checkpoint removed. *)
Definition finish (config : Config) : Proc unit :=
  t <- now ;;
  append_file (OutputFile config) (completion_marker t) ;;;
  remove_file statusFile ;;;
  ret tt.

Definition runKeepAnEyeMode (config : Config) : Proc (option Z) :=
  paths <- getPaths config ;;
  let methods := getMethods config in
  if (length paths =? 0)%nat then
    print ("Error: No paths provided for Keep An Eye mode" +:+ nl) ;;; exit 1
  else
    start <- init_status ;;
    iterations <-
      schedule loop_fuel config paths methods (fst start) (snd start) 0 ;;
    match iterations with
    | None => ret None
    | Some n => finish config ;;; ret (Some n)
    end.

(** ** The start and the end of a run *)

Lemma init_status_spec w :
  let t0 := w_clock w + lat (w_reads w) in
  let t1 := t0 + lat (S (w_reads w)) in
  let status := mkStatusInfo (w_pid w) t0 t1 0 in
  exists w',
    init_status w = Ok (t0, status) w' /\
    w_clock w' = t1 /\ w_reads w' = S (S (w_reads w)) /\
    w_denied w' = w_denied w /\
    w_files w' = checkpoint_to (can_open w statusFile) status (w_files w) /\
    w_trace w' = w_trace w ++ checkpoint_events (can_open w statusFile) status.
Proof.
  intros t0 t1 status. unfold init_status.
  rewrite (bind_Ok _ _ _ _ _ (now_eq w)), (bind_Ok getpid _ _ _ _ eq_refl).
  rewrite (bind_Ok _ _ _ _ _ (now_eq _)).
  match goal with |- context [bind (saveStatus ?st) _ ?w0] =>
    destruct (saveStatus_io st w0) as (w' & E & Hio & Hf & _ & Htr) end.
  rewrite (bind_Ok _ _ _ _ _ E). io_facts Hio. by exists w'.
Qed.

Lemma finish_spec config w :
  exists w',
    finish config w = Ok tt w' /\
    w_files w' =
      delete statusFile
        (append_to (can_open w (OutputFile config)) (OutputFile config)
           (completion_marker (w_clock w + lat (w_reads w))) (w_files w)) /\
    w_trace w' = w_trace w ++
      [EvAppend (OutputFile config)
         (completion_marker (w_clock w + lat (w_reads w)))
         (can_open w (OutputFile config));
       EvRemove statusFile].
Proof.
  unfold finish. rewrite (bind_Ok _ _ _ _ _ (now_eq w)).
  match goal with |- context [bind (append_file ?n ?d) _ ?w0] =>
    destruct (append_file_io n d w0) as (w1 & E1 & _ & Hf1 & _ & Htr1) end.
  rewrite (bind_Ok _ _ _ _ _ E1).
  destruct (remove_file_io statusFile w1) as (b & w2 & E2 & _ & Hf2 & _ & Htr2).
  rewrite (bind_Ok _ _ _ _ _ E2). exists w2. split; [done|].
  rewrite Hf2, Hf1, Htr2, Htr1. simpl. by rewrite <- app_assoc.
Qed.

(** ** The worker *)

Lemma runKeepAnEyeMode_paths config paths w :
  getPaths config w = Ok paths w -> paths <> [] ->
  runKeepAnEyeMode config w =
  (start <- init_status ;;
   iterations <-
     schedule loop_fuel config paths (getMethods config) (fst start) (snd start) 0 ;;
   match iterations with
   | None => ret None
   | Some n => finish config ;;; ret (Some n)
   end) w.
Proof.
  intros Hp Hne. unfold runKeepAnEyeMode. rewrite (bind_Ok _ _ _ _ _ Hp).
  by destruct paths.
Qed.

(** The worker returns. *)
Lemma runKeepAnEyeMode_total config paths w :
  1 <= Threads config -> (forall n, 0 <= lat n) ->
  getPaths config w = Ok paths w -> paths <> [] ->
  exists n w', runKeepAnEyeMode config w = Ok (Some n) w' /\ 0 <= n <= 48.
Proof.
  intros Ht Hlat Hp Hne. rewrite (runKeepAnEyeMode_paths _ _ _ Hp Hne).
  destruct (init_status_spec w) as (w1 & E1 & Hc1 & _).
  rewrite (bind_Ok _ _ _ _ _ E1). cbn [fst snd].
  pose proof (Hlat (S (w_reads w))) as Hl.
  match goal with |- context [schedule _ _ _ _ ?t0 ?st] =>
    destruct (schedule_total_aux config paths (getMethods config) t0 Ht Hlat
                loop_fuel st 0 w1) as (n & w2 & E2 & Hn & Hd2);
      [lia|by vm_compute|lia|]
  end.
  rewrite (bind_Ok _ _ _ _ _ E2).
  destruct (finish_spec config w2) as (w3 & E3 & _).
  rewrite (bind_Ok _ _ _ _ _ E3). by exists n, w3.
Qed.

(** The files a completed run of the worker leaves. *)
Lemma runKeepAnEyeMode_files config paths w n w' :
  1 <= Threads config -> OutputFile config <> statusFile ->
  getPaths config w = Ok paths w -> paths <> [] ->
  runKeepAnEyeMode config w = Ok (Some n) w' ->
  exists entries t,
    Z.of_nat (length entries) = n /\
    Forall (fun e => length e.2 =
              (length paths * length (getMethods config))%nat) entries /\
    w_files w' !! statusFile = None /\
    content (w_files w') (OutputFile config) =
      content (w_files w) (OutputFile config) +:+
      (if can_open w (OutputFile config)
       then log_text config 0 entries +:+ completion_marker t else "") /\
    (forall name, name <> statusFile ->
       (name = OutputFile config -> can_open w (OutputFile config) = false) ->
       w_files w' !! name = w_files w !! name).
Proof.
  intros Ht Hout Hp Hne. rewrite (runKeepAnEyeMode_paths _ _ _ Hp Hne).
  destruct (init_status_spec w) as (w1 & E1 & _ & _ & Hd1 & Hf1 & _).
  rewrite (bind_Ok _ _ _ _ _ E1). cbn [fst snd]. unfold bind at 1.
  destruct (schedule _ _ _ _ _ _ _ _) as [[n0|] w2| |] eqn:E2; [|done..].
  apply schedule_log in E2 as (entries & Hlen & Hall & Hd2 & Hc2 & Ho2);
    [|done|done|lia|by vm_compute].
  destruct (finish_spec config w2) as (w3 & E3 & Hf3 & _).
  rewrite (bind_Ok _ _ _ _ _ E3). intros [= <- <-].
  exists entries, (w_clock w2 + lat (w_reads w2)).
  rewrite (can_open_denied w w1) in Hc2, Ho2 by done.
  rewrite Hf3, (can_open_denied w w2) by congruence.
  repeat split; [lia|done|apply lookup_delete_eq| |].
  - erewrite content_ext by by apply lookup_delete_ne.
    rewrite content_append_to, Hc2, Hf1.
    rewrite (content_ext _ _ _ (checkpoint_to_lookup_ne _ _ _ _ Hout)).
    destruct (can_open w (OutputFile config));
      by rewrite ?string_app_nil_r, ?string_app_assoc.
  - intros name H1 H2.
    rewrite lookup_delete_ne, append_to_lookup_ne, Ho2, Hf1 by done.
    by apply checkpoint_to_lookup_ne.
Qed.

(** The trace of a completed run of the worker. *)
Lemma runKeepAnEyeMode_events config paths w n w' :
  1 <= Threads config ->
  getPaths config w = Ok paths w -> paths <> [] ->
  runKeepAnEyeMode config w = Ok (Some n) w' ->
  let t0 := w_clock w + lat (w_reads w) in
  let t1 := t0 + lat (S (w_reads w)) in
  let ok_out := can_open w (OutputFile config) in
  let ok_st := can_open w statusFile in
  exists rounds last_sleep t,
    Z.of_nat (length rounds) = n /\
    Forall (fun r => length r.1.2 =
              (length paths * length (getMethods config))%nat) rounds /\
    w_trace w' = w_trace w ++
      checkpoint_events ok_st (mkStatusInfo (w_pid w) t0 t1 0) ++
      loop_events config ok_out ok_st (w_pid w) t0 0 last_sleep rounds ++
      [EvAppend (OutputFile config) (completion_marker t) ok_out;
       EvRemove statusFile].
Proof.
  intros Ht Hp Hne. rewrite (runKeepAnEyeMode_paths _ _ _ Hp Hne).
  destruct (init_status_spec w) as (w1 & E1 & _ & _ & Hd1 & _ & Htr1).
  rewrite (bind_Ok _ _ _ _ _ E1). cbn [fst snd]. unfold bind at 1.
  destruct (schedule _ _ _ _ _ _ _ _) as [[n0|] w2| |] eqn:E2; [|done..].
  apply schedule_trace in E2 as (rounds & ls & Hlen & Hall & Hd2 & Htr2);
    [|done|lia|by vm_compute].
  destruct (finish_spec config w2) as (w3 & E3 & _ & Htr3).
  rewrite (bind_Ok _ _ _ _ _ E3). intros [= <- <-].
  exists rounds, ls, (w_clock w2 + lat (w_reads w2)).
  rewrite Htr3, Htr2, Htr1, (can_open_denied w w2) by congruence.
  rewrite !(can_open_denied w w1) by done. cbn [PID StartTime].
  repeat split; [lia|done|by rewrite <- !app_assoc].
Qed.

(** C3 A monitoring run completes: with a positive thread count, a
    clock that does not go backwards and at least one path, the worker
    returns after at most 48 iterations; the checkpoint file is gone;
    the output file has gained, in order, one numbered header and the
    lines of one full batch per iteration and then the completion
    marker; no other file has changed. *)
Theorem runKeepAnEyeMode_completes config paths w :
  1 <= Threads config -> (forall n, 0 <= lat n) ->
  OutputFile config <> statusFile ->
  getPaths config w = Ok paths w -> paths <> [] ->
  exists n entries t w',
    runKeepAnEyeMode config w = Ok (Some n) w' /\
    0 <= n <= 48 /\ Z.of_nat (length entries) = n /\
    Forall (fun e => length e.2 =
              (length paths * length (getMethods config))%nat) entries /\
    w_files w' !! statusFile = None /\
    content (w_files w') (OutputFile config) =
      content (w_files w) (OutputFile config) +:+
      (if can_open w (OutputFile config)
       then log_text config 0 entries +:+ completion_marker t else "") /\
    (forall name, name <> statusFile ->
       (name = OutputFile config -> can_open w (OutputFile config) = false) ->
       w_files w' !! name = w_files w !! name).
Proof.
  intros Ht Hlat Hout Hp Hne.
  destruct (runKeepAnEyeMode_total config paths w) as (n & w' & E & Hn);
    [done..|].
  destruct (runKeepAnEyeMode_files config paths w n w')
    as (entries & t & Hf); [done..|].
  by exists n, entries, t, w'.
Qed.

(** C7 The order of a monitoring run.  What a completed run of the
    worker did to its surroundings is, in this order: the first
    checkpoint (iteration 0); then, for each iteration from 1 to [n],
    the header, the batch, the lines of the batch and the checkpoint
    with the number of the iteration, the same process id and the same
    start time, with a sleep of exactly one interval between two
    iterations; then the completion marker and the removal of the
    checkpoint.  The iteration of the checkpoint never decreases, and
    batch [k] is over before batch [k + 1] starts. *)
Theorem runKeepAnEyeMode_trace config paths w :
  1 <= Threads config -> (forall n, 0 <= lat n) ->
  getPaths config w = Ok paths w -> paths <> [] ->
  let t0 := w_clock w + lat (w_reads w) in
  let t1 := t0 + lat (S (w_reads w)) in
  let ok_out := can_open w (OutputFile config) in
  let ok_st := can_open w statusFile in
  exists n rounds last_sleep t w',
    runKeepAnEyeMode config w = Ok (Some n) w' /\
    Z.of_nat (length rounds) = n /\
    Forall (fun r => length r.1.2 =
              (length paths * length (getMethods config))%nat) rounds /\
    w_trace w' = w_trace w ++
      checkpoint_events ok_st (mkStatusInfo (w_pid w) t0 t1 0) ++
      loop_events config ok_out ok_st (w_pid w) t0 0 last_sleep rounds ++
      [EvAppend (OutputFile config) (completion_marker t) ok_out;
       EvRemove statusFile].
Proof.
  intros Ht Hlat Hp Hne.
  destruct (runKeepAnEyeMode_total config paths w) as (n & w' & E & Hn);
    [done..|].
  destruct (runKeepAnEyeMode_events config paths w n w')
    as (rounds & ls & t & Hf); [done..|].
  by exists n, rounds, ls, t, w'.
Qed.

Lemma default_output_worker config paths w :
  OutputFile config = "" ->
  1 <= Threads config -> (forall n, 0 <= lat n) ->
  getPaths config w = Ok paths w -> paths <> [] ->
  exists n w',
    runKeepAnEyeMode config w = Ok (Some n) w' /\
    forall name, name <> statusFile -> w_files w' !! name = w_files w !! name.
Proof.
  intros Hout Ht Hlat Hp Hne.
  destruct (runKeepAnEyeMode_total config paths w) as (n & w' & E & _);
    [done..|].
  destruct (runKeepAnEyeMode_files config paths w n w')
    as (entries & t & _ & _ & _ & _ & Ho); [by rewrite ?Hout..|].
  exists n, w'. split; [done|]. intros name Hne'. apply Ho; [done|].
  intros _. by rewrite Hout.
Qed.

(** C24 The ways a worker ends without removing the checkpoint.  With
    no path it exits with code 1 before touching any file, so the
    checkpoint the parent wrote stays.  With a negative thread count
    the first batch panics: the process dies after it wrote its first
    checkpoint and the first header, and the checkpoint stays, with
    iteration 0. *)
Theorem worker_abnormal_end config paths w data :
  (getPaths config w = Ok [] w ->
   exists w', runKeepAnEyeMode config w = Exit 1 w' /\ w_files w' = w_files w) /\
  (Threads config < 0 -> getPaths config w = Ok paths w -> paths <> [] ->
   OutputFile config <> statusFile -> can_open w statusFile = true ->
   0 <= lat (S (w_reads w)) + lat (S (S (w_reads w))) < runDuration ->
   status_json (mkStatusInfo (w_pid w) (w_clock w + lat (w_reads w))
      (w_clock w + lat (w_reads w) + lat (S (w_reads w))) 0) = Some data ->
   exists w', runKeepAnEyeMode config w = Crash w' /\
     w_files w' !! statusFile = Some data).
Proof.
  split.
  - intros Hp. unfold runKeepAnEyeMode. rewrite (bind_Ok _ _ _ _ _ Hp).
    by eexists.
  - intros Ht Hp Hne Hout Hopen Hl Hjson.
    rewrite (runKeepAnEyeMode_paths _ _ _ Hp Hne).
    destruct (init_status_spec w) as (w1 & E1 & Hc1 & Hr1 & Hd1 & Hf1 & _).
    rewrite (bind_Ok _ _ _ _ _ E1). cbn [fst snd].
    change loop_fuel with (S 48). rewrite schedule_S, bind_assoc.
    rewrite (bind_Ok _ _ _ _ _ (now_eq w1)), Hc1, Hr1.
    unfold time_since at 1. rewrite sat64_id
      by (unfold in_int64, int64_min, int64_max; rewrite runDuration_ns in *; lia).
    destruct (Z.ltb_spec (w_clock w + lat (w_reads w) + lat (S (w_reads w)) +
      lat (S (S (w_reads w))) - (w_clock w + lat (w_reads w))) runDuration)
      as [_|]; [|lia].
    unfold iteration_body. rewrite !bind_assoc.
    rewrite (bind_Ok _ _ _ _ _ (now_eq _)), !bind_assoc.
    match goal with |- context [bind (append_file ?n ?d) _ ?w0] =>
      destruct (append_file_io n d w0) as (w2 & E2 & _ & Hf2 & _) end.
    rewrite (bind_Ok _ _ _ _ _ E2), !bind_assoc.
    erewrite bind_Crash by (apply runTests_proc_crashes; by left).
    eexists. split; [done|]. simpl in *.
    rewrite Hf2, append_to_lookup_ne, Hf1, Hopen by done.
    unfold checkpoint_to. rewrite Hjson. apply lookup_insert_eq.
Qed.

End Monitor.

(** ** Examples *)

Lemma runKeepAnEyeMode_completes_witness :
  exists n entries t w',
    runKeepAnEyeMode (rt := demo_rt) (br := demo_runner)
      (demo_config "out.txt" 2) demo_world = Ok (Some n) w' /\
    0 <= n <= 48 /\ Z.of_nat (length entries) = n /\
    Forall (fun e => length e.2 = 2%nat) entries /\
    w_files w' !! statusFile = None /\
    content (w_files w') "out.txt" =
      "" +:+ (log_text (rt := demo_rt) (demo_config "out.txt" 2) 0 entries +:+
              completion_marker (rt := demo_rt) t) /\
    (forall name, name <> statusFile -> (name = "out.txt" -> true = false) ->
       w_files w' !! name = w_files demo_world !! name).
Proof.
  exact (runKeepAnEyeMode_completes (rt := demo_rt) (br := demo_runner) (demo_config "out.txt" 2) ["/a"] demo_world
    ltac:(by vm_compute) demo_lat_nonneg ltac:(done) ltac:(by vm_compute)
    ltac:(done)).
Defined.

Lemma worker_abnormal_end_witness :
  exists w',
    runKeepAnEyeMode (rt := demo_rt) (br := demo_runner)
      (demo_config "out.txt" (-1)) demo_world = Crash w' /\
    w_files w' !! statusFile =
      status_json (rt := demo_rt) (mkStatusInfo 77 Second (2 * Second) 0).
Proof.
  exact (proj2 (worker_abnormal_end (rt := demo_rt) (br := demo_runner) (demo_config "out.txt" (-1)) ["/a"] demo_world _)
    ltac:(by vm_compute) ltac:(by vm_compute) ltac:(done) ltac:(done)
    ltac:(by vm_compute) ltac:(by vm_compute) eq_refl).
Defined.

Lemma runKeepAnEyeMode_trace_witness :
  exists n rounds last_sleep t w',
    runKeepAnEyeMode (rt := demo_rt) (br := demo_runner)
      (demo_config "out.txt" 2) demo_world = Ok (Some n) w' /\
    Z.of_nat (length rounds) = n /\
    Forall (fun r => length r.1.2 = 2%nat) rounds /\
    w_trace w' = [] ++
      checkpoint_events (rt := demo_rt) true
        (mkStatusInfo 77 Second (2 * Second) 0) ++
      loop_events (rt := demo_rt) (demo_config "out.txt" 2) true
        true 77 Second 0 last_sleep rounds ++
      [EvAppend "out.txt" (completion_marker (rt := demo_rt) t) true;
       EvRemove statusFile].
Proof.
  exact (runKeepAnEyeMode_trace (rt := demo_rt) (br := demo_runner) (demo_config "out.txt" 2) ["/a"] demo_world
    ltac:(by vm_compute) demo_lat_nonneg ltac:(by vm_compute) ltac:(done)).
Defined.
