(* ===== verification/Main.v ===== *)
(** * Main: the entry point

    [main] of src/main.go: [parseFlags], then [main_body] on the
    configuration: the banner, the check of the project id, the choice
    between the three roles (one batch, the parent of a monitoring run,
    its worker) and, for one batch, the sequence paths, methods, batch,
    display, save.  The theorems of section [Main] hold for every
    [BatchRunner]; section [EndToEnd] instantiates it with the
    dispatcher of [runTests] and ties the output file to the
    sequential reference [runTests_spec]. *)

From Stdlib Require Import ZArith Lia String Ascii.
From stdpp Require Import base tactics option list numbers strings gmap.
From S2P Require Import Prelude GoStrings Types World Flags Config Probe.
From S2P Require Import Dispatcher Runner Report Checkpoint Supervisor.
From S2P Require Import Schedule Monitor.

(** The banner (a raw string literal: it starts and ends with a line
    feed). *)
Definition asciiArt : string :=
  nl +:+
  "  _____ _          __   __" +:+ nl +:+
  " |  ___(_)_ __ ___ \ \ / /" +:+ nl +:+
  " | |_  | | '__/ _ \ \ V / " +:+ nl +:+
  " |  _| | | | |  __/  | |  " +:+ nl +:+
  " |_|   |_|_|  \___|  |_|  " +:+ nl +:+
  "                          " +:+ nl +:+
  " Firebase Authorization Tester" +:+ nl +:+
  " =============================" +:+ nl.

Section Main.
Context {rt : Runtime} {br : BatchRunner}.

(** [main] after [parseFlags] (lines 79-107). *)
Definition main_body (config : Config) : Proc unit :=
  (if negb (Silence config) then print (asciiArt +:+ nl) else ret tt) ;;;
  if String.eqb (ProjectID config) "" then
    print ("Error: Project ID (-i) is required" +:+ nl) ;;; exit 1
  else if KeepAnEye config then
    parent <- isParentProcess ;;
    if parent then spawnBackgroundProcess config
    else
      runKeepAnEyeMode config ;;; ret tt
  else
    paths <- getPaths config ;;
    let methods := getMethods config in
    if (length paths =? 0)%nat then
      print ("Error: No paths provided. Use -p or -l" +:+ nl) ;;; exit 1
    else
      results <- runTests_proc 0 config paths methods ;;
      displayResults results config ;;;
      saveResults results config.

Definition main : Proc unit :=
  config <- parseFlags ;;
  main_body config.

(** What one batch prints: the banner, the progress lines [out] of the
    goroutines, the report of [displayResults] and the line of
    [saveResults]. *)
Definition batch_output (config : Config) (rs : list TestResult)
    (out : list string) (ok : bool) : list string :=
  (if Silence config then [] else [asciiArt +:+ nl]) ++ out
  ++ display_report rs config ++ save_report config ok.

(** The world after the banner. *)
Definition banner_world (config : Config) (w : World) : World :=
  if Silence config then w
  else set_stdout (w_stdout w ++ [asciiArt +:+ nl]) w.

Lemma banner_io config w : io_only w (banner_world config w).
Proof. unfold banner_world. destruct (Silence config); auto with firey. Qed.

Lemma banner_files config w : w_files (banner_world config w) = w_files w.
Proof. unfold banner_world. by destruct (Silence config). Qed.

(** [main] after the banner, role by role. *)
Lemma main_no_project config w :
  ProjectID config = "" ->
  main_body config w =
    Exit 1 (set_stdout (w_stdout (banner_world config w) ++
              ["Error: Project ID (-i) is required" +:+ nl])
              (banner_world config w)).
Proof. unfold main_body, banner_world. intros ->. by destruct (Silence config). Qed.

Lemma main_monitor config w :
  ProjectID config <> "" -> KeepAnEye config = true ->
  main_body config w =
    (if negb (String.eqb (getenv "FIREY_BACKGROUND" w) "1")
     then spawnBackgroundProcess config
     else runKeepAnEyeMode config ;;; ret tt)
      (banner_world config w).
Proof.
  unfold main_body, banner_world. intros Hp %String.eqb_neq ->. rewrite Hp.
  by destruct (Silence config).
Qed.

Lemma main_batch config paths w :
  ProjectID config <> "" -> KeepAnEye config = false ->
  getPaths config w = Ok paths w ->
  main_body config w =
    (if (length paths =? 0)%nat then
       print ("Error: No paths provided. Use -p or -l" +:+ nl) ;;; exit 1
     else
       results <- runTests_proc 0 config paths (getMethods config) ;;
       displayResults results config ;;;
       saveResults results config) (banner_world config w).
Proof.
  unfold main_body. intros Hp %String.eqb_neq -> Hg. rewrite Hp.
  apply (getPaths_same_files _ _ (banner_world config w)) in Hg;
    [|apply banner_files].
  unfold banner_world in *.
  destruct (Silence config); cbn [negb]; proc_run;
    by rewrite (bind_Ok _ _ _ _ _ Hg).
Qed.

Lemma banner_stdout config w :
  w_stdout (banner_world config w) =
  w_stdout w ++ (if Silence config then [] else [asciiArt +:+ nl]).
Proof.
  unfold banner_world. destruct (Silence config); [|done].
  by rewrite app_nil_r.
Qed.

(** One batch, for the results and the lines the batch gave. *)
Lemma main_batch_run config paths w rs out :
  ProjectID config <> "" -> KeepAnEye config = false ->
  getPaths config w = Ok paths w -> paths <> [] ->
  run_batch 0 config paths (getMethods config) = Returns rs out ->
  exists w',
    main_body config w = Ok tt w' /\
    w_files w' =
      append_to (can_open w (OutputFile config)) (OutputFile config)
        (save_text config rs) (w_files w) /\
    w_stdout w' =
      w_stdout w ++
      batch_output config rs out (can_open w (OutputFile config)) /\
    w_children w' = w_children w.
Proof.
  intros Hp Hk Hg Hne Hrun. rewrite (main_batch config paths w Hp Hk Hg).
  destruct paths; [done|]. cbn [length Nat.eqb].
  pose proof (banner_io config w) as Hb.
  pose proof (banner_stdout config w) as Hbo.
  set (w0 := banner_world config w) in *.
  rewrite (bind_Ok _ _ _ _ _ (runTests_proc_eq 0 _ _ _ rs out w0 Hrun)).
  match goal with |- context [bind (displayResults _ _) _ ?w1] =>
    destruct (displayResults_io rs config w1) as (w2 & E2 & Hio2 & Hf2);
    pose proof (displayResults_prints rs config w1 w2 E2) as Ho2 end.
  rewrite (bind_Ok _ _ _ _ _ E2).
  destruct (saveResults_io rs config w2) as (w3 & E3 & Hio3 & Hf3 & _).
  pose proof (saveResults_prints rs config w2 w3 E3) as Ho3.
  exists w3. rewrite E3, Hf3, Hf2, Ho3, Ho2.
  assert (io_only w w2) as Hio'
    by (etrans; [exact Hb|]; etrans; [apply io_only_record|];
        etrans; [apply io_only_stdout|done]).
  assert (io_only w w3) as Hio by by etrans.
  rewrite (io_only_can_open w w2) by done.
  apply io_only_spec in Hio as (_ & _ & _ & _ & _ & _ & Hch).
  cbn [w_stdout w_files set_stdout record set_trace]. rewrite Hbo.
  unfold batch_output. rewrite <- !app_assoc.
  repeat split; [|done]. subst w0. by rewrite banner_files.
Qed.

(** One batch: with a project id, a positive thread count and at
    least one path, [main_body] returns after one batch of
    [|paths| * |methods|] results; it prints the banner, the progress
    lines, the report and the line of [saveResults], in this order and
    nothing in silent mode but an error of the output file; it appends
    the lines of the batch to the output file, with no iteration header
    and no completion marker, touches no other file, writes no
    checkpoint and starts no process. *)
Theorem main_one_batch config paths w :
  ProjectID config <> "" -> KeepAnEye config = false ->
  1 <= Threads config ->
  getPaths config w = Ok paths w -> paths <> [] ->
  exists rs out w',
    main_body config w = Ok tt w' /\
    length rs = (length paths * length (getMethods config))%nat /\
    w_files w' =
      append_to (can_open w (OutputFile config)) (OutputFile config)
        (save_text config rs) (w_files w) /\
    w_stdout w' =
      w_stdout w ++
      batch_output config rs out (can_open w (OutputFile config)) /\
    (Silence config = true -> out = []) /\
    w_children w' = w_children w.
Proof.
  intros Hp Hk Ht Hg Hne.
  destruct (run_batch_returns 0 config paths (getMethods config) Ht)
    as (rs & out & Hrun & Hlen).
  destruct (main_batch_run config paths w rs out Hp Hk Hg Hne Hrun)
    as (w' & E & Hf & Ho & Hch).
  exists rs, out, w'. repeat split; [done..| |done].
  intros Hs. apply (run_batch_quiet 0 config paths (getMethods config) rs);
    [by rewrite Hs|done].
Qed.

(** C27 Configuration errors end the invocation at once: without a
    project id, or (for one batch) without a path, [main_body] prints the
    error and exits with code 1; no probe is made, no file is written
    and no process is started. *)
Theorem main_config_errors config w :
  (ProjectID config = "" ->
   exists w', main_body config w = Exit 1 w' /\ io_only w w' /\
     w_files w' = w_files w) /\
  (ProjectID config <> "" -> KeepAnEye config = false ->
   getPaths config w = Ok [] w ->
   exists w', main_body config w = Exit 1 w' /\ io_only w w' /\
     w_files w' = w_files w).
Proof.
  pose proof (banner_io config w) as Hb. split.
  - intros Hp. rewrite (main_no_project config w Hp). eexists. split; [done|].
    split; [by etrans; [exact Hb|apply io_only_stdout]|apply banner_files].
  - intros Hp Hk Hg. rewrite (main_batch config [] w Hp Hk Hg).
    eexists. split; [done|].
    split; [by etrans; [exact Hb|apply io_only_stdout]|apply banner_files].
Qed.

(** C28 An empty list of methods is not reported: when the [-m] flag
    holds no method ([getMethods] returns none, as for a flag made of
    commas), [main_body] with a path makes no probe, prints a summary of no
    result and returns normally, where an empty job set is meant to be
    a configuration error with a nonzero exit. *)
Theorem main_accepts_no_methods config paths w :
  ProjectID config <> "" -> KeepAnEye config = false ->
  0 <= Threads config ->
  getPaths config w = Ok paths w -> paths <> [] ->
  getMethods config = [] ->
  exists w',
    main_body config w = Ok tt w' /\
    content (w_files w') (OutputFile config) =
      content (w_files w) (OutputFile config) /\
    forall name, name <> OutputFile config ->
      w_files w' !! name = w_files w !! name.
Proof.
  intros Hp Hk Ht Hg Hne Hm. rewrite (main_batch config paths w Hp Hk Hg), Hm.
  destruct paths; [done|]. cbn [length Nat.eqb].
  set (w0 := banner_world config w).
  assert (runTests_proc 0 config (s :: paths) [] w0
          = Ok [] (set_stdout (w_stdout w0 ++ []) (record (EvBatch 0) w0))) as E1
    by (unfold runTests_proc; cbn zeta; by rewrite run_batch_no_jobs).
  rewrite (bind_Ok _ _ _ _ _ E1).
  match goal with |- context [bind (displayResults _ _) _ ?w1] =>
    destruct (displayResults_io [] config w1) as (w2 & E2 & _ & Hf2) end.
  rewrite (bind_Ok _ _ _ _ _ E2).
  destruct (saveResults_io [] config w2) as (w3 & E3 & _ & Hf3 & _).
  exists w3. rewrite E3, Hf3, Hf2. simpl. unfold w0. rewrite banner_files.
  repeat split.
  - rewrite content_append_to. destruct (can_open w2 _); apply string_app_nil_r.
  - intros name Hn. by apply append_to_lookup_ne.
Qed.

(** The role taken, by the marker in the environment. *)
Lemma main_roles_eq config w :
  ProjectID config <> "" -> KeepAnEye config = true ->
  (w_env w !! "FIREY_BACKGROUND" = Some "1" ->
   main_body config w =
     (runKeepAnEyeMode config ;;; ret tt)
       (banner_world config w)) /\
  (w_env w !! "FIREY_BACKGROUND" <> Some "1" ->
   main_body config w =
     spawnBackgroundProcess config
       (banner_world config w)).
Proof.
  intros Hp Hk. rewrite (main_monitor config w Hp Hk). unfold getenv.
  split; [by intros ->|]. intros Hm.
  destruct (String.eqb_spec (default "" (w_env w !! "FIREY_BACKGROUND")) "1")
    as [E|]; [|done].
  destruct (w_env w !! "FIREY_BACKGROUND"); simplify_eq/=.
Qed.


(** ** From the command line *)

Lemma main_parses config w :
  parseFlags w = Ok config w ->
  main w = main_body config w.
Proof. intros E. unfold main. by rewrite (bind_Ok _ _ _ _ _ E). Qed.

(** C23 A monitoring run started without [-o] records nothing.  The
    parent parses its arguments, finds no output file, prints a file
    name it makes up and starts the child with its own arguments and
    the marker; the child parses the same arguments, so its output
    file name is empty too, and its complete run, with its batches,
    leaves every file but the checkpoint as it was: no result is
    written anywhere. *)
Theorem monitoring_without_output_records_nothing config paths pid w ww :
  parseFlags w = Ok config w ->
  ProjectID config <> "" -> KeepAnEye config = true ->
  OutputFile config = "" ->
  w_env w !! "FIREY_BACKGROUND" <> Some "1" -> started = inl pid ->
  (exists w',
     main w = Ok tt w' /\
     last (w_children w') =
       Some (mkChild pid (w_args w) (<["FIREY_BACKGROUND" := "1"]> (w_env w))) /\
     ("✓ Output file: firey_monitoring_" +:+
        fmt_stamp (w_clock w + lat (w_reads w)) +:+ ".txt" +:+ nl)
       ∈ w_stdout w') /\
  (w_args ww = w_args w ->
   w_env ww = <["FIREY_BACKGROUND" := "1"]> (w_env w) ->
   1 <= Threads config -> (forall n, 0 <= lat n) ->
   getPaths config ww = Ok paths ww -> paths <> [] ->
   exists ww',
     main ww = Ok tt ww' /\
     forall name, name <> statusFile ->
       w_files ww' !! name = w_files ww !! name).
Proof.
  intros Hflags Hp Hk Hout Henv Hst. split.
  - rewrite (main_parses config w Hflags).
    rewrite (proj2 (main_roles_eq config w Hp Hk) Henv).
    pose proof (banner_io config w) as Hb.
    apply io_only_spec in Hb as (Hc & Hr & _ & Hwe & Hwa & _).
    destruct (default_output_parent config pid (banner_world config w) Hout Hst)
      as (w' & E & Hin & Hlast & _).
    rewrite Hc, Hr in Hin. rewrite Hwe, Hwa in Hlast. by exists w'.
  - intros Ha He Ht Hlat Hg Hne.
    rewrite (main_parses config ww (parseFlags_same_args _ _ _ Ha Hflags)).
    rewrite (proj1 (main_roles_eq config ww Hp Hk))
      by (rewrite He; apply lookup_insert_eq).
    destruct (default_output_worker config paths (banner_world config ww)
                Hout Ht Hlat)
      as (n & ww' & E' & Hf'); [|done|].
    { eapply getPaths_same_files; [apply banner_files|done]. }
    rewrite (bind_Ok _ _ _ _ _ E'). exists ww'. split; [done|].
    intros name Hn. by rewrite Hf', banner_files.
Qed.

End Main.

(** ** From the command line to the output file *)

Section EndToEnd.
Context {rt : Runtime}.
Context (nets : nat -> nat -> ProbeEnv) (chooses : nat -> nat -> nat).

(** C17 One batch from the command line to the output file, with the
    dispatcher of src/main.go under any scheduler and any network.
    When the arguments parse to a configuration with a project id, a
    positive thread count and at least one path, [main] returns; the
    results are those of the sequential reference, the probe of each
    (path, method) once, in some order; the console shows the banner,
    one progress line per job, the report and the line of
    [saveResults]; the output file has gained the lines of the
    results in the order the goroutines appended them; no process is
    started. *)
Theorem main_end_to_end config paths w :
  parseFlags w = Ok config w ->
  ProjectID config <> "" -> KeepAnEye config = false ->
  1 <= Threads config ->
  getPaths config w = Ok paths w -> paths <> [] ->
  exists rs out w',
    main (br := scheduled_runner nets chooses) w = Ok tt w' /\
    rs ≡ₚ runTests_spec config (nets 0%nat) paths (getMethods config) /\
    out ≡ₚ progress_spec config (nets 0%nat) paths (getMethods config) /\
    w_files w' =
      append_to (can_open w (OutputFile config)) (OutputFile config)
        (save_text config rs) (w_files w) /\
    w_stdout w' =
      w_stdout w ++
      batch_output config rs out (can_open w (OutputFile config)) /\
    w_children w' = w_children w.
Proof.
  intros Hflags Hp Hk Ht Hg Hne. rewrite (main_parses config w Hflags).
  destruct (runTests_returns config (nets 0%nat) (chooses 0%nat) paths
              (getMethods config) Ht) as (rs & out & E).
  destruct (main_batch_run (br := scheduled_runner nets chooses) config paths
              w rs out Hp Hk Hg Hne E) as (w' & Em & Hf & Ho & Hch).
  exists rs, out, w'. split; [done|].
  split; [by apply runTests_returns_spec in E as [_ ?]|].
  split; [by apply runTests_console in E|done].
Qed.

End EndToEnd.

(** ** The summary and the scheduler *)

(** C26 The summary of a batch does not depend on the scheduling of
    the goroutines: two runs of [runTests] on the same network, under
    any two schedulers, return slices that may differ in order but
    give the same summary map, hence the same counts per status and
    the same total. *)
Theorem summary_independent_of_schedule config net choose1 choose2
    paths methods rs1 out1 rs2 out2 :
  runTests config net choose1 paths methods = Returns rs1 out1 ->
  runTests config net choose2 paths methods = Returns rs2 out2 ->
  count_statuses rs1 = count_statuses rs2 /\ length rs1 = length rs2.
Proof.
  intros [_ H1] %runTests_returns_spec [_ H2] %runTests_returns_spec.
  by rewrite H1, H2.
Qed.

(** ** Examples *)

Definition batch_config (project methods : string) : Config :=
  mkConfig project "" "" "/a" methods false "out.txt" false 2 false.

Lemma main_one_batch_witness :
  exists rs out w',
    main_body (rt := demo_rt) (br := demo_runner)
      (batch_config "demo" "GET,POST") demo_world = Ok tt w' /\
    length rs =
      (length ["/a"] * length (getMethods (batch_config "demo" "GET,POST")))%nat /\
    w_files w' =
      append_to (can_open demo_world "out.txt") "out.txt"
        (save_text (rt := demo_rt) (batch_config "demo" "GET,POST") rs)
        (w_files demo_world) /\
    w_stdout w' =
      w_stdout demo_world ++
      batch_output (batch_config "demo" "GET,POST") rs out
        (can_open demo_world "out.txt") /\
    (Silence (batch_config "demo" "GET,POST") = true -> out = []) /\
    w_children w' = w_children demo_world.
Proof.
  exact (main_one_batch (rt := demo_rt) (br := demo_runner)
    (batch_config "demo" "GET,POST") ["/a"] demo_world ltac:(done) eq_refl
    ltac:(by vm_compute) ltac:(by vm_compute) ltac:(done)).
Defined.

Lemma main_config_errors_witness :
  exists w',
    main_body (rt := demo_rt) (br := demo_runner) (batch_config "" "GET")
      demo_world = Exit 1 w' /\
    io_only demo_world w' /\ w_files w' = w_files demo_world.
Proof.
  exact (proj1 (main_config_errors (rt := demo_rt) (br := demo_runner)
    (batch_config "" "GET") demo_world) eq_refl).
Defined.

Lemma main_accepts_no_methods_witness :
  exists w',
    main_body (rt := demo_rt) (br := demo_runner) (batch_config "demo" ",")
      demo_world = Ok tt w' /\
    content (w_files w') "out.txt" = content (w_files demo_world) "out.txt" /\
    forall name, name <> "out.txt" ->
      w_files w' !! name = w_files demo_world !! name.
Proof.
  exact (main_accepts_no_methods (rt := demo_rt) (br := demo_runner)
    (batch_config "demo" ",") ["/a"] demo_world
    ltac:(done) eq_refl ltac:(by vm_compute) ltac:(by vm_compute) ltac:(done)
    ltac:(by vm_compute)).
Defined.

Lemma summary_independent_of_schedule_witness :
  exists rs1 out1 rs2 out2,
    runTests (w_config 2) w_net (fun k => k) w_paths w_methods
      = Returns rs1 out1 /\
    runTests (w_config 2) w_net (fun k => 3 * k)%nat w_paths w_methods
      = Returns rs2 out2 /\
    rs1 <> rs2 /\
    count_statuses rs1 = count_statuses rs2 /\ length rs1 = length rs2.
Proof.
  destruct (runTests (w_config 2) w_net (fun k => k) w_paths w_methods)
    as [rs1 out1| |] eqn:E1; [|by vm_compute in E1..].
  destruct (runTests (w_config 2) w_net (fun k => 3 * k)%nat w_paths w_methods)
    as [rs2 out2| |] eqn:E2; [|by vm_compute in E2..].
  exists rs1, out1, rs2, out2. repeat split; [| exact (proj1
    (summary_independent_of_schedule _ _ _ _ _ _ _ _ _ _ E1 E2)) | exact (proj2
    (summary_independent_of_schedule _ _ _ _ _ _ _ _ _ _ E1 E2))].
  vm_compute in E1, E2. by simplify_eq.
Defined.

Definition batch_world : World :=
  mkWorld 0 0 ∅ ∅ ∅ ["firey"; "-i"; "demo"; "-p"; "/a"; "-o"; "out.txt"]
    100 [] [] [].

Lemma main_end_to_end_witness :
  exists rs w',
    main (rt := demo_rt) (br := scheduled_runner (fun _ => w_net) (fun _ k => k))
      batch_world = Ok tt w' /\
    rs ≡ₚ runTests_spec (batch_config "demo" "") w_net ["/a"]
            ["GET"; "POST"; "PATCH"; "DELETE"] /\
    w_files w' !! "out.txt" =
      Some (save_text (rt := demo_rt) (batch_config "demo" "") rs).
Proof.
  destruct (main_end_to_end (rt := demo_rt) (fun _ => w_net) (fun _ k => k)
              (mkConfig "demo" "" "" "/a" "" false "out.txt" false 1 false)
              ["/a"] batch_world ltac:(by vm_compute) ltac:(done) eq_refl
              ltac:(by vm_compute) ltac:(by vm_compute) ltac:(done))
    as (rs & out & w' & E & Hrs & _ & Hf & _).
  exists rs, w'. split; [done|]. split; [done|].
  rewrite Hf. by vm_compute.
Defined.

Definition kae_args : list string := ["firey"; "-i"; "demo"; "-p"; "/a"; "-kae"].
Definition kae_config : Config :=
  mkConfig "demo" "" "" "/a" "" false "" true 1 false.
Definition parent_world : World := mkWorld 0 0 ∅ ∅ ∅ kae_args 76 [] [] [].
Definition worker_world : World :=
  mkWorld 0 0 ∅ ∅ {[ "FIREY_BACKGROUND" := "1" ]} kae_args 4242 [] [] [].

Lemma monitoring_without_output_records_nothing_witness :
  (exists w',
     main (rt := demo_rt) (br := demo_runner) parent_world = Ok tt w' /\
     last (w_children w') =
       Some (mkChild 4242 (w_args parent_world)
               (<["FIREY_BACKGROUND" := "1"]> (w_env parent_world))) /\
     ("✓ Output file: firey_monitoring_" +:+
        demo_fmt (w_clock parent_world + demo_lat (w_reads parent_world)) +:+
        ".txt" +:+ nl) ∈ w_stdout w') /\
  (exists ww',
     main (rt := demo_rt) (br := demo_runner) worker_world = Ok tt ww' /\
     forall name, name <> statusFile ->
       w_files ww' !! name = w_files worker_world !! name).
Proof.
  pose proof (monitoring_without_output_records_nothing (rt := demo_rt)
    (br := demo_runner) kae_config ["/a"] 4242 parent_world worker_world
    ltac:(by vm_compute) ltac:(done) eq_refl eq_refl ltac:(done) eq_refl)
    as [Hparent Hworker].
  exact (conj Hparent (Hworker eq_refl ltac:(by vm_compute) ltac:(by vm_compute)
    demo_lat_nonneg ltac:(by vm_compute) ltac:(done))).
Defined.
