(* ===== verification/History.v ===== *)
(** * History: the trace as the history of the file system

    Every operation of [World] that changes a file records an event.
    [replay] applies the events of a trace to a file system;
    [follows w w'] says that [w'] came out of [w] by steps whose
    events, replayed on the files of [w], give the files of [w'].
    The relation is a preorder and every operation of the program
    respects it, so every run of [main], whatever its end, leaves the
    files its trace describes ([main_history]).  The proofs follow
    the structure of the code: one rule per construct of [Proc]
    ([recorded_bind], [recorded_ret], ...), one lemma per operation,
    and the tactic [recorded] that applies them. *)

From Stdlib Require Import ZArith Lia String Ascii.
From stdpp Require Import base tactics option list numbers strings gmap.
From S2P Require Import Prelude GoStrings Types World Flags Config Probe.
From S2P Require Import Dispatcher Runner Report Checkpoint Supervisor.
From S2P Require Import Schedule Monitor Main.

(** ** Replaying a trace *)

(** What an event does to the files: the events of the clock, of the
    console and of the processes do nothing. *)
Definition replay_event (fs : gmap string string) (e : Event)
  : gmap string string :=
  match e with
  | EvAppend name data ok => append_to ok name data fs
  | EvWrite name data ok => write_to ok name data fs
  | EvRemove name => delete name fs
  | EvSleep _ | EvStart _ _ | EvBatch _ | EvStderr _ => fs
  end.

Definition replay (tr : list Event) (fs : gmap string string)
  : gmap string string :=
  foldl replay_event fs tr.

(** [w'] is [w] after steps that are all in the trace. *)
Definition follows (w w' : World) : Prop :=
  w_denied w' = w_denied w /\
  exists tr, w_trace w' = w_trace w ++ tr /\
             w_files w' = replay tr (w_files w).

(** A computation all of whose runs are in the trace. *)
Definition recorded {A : Type} (c : Proc A) : Prop :=
  forall w, follows w (world_of (c w)).

Create HintDb history discriminated.

Lemma replay_app a b fs : replay (a ++ b) fs = replay b (replay a fs).
Proof. apply foldl_app. Qed.

Lemma replay_silent tr fs :
  Forall (fun e => forall fs, replay_event fs e = fs) tr -> replay tr fs = fs.
Proof.
  induction 1 as [|e tr He _ IH]; [done|]. unfold replay in *. simpl.
  by rewrite He.
Qed.

#[export] Instance follows_preorder : PreOrder follows.
Proof.
  split; [intros w; split; [done|]; exists []; by rewrite app_nil_r|].
  intros w1 w2 w3 (Hd1 & tr1 & Ht1 & Hf1) (Hd2 & tr2 & Ht2 & Hf2).
  split; [congruence|]. exists (tr1 ++ tr2).
  by rewrite Ht2, Ht1, Hf2, Hf1, replay_app, app_assoc.
Qed.

(** A step that leaves the files alone and records nothing, or only
    events that do nothing to the files. *)
Lemma follows_silent w w' tr :
  w_denied w' = w_denied w -> w_files w' = w_files w ->
  w_trace w' = w_trace w ++ tr ->
  Forall (fun e => forall fs, replay_event fs e = fs) tr ->
  follows w w'.
Proof.
  intros Hd Hf Ht Hs. split; [done|]. exists tr. by rewrite replay_silent.
Qed.

(** A step on a file, with its event. *)
Lemma follows_event w w' e :
  w_denied w' = w_denied w -> w_trace w' = w_trace w ++ [e] ->
  w_files w' = replay_event (w_files w) e -> follows w w'.
Proof. intros Hd Ht Hf. split; [done|]. by exists [e]. Qed.

(** ** The rules *)

Section Rules.
Context {A B : Type}.

Lemma recorded_ret (a : A) : recorded (ret a).
Proof. intros w. reflexivity. Qed.

Lemma recorded_exit code : recorded (exit (A := A) code).
Proof. intros w. reflexivity. Qed.

Lemma recorded_bind (c : Proc A) (k : A -> Proc B) :
  recorded c -> (forall a, recorded (k a)) -> recorded (bind c k).
Proof.
  intros Hc Hk w. unfold bind. specialize (Hc w).
  destruct (c w) as [a w1|code w1|w1]; [|done..].
  etrans; [exact Hc|apply Hk].
Qed.

End Rules.

Lemma recorded_act f :
  (forall w, follows w (f w)) -> recorded (act f).
Proof. intros Hf w. apply Hf. Qed.

(** Structural steps first, then the lemmas of the operations. *)
Ltac recorded_step :=
  lazymatch goal with
  | |- recorded (bind _ _) => apply recorded_bind; [|intros ?]
  | |- recorded (ret _) => apply recorded_ret
  | |- recorded (exit _) => apply recorded_exit
  | |- recorded (if ?b then _ else _) => destruct b
  | |- recorded (match ?x with _ => _ end) => destruct x
  | |- recorded _ => solve [auto with history]
  end.
Ltac recorded := cbv zeta; repeat recorded_step.

(** ** The operations of the world *)

Lemma recorded_print text : recorded (print text).
Proof.
  apply recorded_act. intros w. by apply (follows_silent _ _ []);
    [..|rewrite app_nil_r|].
Qed.

Lemma recorded_prints lines : recorded (prints lines).
Proof.
  apply recorded_act. intros w. by apply (follows_silent _ _ []);
    [..|rewrite app_nil_r|].
Qed.

Lemma recorded_eprints lines : recorded (eprints lines).
Proof.
  apply recorded_act. intros w.
  apply (follows_silent _ _ (EvStderr <$> lines)); [done..|].
  by apply Forall_fmap, Forall_true.
Qed.

Lemma recorded_getpid : recorded getpid.
Proof. intros w. reflexivity. Qed.
Lemma recorded_getargs : recorded getargs.
Proof. intros w. reflexivity. Qed.
Lemma recorded_environ : recorded environ.
Proof. intros w. reflexivity. Qed.

Lemma recorded_read_file name : recorded (read_file name).
Proof. intros w. unfold read_file. by destruct (w_files w !! name). Qed.

Lemma recorded_append_file name data : recorded (append_file name data).
Proof.
  intros w. destruct (append_file_io name data w) as (w' & -> & Hio & ? & _ & ?).
  io_facts Hio. by eapply follows_event.
Qed.

Lemma recorded_write_file name data : recorded (write_file name data).
Proof.
  intros w. destruct (write_file_io name data w) as (w' & -> & Hio & ? & _ & ?).
  io_facts Hio. by eapply follows_event.
Qed.

Lemma recorded_remove_file name : recorded (remove_file name).
Proof.
  intros w.
  destruct (remove_file_io name w) as (b & w' & -> & Hio & ? & _ & ?).
  io_facts Hio. by eapply follows_event.
Qed.

#[export] Hint Resolve recorded_print recorded_prints recorded_eprints
  recorded_getpid recorded_getargs recorded_environ recorded_read_file
  recorded_append_file recorded_write_file recorded_remove_file : history.

Section Operations.
Context {rt : Runtime} {br : BatchRunner}.

Lemma recorded_now : recorded now.
Proof.
  intros w. by apply (follows_silent _ _ []); [..|simpl; rewrite app_nil_r|].
Qed.

Lemma recorded_sleep d : recorded (sleep d).
Proof.
  apply recorded_act. intros w.
  by apply (follows_silent _ _ [EvSleep d]); [..|repeat constructor].
Qed.

Lemma recorded_start_process args env : recorded (start_process args env).
Proof.
  intros w. unfold start_process.
  destruct started as [pid|err];
    [apply (follows_silent _ _ [EvStart args (inl pid)])
    |apply (follows_silent _ _ [EvStart args (inr err)])];
    by repeat constructor.
Qed.

Lemma recorded_isParentProcess : recorded isParentProcess.
Proof. intros w. reflexivity. Qed.

Lemma recorded_runTests_proc n config paths methods :
  recorded (runTests_proc n config paths methods).
Proof.
  intros w. unfold runTests_proc.
  destruct (run_batch _ _ _ _); by apply (follows_silent _ _ [EvBatch n]);
    [..|repeat constructor].
Qed.

#[local] Hint Resolve recorded_now recorded_sleep recorded_start_process
  recorded_isParentProcess recorded_runTests_proc : history.

(** ** The operations of the program *)

Lemma recorded_parseFlags : recorded parseFlags.
Proof. unfold parseFlags. recorded. Qed.

Lemma recorded_getPaths config : recorded (getPaths config).
Proof. unfold getPaths. recorded. Qed.

Lemma recorded_saveResults results config :
  recorded (saveResults results config).
Proof. unfold saveResults. recorded. Qed.

Lemma recorded_displayResults results config :
  recorded (displayResults results config).
Proof. unfold displayResults. recorded. Qed.

Lemma recorded_saveStatus status : recorded (saveStatus status).
Proof. unfold saveStatus. recorded. Qed.

#[local] Hint Resolve recorded_parseFlags recorded_getPaths recorded_saveResults
  recorded_displayResults recorded_saveStatus : history.

Lemma recorded_spawnBackgroundProcess config :
  recorded (spawnBackgroundProcess config).
Proof. unfold spawnBackgroundProcess. recorded. Qed.

Lemma recorded_iteration_body config paths methods status iteration :
  recorded (iteration_body config paths methods status iteration).
Proof. unfold iteration_body. recorded. Qed.

#[local] Hint Resolve recorded_spawnBackgroundProcess recorded_iteration_body : history.

Lemma recorded_schedule fuel config paths methods startTime :
  forall status iteration,
    recorded (schedule fuel config paths methods startTime status iteration).
Proof.
  induction fuel as [|fuel IH]; intros status iteration; simpl; recorded.
Qed.

Lemma recorded_init_status : recorded init_status.
Proof. unfold init_status. recorded. Qed.

Lemma recorded_finish config : recorded (finish config).
Proof. unfold finish. recorded. Qed.

#[local] Hint Resolve recorded_schedule recorded_init_status recorded_finish : history.

Lemma recorded_runKeepAnEyeMode config : recorded (runKeepAnEyeMode config).
Proof. unfold runKeepAnEyeMode. recorded. Qed.

#[local] Hint Resolve recorded_runKeepAnEyeMode : history.

Lemma recorded_main_body config : recorded (main_body config).
Proof. unfold main_body. recorded. Qed.

Lemma recorded_main : recorded main.
Proof. unfold main. recorded. apply recorded_main_body. Qed.

(** The trace is the history of the file system.  Whatever the
    arguments, the files, the network, the scheduling and the clock,
    and however [main] ends (it returns, exits or dies), the files it
    leaves are the files it found with the events of its trace applied
    in order: no file changes without an event, and no event is
    recorded that did not happen. *)
Theorem main_history w :
  exists tr,
    w_trace (world_of (main w)) = w_trace w ++ tr /\
    w_files (world_of (main w)) = replay tr (w_files w).
Proof. by destruct (recorded_main w) as [_ ?]. Qed.

End Operations.
