(* ===== verification/Merge.v ===== *)
(** * Merge: the interleavings of two sequences

    [merge_of l1 l2 l] says that [l] holds the elements of [l1] and
    those of [l2], each list in its own order; [weave] is the merge a
    schedule makes.  Every schedule gives a merge and every merge
    comes from a schedule.  A merge with a single element inserts it
    somewhere, and a merge is kept by [omap].  The file ends with two
    facts on the runs of numbers [seqZ], used to count iterations. *)

From Stdlib Require Import ZArith Lia String Ascii.
From stdpp Require Import base tactics option list numbers strings gmap.
From S2P Require Import Prelude.

(** [merge_of l1 l2 l]: [l] holds the elements of [l1] and those of
    [l2], each list in its own order. *)
Inductive merge_of {A : Type} : list A -> list A -> list A -> Prop :=
| merge_nil : merge_of [] [] []
| merge_left x l1 l2 l : merge_of l1 l2 l -> merge_of (x :: l1) l2 (x :: l)
| merge_right y l1 l2 l : merge_of l1 l2 l -> merge_of l1 (y :: l2) (y :: l).

(** The merge a scheduler makes: [true] lets the first process step,
    [false] the second; when the schedule ends, or when the process it
    names has ended, the rest runs in order. *)
Fixpoint weave {A : Type} (sched : list bool) (l1 l2 : list A) : list A :=
  match sched with
  | [] => l1 ++ l2
  | true :: sched' =>
      match l1 with
      | x :: l1' => x :: weave sched' l1' l2
      | [] => l2
      end
  | false :: sched' =>
      match l2 with
      | y :: l2' => y :: weave sched' l1 l2'
      | [] => l1
      end
  end.

(** ** Merges *)

Section Merge.
Context {A : Type}.
Implicit Types (l a b : list A) (x y : A).

Lemma merge_of_nil_r l : merge_of l [] l.
Proof. induction l; by constructor. Qed.

Lemma merge_of_nil_l l : merge_of [] l l.
Proof. induction l; by constructor. Qed.

Lemma merge_of_app l1 l2 : merge_of l1 l2 (l1 ++ l2).
Proof. induction l1; simpl; [apply merge_of_nil_l|by constructor]. Qed.

Lemma merge_of_app_r l1 l2 : merge_of l1 l2 (l2 ++ l1).
Proof. induction l2; simpl; [apply merge_of_nil_r|by constructor]. Qed.

Lemma merge_of_insert x a b : merge_of [x] (a ++ b) (a ++ x :: b).
Proof.
  induction a; simpl; [|by constructor].
  constructor. apply merge_of_nil_l.
Qed.

Lemma merge_of_nil_inv l2 l : merge_of [] l2 l -> l = l2.
Proof.
  intros H. remember [] as l1 eqn:E.
  induction H; [done|done|]. f_equal. by apply IHmerge_of.
Qed.

(** A merge with one event puts it somewhere in the other list. *)
Lemma merge_of_one x l2 l :
  merge_of [x] l2 l <-> exists a b, l2 = a ++ b /\ l = a ++ x :: b.
Proof.
  split; [|intros (a & b & -> & ->); apply merge_of_insert].
  intros H. remember [x] as l1 eqn:E.
  induction H as [|x' l1 l2 l H _|y l1 l2 l H IH]; [done| |].
  - injection E as -> ->. apply merge_of_nil_inv in H as ->. by exists [], l2.
  - destruct (IH E) as (a & b & -> & ->). by exists (y :: a), b.
Qed.

Lemma merge_of_length l1 l2 l :
  merge_of l1 l2 l -> length l = (length l1 + length l2)%nat.
Proof. induction 1; simpl; lia. Qed.

Lemma merge_of_Permutation l1 l2 l : merge_of l1 l2 l -> l ≡ₚ l1 ++ l2.
Proof.
  induction 1 as [|x l1 l2 l _ IH|y l1 l2 l _ IH]; simpl; [done|by f_equiv|].
  by rewrite IH, Permutation_middle.
Qed.

(** Every schedule gives a merge, and every merge comes from one. *)
Lemma weave_merge sched : forall l1 l2, merge_of l1 l2 (weave sched l1 l2).
Proof.
  induction sched as [|[] sched IH]; intros l1 l2; simpl;
    [apply merge_of_app|destruct l1|destruct l2];
    try (constructor; apply IH);
    [apply merge_of_nil_l|apply merge_of_nil_r].
Qed.

Lemma merge_weave l1 l2 l :
  merge_of l1 l2 l -> exists sched, weave sched l1 l2 = l.
Proof.
  induction 1 as [|x l1 l2 l _ [s IH]|y l1 l2 l _ [s IH]];
    [by exists []|exists (true :: s)|exists (false :: s)]; simpl;
    by rewrite IH.
Qed.

(** A merge of two lists, mapped, is a merge of the mapped lists. *)
Lemma merge_of_omap {B : Type} (f : A -> option B) l1 l2 l :
  merge_of l1 l2 l -> merge_of (omap f l1) (omap f l2) (omap f l).
Proof.
  induction 1 as [|x l1 l2 l _ IH|y l1 l2 l _ IH]; simpl;
    [constructor|destruct (f x)|destruct (f y)]; by try constructor.
Qed.

(** Where the image of a list splits, the list splits. *)
Lemma omap_app_inv {B : Type} (f : A -> option B) l (k1 k2 : list B) :
  omap f l = k1 ++ k2 ->
  exists a b, l = a ++ b /\ omap f a = k1 /\ omap f b = k2.
Proof.
  revert k1. induction l as [|x l IH]; intros k1 E.
  - symmetry in E. apply app_eq_nil in E as [-> ->]. by exists [], [].
  - destruct k1 as [|z k1]; [by exists [], (x :: l)|].
    simpl in E. destruct (f x) as [z'|] eqn:Ex.
    + injection E as -> E. destruct (IH _ E) as (a & b & -> & <- & <-).
      exists (x :: a), b. simpl. by rewrite Ex.
    + destruct (IH (z :: k1) E) as (a & b & -> & Ha & <-).
      exists (x :: a), b. simpl. by rewrite Ex.
Qed.

End Merge.

(** ** Runs of numbers *)

Lemma seqZ_cut i m : 0 <= i <= m -> seqZ 0 m = seqZ 0 i ++ seqZ i (m - i).
Proof.
  intros Hi. replace m with (i + (m - i)) at 1 by lia.
  by rewrite seqZ_app by lia.
Qed.

(** A list that is a run of numbers splits into two runs. *)
Lemma seqZ_split (a b : list Z) m :
  a ++ b = seqZ 0 m ->
  let i := Z.of_nat (length a) in
  0 <= i <= Z.max 0 m /\ a = seqZ 0 i /\ b = seqZ i (m - i).
Proof.
  intros E i. assert (0 <= i <= Z.max 0 m) as Hi.
  { apply (f_equal length) in E. rewrite length_app, length_seqZ in E. lia. }
  split; [done|]. apply app_inj_1; [by rewrite length_seqZ; lia|].
  rewrite E. destruct (Z.le_gt_cases m 0).
  - rewrite (seqZ_nil 0 m), (seqZ_nil 0 i), (seqZ_nil i) by lia. done.
  - apply seqZ_cut. lia.
Qed.
