(* ===== verification/Blind.v ===== *)
(** * Blind: computations that do not look at the files

    [alike w1 w2]: two worlds that differ in their files only.  A
    computation is [blind] when from two such worlds it ends the same
    way, with the same result, in two such worlds.  Reading a file is
    not blind, and removing one returns whether it was there; every
    other operation of [World] is blind, and so is the worker past the
    reading of its paths, because it drops what [os.Remove] returns.
    The proofs follow the code: one rule per construct of [Proc], one
    lemma per operation, and the tactic [blind].  [alike] and
    [alike_res] are equivalences; the trace of a world respects
    [alike], so that [rewrite] works with it. *)

From Stdlib Require Import ZArith Lia String Ascii.
From stdpp Require Import base tactics option list numbers strings gmap.
From S2P Require Import Prelude GoStrings Types World Config Probe.
From S2P Require Import Dispatcher Runner Report Checkpoint Supervisor.
From S2P Require Import Schedule Monitor.

(** Two worlds that differ in their files only, and two results that
    differ in the files of their worlds only. *)
Definition alike (w1 w2 : World) : Prop := w2 = set_files (w_files w2) w1.

Definition alike_res {A : Type} (r1 r2 : Res A) : Prop :=
  match r1, r2 with
  | Ok a w1, Ok b w2 => a = b /\ alike w1 w2
  | Exit c w1, Exit d w2 => c = d /\ alike w1 w2
  | Crash w1, Crash w2 => alike w1 w2
  | _, _ => False
  end.

(** A computation that does not look at the files. *)
Definition blind {A : Type} (c : Proc A) : Prop :=
  forall w1 w2, alike w1 w2 -> alike_res (c w1) (c w2).

Lemma alike_spec w1 w2 :
  alike w1 w2 <-> exists fs, w2 = set_files fs w1.
Proof.
  split; [by exists (w_files w2)|]. intros [fs ->]. reflexivity.
Qed.

(** [alike] is an equivalence, and so is [alike_res]; the trace of a
    world respects it. *)
#[export] Instance alike_equivalence : Equivalence alike.
Proof.
  split.
  - by intros [].
  - intros w1 w2 [fs ->] %alike_spec. apply alike_spec.
    exists (w_files w1). by destruct w1.
  - intros w1 w2 w3 [fs ->] %alike_spec [fs' ->] %alike_spec.
    apply alike_spec. by exists fs'.
Qed.

#[export] Instance alike_res_equivalence {A : Type} : Equivalence (@alike_res A).
Proof.
  split.
  - intros []; simpl; split_and?; reflexivity.
  - intros [] []; simpl; try done; intros; destruct_and?; split_and?;
      by symmetry.
  - intros [] [] []; simpl; try done; intros; destruct_and?; split_and?;
      by etrans.
Qed.

#[export] Instance w_trace_alike : Proper (alike ==> (=)) w_trace.
Proof. by intros w1 w2 [fs ->] %alike_spec. Qed.

Lemma alike_trace w1 w2 : alike w1 w2 -> w_trace w2 = w_trace w1.
Proof. intros H. by rewrite H. Qed.

Lemma alike_res_trace {A : Type} (r1 r2 : Res A) :
  alike_res r1 r2 -> w_trace (world_of r2) = w_trace (world_of r1).
Proof.
  destruct r1, r2; try done; simpl; intros H; destruct_and?;
    by apply alike_trace.
Qed.

Section BlindRules.
Context {A B : Type}.

Lemma blind_ret (a : A) : blind (ret a).
Proof. by intros w1 w2 H. Qed.

Lemma blind_exit code : blind (exit (A := A) code).
Proof. by intros w1 w2 H. Qed.

Lemma blind_bind (c : Proc A) (k : A -> Proc B) :
  blind c -> (forall a, blind (k a)) -> blind (bind c k).
Proof.
  intros Hc Hk w1 w2 H. unfold bind. specialize (Hc w1 w2 H).
  destruct (c w1), (c w2); try done. destruct Hc as [<- Hc]. by apply Hk.
Qed.

(** A step whose result is not used need only leave alike worlds. *)
Lemma blind_then (c : Proc A) (k : Proc B) :
  (forall w1 w2, alike w1 w2 ->
     exists a1 a2 w1' w2', c w1 = Ok a1 w1' /\ c w2 = Ok a2 w2' /\ alike w1' w2') ->
  blind k -> blind (bind c (fun _ => k)).
Proof.
  intros Hc Hk w1 w2 H. unfold bind.
  destruct (Hc w1 w2 H) as (a1 & a2 & w1' & w2' & -> & -> & H'). by apply Hk.
Qed.

End BlindRules.

Create HintDb blind discriminated.

Ltac blind_step :=
  lazymatch goal with
  | |- blind (bind (remove_file _) (fun _ => _)) => apply blind_then
  | |- blind (bind _ _) => apply blind_bind; [|intros ?]
  | |- blind (ret _) => apply blind_ret
  | |- blind (exit _) => apply blind_exit
  | |- blind (if ?b then _ else _) => destruct b
  | |- blind (match ?x with _ => _ end) => destruct x
  | |- _ => solve [auto with blind]
  end.
Ltac blind := cbv zeta; repeat blind_step.

Lemma blind_act f :
  (forall w fs, f (set_files fs w) = set_files fs (f w)) -> blind (act f).
Proof.
  intros Hf w1 w2 [fs ->] %alike_spec. split; [done|]. rewrite Hf.
  by apply alike_spec; eexists.
Qed.

Lemma blind_print text : blind (print text).
Proof. by apply blind_act. Qed.
Lemma blind_prints lines : blind (prints lines).
Proof. by apply blind_act. Qed.
Lemma blind_eprints lines : blind (eprints lines).
Proof. by apply blind_act. Qed.
Lemma blind_getpid : blind getpid.
Proof. by intros w1 w2 [fs ->] %alike_spec. Qed.
Lemma blind_getargs : blind getargs.
Proof. by intros w1 w2 [fs ->] %alike_spec. Qed.
Lemma blind_environ : blind environ.
Proof. by intros w1 w2 [fs ->] %alike_spec. Qed.

Lemma blind_append_file name data : blind (append_file name data).
Proof.
  intros w1 w2 [fs ->] %alike_spec. unfold append_file.
  change (can_open (set_files fs w1) name) with (can_open w1 name).
  destruct (can_open w1 name); (split; [done|]); by apply alike_spec; eexists.
Qed.

Lemma blind_write_file name data : blind (write_file name data).
Proof.
  intros w1 w2 [fs ->] %alike_spec. unfold write_file.
  change (can_open (set_files fs w1) name) with (can_open w1 name).
  destruct (can_open w1 name); (split; [done|]); by apply alike_spec; eexists.
Qed.

Lemma alike_remove_file name w1 w2 :
  alike w1 w2 ->
  exists a1 a2 w1' w2',
    remove_file name w1 = Ok a1 w1' /\ remove_file name w2 = Ok a2 w2' /\
    alike w1' w2'.
Proof.
  intros [fs ->] %alike_spec. unfold remove_file. simpl.
  destruct (w_files w1 !! name), (fs !! name); do 4 eexists;
    (split; [done|]); (split; [done|]); by apply alike_spec; eexists.
Qed.

#[export] Hint Resolve blind_print blind_prints blind_eprints blind_getpid
  blind_getargs blind_environ blind_append_file blind_write_file
  alike_remove_file : blind.

Section BlindOps.
Context {rt : Runtime} {br : BatchRunner}.

Lemma blind_now : blind now.
Proof. intros w1 w2 [fs ->] %alike_spec. split; [done|]. by apply alike_spec; eexists. Qed.

Lemma blind_sleep d : blind (sleep d).
Proof. by apply blind_act. Qed.

Lemma blind_start_process args env : blind (start_process args env).
Proof.
  intros w1 w2 [fs ->] %alike_spec. unfold start_process.
  destruct started; (split; [done|]); by apply alike_spec; eexists.
Qed.

Lemma blind_runTests_proc n config paths methods :
  blind (runTests_proc n config paths methods).
Proof.
  intros w1 w2 [fs ->] %alike_spec. unfold runTests_proc.
  destruct (run_batch _ _ _ _); simpl; try split; try done;
    by apply alike_spec; eexists.
Qed.

#[local] Hint Resolve blind_now blind_sleep blind_start_process
  blind_runTests_proc : blind.

Lemma blind_saveResults results config : blind (saveResults results config).
Proof. unfold saveResults. blind. Qed.

Lemma blind_saveStatus status : blind (saveStatus status).
Proof. unfold saveStatus. blind. Qed.

#[local] Hint Resolve blind_saveResults blind_saveStatus : blind.

Lemma blind_spawnBackgroundProcess config :
  blind (spawnBackgroundProcess config).
Proof. unfold spawnBackgroundProcess. blind. Qed.

Lemma blind_iteration_body config paths methods status iteration :
  blind (iteration_body config paths methods status iteration).
Proof. unfold iteration_body. blind. Qed.

#[local] Hint Resolve blind_iteration_body : blind.

Lemma blind_schedule fuel config paths methods startTime :
  forall status iteration,
    blind (schedule fuel config paths methods startTime status iteration).
Proof.
  induction fuel as [|fuel IH]; intros status iteration; simpl; blind.
Qed.

Lemma blind_init_status : blind init_status.
Proof. unfold init_status. blind. Qed.

Lemma blind_finish config : blind (finish config).
Proof. unfold finish. blind. Qed.

#[local] Hint Resolve blind_schedule blind_init_status blind_finish : blind.

(** Past the reading of its paths the worker does not look at the
    files. *)
Lemma runKeepAnEyeMode_alike config paths w1 w2 :
  alike w1 w2 ->
  getPaths config w1 = Ok paths w1 -> getPaths config w2 = Ok paths w2 ->
  alike_res (runKeepAnEyeMode config w1) (runKeepAnEyeMode config w2).
Proof.
  intros H Hp1 Hp2. unfold runKeepAnEyeMode.
  rewrite (bind_Ok _ _ _ _ _ Hp1), (bind_Ok _ _ _ _ _ Hp2).
  revert w1 w2 H Hp1 Hp2.
  match goal with |- forall w1 w2, _ -> _ -> _ -> alike_res (?c w1) (?c w2) =>
    assert (blind c) as Hb by blind
  end.
  intros w1 w2 H _ _. by apply Hb.
Qed.

End BlindOps.
