(* ===== verification/Race.v ===== *)
(** * Race: the parent and the worker on one file system

    [spawnBackgroundProcess] writes the checkpoint after [cmd.Start]
    has returned, that is while the child runs [runKeepAnEyeMode],
    which writes the checkpoint too.  The two processes share the file
    system and nothing orders the write of the parent with the steps
    of the worker.

    A run of the two is a merge ([merge_of], or [weave] under a
    schedule) of the events each process records, replayed on the
    files with [replay] of [History].  The events of a process are
    those of a run of its own: neither process looks at the files
    after the worker has read its paths ([blind] of [Blind],
    [worker_blind]), so what the other process writes changes nothing
    to what it does.

    The theorems say what a reader of the checkpoint finds under every
    interleaving: at the end of the run ([checkpoint_race]) and in the
    sequence of the iterations written ([checkpoint_iterations]). *)

From Stdlib Require Import ZArith Lia String Ascii.
From stdpp Require Import base tactics option list numbers strings gmap.
From S2P Require Import Prelude GoStrings Types World Flags Config Probe.
From S2P Require Import Dispatcher Runner Report Checkpoint Supervisor.
From S2P Require Import Schedule Monitor Main History Merge Blind.

#[export] Instance Event_eq_dec : EqDecision Event.
Proof. solve_decision. Defined.

(** The records written over a file, oldest first, and the iterations
    a reader of the checkpoint finds in them. *)
Definition written (name : string) (tr : list Event) : list string :=
  omap (fun e =>
          match e with
          | EvWrite n data true => if decide (n = name) then Some data else None
          | _ => None
          end) tr.

Definition iterations_written (tr : list Event) : list Z :=
  omap read_iteration (written statusFile tr).

(** The event changes the file [name]. *)
Definition touches (name : string) (e : Event) : bool :=
  match e with
  | EvAppend n _ ok | EvWrite n _ ok => bool_decide (n = name) && ok
  | EvRemove n => bool_decide (n = name)
  | EvSleep _ | EvStart _ _ | EvBatch _ | EvStderr _ => false
  end.

(** The events a run added to the trace. *)
Definition events_of (w w' : World) : list Event :=
  drop (length (w_trace w)) (w_trace w').

Section Processes.
Context {rt : Runtime} {br : BatchRunner}.

(** The events of the parent after [cmd.Start] has returned, when the
    child runs, and the events of the worker. *)
Definition parent_events (config : Config) (w : World) : list Event :=
  tail (events_of w (world_of (spawnBackgroundProcess config w))).

Definition worker_events (config : Config) (w : World) : list Event :=
  events_of w (world_of (runKeepAnEyeMode config w)).

(** The record the parent writes. *)
Definition parent_status (config : Config) (w : World) (pid : Z)
  : StatusInfo :=
  let unnamed := String.eqb (OutputFile config) "" in
  let t0 := w_clock w + lat (w_reads w) in
  let r := if unnamed then S (w_reads w) else w_reads w in
  let t1 := (if unnamed then t0 else w_clock w) + lat r in
  let t2 := t1 + lat (S r) in
  mkStatusInfo pid t1 (time_add t2 checkInterval) 0.

End Processes.

(** ** Replaying a file *)

Lemma replay_remove_last a name fs :
  replay (a ++ [EvRemove name]) fs !! name = None.
Proof. rewrite replay_app. apply lookup_delete_eq. Qed.

Lemma replay_write_last a name data fs :
  replay (a ++ [EvWrite name data true]) fs !! name = Some data.
Proof. rewrite replay_app. apply lookup_insert_eq. Qed.

(** What an event leaves in a file depends on that file only, and an
    event that does not touch the file leaves it as it is. *)
Lemma replay_event_ext name e fs fs' :
  fs !! name = fs' !! name ->
  replay_event fs e !! name = replay_event fs' e !! name.
Proof.
  intros H. destruct e as [n d [] | n d [] | n | | | |]; simpl; try done;
    unfold append_to, write_to; destruct (decide (n = name)) as [->|];
    by rewrite ?lookup_insert_eq, ?lookup_insert_ne, ?lookup_delete_eq,
         ?lookup_delete_ne, ?H.
Qed.

Lemma replay_event_skip name e fs :
  touches name e = false -> replay_event fs e !! name = fs !! name.
Proof.
  destruct e as [n d [] | n d [] | n | | | |]; simpl; try done;
    rewrite ?andb_true_r, ?bool_decide_eq_false; intros Hne;
    unfold append_to, write_to;
    by rewrite ?lookup_insert_ne, ?lookup_delete_ne.
Qed.

(** The events of a process that does not touch a file change nothing
    to what the other process leaves in it. *)
Lemma replay_merge_skip name l1 l2 l :
  merge_of l1 l2 l -> Forall (fun e => touches name e = false) l1 ->
  forall fs fs', fs !! name = fs' !! name ->
    replay l fs !! name = replay l2 fs' !! name.
Proof.
  induction 1 as [|x l1 l2 l _ IH|y l1 l2 l _ IH]; intros Hq fs fs' Hfs;
    [done| |].
  - apply Forall_cons in Hq as [Hx Hq]. apply (IH Hq).
    by rewrite replay_event_skip.
  - apply (IH Hq). by apply replay_event_ext.
Qed.

(** A write merged into a run that ends with the removal of the file:
    the file is there at the end when the write came last, and only
    then. *)
Lemma merge_write_remove init name data l fs :
  let e := EvWrite name data true in
  let run := init ++ [EvRemove name] in
  merge_of [e] run l ->
  replay l fs !! name = if decide (l = run ++ [e]) then Some data else None.
Proof.
  intros e run (a & b & Hrun & ->) %merge_of_one.
  destruct b as [|y b _] using rev_ind.
  - rewrite app_nil_r in Hrun. rewrite <- Hrun, decide_True by done.
    apply replay_write_last.
  - rewrite app_assoc in Hrun. apply app_inj_tail in Hrun as [-> <-].
    rewrite decide_False.
    + change (a ++ e :: b ++ [EvRemove name])
        with (a ++ (e :: b) ++ [EvRemove name]).
      rewrite app_assoc. apply replay_remove_last.
    + change (a ++ e :: b ++ [EvRemove name])
        with (a ++ (e :: b) ++ [EvRemove name]).
      rewrite app_assoc. by intros [_ [=]] %app_inj_tail.
Qed.

Lemma iterations_written_app a b :
  iterations_written (a ++ b) = iterations_written a ++ iterations_written b.
Proof. unfold iterations_written, written. by rewrite !omap_app. Qed.

Lemma events_of_app w w' tr : w_trace w' = w_trace w ++ tr -> events_of w w' = tr.
Proof. unfold events_of. intros ->. apply drop_app_length. Qed.

(** ** Neither process looks at the files *)

Section Blind.
Context {rt : Runtime} {br : BatchRunner}.

Lemma worker_events_alike config paths w1 w2 :
  alike w1 w2 ->
  getPaths config w1 = Ok paths w1 -> getPaths config w2 = Ok paths w2 ->
  worker_events config w1 = worker_events config w2.
Proof.
  intros H Hp1 Hp2. unfold worker_events, events_of.
  by rewrite (alike_trace _ _ H),
    (alike_res_trace _ _ (runKeepAnEyeMode_alike config paths w1 w2 H Hp1 Hp2)).
Qed.

(** C20 The worker looks at the files once, to read its paths.  Two
    runs of the worker in worlds that differ in their files only, and
    whose paths files give the same paths, end the same way, with the
    same result, the same lines printed and the same events: what the
    files hold, the checkpoint the parent writes included, changes
    nothing to what the worker does. *)
Theorem worker_blind config paths w1 w2 :
  alike w1 w2 ->
  getPaths config w1 = Ok paths w1 -> getPaths config w2 = Ok paths w2 ->
  alike_res (runKeepAnEyeMode config w1) (runKeepAnEyeMode config w2) /\
  worker_events config w1 = worker_events config w2.
Proof.
  intros H Hp1 Hp2.
  split; [by eapply runKeepAnEyeMode_alike|by eapply worker_events_alike].
Qed.

(** The events of the parent do not depend on the files at all. *)
Lemma parent_events_alike config w1 w2 :
  alike w1 w2 -> parent_events config w1 = parent_events config w2.
Proof.
  intros H. unfold parent_events, events_of.
  by rewrite (alike_trace _ _ H),
    (alike_res_trace _ _ (blind_spawnBackgroundProcess config w1 w2 H)).
Qed.

End Blind.

(** ** The two writers *)

Section Race.
Context {rt : Runtime} {br : BatchRunner}.

(** What the parent does after the child has started: it writes the
    checkpoint. *)
Lemma parent_events_eq config w pid :
  started = inl pid ->
  parent_events config w =
    checkpoint_events (can_open w statusFile) (parent_status config w pid).
Proof.
  intros Hst. unfold parent_events, parent_status, spawnBackgroundProcess,
    start_process. rewrite Hst.
  destruct (String.eqb (OutputFile config) "");
    proc_run;
    match goal with |- context [bind (saveStatus ?st) _ ?w0] =>
      destruct (saveStatus_io st w0) as (w' & E & _ & _ & _ & Htr);
      rewrite (bind_Ok _ _ _ _ _ E)
    end; simpl in *;
    by erewrite events_of_app
      by (simpl; rewrite Htr; simpl; rewrite <- app_assoc; reflexivity).
Qed.

(** The parent touches no file but the checkpoint. *)
Lemma checkpoint_events_touch ok status name :
  name <> statusFile ->
  Forall (fun e => touches name e = false) (checkpoint_events ok status).
Proof.
  intros Hne. unfold checkpoint_events.
  destruct (status_json status); repeat constructor. simpl.
  by rewrite bool_decide_eq_false_2.
Qed.

(** The files the worker leaves are those its events describe. *)
Lemma worker_files config w :
  w_files (world_of (runKeepAnEyeMode config w)) =
    replay (worker_events config w) (w_files w).
Proof.
  destruct (recorded_runKeepAnEyeMode config w) as (_ & tr & Htr & ->).
  unfold worker_events. by erewrite events_of_app.
Qed.

(** The last thing a complete run of the worker does is to remove the
    checkpoint. *)
Lemma worker_events_end config paths w :
  1 <= Threads config -> (forall n, 0 <= lat n) ->
  getPaths config w = Ok paths w -> paths <> [] ->
  exists init, worker_events config w = init ++ [EvRemove statusFile].
Proof.
  intros Ht Hlat Hp Hne.
  destruct (runKeepAnEyeMode_total config paths w) as (n & w' & E & _);
    [done..|].
  destruct (runKeepAnEyeMode_events config paths w n w')
    as (rounds & ls & t & _ & _ & Htr); [done..|].
  unfold worker_events. rewrite E. simpl. eexists.
  erewrite events_of_app; [|exact Htr].
  rewrite !app_assoc. change [?x; ?y] with ([x] ++ [y]).
  by rewrite !app_assoc.
Qed.

(** ** The iterations written to the checkpoint *)

Section Iterations.
Hypothesis Hjson : forall t, is_Some (json_time t).

Lemma status_json_total status : is_Some (status_json status).
Proof.
  unfold status_json.
  destruct (Hjson (StartTime status)) as [? ->].
  by destruct (Hjson (NextCheck status)) as [? ->].
Qed.

Lemma iterations_checkpoint status :
  iterations_written (checkpoint_events true status) = [Iteration status].
Proof.
  unfold checkpoint_events.
  destruct (status_json_total status) as [data E]. rewrite E.
  apply read_status_json in E as [_ E].
  unfold iterations_written. simpl. by rewrite E.
Qed.

Lemma iterations_round config ok_out k t rs status :
  iterations_written (round_events config ok_out true k t rs status) =
    [Iteration status].
Proof.
  unfold round_events, save_events.
  rewrite !iterations_written_app, iterations_checkpoint.
  by destruct (String.eqb _ _).
Qed.

Lemma iterations_loop config ok_out pid start ls rounds : forall k,
  iterations_written (loop_events config ok_out true pid start k ls rounds) =
    seqZ (k + 1) (Z.of_nat (length rounds)).
Proof.
  induction rounds as [|[[t rs] t'] rest IH]; intros k; [done|].
  cbn [loop_events length].
  rewrite !iterations_written_app, iterations_round, IH.
  match goal with |- context [iterations_written ?sl ++ seqZ _ _] =>
    replace (iterations_written sl) with (@nil Z) by by destruct rest, ls
  end.
  rewrite (seqZ_cons (k + 1)) by lia. cbn [Iteration app].
  do 2 f_equal; lia.
Qed.

(** The worker alone writes the iterations 0 to [n], in order. *)
Lemma worker_iterations config paths w n w' :
  1 <= Threads config -> getPaths config w = Ok paths w -> paths <> [] ->
  can_open w statusFile = true ->
  runKeepAnEyeMode config w = Ok (Some n) w' ->
  iterations_written (worker_events config w) = seqZ 0 (n + 1).
Proof.
  intros Ht Hp Hne Hopen E.
  destruct (runKeepAnEyeMode_events config paths w n w')
    as (rounds & ls & t & Hlen & _ & Htr); [done..|].
  unfold worker_events. rewrite E. simpl.
  erewrite events_of_app; [|exact Htr]. rewrite Hopen.
  rewrite !iterations_written_app, iterations_checkpoint, iterations_loop.
  rewrite (seqZ_cons 0) by lia. simpl. rewrite app_nil_r.
  do 2 f_equal; lia.
Qed.

End Iterations.

(** Two writers of the checkpoint.  The parent writes the
    checkpoint after it has started the child, while the child runs;
    the two processes share the file system and nothing orders the
    write of the parent with the steps of the worker.  In every
    interleaving of the two, when the worker has completed its run the
    checkpoint is gone, with one exception: when the write of the
    parent comes after the removal, the checkpoint of the parent stays
    behind, with iteration 0, though no monitor is running.  Every
    other file, the output file with the results first, ends as the
    worker alone leaves it. *)
Theorem checkpoint_race config paths w wc pid data l :
  started = inl pid -> can_open w statusFile = true ->
  status_json (parent_status config w pid) = Some data ->
  1 <= Threads config -> (forall n, 0 <= lat n) ->
  getPaths config wc = Ok paths wc -> paths <> [] ->
  merge_of (parent_events config w) (worker_events config wc) l ->
  replay l (w_files wc) !! statusFile =
    (if decide (l = worker_events config wc ++ parent_events config w)
     then Some data else None) /\
  forall name, name <> statusFile ->
    replay l (w_files wc) !! name =
      w_files (world_of (runKeepAnEyeMode config wc)) !! name.
Proof.
  intros Hst Hopen Hjson Ht Hlat Hp Hne Hl. split.
  - revert Hl. rewrite (parent_events_eq config w pid Hst), Hopen.
    unfold checkpoint_events. rewrite Hjson.
    destruct (worker_events_end config paths wc) as (init & ->); [done..|].
    apply merge_write_remove.
  - intros name Hname. rewrite worker_files.
    apply (replay_merge_skip _ _ _ _ Hl); [|done].
    rewrite (parent_events_eq config w pid Hst).
    by apply checkpoint_events_touch.
Qed.

(** C15 The iterations of the checkpoint.  The worker alone writes
    the iterations 0, 1, ..., [n] to the checkpoint, in this order:
    the iteration a reader finds never decreases.  With the write of
    the parent the sequences of iterations written are exactly those
    with one more 0 at some place [i]: the parent may write before the
    worker, where it should, or after the worker has written
    iteration [i - 1], and the checkpoint then goes back to 0. *)
Theorem checkpoint_iterations config paths w wc pid n wc' :
  started = inl pid -> can_open w statusFile = true ->
  (forall t, is_Some (json_time t)) ->
  1 <= Threads config -> getPaths config wc = Ok paths wc -> paths <> [] ->
  can_open wc statusFile = true ->
  runKeepAnEyeMode config wc = Ok (Some n) wc' ->
  iterations_written (worker_events config wc) = seqZ 0 (n + 1) /\
  forall its,
    (exists l, merge_of (parent_events config w) (worker_events config wc) l /\
               iterations_written l = its) <->
    (exists i, 0 <= i <= n + 1 /\ its = seqZ 0 i ++ 0 :: seqZ i (n + 1 - i)).
Proof.
  intros Hst Hopen Hjson Ht Hp Hne Hopen' E.
  pose proof (worker_iterations Hjson config paths wc n wc' Ht Hp Hne Hopen' E)
    as Hw.
  assert (0 <= n + 1) as Hn.
  { destruct (runKeepAnEyeMode_events config paths wc n wc')
      as (rounds & _ & _ & Hlen & _); [done..|lia]. }
  split; [done|]. intros its.
  rewrite (parent_events_eq config w pid Hst), Hopen.
  destruct (status_json_total Hjson (parent_status config w pid)) as [d Hd].
  pose proof (iterations_checkpoint Hjson (parent_status config w pid)) as Hi.
  unfold checkpoint_events in *. rewrite Hd in *. split.
  - intros (l & (a & b & Hab & ->) %merge_of_one & <-).
    rewrite Hab, iterations_written_app in Hw.
    apply seqZ_split in Hw as (Hr & Ha & Hb).
    exists (Z.of_nat (length (iterations_written a))). split; [lia|].
    change (a ++ ?e :: b) with (a ++ [e] ++ b).
    by rewrite !iterations_written_app, Hi, <- Ha, <- Hb.
  - intros (i & Hr & ->). rewrite (seqZ_cut i) in Hw by done.
    apply omap_app_inv in Hw as (wa & wb & Hwr & Ha & Hb).
    apply omap_app_inv in Hwr as (a & b & Hab & <- & <-).
    eexists. split; [rewrite Hab; apply merge_of_insert|].
    change (a ++ ?e :: b) with (a ++ [e] ++ b).
    rewrite !iterations_written_app, Hi.
    unfold iterations_written, written. by rewrite Ha, Hb.
Qed.

End Race.

(** ** Examples *)

(** The worker of the examples runs 48 iterations. *)
Lemma demo_worker_run :
  runKeepAnEyeMode (rt := demo_rt) (br := demo_runner) kae_config worker_world =
    Ok (Some 48)
       (world_of (runKeepAnEyeMode (rt := demo_rt) (br := demo_runner)
                    kae_config worker_world)).
Proof. by vm_compute. Qed.

(** The parent writes after the first iteration of the worker: a
    reader finds iteration 0, then 1, then 0 again. *)
Lemma checkpoint_goes_back_example :
  take 3 (iterations_written
            (weave [false; false; false; false; true]
               (parent_events (rt := demo_rt) kae_config parent_world)
               (worker_events (rt := demo_rt) (br := demo_runner)
                  kae_config worker_world))) = [0; 1; 0].
Proof. by vm_compute. Qed.

Lemma checkpoint_left_behind_example :
  replay
    (worker_events (rt := demo_rt) (br := demo_runner) kae_config worker_world
     ++ parent_events (rt := demo_rt) kae_config parent_world)
    (w_files worker_world) !! statusFile =
  if decide
       (worker_events (rt := demo_rt) (br := demo_runner) kae_config
          worker_world ++ parent_events (rt := demo_rt) kae_config parent_world
        = worker_events (rt := demo_rt) (br := demo_runner) kae_config
            worker_world
          ++ parent_events (rt := demo_rt) kae_config parent_world)
  then Some (default "" (status_json (rt := demo_rt)
                           (parent_status (rt := demo_rt) kae_config
                              parent_world 4242)))
  else None.
Proof.
  exact (proj1 (checkpoint_race (rt := demo_rt) (br := demo_runner) kae_config
    ["/a"] parent_world worker_world 4242 _ _ eq_refl eq_refl
    ltac:(by vm_compute) ltac:(by vm_compute) demo_lat_nonneg
    ltac:(by vm_compute) ltac:(done) (merge_of_app_r _ _))).
Defined.

Lemma checkpoint_iterations_witness :
  iterations_written
    (worker_events (rt := demo_rt) (br := demo_runner) kae_config worker_world)
    = seqZ 0 (48 + 1) /\
  forall its,
    (exists l,
       merge_of (parent_events (rt := demo_rt) kae_config parent_world)
         (worker_events (rt := demo_rt) (br := demo_runner) kae_config
            worker_world) l /\
       iterations_written l = its) <->
    (exists i, 0 <= i <= 48 + 1 /\ its = seqZ 0 i ++ 0 :: seqZ i (48 + 1 - i)).
Proof.
  exact (checkpoint_iterations (rt := demo_rt) (br := demo_runner) kae_config
    ["/a"] parent_world worker_world 4242 48 _ eq_refl eq_refl
    (fun t => ex_intro _ _ eq_refl) ltac:(by vm_compute) ltac:(by vm_compute)
    ltac:(done) eq_refl demo_worker_run).
Defined.

Lemma worker_blind_witness :
  alike_res
    (runKeepAnEyeMode (rt := demo_rt) (br := demo_runner) kae_config
       worker_world)
    (runKeepAnEyeMode (rt := demo_rt) (br := demo_runner) kae_config
       (set_files {[ statusFile := "{}" ]} worker_world)) /\
  worker_events (rt := demo_rt) (br := demo_runner) kae_config worker_world =
  worker_events (rt := demo_rt) (br := demo_runner) kae_config
    (set_files {[ statusFile := "{}" ]} worker_world).
Proof.
  exact (worker_blind (rt := demo_rt) (br := demo_runner) kae_config ["/a"]
    worker_world (set_files {[ statusFile := "{}" ]} worker_world)
    eq_refl ltac:(by vm_compute) ltac:(by vm_compute)).
Defined.
