(* ===== verification/Crash.v ===== *)
(** * Crash: what the checkpoint says of the work done

    The worker can be stopped from outside only, at any point of its
    run, and the checkpoint then stays as it was last written.  This
    file counts, for every checkpoint written in a trace, the batches
    run and the appends made to the output file before it ([marks]):
    a checkpoint that shows iteration [k] is written when exactly [k]
    batches have run and their headers and results are in the output
    file, so a stale checkpoint never counts an iteration that was not
    completed and recorded. *)

From Stdlib Require Import ZArith Lia String Ascii.
From stdpp Require Import base tactics option list numbers strings gmap.
From S2P Require Import Prelude GoStrings Types World Config Probe.
From S2P Require Import Dispatcher Runner Report Checkpoint Supervisor.
From S2P Require Import Schedule Monitor Main History Merge Blind Race.

(** A checkpoint written, with the iteration a reader finds in it, the
    number of batches run before it and the number of texts appended
    to the output file before it. *)
Record Mark : Type := mkMark {
  m_iteration : Z;
  m_batches : nat;
  m_appends : nat
}.

Definition batches_of (tr : list Event) : nat :=
  length (List.filter
            (fun e => match e with EvBatch _ => true | _ => false end) tr).

Definition appends_of (out : string) (tr : list Event) : nat :=
  length (List.filter (fun e => match e with
                           | EvAppend name _ true => bool_decide (name = out)
                           | _ => false
                           end) tr).

(** The checkpoints written in a trace that starts after [batches]
    batches and [appends] appends. *)
Fixpoint marks (out : string) (batches appends : nat) (tr : list Event)
  : list Mark :=
  match tr with
  | [] => []
  | e :: tr' =>
      match e with
      | EvBatch _ => marks out (S batches) appends tr'
      | EvAppend name _ true =>
          marks out batches
            (if bool_decide (name = out) then S appends else appends) tr'
      | EvWrite name data true =>
          (if bool_decide (name = statusFile) then
             match read_iteration data with
             | Some k => [mkMark k batches appends]
             | None => []
             end
           else [])
          ++ marks out batches appends tr'
      | _ => marks out batches appends tr'
      end
  end.

(** The marks of a run that completes [n] iterations with nothing
    lost: iteration [j] after [j] batches and [2 * j] appends, a
    header and a block of results for each. *)
Definition complete_marks (n : nat) : list Mark :=
  (fun j => mkMark (Z.of_nat j) j (2 * j)) <$> seq 0 (S n).

(** ** Counting *)

Lemma batches_of_app a b :
  batches_of (a ++ b) = (batches_of a + batches_of b)%nat.
Proof. unfold batches_of. by rewrite List.filter_app, length_app. Qed.

Lemma appends_of_app out a b :
  appends_of out (a ++ b) = (appends_of out a + appends_of out b)%nat.
Proof. unfold appends_of. by rewrite List.filter_app, length_app. Qed.

Lemma marks_app out tr1 tr2 : forall b a,
  marks out b a (tr1 ++ tr2) =
    marks out b a tr1
    ++ marks out (b + batches_of tr1) (a + appends_of out tr1) tr2.
Proof.
  induction tr1 as [|e tr1 IH]; intros b a; simpl.
  - by rewrite !Nat.add_0_r.
  - destruct e as [name d [] | name d [] | | | | |];
      rewrite ?IH, <- ?app_assoc; unfold batches_of, appends_of; simpl;
      try (do 2 f_equal; f_equal; lia).
    case_bool_decide; simpl; do 2 f_equal; lia.
Qed.

Section Crash.
Context {rt : Runtime} {br : BatchRunner}.
Hypothesis Hjson : forall t, is_Some (json_time t).

Lemma marks_checkpoint out b a status :
  marks out b a (checkpoint_events true status) =
    [mkMark (Iteration status) b a].
Proof.
  unfold checkpoint_events.
  destruct (status_json_total Hjson status) as [data E]. rewrite E.
  apply read_status_json in E as [_ E]. simpl. by rewrite E.
Qed.

Lemma checkpoint_counts out status :
  batches_of (checkpoint_events true status) = 0%nat /\
  appends_of out (checkpoint_events true status) = 0%nat.
Proof. unfold checkpoint_events. by destruct (status_json status). Qed.

Section Round.
Context (config : Config).
Hypothesis Hout : OutputFile config <> "".

Lemma round_counts k t rs status :
  batches_of (round_events config true true k t rs status) = 1%nat /\
  appends_of (OutputFile config) (round_events config true true k t rs status)
    = 2%nat.
Proof.
  unfold round_events, save_events. apply String.eqb_neq in Hout as ->.
  rewrite !batches_of_app, !appends_of_app.
  destruct (checkpoint_counts (OutputFile config) status) as [-> ->].
  unfold appends_of. simpl. by rewrite !bool_decide_eq_true_2.
Qed.

Lemma marks_round b a k t rs status :
  marks (OutputFile config) b a (round_events config true true k t rs status) =
    [mkMark (Iteration status) (S b) (S (S a))].
Proof.
  unfold round_events, save_events. apply String.eqb_neq in Hout as ->.
  simpl. rewrite !bool_decide_eq_true_2 by done. apply marks_checkpoint.
Qed.

Lemma loop_counts pid start ls rounds : forall k,
  batches_of (loop_events config true true pid start k ls rounds)
    = length rounds /\
  appends_of (OutputFile config)
    (loop_events config true true pid start k ls rounds)
    = (2 * length rounds)%nat.
Proof.
  induction rounds as [|[[t rs] t'] rest IH]; intros k; [done|].
  cbn [loop_events length]. rewrite !batches_of_app, !appends_of_app.
  destruct (IH (k + 1)) as [-> ->].
  destruct (round_counts (k + 1) t rs
              (mkStatusInfo pid start (time_add t' checkInterval) (k + 1)))
    as [-> ->].
  by destruct rest, ls; split; simpl; lia.
Qed.

Lemma marks_loop pid start ls rounds : forall k b a,
  marks (OutputFile config) b a
    (loop_events config true true pid start k ls rounds) =
    (fun j => mkMark (k + Z.of_nat j) (b + j) (a + 2 * j))
      <$> seq 1 (length rounds).
Proof.
  induction rounds as [|[[t rs] t'] rest IH]; intros k b a; [done|].
  cbn [loop_events length]. rewrite !marks_app, marks_round, IH.
  destruct (round_counts (k + 1) t rs
              (mkStatusInfo pid start (time_add t' checkInterval) (k + 1)))
    as [-> ->].
  match goal with |- context [marks _ _ _ ?sl ++ _] =>
    replace (marks (OutputFile config) (b + 1) (a + 2) sl) with (@nil Mark)
      by (by destruct rest, ls);
    replace (batches_of sl) with 0%nat by (by destruct rest, ls);
    replace (appends_of (OutputFile config) sl) with 0%nat
      by (by destruct rest, ls)
  end.
  cbn [seq fmap list_fmap app Iteration]. f_equal; [f_equal; lia|].
  rewrite <- !fmap_S_seq, <- !list_fmap_compose. apply list_fmap_ext.
  intros _ j _. simpl. f_equal; lia.
Qed.

End Round.

(** C16 The checkpoint counts complete iterations only.  In a
    complete run of the worker the checkpoint with iteration [j] is
    written when exactly [j] batches have run and [2 * j] texts, a
    header and the results of each batch, have been appended to the
    output file: whenever the worker is stopped, the checkpoint it
    leaves shows an iteration whose results, and those of all the
    iterations before, are in the output file. *)
Theorem checkpoint_counts_complete config paths w n w' :
  1 <= Threads config -> getPaths config w = Ok paths w -> paths <> [] ->
  can_open w statusFile = true -> can_open w (OutputFile config) = true ->
  runKeepAnEyeMode config w = Ok (Some n) w' ->
  marks (OutputFile config) 0 0 (worker_events config w) =
    complete_marks (Z.to_nat n).
Proof.
  intros Ht Hp Hne Hopen Hout E.
  assert (OutputFile config <> "") as Hname
    by (by intros Ho; rewrite Ho in Hout).
  destruct (runKeepAnEyeMode_events config paths w n w')
    as (rounds & ls & t & Hlen & _ & Htr); [done..|].
  unfold worker_events. rewrite E. simpl.
  erewrite events_of_app; [|exact Htr]. rewrite Hopen, Hout.
  rewrite !marks_app, marks_checkpoint, (marks_loop config Hname).
  destruct (checkpoint_counts (OutputFile config)
              (mkStatusInfo (w_pid w) (w_clock w + lat (w_reads w))
                 (w_clock w + lat (w_reads w) + lat (S (w_reads w))) 0))
    as [-> ->].
  simpl. rewrite app_nil_r. unfold complete_marks.
  replace (Z.to_nat n) with (length rounds) by lia.
  cbn [seq fmap list_fmap]. by f_equal.
Qed.

End Crash.

(** ** Examples *)

(** A mark that runs ahead: the checkpoint of iteration 1 written
    before the batch has run. *)
Lemma marks_example :
  marks "out.txt" 0 0
    [EvWrite statusFile
       (default "" (status_json (rt := demo_rt) (mkStatusInfo 77 0 0 1))) true;
     EvBatch 1; EvAppend "out.txt" "results" true]
    = [mkMark 1 0 0].
Proof. by vm_compute. Qed.

Lemma checkpoint_counts_complete_witness :
  marks "out.txt" 0 0
    (worker_events (rt := demo_rt) (br := demo_runner)
       (demo_config "out.txt" 2) demo_world)
    = complete_marks (Z.to_nat 48).
Proof.
  exact (checkpoint_counts_complete (rt := demo_rt) (br := demo_runner)
    (fun t => ex_intro _ _ eq_refl) (demo_config "out.txt" 2) ["/a"]
    demo_world 48
    (world_of (runKeepAnEyeMode (rt := demo_rt) (br := demo_runner)
                 (demo_config "out.txt" 2) demo_world))
    ltac:(by vm_compute) ltac:(by vm_compute) ltac:(done) eq_refl eq_refl
    ltac:(by vm_compute)).
Defined.
