(* ===== verification/System.v ===== *)
(** * System: a monitoring run from the command line

    The whole of a monitoring run.  The operator starts [main] with
    [-kae]; this process, the parent, parses its arguments, starts a
    child with the same arguments and the marker [FIREY_BACKGROUND=1]
    in its environment, writes the checkpoint and returns.  The child
    runs [main] too: it parses the same arguments, finds the marker
    and becomes the worker.  [child_world] is the world the child
    starts in: what [cmd.Start] gave it, and the files of the parent.

    The two runs of [main] are composed as in [Race]: every merge of
    the events of the parent after the launch with the events of the
    child, replayed on the files the parent found. *)

From Stdlib Require Import ZArith Lia String Ascii.
From stdpp Require Import base tactics option list numbers strings gmap.
From S2P Require Import Prelude GoStrings Types World Flags Config Probe.
From S2P Require Import Dispatcher Runner Report Checkpoint Supervisor.
From S2P Require Import Schedule Monitor Main History Merge Blind Race.

(** The world a started child begins in.  Its process id, arguments
    and environment are those of [cmd.Start]; it shares the files of
    its parent; [cmd.Stdout = nil] gives it a console of its own that
    nobody reads; it has started no process.  It begins at time [t0],
    and its readings of the clock take the latencies [lat r0],
    [lat (r0 + 1)], ... *)
Definition child_world (c : Child) (parent : World) (t0 : Time) (r0 : nat)
  : World :=
  mkWorld t0 r0 (w_files parent) (w_denied parent) (c_env c) (c_args c)
    (c_pid c) [] [] [].

Section System.
Context {rt : Runtime} {br : BatchRunner}.

(** The events of a run of [main]. *)
Definition main_events (w : World) : list Event :=
  events_of w (world_of (main w)).

(** The child the parent starts. *)
Definition child_of (w : World) (pid : Z) : Child :=
  mkChild pid (w_args w) (<["FIREY_BACKGROUND" := "1"]> (w_env w)).

Lemma world_of_then {A : Type} (c : Proc A) w :
  world_of ((c ;;; ret tt) w) = world_of (c w).
Proof. unfold bind. by destruct (c w). Qed.

Lemma events_of_banner config w w' :
  events_of w w' = events_of (banner_world config w) w'.
Proof. unfold events_of, banner_world. by destruct (Silence config). Qed.

Lemma parent_status_banner config w pid :
  parent_status config (banner_world config w) pid = parent_status config w pid.
Proof. unfold banner_world. by destruct (Silence config). Qed.

Section Run.
Context (config : Config) (w : World) (pid : Z).
Hypothesis Hflags : parseFlags w = Ok config w.
Hypothesis Hproject : ProjectID config <> "".
Hypothesis Hkae : KeepAnEye config = true.
Hypothesis Hstart : started = inl pid.

(** The parent: [main] is the launch, after the banner. *)
Lemma main_parent :
  w_env w !! "FIREY_BACKGROUND" <> Some "1" ->
  main w = spawnBackgroundProcess config (banner_world config w).
Proof.
  intros Henv. rewrite (main_parses config w Hflags).
  by apply main_roles_eq.
Qed.

(** The child: it parses the arguments of the parent, finds the marker
    and runs the worker. *)
Lemma main_child t0 r0 :
  main (child_world (child_of w pid) w t0 r0) =
    (runKeepAnEyeMode config ;;; ret tt)
      (banner_world config (child_world (child_of w pid) w t0 r0)).
Proof.
  rewrite (main_parses config _
             (parseFlags_same_args w (child_world (child_of w pid) w t0 r0)
                config eq_refl Hflags)).
  apply main_roles_eq; [done..|]. apply lookup_insert_eq.
Qed.

Lemma main_events_parent :
  w_env w !! "FIREY_BACKGROUND" <> Some "1" ->
  tail (main_events w) = parent_events config (banner_world config w).
Proof.
  intros Henv. unfold main_events, parent_events.
  by rewrite (main_parent Henv), (events_of_banner config).
Qed.

Lemma main_events_child t0 r0 :
  main_events (child_world (child_of w pid) w t0 r0) =
    worker_events config
      (banner_world config (child_world (child_of w pid) w t0 r0)).
Proof.
  unfold main_events, worker_events.
  by rewrite main_child, world_of_then, (events_of_banner config).
Qed.

End Run.

(** C14 A monitoring run from the command line.  When the arguments
    parse to a configuration with a project id, [-kae], a positive
    thread count and at least one path, and the process is not itself
    a worker: [main] starts one child, with its own arguments and the
    marker, and returns; the child, running [main] on these arguments
    beside the files of the parent, completes its run.  Under every
    interleaving of what the parent does after the launch with what
    the child does, every file but the checkpoint ends as the child
    alone leaves it, and the checkpoint is gone, except when the write
    of the parent comes after the removal: then the checkpoint of the
    parent stays behind. *)
Theorem monitoring_system config paths pid w t0 r0 data :
  parseFlags w = Ok config w ->
  ProjectID config <> "" -> KeepAnEye config = true ->
  w_env w !! "FIREY_BACKGROUND" <> Some "1" -> started = inl pid ->
  can_open w statusFile = true ->
  status_json (parent_status config w pid) = Some data ->
  1 <= Threads config -> (forall n, 0 <= lat n) ->
  getPaths config w = Ok paths w -> paths <> [] ->
  let wc := child_world (child_of w pid) w t0 r0 in
  exists wp' wc',
    main w = Ok tt wp' /\
    w_children wp' = w_children w ++ [child_of w pid] /\
    main wc = Ok tt wc' /\
    forall l, merge_of (tail (main_events w)) (main_events wc) l ->
      replay l (w_files w) !! statusFile =
        (if decide (l = main_events wc ++ tail (main_events w))
         then Some data else None) /\
      forall name, name <> statusFile ->
        replay l (w_files w) !! name = w_files wc' !! name.
Proof.
  intros Hflags Hp Hk Henv Hst Hopen Hjson Ht Hlat Hg Hne wc. subst wc.
  rewrite (main_parent config w Hflags Hp Hk Henv).
  rewrite (main_child config w pid Hflags Hp Hk t0 r0).
  rewrite (main_events_parent config w Hflags Hp Hk Henv).
  rewrite (main_events_child config w pid Hflags Hp Hk t0 r0).
  set (wb := banner_world config w).
  set (wcb := banner_world config (child_world (child_of w pid) w t0 r0)).
  assert (getPaths config wcb = Ok paths wcb) as Hgc
    by (apply (getPaths_same_files config w);
        [by unfold wcb; rewrite banner_files|done]).
  destruct (spawnBackgroundProcess_started config wb pid Hst)
    as (wp' & Ep & Hch).
  destruct (runKeepAnEyeMode_total config paths wcb Ht Hlat Hgc Hne)
    as (n & wc' & Ec & _).
  pose proof (banner_io config w) as Hb.
  apply io_only_spec in Hb as (_ & _ & _ & Hwe & Hwa & _ & Hwc).
  exists wp', wc'. rewrite (bind_Ok _ _ _ _ _ Ec).
  split; [done|]. split; [by rewrite Hch; unfold wb; rewrite Hwe, Hwa, Hwc|].
  split; [done|]. intros l Hl.
  replace wc' with (world_of (runKeepAnEyeMode config wcb)) by by rewrite Ec.
  replace (w_files w) with (w_files wcb)
    by (by unfold wcb; rewrite banner_files).
  apply (checkpoint_race config paths wb wcb pid data l); try done;
    unfold wb;
    by rewrite ?parent_status_banner,
         ?(io_only_can_open _ _ _ (banner_io config w)).
Qed.

End System.

(** ** Examples *)

Lemma monitoring_system_witness :
  exists wp' wc',
    main (rt := demo_rt) (br := demo_runner) parent_world = Ok tt wp' /\
    w_children wp' = w_children parent_world ++ [child_of parent_world 4242] /\
    main (rt := demo_rt) (br := demo_runner)
      (child_world (child_of parent_world 4242) parent_world 0 0)
      = Ok tt wc' /\
    forall l,
      merge_of
        (tail (main_events (rt := demo_rt) (br := demo_runner) parent_world))
        (main_events (rt := demo_rt) (br := demo_runner)
           (child_world (child_of parent_world 4242) parent_world 0 0)) l ->
      replay l (w_files parent_world) !! statusFile =
        (if decide
              (l = main_events (rt := demo_rt) (br := demo_runner)
                     (child_world (child_of parent_world 4242) parent_world
                        0 0)
                   ++ tail (main_events (rt := demo_rt) (br := demo_runner)
                              parent_world))
         then Some (default "" (status_json (rt := demo_rt)
                                  (parent_status (rt := demo_rt) kae_config
                                     parent_world 4242)))
         else None) /\
      forall name, name <> statusFile ->
        replay l (w_files parent_world) !! name = w_files wc' !! name.
Proof.
  exact (monitoring_system (rt := demo_rt) (br := demo_runner) kae_config
    ["/a"] 4242 parent_world 0 0 _ ltac:(by vm_compute) ltac:(done) eq_refl
    ltac:(done) eq_refl eq_refl ltac:(by vm_compute) ltac:(by vm_compute)
    demo_lat_nonneg ltac:(by vm_compute) ltac:(done)).
Defined.
